(** * A shallow embedding of the terminal editor [editor.c]

    The development follows the layout of the C source: the data
    ([erow], [editorConfig], [editorSyntax]), the syntax highlighter
    ([editorUpdateSyntax]), the row operations, the editor operations,
    incremental search, key dispatch and scrolling.

    Conventions.
    - A C [int] is a [Z].  Every quantity the editor computes is bounded
      by the size of a row or by the number of rows, both of which live
      in memory, so no arithmetic on them leaves the range of [int].
    - A [char] is an [ascii]; a buffer holding a NUL-terminated string
      is the [list ascii] of the bytes before the terminator, and a
      read at the position of the terminator yields [NUL].
    - The heap array [E.row] is the list of its slots; an access to a
      slot outside the list is a [Fault].  The highlight buffer
      [row->hl] is the list of its cells; a write outside it is a
      [Fault] as well, and so is a [memcpy] that reads past the
      terminator of its source.
    - [editorDelRow] accesses the slot just past the array.  With
      [editorDelRow] that access is a [Fault], as on a build that checks
      array bounds; with [editorDelRow_spare] it goes through, as on a
      build that does not, and the operations built on it
      ([editorDelChar_spare], [run_spare], the key handler) return.
    - [static] locals become fields of an explicit state record. *)

From Stdlib Require Import Ascii String ZArith List Bool Lia DecimalString.
Import ListNotations.

Local Open Scope Z_scope.

(* ================================================================= *)
(** ** Faults and the error monad *)

Inductive fault : Type :=
| RowOutOfBounds (slot : Z)      (* E.row[slot] outside the array *)
| HlOutOfBounds (pos : Z)        (* row->hl[pos ..] outside the buffer *)
| BufOutOfBounds (pos : Z)       (* a byte buffer read outside its bytes *)
| OutOfFuel.                     (* a loop of the model ran out of fuel *)

Inductive result (A : Type) : Type :=
| Ok (a : A)
| Fault (f : fault).

Arguments Ok {A} a.
Arguments Fault {A} f.

Definition bind {A B : Type} (r : result A) (k : A -> result B) : result B :=
  match r with
  | Ok a => k a
  | Fault f => Fault f
  end.

Declare Scope result_scope.
Delimit Scope result_scope with result.
Notation "x <- r ;; k" := (bind r (fun x => k))
  (at level 61, r at next level, right associativity) : result_scope.
Local Open Scope result_scope.

(* ================================================================= *)
(** ** Bytes and C strings *)

Definition NUL : ascii := "000"%char.
Definition TAB : ascii := "009"%char.
Definition SPACE : ascii := " "%char.
Definition DQUOTE : ascii := "034"%char.
Definition SQUOTE : ascii := "039"%char.
Definition BACKSLASH : ascii := "092"%char.
Definition DOT : ascii := "."%char.
Definition BAR : ascii := "|"%char.

(** The bytes of a string literal. *)
Definition cs (s : string) : list ascii := list_ascii_of_string s.

Definition zlen {A : Type} (l : list A) : Z := Z.of_nat (length l).

(** [buf[i]] for a NUL-terminated buffer: the terminator is read at
    [i = zlen buf]. *)
Definition byte_at (buf : list ascii) (i : Z) : ascii :=
  if i <? 0 then NUL else nth (Z.to_nat i) buf NUL.

(** [&buf[i]]: the string that starts at offset [i]. *)
Definition offset (buf : list ascii) (i : Z) : list ascii :=
  skipn (Z.to_nat i) buf.

(** [&buf[i]] when the pointer is about to be read from. *)
Definition offset_checked (buf : list ascii) (i : Z) : result (list ascii) :=
  if (i <? 0) || (zlen buf <? i) then Fault (BufOutOfBounds i)
  else Ok (offset buf i).

(** The [n] bytes [memcpy(dst, s, n)] reads from the string [s]; the
    terminator of [s] may be among them. *)
Definition memcpy_bytes (s : list ascii) (n : Z) : result (list ascii) :=
  if (n <? 0) || (zlen s + 1 <? n) then Fault (BufOutOfBounds n)
  else Ok (firstn (Z.to_nat n) (s ++ [NUL])).

(** [buf[n] = '\0']: the bytes that are left before the new
    terminator. *)
Definition truncate_bytes (buf : list ascii) (n : Z) : result (list ascii) :=
  if (n <? 0) || (zlen buf <? n) then Fault (BufOutOfBounds n)
  else Ok (firstn (Z.to_nat n) buf).

(** The bytes of a C string: everything before the first NUL. *)
Fixpoint cstr (s : list ascii) : list ascii :=
  match s with
  | [] => []
  | c :: s' => if Ascii.eqb c NUL then [] else c :: cstr s'
  end.

Definition strlen (s : list ascii) : Z := zlen (cstr s).

(** [strncmp0 s1 s2 n] is [strncmp(s1, s2, n) == 0]: at most [n] bytes
    are compared, and the comparison stops at a common NUL. *)
Fixpoint strncmp0 (s1 s2 : list ascii) (n : nat) : bool :=
  match n with
  | O => true
  | S n' =>
      let c1 := hd NUL s1 in
      let c2 := hd NUL s2 in
      if Ascii.eqb c1 c2
      then (if Ascii.eqb c1 NUL then true else strncmp0 (tl s1) (tl s2) n')
      else false
  end.

Fixpoint is_prefix (p s : list ascii) : bool :=
  match p, s with
  | [], _ => true
  | _ :: _, [] => false
  | a :: p', b :: s' => Ascii.eqb a b && is_prefix p' s'
  end.

Fixpoint strstr_from (hay needle : list ascii) (off : Z) : option Z :=
  if is_prefix needle hay then Some off
  else match hay with
       | [] => None
       | _ :: hay' => strstr_from hay' needle (off + 1)
       end.

(** [strstr(hay, needle)], as the offset [match - hay] of the first
    occurrence, or [None] for a NULL result. *)
Definition strstr (hay needle : list ascii) : option Z :=
  strstr_from (cstr hay) (cstr needle) 0.

Definition mem_ascii (c : ascii) (l : list ascii) : bool :=
  existsb (Ascii.eqb c) l.

(** [strchr(s, c) != NULL]; the terminator of [s] is found when [c] is
    NUL. *)
Definition strchr_found (s : list ascii) (c : ascii) : bool :=
  mem_ascii c (cstr s) || Ascii.eqb c NUL.

Definition isspace (c : ascii) : bool :=
  let n := Z.of_nat (nat_of_ascii c) in
  (n =? 32) || ((9 <=? n) && (n <=? 13)).

Definition isdigit (c : ascii) : bool :=
  let n := Z.of_nat (nat_of_ascii c) in
  (48 <=? n) && (n <=? 57).

(* ================================================================= *)
(** ** Defines and enumerations *)

Definition EDITOR_TAB_STOP : Z := 2.
Definition EDITOR_QUIT_TIMES : Z := 3.

Definition CTRL_KEY (k : ascii) : Z := Z.land (Z.of_nat (nat_of_ascii k)) 31.

(** Keys are [int]s: a byte, or one of the values of [enum editorKey]. *)
Definition BACKSPACE : Z := 127.
Definition ARROW_LEFT : Z := 1000.
Definition ARROW_RIGHT : Z := 1001.
Definition ARROW_UP : Z := 1002.
Definition ARROW_DOWN : Z := 1003.
Definition DEL_KEY : Z := 1004.
Definition HOME_KEY : Z := 1005.
Definition END_KEY : Z := 1006.
Definition PAGE_UP : Z := 1007.
Definition PAGE_DOWN : Z := 1008.
Definition KEY_ENTER : Z := 13.     (* '\r' *)
Definition KEY_ESC : Z := 27.       (* '\x1b' *)

Inductive editorHighlight : Type :=
| HL_NORMAL
| HL_COMMENT
| HL_MLCOMMENT
| HL_KEYWORD1
| HL_KEYWORD2
| HL_STRING
| HL_NUMBER
| HL_MATCH.

Definition hl_eqb (a b : editorHighlight) : bool :=
  match a, b with
  | HL_NORMAL, HL_NORMAL | HL_COMMENT, HL_COMMENT
  | HL_MLCOMMENT, HL_MLCOMMENT | HL_KEYWORD1, HL_KEYWORD1
  | HL_KEYWORD2, HL_KEYWORD2 | HL_STRING, HL_STRING
  | HL_NUMBER, HL_NUMBER | HL_MATCH, HL_MATCH => true
  | _, _ => false
  end.

Definition HL_HIGHLIGHT_NUMBERS : Z := Z.shiftl 1 0.
Definition HL_HIGHLIGHT_STRINGS : Z := Z.shiftl 1 1.

(* ================================================================= *)
(** ** Data *)

Record editorSyntax : Type := mkSyntax {
  filetype : string;
  filematch : list string;
  keywords : list string;
  singleline_comment_start : option string;
  multiline_comment_start : option string;
  multiline_comment_end : option string;
  flags : Z
}.

(** [hl_open_comment] only ever holds the value of a C truth
    expression, hence a [bool]. *)
Record erow : Type := mkRow {
  idx : Z;
  size : Z;
  rsize : Z;
  chars : list ascii;
  render : list ascii;
  hl : list editorHighlight;
  hl_open_comment : bool
}.

Record editorConfig : Type := mkConfig {
  cx : Z;
  cy : Z;
  rx : Z;
  rowoff : Z;
  coloff : Z;
  screenrows : Z;
  screencols : Z;
  numrows : Z;
  row : list erow;
  dirty : Z;
  filename : option (list ascii);
  statusmsg : string;
  editorMode : Z;
  syntax : option editorSyntax
}.

Definition set_cx (E : editorConfig) (v : Z) : editorConfig :=
  mkConfig v (cy E) (rx E) (rowoff E) (coloff E) (screenrows E) (screencols E)
    (numrows E) (row E) (dirty E) (filename E) (statusmsg E) (editorMode E) (syntax E).
Definition set_cy (E : editorConfig) (v : Z) : editorConfig :=
  mkConfig (cx E) v (rx E) (rowoff E) (coloff E) (screenrows E) (screencols E)
    (numrows E) (row E) (dirty E) (filename E) (statusmsg E) (editorMode E) (syntax E).
Definition set_rx (E : editorConfig) (v : Z) : editorConfig :=
  mkConfig (cx E) (cy E) v (rowoff E) (coloff E) (screenrows E) (screencols E)
    (numrows E) (row E) (dirty E) (filename E) (statusmsg E) (editorMode E) (syntax E).
Definition set_rowoff (E : editorConfig) (v : Z) : editorConfig :=
  mkConfig (cx E) (cy E) (rx E) v (coloff E) (screenrows E) (screencols E)
    (numrows E) (row E) (dirty E) (filename E) (statusmsg E) (editorMode E) (syntax E).
Definition set_coloff (E : editorConfig) (v : Z) : editorConfig :=
  mkConfig (cx E) (cy E) (rx E) (rowoff E) v (screenrows E) (screencols E)
    (numrows E) (row E) (dirty E) (filename E) (statusmsg E) (editorMode E) (syntax E).
Definition set_numrows (E : editorConfig) (v : Z) : editorConfig :=
  mkConfig (cx E) (cy E) (rx E) (rowoff E) (coloff E) (screenrows E) (screencols E)
    v (row E) (dirty E) (filename E) (statusmsg E) (editorMode E) (syntax E).
Definition set_rows (E : editorConfig) (v : list erow) : editorConfig :=
  mkConfig (cx E) (cy E) (rx E) (rowoff E) (coloff E) (screenrows E) (screencols E)
    (numrows E) v (dirty E) (filename E) (statusmsg E) (editorMode E) (syntax E).
Definition set_dirty (E : editorConfig) (v : Z) : editorConfig :=
  mkConfig (cx E) (cy E) (rx E) (rowoff E) (coloff E) (screenrows E) (screencols E)
    (numrows E) (row E) v (filename E) (statusmsg E) (editorMode E) (syntax E).
Definition set_filename (E : editorConfig) (v : option (list ascii)) : editorConfig :=
  mkConfig (cx E) (cy E) (rx E) (rowoff E) (coloff E) (screenrows E) (screencols E)
    (numrows E) (row E) (dirty E) v (statusmsg E) (editorMode E) (syntax E).
Definition set_statusmsg (E : editorConfig) (v : string) : editorConfig :=
  mkConfig (cx E) (cy E) (rx E) (rowoff E) (coloff E) (screenrows E) (screencols E)
    (numrows E) (row E) (dirty E) (filename E) v (editorMode E) (syntax E).
Definition set_editorMode (E : editorConfig) (v : Z) : editorConfig :=
  mkConfig (cx E) (cy E) (rx E) (rowoff E) (coloff E) (screenrows E) (screencols E)
    (numrows E) (row E) (dirty E) (filename E) (statusmsg E) v (syntax E).
Definition set_syntax (E : editorConfig) (v : option editorSyntax) : editorConfig :=
  mkConfig (cx E) (cy E) (rx E) (rowoff E) (coloff E) (screenrows E) (screencols E)
    (numrows E) (row E) (dirty E) (filename E) (statusmsg E) (editorMode E) v.

(** *** The row array *)

(** [E.row[k]] as an rvalue. *)
Definition get_row (rows : list erow) (k : Z) : result erow :=
  if k <? 0 then Fault (RowOutOfBounds k)
  else match nth_error rows (Z.to_nat k) with
       | Some r => Ok r
       | None => Fault (RowOutOfBounds k)
       end.

Fixpoint replace_nth {A : Type} (n : nat) (l : list A) (x : A) : list A :=
  match l, n with
  | [], _ => []
  | _ :: t, O => x :: t
  | h :: t, S n' => h :: replace_nth n' t x
  end.

(** [E.row[k] = r]. *)
Definition put_row (rows : list erow) (k : Z) (r : erow) : result (list erow) :=
  if (k <? 0) || (zlen rows <=? k) then Fault (RowOutOfBounds k)
  else Ok (replace_nth (Z.to_nat k) rows r).

(* ================================================================= *)
(** ** Filetypes *)

Definition C_HL_extensions : list string := [".c"; ".h"; ".cpp"]%string.

Definition C_HL_keywords : list string :=
  ["switch"; "if"; "while"; "for"; "break"; "continue"; "return"; "else";
   "struct"; "union"; "typedef"; "static"; "enum"; "class"; "case";
   "int|"; "long|"; "double|"; "float|"; "char|"; "unsigned|"; "signed|";
   "void|"]%string.

Definition HLDB : list editorSyntax :=
  [ mkSyntax "c" C_HL_extensions C_HL_keywords
      (Some "//"%string) (Some "/*"%string) (Some "*/"%string)
      (Z.lor HL_HIGHLIGHT_NUMBERS HL_HIGHLIGHT_STRINGS) ].

(* ================================================================= *)
(** ** Syntax highlighting *)

Definition is_separator (c : ascii) : bool :=
  isspace c || Ascii.eqb c NUL || strchr_found (cs ",.()+-/*=~%<>[];") c.

(** The cells of [buf] with [n] cells from [i] on overwritten by [v]. *)
Definition splice {A : Type} (buf : list A) (i : Z) (v : A) (n : Z) : list A :=
  firstn (Z.to_nat i) buf ++ repeat v (Z.to_nat n) ++ skipn (Z.to_nat (i + n)) buf.

(** [memset(&buf[i], v, n)] on a buffer of cells. *)
Definition memset {A : Type} (buf : list A) (i : Z) (v : A) (n : Z) : result (list A) :=
  if (i <? 0) || (n <? 0) || (zlen buf <? i + n) then Fault (HlOutOfBounds i)
  else Ok (splice buf i v n).

(** [buf[i] = v]. *)
Definition store {A : Type} (buf : list A) (i : Z) (v : A) : result (list A) :=
  memset buf i v 1.

Definition hl_at (buf : list editorHighlight) (i : Z) : editorHighlight :=
  if i <? 0 then HL_NORMAL else nth (Z.to_nat i) buf HL_NORMAL.

(** The locals of the scanning loop of [editorUpdateSyntax]; [sc_hl] is
    the contents of [row->hl]. *)
Record scan : Type := mkScan {
  sc_i : Z;
  sc_prev_sep : bool;
  sc_in_string : ascii;          (* NUL when outside a string *)
  sc_in_comment : bool;
  sc_hl : list editorHighlight
}.

(** How one turn of the [while] loop ends. *)
Inductive ctl : Type :=
| Continue (s : scan)
| Break (s : scan).

Definition tok (t : option string) : list ascii :=
  match t with Some s => cs s | None => [] end.

(** [t ? strlen(t) : 0] *)
Definition tok_len (t : option string) : Z :=
  match t with Some s => strlen (cs s) | None => 0 end.

Definition scs (syn : editorSyntax) := tok (singleline_comment_start syn).
Definition mcs (syn : editorSyntax) := tok (multiline_comment_start syn).
Definition mce (syn : editorSyntax) := tok (multiline_comment_end syn).
Definition scs_len (syn : editorSyntax) := tok_len (singleline_comment_start syn).
Definition mcs_len (syn : editorSyntax) := tok_len (multiline_comment_start syn).
Definition mce_len (syn : editorSyntax) := tok_len (multiline_comment_end syn).

(** [!strncmp(&row->render[i], t, n)] *)
Definition matches_at (r : erow) (i : Z) (t : list ascii) (n : Z) : bool :=
  strncmp0 (offset (render r) i) t (Z.to_nat n).

(** Each block of the loop body either ends the turn ([Some]) or falls
    through to the next block ([None]). *)

Definition scan_line_comment (syn : editorSyntax) (r : erow) (s : scan)
  : option (result ctl) :=
  if negb (scs_len syn =? 0) && Ascii.eqb (sc_in_string s) NUL
     && negb (sc_in_comment s)
  then
    if matches_at r (sc_i s) (scs syn) (scs_len syn)
    then Some (h <- memset (sc_hl s) (sc_i s) HL_COMMENT (rsize r - sc_i s) ;;
               Ok (Break (mkScan (sc_i s) (sc_prev_sep s) (sc_in_string s)
                            (sc_in_comment s) h)))
    else None
  else None.

Definition scan_block_comment (syn : editorSyntax) (r : erow) (s : scan)
  : option (result ctl) :=
  if negb (mcs_len syn =? 0) && negb (mce_len syn =? 0)
     && Ascii.eqb (sc_in_string s) NUL
  then
    if sc_in_comment s
    then Some (h <- store (sc_hl s) (sc_i s) HL_MLCOMMENT ;;
               if matches_at r (sc_i s) (mce syn) (mce_len syn)
               then h' <- memset h (sc_i s) HL_MLCOMMENT (mce_len syn) ;;
                    Ok (Continue (mkScan (sc_i s + mce_len syn) true
                                    (sc_in_string s) false h'))
               else Ok (Continue (mkScan (sc_i s + 1) (sc_prev_sep s)
                                    (sc_in_string s) (sc_in_comment s) h)))
    else if matches_at r (sc_i s) (mcs syn) (mcs_len syn)
    then Some (h <- memset (sc_hl s) (sc_i s) HL_MLCOMMENT (mcs_len syn) ;;
               Ok (Continue (mkScan (sc_i s + mcs_len syn) (sc_prev_sep s)
                               (sc_in_string s) true h)))
    else None
  else None.

Definition scan_string (syn : editorSyntax) (r : erow) (s : scan)
  : option (result ctl) :=
  let c := byte_at (render r) (sc_i s) in
  if negb (Z.land (flags syn) HL_HIGHLIGHT_STRINGS =? 0)
  then
    if negb (Ascii.eqb (sc_in_string s) NUL)
    then Some (h <- store (sc_hl s) (sc_i s) HL_STRING ;;
               if Ascii.eqb c BACKSLASH && (sc_i s + 1 <? rsize r)
               then h' <- store h (sc_i s) HL_STRING ;;
                    Ok (Continue (mkScan (sc_i s + 2) (sc_prev_sep s)
                                    (sc_in_string s) (sc_in_comment s) h'))
               else Ok (Continue (mkScan (sc_i s + 1) true
                                    (if Ascii.eqb c (sc_in_string s)
                                     then NUL else sc_in_string s)
                                    (sc_in_comment s) h)))
    else if Ascii.eqb c DQUOTE || Ascii.eqb c SQUOTE
    then Some (h <- store (sc_hl s) (sc_i s) HL_STRING ;;
               Ok (Continue (mkScan (sc_i s + 1) (sc_prev_sep s) c
                               (sc_in_comment s) h)))
    else None
  else None.

Definition scan_number (syn : editorSyntax) (r : erow) (s : scan)
  : option (result ctl) :=
  let c := byte_at (render r) (sc_i s) in
  let prev_hl := if sc_i s >? 0 then hl_at (sc_hl s) (sc_i s - 1) else HL_NORMAL in
  if negb (Z.land (flags syn) HL_HIGHLIGHT_NUMBERS =? 0)
  then
    if (isdigit c && (sc_prev_sep s || hl_eqb prev_hl HL_NUMBER))
       || (Ascii.eqb c DOT && hl_eqb prev_hl HL_NUMBER)
    then Some (h <- store (sc_hl s) (sc_i s) HL_NUMBER ;;
               Ok (Continue (mkScan (sc_i s + 1) false (sc_in_string s)
                               (sc_in_comment s) h)))
    else None
  else None.

(** The [for] loop over [keywords]: the length and class of the first
    keyword that matches at [i] and is followed by a separator. *)
Fixpoint find_keyword (kws : list string) (r : erow) (i : Z) : option (Z * bool) :=
  match kws with
  | [] => None
  | kw :: rest =>
      let k := cs kw in
      let klen0 := strlen k in
      let kw2 := Ascii.eqb (byte_at k (klen0 - 1)) BAR in
      let klen := if kw2 then klen0 - 1 else klen0 in
      if matches_at r i k klen && is_separator (byte_at (render r) (i + klen))
      then Some (klen, kw2)
      else find_keyword rest r i
  end.

Definition scan_keyword (syn : editorSyntax) (r : erow) (s : scan)
  : option (result ctl) :=
  if sc_prev_sep s
  then match find_keyword (keywords syn) r (sc_i s) with
       | Some (klen, kw2) =>
           Some (h <- memset (sc_hl s) (sc_i s)
                        (if kw2 then HL_KEYWORD2 else HL_KEYWORD1) klen ;;
                 Ok (Continue (mkScan (sc_i s + klen) false (sc_in_string s)
                                 (sc_in_comment s) h)))
       | None => None
       end
  else None.

Definition scan_default (r : erow) (s : scan) : result ctl :=
  let c := byte_at (render r) (sc_i s) in
  Ok (Continue (mkScan (sc_i s + 1) (is_separator c) (sc_in_string s)
                  (sc_in_comment s) (sc_hl s))).

Definition or_else {A : Type} (o : option A) (d : A) : A :=
  match o with Some a => a | None => d end.

(** The body of [while (i < row->rsize)]. *)
Definition scan_step (syn : editorSyntax) (r : erow) (s : scan) : result ctl :=
  or_else (scan_line_comment syn r s)
  (or_else (scan_block_comment syn r s)
  (or_else (scan_string syn r s)
  (or_else (scan_number syn r s)
  (or_else (scan_keyword syn r s)
  (scan_default r s))))).

Fixpoint scan_loop (fuel : nat) (syn : editorSyntax) (r : erow) (s : scan)
  : result scan :=
  if sc_i s <? rsize r
  then match fuel with
       | O => Fault OutOfFuel
       | S fuel' =>
           c <- scan_step syn r s ;;
           match c with
           | Continue s' => scan_loop fuel' syn r s'
           | Break s' => Ok s'
           end
       end
  else Ok s.

(** Turns granted to the scanning loop of a row. *)
Definition scan_fuel (r : erow) : nat := S (2 * Z.to_nat (rsize r)).

(** The scanning loop of a row, from its first byte, with the locals
    as [editorUpdateSyntax] initialises them; [seed] is the initial
    [in_comment] and [row->hl] has just been reset. *)
Definition row_scan (syn : editorSyntax) (r : erow) (seed : bool) : result scan :=
  scan_loop (scan_fuel r) syn r
    (mkScan 0 true NUL seed (repeat HL_NORMAL (Z.to_nat (rsize r)))).

Definition set_idx (r : erow) (v : Z) : erow :=
  mkRow v (size r) (rsize r) (chars r) (render r) (hl r) (hl_open_comment r).
Definition set_hl (r : erow) (v : list editorHighlight) : erow :=
  mkRow (idx r) (size r) (rsize r) (chars r) (render r) v (hl_open_comment r).
Definition set_hl_open_comment (r : erow) (v : bool) : erow :=
  mkRow (idx r) (size r) (rsize r) (chars r) (render r) (hl r) v.
Definition set_chars (r : erow) (sz : Z) (v : list ascii) : erow :=
  mkRow (idx r) sz (rsize r) v (render r) (hl r) (hl_open_comment r).
Definition set_render (r : erow) (rsz : Z) (v : list ascii) : erow :=
  mkRow (idx r) (size r) rsz (chars r) v (hl r) (hl_open_comment r).

(** [editorUpdateSyntax(&E.row[slot])].  [depth] bounds the nesting of
    the call on the next row. *)
Fixpoint editorUpdateSyntax_rec (depth : nat) (E : editorConfig) (slot : Z)
  : result editorConfig :=
  r <- get_row (row E) slot ;;
  let hl0 := repeat HL_NORMAL (Z.to_nat (rsize r)) in
  rows0 <- put_row (row E) slot (set_hl r hl0) ;;
  match syntax E with
  | None => Ok (set_rows E rows0)
  | Some syn =>
      in_comment <- (if idx r >? 0
                     then p <- get_row rows0 (idx r - 1) ;; Ok (hl_open_comment p)
                     else Ok false) ;;
      s <- row_scan syn r in_comment ;;
      let changed := negb (Bool.eqb (hl_open_comment r) (sc_in_comment s)) in
      rows1 <- put_row rows0 slot
                 (set_hl_open_comment (set_hl r (sc_hl s)) (sc_in_comment s)) ;;
      let E1 := set_rows E rows1 in
      if changed && (idx r + 1 <? numrows E)
      then match depth with
           | O => Fault OutOfFuel
           | S depth' => editorUpdateSyntax_rec depth' E1 (idx r + 1)
           end
      else Ok E1
  end.

Definition editorUpdateSyntax (E : editorConfig) (slot : Z) : result editorConfig :=
  editorUpdateSyntax_rec (Z.to_nat (numrows E)) E slot.

(* ================================================================= *)
(** ** Row operations: the two column spaces *)

(** One turn of the loop body shared by [editorRowCxToRx] and
    [editorRowRxToCx]:
    [if (c == '\t') rx += (TAB_STOP - 1) - (rx % TAB_STOP); rx++;] *)
Definition advance_rx (c : ascii) (rx : Z) : Z :=
  (if Ascii.eqb c TAB
   then rx + ((EDITOR_TAB_STOP - 1) - Z.rem rx EDITOR_TAB_STOP)
   else rx) + 1.

(** [for (j = j0; j < cx; j++) ...], with [n] turns left. *)
Fixpoint CxToRx_loop (r : erow) (n : nat) (j : Z) (rx : Z) : Z :=
  match n with
  | O => rx
  | S n' => CxToRx_loop r n' (j + 1) (advance_rx (byte_at (chars r) j) rx)
  end.

Definition editorRowCxToRx (r : erow) (cx : Z) : Z :=
  CxToRx_loop r (Z.to_nat cx) 0 0.

(** [for (cx = cx0; cx < row->size; cx++) { ...; if (cur_rx > rx) return cx; }
    return cx;], with [n] turns left. *)
Fixpoint RxToCx_loop (r : erow) (n : nat) (cx : Z) (cur_rx : Z) (rx : Z) : Z :=
  match n with
  | O => cx
  | S n' =>
      let cur_rx' := advance_rx (byte_at (chars r) cx) cur_rx in
      if cur_rx' >? rx then cx else RxToCx_loop r n' (cx + 1) cur_rx' rx
  end.

Definition editorRowRxToCx (r : erow) (rx : Z) : Z :=
  RxToCx_loop r (Z.to_nat (size r)) 0 0 rx.


(** *** Selecting the descriptor *)

Fixpoint bytes_eqb (a b : list ascii) : bool :=
  match a, b with
  | [], [] => true
  | x :: a', y :: b' => Ascii.eqb x y && bytes_eqb a' b'
  | _, _ => false
  end.

(** [strrchr(s, c)], as the string that starts at the last [c]. *)
Fixpoint strrchr_bytes (s : list ascii) (c : ascii) : option (list ascii) :=
  match s with
  | [] => None
  | a :: s' =>
      match strrchr_bytes s' c with
      | Some t => Some t
      | None => if Ascii.eqb a c then Some s else None
      end
  end.

Definition strrchr (s : list ascii) (c : ascii) : option (list ascii) :=
  strrchr_bytes (cstr s) c.

(** The test of one [filematch] entry. *)
Definition filematch_hit (fname : list ascii) (ext : option (list ascii))
  (pat : list ascii) : bool :=
  let is_ext := Ascii.eqb (byte_at pat 0) DOT in
  (is_ext && match ext with
             | Some e => bytes_eqb (cstr e) (cstr pat)
             | None => false
             end)
  || (negb is_ext && match strstr fname pat with Some _ => true | None => false end).

Fixpoint select_entry (db : list editorSyntax) (fname : list ascii)
  (ext : option (list ascii)) : option editorSyntax :=
  match db with
  | [] => None
  | syn :: db' =>
      if existsb (fun pat => filematch_hit fname ext (cs pat)) (filematch syn)
      then Some syn
      else select_entry db' fname ext
  end.

(** [for (filerow = j; filerow < E.numrows; filerow++)
      editorUpdateSyntax(&E.row[filerow]);] with [n] turns left. *)
Fixpoint update_all_loop (n : nat) (filerow : Z) (E : editorConfig)
  : result editorConfig :=
  match n with
  | O => Ok E
  | S n' =>
      E' <- editorUpdateSyntax E filerow ;;
      update_all_loop n' (filerow + 1) E'
  end.

Definition editorSelectSyntaxHighlight (E : editorConfig) : result editorConfig :=
  let E := set_syntax E None in
  match filename E with
  | None => Ok E
  | Some fname =>
      match select_entry HLDB fname (strrchr fname DOT) with
      | Some syn =>
          update_all_loop (Z.to_nat (numrows E)) 0 (set_syntax E (Some syn))
      | None => Ok E
      end
  end.

(** *** Regenerating the display text *)

(** [while (idx % EDITOR_TAB_STOP != 0) row->render[idx++] = ' ';] where
    [idx] is the number of bytes written so far. *)
Fixpoint pad_to_tab_stop (fuel : nat) (out : list ascii) : list ascii :=
  match fuel with
  | O => out
  | S fuel' =>
      if Z.rem (zlen out) EDITOR_TAB_STOP =? 0 then out
      else pad_to_tab_stop fuel' (out ++ [SPACE])
  end.

(** [for (j = j0; j < row->size; j++) ...] of [editorUpdateRow], with
    [n] turns left; [out] is [render[0 .. idx)]. *)
Fixpoint render_loop (r : erow) (n : nat) (j : Z) (out : list ascii) : list ascii :=
  match n with
  | O => out
  | S n' =>
      let c := byte_at (chars r) j in
      let out' := if Ascii.eqb c TAB
                  then pad_to_tab_stop (Z.to_nat EDITOR_TAB_STOP) (out ++ [SPACE])
                  else out ++ [c] in
      render_loop r n' (j + 1) out'
  end.

(** [editorUpdateRow(&E.row[slot])] *)
Definition editorUpdateRow (E : editorConfig) (slot : Z) : result editorConfig :=
  r <- get_row (row E) slot ;;
  let out := render_loop r (Z.to_nat (size r)) 0 [] in
  rows' <- put_row (row E) slot (set_render r (zlen out) out) ;;
  editorUpdateSyntax (set_rows E rows') slot.

(** *** Inserting and deleting rows *)

(** The contents of a slot that [realloc] has added and nothing has
    written yet; every field is assigned before it is read. *)
Definition fresh_slot : erow := mkRow 0 0 0 [] [] [] false.

(** [realloc(E.row, sizeof(erow) * n)] *)
Definition realloc_rows (rows : list erow) (n : Z) : list erow :=
  firstn (Z.to_nat n) rows
  ++ repeat fresh_slot (Z.to_nat n - length rows).

(** [memmove(&E.row[dst], &E.row[src], sizeof(erow) * n)] *)
Definition memmove_rows (rows : list erow) (dst src n : Z) : result (list erow) :=
  if n <=? 0 then Ok rows
  else if (src <? 0) || (zlen rows <? src + n) then Fault (RowOutOfBounds (src + n - 1))
  else if (dst <? 0) || (zlen rows <? dst + n) then Fault (RowOutOfBounds (dst + n - 1))
  else Ok (firstn (Z.to_nat dst) rows
             ++ firstn (Z.to_nat n) (skipn (Z.to_nat src) rows)
             ++ skipn (Z.to_nat (dst + n)) rows).

(** [for (j = j0; j <= E.numrows; j++) E.row[j].idx++;] with [n] turns
    left.  Both [editorInsertRow] and [editorDelRow] run this loop. *)
Fixpoint idx_loop (n : nat) (j : Z) (rows : list erow) : result (list erow) :=
  match n with
  | O => Ok rows
  | S n' =>
      r <- get_row rows j ;;
      rows' <- put_row rows j (set_idx r (idx r + 1)) ;;
      idx_loop n' (j + 1) rows'
  end.

(** [editorInsertRow(at, s, len)] *)
Definition editorInsertRow (E : editorConfig) (at_ : Z) (s : list ascii) (len : Z)
  : result editorConfig :=
  if (at_ <? 0) || (at_ >? numrows E) then Ok E
  else
    let rows := realloc_rows (row E) (numrows E + 1) in
    rows <- memmove_rows rows (at_ + 1) at_ (numrows E - at_) ;;
    rows <- idx_loop (Z.to_nat (numrows E + 1 - (at_ + 1))) (at_ + 1) rows ;;
    bytes <- memcpy_bytes s len ;;
    rows <- put_row rows at_ (mkRow at_ len 0 bytes [] [] false) ;;
    E <- editorUpdateRow (set_rows E rows) at_ ;;
    let E := set_numrows E (numrows E + 1) in
    Ok (set_dirty E (dirty E + 1)).

(** [editorDelRow(at)].  [editorFreeRow] releases buffers that the
    model does not track. *)
Definition editorDelRow (E : editorConfig) (at_ : Z) : result editorConfig :=
  if (at_ <? 0) || (at_ >=? numrows E) then Ok E
  else
    rows <- memmove_rows (row E) at_ (at_ + 1) (numrows E - at_ - 1) ;;
    rows <- idx_loop (Z.to_nat (numrows E + 1 - (at_ + 1))) (at_ + 1) rows ;;
    let E := set_rows E rows in
    let E := set_numrows E (numrows E - 1) in
    Ok (set_dirty E (dirty E + 1)).

(** *** Editing the bytes of a row *)

(** The byte stored when an [int] is assigned to a [char]. *)
Definition char_of_int (c : Z) : ascii := ascii_of_nat (Z.to_nat (c mod 256)).

(** [editorRowInsertChar(&E.row[slot], at, c)] *)
Definition editorRowInsertChar (E : editorConfig) (slot : Z) (at_ : Z) (c : Z)
  : result editorConfig :=
  r <- get_row (row E) slot ;;
  let at_ := if (at_ <? 0) || (at_ >? size r) then size r else at_ in
  let chars' := firstn (Z.to_nat at_) (chars r) ++ [char_of_int c]
                ++ firstn (Z.to_nat (size r - at_)) (skipn (Z.to_nat at_) (chars r)) in
  rows' <- put_row (row E) slot (set_chars r (size r + 1) chars') ;;
  E <- editorUpdateRow (set_rows E rows') slot ;;
  Ok (set_dirty E (dirty E + 1)).

(** [editorRowAppendString(&E.row[slot], s, len)] *)
Definition editorRowAppendString (E : editorConfig) (slot : Z) (s : list ascii) (len : Z)
  : result editorConfig :=
  r <- get_row (row E) slot ;;
  bytes <- memcpy_bytes s len ;;
  let chars' := firstn (Z.to_nat (size r)) (chars r) ++ bytes in
  rows' <- put_row (row E) slot (set_chars r (size r + len) chars') ;;
  E <- editorUpdateRow (set_rows E rows') slot ;;
  Ok (set_dirty E (dirty E + 1)).

(** [editorRowDelChar(&E.row[slot], at)] *)
Definition editorRowDelChar (E : editorConfig) (slot : Z) (at_ : Z)
  : result editorConfig :=
  r <- get_row (row E) slot ;;
  if (at_ <? 0) || (at_ >=? size r) then Ok E
  else
    let chars' := firstn (Z.to_nat at_) (chars r)
                  ++ firstn (Z.to_nat (size r - at_ - 1))
                       (skipn (Z.to_nat (at_ + 1)) (chars r)) in
    rows' <- put_row (row E) slot (set_chars r (size r - 1) chars') ;;
    E <- editorUpdateRow (set_rows E rows') slot ;;
    Ok (set_dirty E (dirty E + 1)).

(* ================================================================= *)
(** ** Editor operations *)

Definition editorInsertChar (E : editorConfig) (c : Z) : result editorConfig :=
  E <- (if cy E =? numrows E then editorInsertRow E (numrows E) [] 0 else Ok E) ;;
  E <- editorRowInsertChar E (cy E) (cx E) c ;;
  Ok (set_cx E (cx E + 1)).

Definition editorInsertNewline (E : editorConfig) : result editorConfig :=
  E <- (if cx E =? 0
        then editorInsertRow E (cy E) [] 0
        else
          r <- get_row (row E) (cy E) ;;
          tail <- offset_checked (chars r) (cx E) ;;
          E <- editorInsertRow E (cy E + 1) tail (size r - cx E) ;;
          r <- get_row (row E) (cy E) ;;
          head <- truncate_bytes (chars r) (cx E) ;;
          rows' <- put_row (row E) (cy E) (set_chars r (cx E) head) ;;
          editorUpdateRow (set_rows E rows') (cy E)) ;;
  let E := set_cy E (cy E + 1) in
  Ok (set_cx E 0).

Definition editorDelChar (E : editorConfig) : result editorConfig :=
  if cy E =? numrows E then Ok E
  else if (cx E =? 0) && (cy E =? 0) then Ok E
  else
    r <- get_row (row E) (cy E) ;;
    if cx E >? 0
    then
      E <- editorRowDelChar E (cy E) (cx E - 1) ;;
      Ok (set_cx E (cx E - 1))
    else
      p <- get_row (row E) (cy E - 1) ;;
      let E := set_cx E (size p) in
      E <- editorRowAppendString E (cy E - 1) (chars r) (size r) ;;
      E <- editorDelRow E (cy E) ;;
      Ok (set_cy E (cy E - 1)).

(* ================================================================= *)
(** ** File input *)

Definition LF : ascii := "010"%char.
Definition CR : ascii := "013"%char.

(** [while (linelen > 0 && (line[linelen - 1] == '\n' ||
            line[linelen - 1] == '\r')) linelen--;] *)
Fixpoint strip_eol (line : list ascii) (linelen : nat) : nat :=
  match linelen with
  | O => O
  | S n =>
      let c := nth n line NUL in
      if Ascii.eqb c LF || Ascii.eqb c CR then strip_eol line n else linelen
  end.

(** The [while] loop of [editorOpen] over the lines [getline] returns. *)
Fixpoint open_loop (lines : list (list ascii)) (E : editorConfig)
  : result editorConfig :=
  match lines with
  | [] => Ok E
  | line :: rest =>
      let linelen := Z.of_nat (strip_eol line (length line)) in
      E' <- editorInsertRow E (numrows E) line linelen ;;
      open_loop rest E'
  end.

(** [editorOpen(filename)] on a file that can be opened and whose lines
    are [lines]. *)
Definition editorOpen (E : editorConfig) (fname : list ascii)
  (lines : list (list ascii)) : result editorConfig :=
  E <- editorSelectSyntaxHighlight (set_filename E (Some fname)) ;;
  E <- open_loop lines E ;;
  Ok (set_dirty E 0).

(* ================================================================= *)
(** ** Find *)

(** The [static] locals of [editorFindCallback]. *)
Record findState : Type := mkFind {
  last_match : Z;
  direction : Z;
  saved_hl_line : Z;
  saved_hl : option (list editorHighlight)      (* [None] is NULL *)
}.

Definition find_init : findState := mkFind (-1) 1 0 None.

(** [memcpy(dst, src, n)] between highlight buffers. *)
Definition memcpy_hl (dst src : list editorHighlight) (n : Z)
  : result (list editorHighlight) :=
  if (n <? 0) || (zlen dst <? n) || (zlen src <? n) then Fault (HlOutOfBounds n)
  else Ok (firstn (Z.to_nat n) src ++ skipn (Z.to_nat n) dst).

(** The first block of the callback: put the saved highlight back. *)
Definition find_restore (E : editorConfig) (S : findState) : result editorConfig :=
  match saved_hl S with
  | Some saved =>
      r <- get_row (row E) (saved_hl_line S) ;;
      h <- memcpy_hl (hl r) saved (rsize r) ;;
      rows' <- put_row (row E) (saved_hl_line S) (set_hl r h) ;;
      Ok (set_rows E rows')
  | None => Ok E
  end.

(** [current += direction], wrapped. *)
Definition find_next (E : editorConfig) (current dir : Z) : Z :=
  let current := current + dir in
  if current =? -1 then numrows E - 1
  else if current =? numrows E then 0
  else current.

(** The [for] loop of the callback with [n] turns left.  The result is
    the list of the rows examined, in order, and the row and offset of
    the match that ended the loop, if any. *)
Fixpoint find_loop (n : nat) (E : editorConfig) (query : list ascii)
  (current dir : Z) : result (list Z * option (Z * Z)) :=
  match n with
  | O => Ok ([], None)
  | S n' =>
      let current := find_next E current dir in
      r <- get_row (row E) current ;;
      match strstr (render r) query with
      | Some off => Ok ([current], Some (current, off))
      | None =>
          res <- find_loop n' E query current dir ;;
          Ok (current :: fst res, snd res)
      end
  end.

Definition is_find_exit (key : Z) : bool :=
  (key =? KEY_ENTER) || (key =? KEY_ESC).

(** The [static]s after the key has been looked at. *)
Definition find_key (S : findState) (key : Z) : findState :=
  if (key =? ARROW_RIGHT) || (key =? ARROW_DOWN)
  then mkFind (last_match S) 1 (saved_hl_line S) None
  else if (key =? ARROW_LEFT) || (key =? ARROW_UP)
  then mkFind (last_match S) (-1) (saved_hl_line S) None
  else mkFind (-1) 1 (saved_hl_line S) None.

(** [editorFindCallback(query, key)] *)
Definition editorFindCallback (E : editorConfig) (S : findState)
  (query : list ascii) (key : Z) : result (editorConfig * findState) :=
  E <- find_restore E S ;;
  if is_find_exit key
  then Ok (E, mkFind (-1) 1 (saved_hl_line S) None)
  else
    let S := find_key S key in
    let S := if last_match S =? -1
             then mkFind (last_match S) 1 (saved_hl_line S) None else S in
    res <- find_loop (Z.to_nat (numrows E)) E query (last_match S) (direction S) ;;
    match snd res with
    | None => Ok (E, S)
    | Some (current, off) =>
        r <- get_row (row E) current ;;
        let E := set_cy E current in
        let E := set_cx E (editorRowRxToCx r off) in
        let E := set_rowoff E (numrows E) in
        saved <- memcpy_hl (repeat HL_NORMAL (Z.to_nat (rsize r))) (hl r) (rsize r) ;;
        h <- memset (hl r) off HL_MATCH (strlen query) ;;
        rows' <- put_row (row E) current (set_hl r h) ;;
        Ok (set_rows E rows', mkFind current (direction S) current (Some saved))
    end.

(* ================================================================= *)
(** ** Input *)

Definition KEY_h : Z := 104.
Definition KEY_i : Z := 105.
Definition KEY_j : Z := 106.
Definition KEY_k : Z := 107.
Definition KEY_l : Z := 108.

(** [(E.cy >= E.numrows) ? NULL : &E.row[E.cy]], dereferenced. *)
Definition cursor_row (E : editorConfig) : result (option erow) :=
  if cy E >=? numrows E then Ok None
  else r <- get_row (row E) (cy E) ;; Ok (Some r).

Definition editorMoveCursor (E : editorConfig) (key : Z) : result editorConfig :=
  r <- cursor_row E ;;
  E <- (if (key =? ARROW_LEFT) || (key =? KEY_h) then
          if negb (cx E =? 0) then Ok (set_cx E (cx E - 1))
          else if cy E >? 0 then
            let E := set_cy E (cy E - 1) in
            p <- get_row (row E) (cy E) ;;
            Ok (set_cx E (size p))
          else Ok E
        else if (key =? ARROW_RIGHT) || (key =? KEY_l) then
          match r with
          | Some r =>
              if cx E <? size r then Ok (set_cx E (cx E + 1))
              else if cx E =? size r then Ok (set_cx (set_cy E (cy E + 1)) 0)
              else Ok E
          | None => Ok E
          end
        else if (key =? ARROW_UP) || (key =? KEY_k) then
          if negb (cy E =? 0) then Ok (set_cy E (cy E - 1)) else Ok E
        else if (key =? ARROW_DOWN) || (key =? KEY_j) then
          if cy E <? numrows E then Ok (set_cy E (cy E + 1)) else Ok E
        else Ok E) ;;
  r <- cursor_row E ;;
  let rowlen := match r with Some r => size r | None => 0 end in
  Ok (if cx E >? rowlen then set_cx E rowlen else E).

(** [while (times--) editorMoveCursor(key);] *)
Fixpoint move_times (times : nat) (E : editorConfig) (key : Z) : result editorConfig :=
  match times with
  | O => Ok E
  | S n => E' <- editorMoveCursor E key ;; move_times n E' key
  end.

(** The text [vsnprintf] leaves in [E.statusmsg] for the quit warning. *)
Definition quit_warning (quit_times : Z) : string :=
  substring 0 79
    ("WARNING!!! File has unsaved changes. Press ctrl-q "
     ++ NilZero.string_of_int (Z.to_int quit_times)
     ++ " more times to quit.")%string.

(** How a call of [editorProcessKeypress] ends: it returns, leaving the
    editor state and its [static] counter, or it calls [exit(0)]. *)
Inductive outcome : Type :=
| Returned (E : editorConfig) (quit_times : Z)
| Exited (E : editorConfig).

Section Dispatch.

(** [editorDelChar] deletes a row when it joins two lines, and the row
    deletion accesses the slot past the row array; the dispatcher is
    modelled for either reading of that access, [editorDelChar] and
    [editorDelChar_spare] below. *)
Variable delChar : editorConfig -> result editorConfig.

(** File output and the two prompts read the terminal and the file
    system; the dispatcher is modelled for any behaviour of theirs. *)
Variable editorSave : editorConfig -> result editorConfig.
Variable editorFind : editorConfig -> result editorConfig.

(** The [default:] case of the outer [switch]. *)
Definition dispatch_default (E : editorConfig) (c : Z) : result editorConfig :=
  if editorMode E =? 1 then
    if c =? KEY_ENTER then editorInsertNewline E
    else if (c =? BACKSPACE) || (c =? CTRL_KEY "h") || (c =? DEL_KEY) then
      E <- (if c =? DEL_KEY then editorMoveCursor E ARROW_RIGHT else Ok E) ;;
      delChar E
    else if c =? CTRL_KEY "j" then Ok (set_editorMode E 0)
    else editorInsertChar E c
  else
    if (c =? KEY_h) || (c =? KEY_j) || (c =? KEY_k) || (c =? KEY_l)
    then editorMoveCursor E c
    else if c =? KEY_i then Ok (set_editorMode E 1)
    else Ok E.

(** The cases of the outer [switch] other than the quit key. *)
Definition dispatch (E : editorConfig) (c : Z) : result editorConfig :=
  if c =? CTRL_KEY "s" then editorSave E
  else if c =? HOME_KEY then Ok (set_cx E 0)
  else if c =? END_KEY then
    if cy E <? numrows E
    then r <- get_row (row E) (cy E) ;; Ok (set_cx E (size r))
    else Ok E
  else if c =? CTRL_KEY "f" then editorFind E
  else if (c =? CTRL_KEY "e") || (c =? CTRL_KEY "y")
          || (c =? PAGE_UP) || (c =? PAGE_DOWN) then
    let up := (c =? PAGE_UP) || (c =? CTRL_KEY "y") in
    let E := if up then set_cy E (rowoff E)
             else
               let E := set_cy E (rowoff E + screenrows E - 1) in
               if cy E >? numrows E then set_cy E (numrows E) else E in
    move_times (Z.to_nat (screenrows E)) E (if up then ARROW_UP else ARROW_DOWN)
  else if (c =? ARROW_UP) || (c =? ARROW_DOWN)
          || (c =? ARROW_LEFT) || (c =? ARROW_RIGHT) then editorMoveCursor E c
  else if (c =? CTRL_KEY "l") || (c =? KEY_ESC) then Ok E
  else dispatch_default E c.

(** [editorProcessKeypress()] once [editorReadKey()] has returned [c];
    [quit_times] is the [static] counter. *)
Definition editorProcessKeypress (E : editorConfig) (quit_times : Z) (c : Z)
  : result outcome :=
  if c =? CTRL_KEY "q" then
    if negb (dirty E =? 0) && (quit_times >? 0)
    then Ok (Returned (set_statusmsg E (quit_warning quit_times)) (quit_times - 1))
    else Ok (Exited E)
  else
    E' <- dispatch E c ;;
    Ok (Returned E' EDITOR_QUIT_TIMES).

End Dispatch.

(* ================================================================= *)
(** ** Output: scrolling *)

Definition editorScroll (E : editorConfig) : editorConfig :=
  let E := set_rx E (cx E) in
  let E := if cy E <? rowoff E then set_rowoff E (cy E) else E in
  let E := if cy E >=? rowoff E + screenrows E
           then set_rowoff E (cy E - screenrows E + 1) else E in
  let E := if rx E <? coloff E then set_coloff E (rx E) else E in
  let E := if rx E >=? coloff E + screencols E
           then set_coloff E (rx E - screencols E + 1) else E in
  E.

(* ================================================================= *)
(** ** Init *)

(** [initEditor()] on a terminal of [rows] by [cols] cells.  [E] is a
    global, so [editorMode], which [initEditor] leaves alone, is 0. *)
Definition initEditor (rows cols : Z) : editorConfig :=
  mkConfig 0 0 0 0 0 (rows - 2) cols 0 [] 0 None EmptyString 0 None.

(* ================================================================= *)
(** ** The editor as a transition system *)

(** The operations that act on the editor state.  Arguments are
    arbitrary: an operation handed an argument it cannot take either
    rejects it, as the source does, or ends in a [Fault]. *)
Inductive op : Type :=
| OpOpen (fname : list ascii) (lines : list (list ascii))
| OpSaveAs (fname : list ascii)
| OpInsertRow (at_ : Z) (s : list ascii) (len : Z)
| OpDelRow (at_ : Z)
| OpRowInsertChar (slot at_ c : Z)
| OpRowAppendString (slot : Z) (s : list ascii) (len : Z)
| OpRowDelChar (slot at_ : Z)
| OpUpdateRow (slot : Z)
| OpUpdateSyntax (slot : Z)
| OpInsertChar (c : Z)
| OpInsertNewline
| OpDelChar
| OpMoveCursor (key : Z)
| OpScroll
| OpFindCallback (query : list ascii) (key : Z)
| OpOther (F : editorConfig).

(** [E] with the cursor, the viewport, the status message, the mode,
    the dirty counter and the file name of [F]: what the code outside
    the document operations (cursor keys, paging, prompts, saving,
    the end of a cancelled search) may change. *)
Definition with_frame (E F : editorConfig) : editorConfig :=
  mkConfig (cx F) (cy F) (rx F) (rowoff F) (coloff F) (screenrows F) (screencols F)
    (numrows E) (row E) (dirty F) (filename F) (statusmsg F) (editorMode F)
    (syntax E).

Definition apply_op (o : op) (st : editorConfig * findState)
  : result (editorConfig * findState) :=
  let E := fst st in
  let S := snd st in
  match o with
  | OpFindCallback query key => editorFindCallback E S query key
  | OpOpen fname lines => E' <- editorOpen E fname lines ;; Ok (E', S)
  | OpSaveAs fname =>
      E' <- editorSelectSyntaxHighlight (set_filename E (Some fname)) ;; Ok (E', S)
  | OpInsertRow at_ s len => E' <- editorInsertRow E at_ s len ;; Ok (E', S)
  | OpDelRow at_ => E' <- editorDelRow E at_ ;; Ok (E', S)
  | OpRowInsertChar slot at_ c => E' <- editorRowInsertChar E slot at_ c ;; Ok (E', S)
  | OpRowAppendString slot s len =>
      E' <- editorRowAppendString E slot s len ;; Ok (E', S)
  | OpRowDelChar slot at_ => E' <- editorRowDelChar E slot at_ ;; Ok (E', S)
  | OpUpdateRow slot => E' <- editorUpdateRow E slot ;; Ok (E', S)
  | OpUpdateSyntax slot => E' <- editorUpdateSyntax E slot ;; Ok (E', S)
  | OpInsertChar c => E' <- editorInsertChar E c ;; Ok (E', S)
  | OpInsertNewline => E' <- editorInsertNewline E ;; Ok (E', S)
  | OpDelChar => E' <- editorDelChar E ;; Ok (E', S)
  | OpMoveCursor key => E' <- editorMoveCursor E key ;; Ok (E', S)
  | OpScroll => Ok (editorScroll E, S)
  | OpOther F => Ok (with_frame E F, S)
  end.

Fixpoint run (ops : list op) (st : editorConfig * findState)
  : result (editorConfig * findState) :=
  match ops with
  | [] => Ok st
  | o :: ops' => st' <- apply_op o st ;; run ops' st'
  end.

(* ================================================================= *)
(** ** Vocabulary of the statements *)

(** The sizes a row stores agree with its buffers. *)
Definition text_ok (r : erow) : Prop :=
  size r = zlen (chars r) /\ rsize r = zlen (render r).

(** ... and its highlight buffer has one cell per display byte. *)
Definition row_ok (r : erow) : Prop :=
  text_ok r /\ zlen (hl r) = rsize r.

(** Every row knows its position. *)
Definition idx_ok (rows : list erow) : Prop :=
  forall k r, nth_error rows k = Some r -> idx r = Z.of_nat k.

Definition doc_ok (E : editorConfig) : Prop :=
  numrows E = zlen (row E) /\ idx_ok (row E) /\ Forall row_ok (row E).

(** The part of a row that highlighting leaves alone. *)
Definition strip (r : erow) : erow :=
  mkRow (idx r) (size r) (rsize r) (chars r) (render r) [] false.

(** The open-comment state of the row before [slot], false for the
    first row: the state a scan of row [slot] starts in. *)
Definition seed_of (rows : list erow) (slot : Z) : bool :=
  if slot >? 0
  then match nth_error rows (Z.to_nat (slot - 1)) with
       | Some p => hl_open_comment p
       | None => false
       end
  else false.

(** A row with the outcome of a scan stored in it. *)
Definition rescanned (r : erow) (s : scan) : erow :=
  set_hl_open_comment (set_hl r (sc_hl s)) (sc_in_comment s).

(** What a run of [editorUpdateSyntax] leaves behind. *)
Definition updated_from (slot : Z) (rows rows' : list erow) : Prop :=
  map strip rows' = map strip rows /\
  firstn (Z.to_nat slot) rows' = firstn (Z.to_nat slot) rows /\
  (forall k r', nth_error rows' k = Some r' ->
     nth_error rows k = Some r' \/ zlen (hl r') = rsize r') /\
  (exists r', nth_error rows' (Z.to_nat slot) = Some r' /\ zlen (hl r') = rsize r').

(** [E.row[j].idx++] *)
Definition bump (r : erow) : erow := set_idx r (idx r + 1).

(** The display text [editorUpdateRow] computes for a row. *)
Definition display_of (r : erow) : list ascii :=
  render_loop r (Z.to_nat (size r)) 0 [].

Definition rendered (r : erow) : erow :=
  set_render r (zlen (display_of r)) (display_of r).

(** [P] holds of every row but the one in [slot]. *)
Definition ok_except (slot : nat) (P : erow -> Prop) (rows : list erow) : Prop :=
  forall k r, nth_error rows k = Some r -> k <> slot -> P r.

(** The rows the loop of the callback examines when nothing matches:
    [n] steps of [find_next] from [current]. *)
Fixpoint find_order (n : nat) (E : editorConfig) (current dir : Z) : list Z :=
  match n with
  | O => []
  | S n' =>
      let c := find_next E current dir in
      c :: find_order n' E c dir
  end.

(** The [static]s of the callback fit the document: the last match is a
    row or none, and a saved highlight covers the row it was taken
    from. *)
Definition find_ok (E : editorConfig) (S : findState) : Prop :=
  -1 <= last_match S < Z.max 0 (numrows E) /\
  forall b, saved_hl S = Some b ->
    exists r, get_row (row E) (saved_hl_line S) = Ok r /\ rsize r <= zlen b.

(** Where a scan may start: at no row going forward, or at a row. *)
Definition find_start_ok (E : editorConfig) (current dir : Z) : Prop :=
  0 < numrows E /\ -1 <= current < numrows E /\
  (dir = 1 \/ (dir = -1 /\ 0 <= current)).

(** The loop invariant of the scanning loop. *)
Definition scan_inv (r : erow) (s : scan) : Prop :=
  0 <= sc_i s <= rsize r /\ zlen (sc_hl s) = rsize r.

(** What decreases at every turn of the scanning loop. *)
Definition scan_measure (r : erow) (s : scan) : Z :=
  2 * (rsize r - sc_i s) + (if sc_prev_sep s then 1 else 0).

(** A turn moves forward and leaves the cells behind it alone. *)
Definition step_post (r : erow) (s s' : scan) : Prop :=
  scan_inv r s' /\ sc_i s <= sc_i s' /\
  firstn (Z.to_nat (sc_i s)) (sc_hl s') = firstn (Z.to_nat (sc_i s)) (sc_hl s).

Definition good_step (r : erow) (s : scan) (x : result ctl) : Prop :=
  match x with
  | Ok (Continue s') => step_post r s s' /\ scan_measure r s' < scan_measure r s
  | Ok (Break s') => step_post r s s' /\ sc_in_comment s' = sc_in_comment s
  | Fault _ => False
  end.

(** A checker for [doc_ok]. *)
Definition row_okb (r : erow) : bool :=
  (size r =? zlen (chars r)) && (rsize r =? zlen (render r))
  && (zlen (hl r) =? rsize r).

Fixpoint idx_okb (k : Z) (rows : list erow) : bool :=
  match rows with
  | [] => true
  | r :: rows' => (idx r =? k) && idx_okb (k + 1) rows'
  end.

Definition doc_okb (E : editorConfig) : bool :=
  (numrows E =? zlen (row E)) && idx_okb 0 (row E) && forallb row_okb (row E).

(* ================================================================= *)
(** ** Sample documents *)

Definition c_syntax : option editorSyntax := hd_error HLDB.

(** A file of one line, a tab followed by [x], and the cursor moved one
    step to the right of its start. *)
Definition tab_doc : result editorConfig :=
  E <- editorOpen (initEditor 24 80) (cs "notes") [[TAB; "x"%char; LF]] ;;
  editorMoveCursor E ARROW_RIGHT.

(** A C file of one line: a string literal holding a backslash escape. *)
Definition escape_line : list ascii := [DQUOTE; BACKSLASH; "n"%char; DQUOTE].

Definition escape_doc : result editorConfig :=
  editorOpen (initEditor 24 80) (cs "a.c") [escape_line ++ [LF]].

(** A file of three lines. *)
Definition three_rows : result editorConfig :=
  editorOpen (initEditor 24 80) (cs "notes")
    [cs "a" ++ [LF]; cs "b" ++ [LF]; cs "c" ++ [LF]].

Definition three_rows_doc : editorConfig :=
  match three_rows with Ok E => E | Fault _ => initEditor 24 80 end.

(** A session: a C file is loaded, a comment opener and a newline are
    typed, and a search is run and accepted. *)
Definition sample_ops : list op :=
  [ OpOpen (cs "a.c") [cs "int x = 42;" ++ [LF]; cs "return x;" ++ [LF]];
    OpInsertChar 47; OpInsertChar 42; OpInsertNewline;
    OpFindCallback (cs "x") 120; OpFindCallback (cs "x") ARROW_DOWN;
    OpFindCallback (cs "x") KEY_ENTER ].

Definition sample_end : editorConfig * findState :=
  match run sample_ops (initEditor 24 80, find_init) with
  | Ok st => st
  | Fault _ => (initEditor 24 80, find_init)
  end.

(** The three-row document with the cursor on its last row. *)
Definition last_row_doc : editorConfig := set_cy three_rows_doc 2.

(** A search in progress: the query [b] has been typed in the
    three-row document and its match in row 1 is marked. *)
Definition mid_search : editorConfig * findState :=
  match editorFindCallback three_rows_doc find_init (cs "b") 98 with
  | Ok st => st
  | Fault _ => (three_rows_doc, find_init)
  end.

(** A row of three raw bytes, two of them tabs. *)
Definition tabbed_row : erow :=
  mkRow 0 3 4 [TAB; "a"%char; TAB] (cs "    ")
    [HL_NORMAL; HL_NORMAL; HL_NORMAL; HL_NORMAL] false.

(** A dirty document, and collaborators that do nothing. *)
Definition dirty_doc : editorConfig := set_dirty (initEditor 24 80) 1.
Definition no_save (E : editorConfig) : result editorConfig := Ok E.
Definition no_find (E : editorConfig) : result editorConfig := Ok E.

(* ================================================================= *)
(** ** Vocabulary: block comments *)

(** The descriptor has both block-comment tokens. *)
Definition has_block_comments (syn : editorSyntax) : Prop :=
  mcs_len syn <> 0 /\ mce_len syn <> 0.

(** The first offset from [p] on, among [n], at which the display text
    of the row holds the closing token. *)
Fixpoint close_from (n : nat) (syn : editorSyntax) (r : erow) (p : Z) : option Z :=
  match n with
  | O => None
  | S n' =>
      if matches_at r p (mce syn) (mce_len syn) then Some p
      else close_from n' syn r (p + 1)
  end.

Definition first_close (syn : editorSyntax) (r : erow) : option Z :=
  close_from (Z.to_nat (rsize r)) syn r 0.

(** The end of the part of a row that lies in a comment opened above
    it: the end of the first closing token, or the end of the row. *)
Definition comment_end (syn : editorSyntax) (r : erow) : Z :=
  match first_close syn r with
  | Some p => p + mce_len syn
  | None => rsize r
  end.

(** The row is classified BlockComment up to the next closing token. *)
Definition in_comment_prefix (syn : editorSyntax) (r : erow) : Prop :=
  forall j, 0 <= j < comment_end syn r -> hl_at (hl r) j = HL_MLCOMMENT.

(** The row holds the outcome of a scan started in state [seed]. *)
Definition highlighted (syn : editorSyntax) (seed : bool) (r : erow) : Prop :=
  exists s, row_scan syn r seed = Ok s /\
            hl r = sc_hl s /\ hl_open_comment r = sc_in_comment s.

(** From row [m] on, every row that ends inside an open comment is
    followed by a row highlighted accordingly. *)
Definition open_rows_up_to_date (syn : editorSyntax) (rows : list erow) (m : nat)
  : Prop :=
  forall j p r, (m <= j)%nat ->
    nth_error rows j = Some p -> nth_error rows (S j) = Some r ->
    hl_open_comment p = true -> highlighted syn true r.

(** The filetype entry for C. *)
Definition c_entry : editorSyntax :=
  hd (mkSyntax "c" [] [] None None None 0) HLDB.

(** A C file of four lines, the third with a closing token, and the
    cursor behind the slash of the first line. *)
Definition comment_doc : editorConfig :=
  match run [ OpOpen (cs "a.c")
                [cs "/" ++ [LF]; cs "a" ++ [LF]; cs "b */ c" ++ [LF]; cs "d" ++ [LF]];
              OpMoveCursor ARROW_RIGHT ] (initEditor 24 80, find_init) with
  | Ok (E, _) => E
  | Fault _ => initEditor 24 80
  end.

(** A row of a C file that closes a comment opened above it. *)
Definition closing_row : erow :=
  mkRow 1 6 6 (cs "b */ c") (cs "b */ c")
    [HL_MLCOMMENT; HL_MLCOMMENT; HL_MLCOMMENT; HL_MLCOMMENT; HL_NORMAL; HL_NORMAL]
    false.

(** The same file just after an asterisk was typed behind the slash of
    its first line and the display text of that line was rebuilt: the
    highlight of the line and its open-comment state are still those of
    the old text. *)
Definition opened_doc : editorConfig :=
  set_rows comment_doc
    (replace_nth 0 (row comment_doc)
       (mkRow 0 2 2 (cs "/*") (cs "/*") [HL_NORMAL; HL_NORMAL] false)).

(* ================================================================= *)
(** ** Vocabulary: tabs *)

(** No tab among the first [n] bytes of the raw text of a row. *)
Definition tab_free (r : erow) (n : Z) : Prop :=
  forall j, 0 <= j < n -> byte_at (chars r) j <> TAB.

(** A row whose raw text is a tab, [a], a tab and [b]. *)
Definition two_tab_row : erow :=
  mkRow 0 4 5 [TAB; "a"%char; TAB; "b"%char] (cs "  a b") 
    [HL_NORMAL; HL_NORMAL; HL_NORMAL; HL_NORMAL; HL_NORMAL] false.

(** A row without tabs. *)
Definition plain_row : erow :=
  mkRow 0 3 3 (cs "abc") (cs "abc") [HL_NORMAL; HL_NORMAL; HL_NORMAL] false.

(* ================================================================= *)
(** ** Vocabulary: the window *)

(** The cursor lies in the window. *)
Definition in_window (E : editorConfig) : Prop :=
  rowoff E <= cy E < rowoff E + screenrows E /\
  coloff E <= rx E < coloff E + screencols E.

(** A window of 22 by 80 cells at the top of a document, with the cursor
    far below and to the right of it. *)
Definition far_cursor : editorConfig :=
  set_cx (set_cy (initEditor 24 80) 100) 200.

(* ================================================================= *)
(** ** Vocabulary: the text and the cursor *)

(** The text of the document, line by line. *)
Definition lines (E : editorConfig) : list (list ascii) := map chars (row E).

(** The display text of a row is the tab expansion of its raw text. *)
Definition shown (r : erow) : Prop := render r = display_of r.

(** The length of the row the cursor is on; 0 on the line past the
    last row. *)
Definition cursor_len (E : editorConfig) : Z :=
  match nth_error (row E) (Z.to_nat (cy E)) with
  | Some r => size r
  | None => 0
  end.

(** The cursor is on a row or on the line past the last row, and
    within that row or at its end. *)
Definition cursor_ok (E : editorConfig) : Prop :=
  0 <= cy E <= numrows E /\ 0 <= cx E <= cursor_len E.

Definition insert_at {A : Type} (n : nat) (x : A) (l : list A) : list A :=
  firstn n l ++ x :: skipn n l.

Definition delete_at {A : Type} (n : nat) (l : list A) : list A :=
  firstn n l ++ skipn (S n) l.

(** The raw text of a row replaced. *)
Definition with_text (r : erow) (bytes : list ascii) : erow :=
  rendered (set_chars r (zlen bytes) bytes).

(** The row [editorInsertRow] creates. *)
Definition new_row (at_ : Z) (bytes : list ascii) : erow :=
  rendered (mkRow at_ (zlen bytes) 0 bytes [] [] false).

(** A document of two lines with the cursor in the first. *)
Definition two_lines : editorConfig :=
  match run [ OpOpen (cs "notes") [cs "abc" ++ [LF]; cs "de" ++ [LF]];
              OpMoveCursor ARROW_RIGHT ] (initEditor 24 80, find_init) with
  | Ok (E, _) => E
  | Fault _ => initEditor 24 80
  end.

(** The lines after a byte has been typed at column [x] of line [y];
    on the line past the last one a new line is made for it. *)
Definition typed (ls : list (list ascii)) (y x : nat) (b : ascii)
  : list (list ascii) :=
  match nth_error ls y with
  | Some l => replace_nth y ls (insert_at x b l)
  | None => ls ++ [[b]]
  end.

(** The lines after line [y] has been split at column [x]. *)
Definition split_at (ls : list (list ascii)) (y x : nat) : list (list ascii) :=
  match nth_error ls y with
  | Some l => firstn y ls ++ firstn x l :: skipn x l :: skipn (S y) ls
  | None => ls ++ [[]]
  end.

(** The lines after the byte at column [x] of line [y] has been
    removed. *)
Definition erased (ls : list (list ascii)) (y x : nat) : list (list ascii) :=
  match nth_error ls y with
  | Some l => replace_nth y ls (delete_at x l)
  | None => ls
  end.

(* ================================================================= *)
(** ** File output *)

(** [for (j = j0; j < E.numrows; j++) totlen += E.row[j].size + 1;] with
    [n] turns left. *)
Fixpoint totlen_loop (n : nat) (j : Z) (rows : list erow) (totlen : Z) : result Z :=
  match n with
  | O => Ok totlen
  | S n' =>
      r <- get_row rows j ;;
      totlen_loop n' (j + 1) rows (totlen + (size r + 1))
  end.

(** [for (j = j0; j < E.numrows; j++) { memcpy(p, E.row[j].chars,
    E.row[j].size); p += E.row[j].size; *p = '\n'; p++; }] with [n]
    turns left; [buf] holds the bytes written so far, [p - buf] of
    them, into a block of [cap] bytes. *)
Fixpoint copy_loop (n : nat) (j : Z) (rows : list erow) (cap : Z)
  (buf : list ascii) : result (list ascii) :=
  match n with
  | O => Ok buf
  | S n' =>
      r <- get_row rows j ;;
      bytes <- memcpy_bytes (chars r) (size r) ;;
      if cap <? zlen buf + size r + 1
      then Fault (BufOutOfBounds (zlen buf + size r))
      else copy_loop n' (j + 1) rows cap (buf ++ bytes ++ [LF])
  end.

(** [editorRowsToString(&buflen)]: the bytes written into the block and
    [buflen]. *)
Definition editorRowsToString (E : editorConfig) : result (list ascii * Z) :=
  totlen <- totlen_loop (Z.to_nat (numrows E)) 0 (row E) 0 ;;
  buf <- copy_loop (Z.to_nat (numrows E)) 0 (row E) totlen [] ;;
  Ok (buf, totlen).

(** The lines [getline] returns, one call after the other, for a file
    with the contents [bytes]: each line with its newline, the last
    one without if the file does not end in one.  [cur] is the part of
    the current line read so far. *)
Fixpoint getlines (bytes : list ascii) (cur : list ascii) : list (list ascii) :=
  match bytes with
  | [] => match cur with [] => [] | _ :: _ => [cur] end
  | c :: rest =>
      if Ascii.eqb c LF then (cur ++ [c]) :: getlines rest []
      else getlines rest (cur ++ [c])
  end.

(** The contents of a file with the given lines. *)
Definition flat (ls : list (list ascii)) : list ascii :=
  concat (map (fun l => l ++ [LF]) ls).

(** A line as [editorOpen] stores it: without its trailing newlines and
    carriage returns. *)
Definition chomp (line : list ascii) : list ascii :=
  firstn (strip_eol line (length line)) line.

(** A byte that ends a line: a newline or a carriage return. *)
Definition eol (c : ascii) : Prop := c = LF \/ c = CR.

(** [p] is the line [l] without its line end: [l] is [p] followed by
    newlines and carriage returns only, and [p] does not end in one. *)
Definition stripped (l p : list ascii) : Prop :=
  exists t, l = p ++ t /\ Forall eol t /\
            forall q c, p = q ++ [c] -> ~ eol c.

(** A line that survives saving and loading: no newline in it and no
    carriage return at its end. *)
Definition clean (l : list ascii) : Prop :=
  ~ In LF l /\ last l NUL <> CR.

(** A checker for [clean]. *)
Definition cleanb (l : list ascii) : bool :=
  forallb (fun c => negb (Ascii.eqb c LF)) l
  && negb (Ascii.eqb (last l NUL) CR).

(* ================================================================= *)
(** ** Vocabulary: rows without highlighting *)

(** A row without highlighting. *)
Definition unlit (r : erow) : Prop :=
  hl r = repeat HL_NORMAL (Z.to_nat (rsize r)) /\ hl_open_comment r = false.

(** A row of a C file that starts with the token of a line comment. *)
Definition remark_row : erow :=
  mkRow 0 9 9 (cs "// a /* b") (cs "// a /* b") (repeat HL_NORMAL 9) false.

(* ================================================================= *)
(** ** Vocabulary: incremental search *)

(** The [static]s once the key has been looked at and the direction
    has been reset for a search that starts afresh. *)
Definition find_prepared (S : findState) (key : Z) : findState :=
  let S1 := find_key S key in
  if last_match S1 =? -1
  then mkFind (last_match S1) 1 (saved_hl_line S1) None else S1.

(** Putting the saved highlight back gives the rows [base]. *)
Definition restores (base : list erow) (E : editorConfig) (S : findState) : Prop :=
  exists E0, find_restore E S = Ok E0 /\ row E0 = base.

(** A row with the cells of a match marked. *)
Definition marked (r : erow) (off : Z) (query : list ascii) : erow :=
  set_hl r (splice (hl r) off HL_MATCH (strlen query)).

(** The callbacks of a search session, as operations. *)
Definition find_ops (qks : list (list ascii * Z)) : list op :=
  map (fun qk => OpFindCallback (fst qk) (snd qk)) qks.

(* ================================================================= *)
(** ** Prompts, search and saving *)

(** [iscntrl(c)] in the C locale, which the program never leaves: the
    codes below 32 and 127.  For the other values of a [char] the
    answer is no; for the codes of [enum editorKey] the prompt does not
    depend on the answer, since it also asks for [c < 128]. *)
Definition iscntrl (c : Z) : bool := ((0 <=? c) && (c <? 32)) || (c =? 127).

(** [editorSetStatusMessage(fmt, ...)], [text] being the formatted
    message: [vsnprintf] keeps 79 bytes of it. *)
Definition editorSetStatusMessage (E : editorConfig) (text : string) : editorConfig :=
  set_statusmsg E (substring 0 79 text).

(** A format with one [%s], filled with the string in [buf]. *)
Definition prompt_text (before after : string) (buf : list ascii) : string :=
  (before ++ string_of_list_ascii (cstr buf) ++ after)%string.

Definition callback_t : Type :=
  editorConfig -> findState -> list ascii -> Z -> result (editorConfig * findState).

(** [if (callback) callback(buf, c);] *)
Definition call_back (callback : option callback_t) (E : editorConfig)
  (S : findState) (buf : list ascii) (c : Z) : result (editorConfig * findState) :=
  match callback with
  | Some f => f E S buf c
  | None => Ok (E, S)
  end.

(** How far a prompt gets on the keys [editorReadKey] delivers: it
    returns the text, it returns NULL, or it is still reading when the
    keys end.  [keys] are the keys not read. *)
Inductive prompted : Type :=
| Answered (buf : list ascii) (E : editorConfig) (S : findState) (keys : list Z)
| Cancelled (E : editorConfig) (S : findState) (keys : list Z)
| Pending (buf : list ascii) (E : editorConfig) (S : findState).

(** The loop of [editorPrompt].  [buf] holds the [buflen] bytes before
    the terminator and [bufsize] is the size of its block;
    [editorRefreshScreen] changes the state by [editorScroll] only.
    Sizes are [size_t] and are not bounded here. *)
Fixpoint prompt_loop (prompt : list ascii -> string) (callback : option callback_t)
  (keys : list Z) (E : editorConfig) (S : findState) (buf : list ascii)
  (bufsize : Z) : result prompted :=
  let E := editorScroll (editorSetStatusMessage E (prompt buf)) in
  match keys with
  | [] => Ok (Pending buf E S)
  | c :: keys =>
      if (c =? DEL_KEY) || (c =? CTRL_KEY "h") || (c =? BACKSPACE) then
        let buf := if negb (zlen buf =? 0) then removelast buf else buf in
        st <- call_back callback E S buf c ;;
        prompt_loop prompt callback keys (fst st) (snd st) buf bufsize
      else if c =? KEY_ESC then
        st <- call_back callback (editorSetStatusMessage E EmptyString) S buf c ;;
        Ok (Cancelled (fst st) (snd st) keys)
      else if c =? KEY_ENTER then
        if negb (zlen buf =? 0) then
          st <- call_back callback (editorSetStatusMessage E EmptyString) S buf c ;;
          Ok (Answered buf (fst st) (snd st) keys)
        else
          st <- call_back callback E S buf c ;;
          prompt_loop prompt callback keys (fst st) (snd st) buf bufsize
      else if negb (iscntrl c) && (c <? 128) then
        let bufsize := if zlen buf =? bufsize - 1 then bufsize * 2 else bufsize in
        if zlen buf + 1 <? bufsize then
          let buf := buf ++ [char_of_int c] in
          st <- call_back callback E S buf c ;;
          prompt_loop prompt callback keys (fst st) (snd st) buf bufsize
        else Fault (BufOutOfBounds (zlen buf + 1))
      else
        st <- call_back callback E S buf c ;;
        prompt_loop prompt callback keys (fst st) (snd st) buf bufsize
  end.

(** [editorPrompt(prompt, callback)] *)
Definition editorPrompt (prompt : list ascii -> string) (callback : option callback_t)
  (E : editorConfig) (S : findState) (keys : list Z) : result prompted :=
  prompt_loop prompt callback keys E S [] 128.

(** [editorFind()] *)
Definition editorFind (E : editorConfig) (S : findState) (keys : list Z)
  : result prompted :=
  p <- editorPrompt (prompt_text "Search: " " (Use ESC/Arrows/Enter)")
         (Some editorFindCallback) E S keys ;;
  match p with
  | Cancelled E' S' keys' =>
      Ok (Cancelled
            (set_rowoff (set_coloff (set_cy (set_cx E' (cx E)) (cy E)) (coloff E))
               (rowoff E)) S' keys')
  | _ => Ok p
  end.

(** How far [editorSave] gets: it returns, having handed [written] to
    [write] if the file could be opened and cut to size, or it is still
    in its prompt when the keys end. *)
Inductive saved : Type :=
| SaveReturned (E : editorConfig) (keys : list Z)
    (written : option (list ascii * list ascii * Z))
| SavePending (buf : list ascii) (E : editorConfig).

Definition bytes_written (len : Z) : string :=
  (NilZero.string_of_int (Z.to_int len) ++ " bytes written to disk")%string.

Definition cannot_save (strerror : string) : string :=
  ("Can't save! I/O error: " ++ strerror)%string.

(** The part of [editorSave] after the file name is known.  [io] tells
    whether none of [open], [ftruncate] and [write] answers -1, and
    [strerror] is the text for [errno] if one does. *)
Definition save_file (io : bool) (strerror : string) (E : editorConfig)
  (fname : list ascii) (keys : list Z) : result saved :=
  out <- editorRowsToString E ;;
  if io
  then Ok (SaveReturned
             (editorSetStatusMessage (set_dirty E 0) (bytes_written (snd out)))
             keys (Some (cstr fname, fst out, snd out)))
  else Ok (SaveReturned (editorSetStatusMessage E (cannot_save strerror)) keys None).

(** [editorSave()] *)
Definition editorSave (io : bool) (strerror : string) (E : editorConfig)
  (S : findState) (keys : list Z) : result saved :=
  match filename E with
  | None =>
      p <- editorPrompt (prompt_text "Save as: " " (ESC to cancel)") None E S keys ;;
      match p with
      | Answered buf E' _ keys' =>
          E' <- editorSelectSyntaxHighlight (set_filename E' (Some buf)) ;;
          save_file io strerror E' buf keys'
      | Cancelled E' _ keys' =>
          Ok (SaveReturned (editorSetStatusMessage (set_filename E' None) "Save aborted")
                keys' None)
      | Pending buf E' _ => Ok (SavePending buf E')
      end
  | Some fname => save_file io strerror E fname keys
  end.

(** What the prompts and the search leave alone. *)
Definition settings_kept (E E' : editorConfig) : Prop :=
  numrows E' = numrows E /\ dirty E' = dirty E /\ filename E' = filename E /\
  editorMode E' = editorMode E /\ syntax E' = syntax E /\
  screenrows E' = screenrows E /\ screencols E' = screencols E.

(** The state of a search in progress: the document is consistent, the
    [static]s fit it, the saved highlight gives back the rows [base],
    and the cursor is on the document. *)
Definition find_inv (base : list erow) (E0 E : editorConfig) (S : findState) : Prop :=
  doc_ok E /\ find_ok E S /\ restores base E S /\ cursor_ok E /\
  0 <= rowoff E /\ settings_kept E0 E.

(** The [static]s of the callback between two searches. *)
Definition find_idle (S : findState) : Prop :=
  last_match S = -1 /\ direction S = 1 /\ saved_hl S = None.

(** The key code of a byte, and the bytes a prompt takes as text. *)
Definition code (a : ascii) : Z := Z.of_nat (nat_of_ascii a).

Definition printable (a : ascii) : Prop := 32 <= code a < 127.

Definition printableb (a : ascii) : bool := (32 <=? code a) && (code a <? 127).

(* ================================================================= *)
(** ** Vocabulary: the key handler *)

(** What the document operations and the cursor keys leave alone. *)
Definition view_kept (E E' : editorConfig) : Prop :=
  rowoff E' = rowoff E /\ coloff E' = coloff E /\
  screenrows E' = screenrows E /\ screencols E' = screencols E /\
  editorMode E' = editorMode E /\ filename E' = filename E /\
  statusmsg E' = statusmsg E.

(** The state of the editor between two keys: the document is
    consistent, the cursor is on it, the row offset is not negative and
    the window has a row. *)
Definition cursor_inv (E : editorConfig) : Prop :=
  doc_ok E /\ cursor_ok E /\ 0 <= rowoff E /\ 0 < screenrows E.

(** In edit mode, the key asks to join two lines: Backspace at the
    start of a row other than the first, or Delete at the end of a row
    other than the last. *)
Definition joins_lines (E : editorConfig) (c : Z) : Prop :=
  editorMode E = 1 /\
  (((c = BACKSPACE \/ c = CTRL_KEY "h") /\ cx E = 0 /\ 0 < cy E < numrows E) \/
   (c = DEL_KEY /\ cx E = cursor_len E /\ cy E + 1 < numrows E)).

(** A search that the user leaves at once, as a collaborator of the
    key handler. *)
Definition find_and_escape (E : editorConfig) : result editorConfig :=
  p <- editorFind E find_init [KEY_ESC] ;;
  match p with
  | Answered _ E' _ _ => Ok E'
  | Cancelled E' _ _ => Ok E'
  | Pending _ _ _ => Fault OutOfFuel
  end.

(* ================================================================= *)
(** ** Terminal input *)

(** What one [read(STDIN_FILENO, &c, 1)] answers: a byte (1), nothing
    within the timeout (0), or -1 with [errno] equal to [EAGAIN] or
    not. *)
Inductive read_result : Type :=
| Got (c : ascii)
| Nothing
| Failed (eagain : bool).

(** How [editorReadKey] ends on the answers [read] gives, in order: it
    returns a key, the answers not used being left; it calls [die]; or
    it is still waiting for a first byte when the answers end. *)
Inductive key_end : Type :=
| Key (c : Z) (rest : list read_result)
| Died
| Waiting.

(** The value of a [char] as an [int]; whether [char] is signed is up
    to the platform. *)
Definition int_of_char (char_signed : bool) (c : ascii) : Z :=
  if char_signed && (128 <=? code c) then code c - 256 else code c.

(** How the wait for the first byte ends. *)
Inductive first_read : Type :=
| First (c : ascii) (rest : list read_result)
| ReadError
| NoByte.

(** [while ((nread = read(STDIN_FILENO, &c, 1)) != 1)
      if (nread == -1 && errno != EAGAIN) die("read");] *)
Fixpoint first_byte (input : list read_result) : first_read :=
  match input with
  | [] => NoByte
  | Got c :: rest => First c rest
  | Nothing :: rest => first_byte rest
  | Failed true :: rest => first_byte rest
  | Failed false :: _ => ReadError
  end.

(** [read(STDIN_FILENO, &seq[i], 1)] and whether it answered 1; after
    the last answer nothing arrives within the timeout. *)
Definition next_byte (input : list read_result) : option ascii * list read_result :=
  match input with
  | Got c :: rest => (Some c, rest)
  | _ :: rest => (None, rest)
  | [] => (None, [])
  end.

Definition ESC : ascii := "027"%char.

(** [editorReadKey()].  The digits are the bytes from ['0'] to ['9']
    whether [char] is signed or not. *)
Definition editorReadKey (char_signed : bool) (input : list read_result) : key_end :=
  match first_byte input with
  | ReadError => Died
  | NoByte => Waiting
  | First c input =>
      if Ascii.eqb c ESC then
        match next_byte input with
        | (None, input) => Key KEY_ESC input
        | (Some seq0, input) =>
            match next_byte input with
            | (None, input) => Key KEY_ESC input
            | (Some seq1, input) =>
                if Ascii.eqb seq0 "["%char then
                  if (code "0" <=? code seq1) && (code seq1 <=? code "9") then
                    match next_byte input with
                    | (None, input) => Key KEY_ESC input
                    | (Some seq2, input) =>
                        if Ascii.eqb seq2 "~"%char then
                          if Ascii.eqb seq1 "1"%char then Key HOME_KEY input
                          else if Ascii.eqb seq1 "3"%char then Key DEL_KEY input
                          else if Ascii.eqb seq1 "4"%char then Key END_KEY input
                          else if Ascii.eqb seq1 "5"%char then Key PAGE_UP input
                          else if Ascii.eqb seq1 "6"%char then Key PAGE_DOWN input
                          else if Ascii.eqb seq1 "7"%char then Key HOME_KEY input
                          else if Ascii.eqb seq1 "8"%char then Key END_KEY input
                          else Key KEY_ESC input
                        else Key KEY_ESC input
                    end
                  else if Ascii.eqb seq1 "A"%char then Key ARROW_UP input
                  else if Ascii.eqb seq1 "B"%char then Key ARROW_DOWN input
                  else if Ascii.eqb seq1 "C"%char then Key ARROW_RIGHT input
                  else if Ascii.eqb seq1 "D"%char then Key ARROW_LEFT input
                  else if Ascii.eqb seq1 "H"%char then Key ARROW_RIGHT input
                  else if Ascii.eqb seq1 "F"%char then Key ARROW_LEFT input
                  else Key KEY_ESC input
                else if Ascii.eqb seq0 "O"%char then
                  if Ascii.eqb seq1 "H"%char then Key HOME_KEY input
                  else if Ascii.eqb seq1 "F"%char then Key END_KEY input
                  else Key KEY_ESC input
                else Key KEY_ESC input
            end
        end
      else Key (int_of_char char_signed c) input
  end.

(** An answer of [read] that makes [editorReadKey] ask again. *)
Definition idle (x : read_result) : Prop := x = Nothing \/ x = Failed true.

Definition idleb (x : read_result) : bool :=
  match x with
  | Nothing => true
  | Failed true => true
  | _ => false
  end.

(* ================================================================= *)
(** ** Output: the rows and the status bar *)

(** [abAppend(ab, s, len)]: [len] bytes of [s] are added to the buffer.
    The case of [realloc] failing is left out, as for the other
    allocations. *)
Definition abAppend (ab : list ascii) (s : list ascii) (len : Z)
  : result (list ascii) :=
  if (len <? 0) || (zlen s <? len) then Fault (BufOutOfBounds len)
  else Ok (ab ++ firstn (Z.to_nat len) s).

(** [editorSyntaxToColour(hl)] *)
Definition editorSyntaxToColour (h : editorHighlight) : Z :=
  match h with
  | HL_COMMENT | HL_MLCOMMENT => 36
  | HL_KEYWORD1 => 33
  | HL_KEYWORD2 => 32
  | HL_STRING => 35
  | HL_NUMBER => 31
  | HL_MATCH => 34
  | HL_NORMAL => 37
  end.

(** The bytes [%d] prints. *)
Definition print_int (n : Z) : list ascii := cs (NilZero.string_of_int (Z.to_int n)).

(** The text [snprintf(buf, sizeof(buf), "\x1b[%dm", colour)] leaves in
    [buf], and its length. *)
Definition colour_seq (colour : Z) : list ascii := ESC :: cs "[" ++ print_int colour ++ cs "m".

Definition SEQ_INVERT : list ascii := ESC :: cs "[7m".
Definition SEQ_RESET : list ascii := ESC :: cs "[m".
Definition SEQ_DEFAULT : list ascii := ESC :: cs "[39m".
Definition SEQ_ERASE : list ascii := ESC :: cs "[K".
Definition CRLF : list ascii := [CR; LF].

(** [c[j]] and [hl[j]] for the pointers [&row->render[E.coloff]] and
    [&row->hl[E.coloff]]. *)
Definition render_cell (r : erow) (i : Z) : result ascii :=
  if i <? 0 then Fault (BufOutOfBounds i)
  else match nth_error (render r) (Z.to_nat i) with
       | Some c => Ok c
       | None => Fault (BufOutOfBounds i)
       end.

Definition hl_cell (r : erow) (i : Z) : result editorHighlight :=
  if i <? 0 then Fault (HlOutOfBounds i)
  else match nth_error (hl r) (Z.to_nat i) with
       | Some h => Ok h
       | None => Fault (HlOutOfBounds i)
       end.

(** The loop over the cells of a row in [editorDrawRows], with [n]
    turns left.  A control character is one for [char] signed or not,
    and its code is then at most 127. *)
Fixpoint draw_cells (n : nat) (j : Z) (E : editorConfig) (r : erow)
  (current_colour : Z) (ab : list ascii) : result (list ascii) :=
  match n with
  | O => Ok ab
  | S n' =>
      c <- render_cell r (coloff E + j) ;;
      if iscntrl (code c) then
        let sym := if code c <=? 26 then char_of_int (code "@" + code c) else "?"%char in
        ab <- abAppend ab SEQ_INVERT 4 ;;
        ab <- abAppend ab [sym] 1 ;;
        ab <- abAppend ab SEQ_RESET 3 ;;
        ab <- (if negb (current_colour =? -1)
               then abAppend ab (colour_seq current_colour)
                      (zlen (colour_seq current_colour))
               else Ok ab) ;;
        draw_cells n' (j + 1) E r current_colour ab
      else
        h <- hl_cell r (coloff E + j) ;;
        match h with
        | HL_NORMAL =>
            ab <- (if negb (current_colour =? -1)
                   then abAppend ab SEQ_DEFAULT 5 else Ok ab) ;;
            ab <- abAppend ab [c] 1 ;;
            draw_cells n' (j + 1) E r (-1) ab
        | _ =>
            let colour := editorSyntaxToColour h in
            ab <- (if negb (colour =? current_colour)
                   then abAppend ab (colour_seq colour) (zlen (colour_seq colour))
                   else Ok ab) ;;
            ab <- abAppend ab [c] 1 ;;
            draw_cells n' (j + 1) E r colour ab
        end
  end.

Definition EDITOR_VERSION : string := "0.0.1".

Definition welcome_text : list ascii := cs ("editor -- version " ++ EDITOR_VERSION).

(** The welcome line.  [padding] is never negative, [welcomelen] being
    at most [E.screencols]. *)
Definition draw_welcome (E : editorConfig) (ab : list ascii) : result (list ascii) :=
  let welcomelen := zlen welcome_text in
  let welcomelen := if welcomelen >? screencols E then screencols E else welcomelen in
  let padding := Z.quot (screencols E - welcomelen) 2 in
  st <- (if negb (padding =? 0)
         then ab <- abAppend ab (cs "~") 1 ;; Ok (ab, padding - 1)
         else Ok (ab, padding)) ;;
  let ab := fst st ++ repeat " "%char (Z.to_nat (snd st)) in
  abAppend ab welcome_text welcomelen.

(** One turn of the loop of [editorDrawRows], for the screen line [y]. *)
Definition draw_line (E : editorConfig) (y : Z) (ab : list ascii) : result (list ascii) :=
  let filerow := y + rowoff E in
  ab <- (if filerow >=? numrows E then
           if (numrows E =? 0) && (y =? Z.quot (screenrows E) 3)
           then draw_welcome E ab
           else abAppend ab (cs "~") 1
         else
           r <- get_row (row E) filerow ;;
           let len := rsize r - coloff E in
           let len := if len <? 0 then 0 else len in
           let len := if len >? screencols E then screencols E else len in
           ab <- draw_cells (Z.to_nat len) 0 E r (-1) ab ;;
           abAppend ab SEQ_DEFAULT 5) ;;
  ab <- abAppend ab SEQ_ERASE 3 ;;
  abAppend ab CRLF 2.

Fixpoint draw_lines (n : nat) (y : Z) (E : editorConfig) (ab : list ascii)
  : result (list ascii) :=
  match n with
  | O => Ok ab
  | S n' => ab <- draw_line E y ab ;; draw_lines n' (y + 1) E ab
  end.

(** [editorDrawRows(ab)] *)
Definition editorDrawRows (E : editorConfig) (ab : list ascii) : result (list ascii) :=
  draw_lines (Z.to_nat (screenrows E)) 0 E ab.

(** A piece of output that cannot end a line of the screen. *)
Definition no_break (l : list ascii) : Prop := ~ In CR l /\ ~ In LF l.

Definition no_breakb (l : list ascii) : bool :=
  forallb (fun c => negb (Ascii.eqb c CR) && negb (Ascii.eqb c LF)) l.

(** The value of [current_colour]: -1 or a colour of a highlight class. *)
Definition colour_ok (colour : Z) : Prop :=
  colour = -1 \/ exists h, colour = editorSyntaxToColour h.

(** What [editorDrawRows] adds for one line of the screen whose text
    is [body]. *)
Definition screen_line (body : list ascii) : list ascii := body ++ SEQ_ERASE ++ CRLF.

(** A document of two rows, the second with a carriage return, a line
    feed and an escape byte in it. *)
Definition control_doc : editorConfig :=
  match run [ OpInsertRow 0 (cs "plain") 5;
              OpInsertRow 1 ("a" :: CR :: "b" :: LF :: ESC :: cs "c")%char 6 ]
          (initEditor 6 20, find_init) with
  | Ok (E, _) => E
  | Fault _ => initEditor 6 20
  end.

(** A row without highlighting and without control characters. *)
Definition plain_text (r : erow) : Prop :=
  Forall (fun h => h = HL_NORMAL) (hl r) /\
  Forall (fun c => iscntrl (code c) = false) (render r).

(** What the line [y] of the screen shows: nothing that ends the line;
    a tilde past the end of a document that has rows; and the display
    text of the row, followed by the default colour, for a row of plain
    text that fits the window when the window is not scrolled
    sideways. *)
Definition line_shown (E : editorConfig) (y : Z) (body : list ascii) : Prop :=
  no_break body /\
  (0 < numrows E -> numrows E <= y + rowoff E -> body = cs "~") /\
  (forall r, get_row (row E) (y + rowoff E) = Ok r -> y + rowoff E < numrows E ->
             coloff E = 0 -> rsize r <= screencols E -> plain_text r ->
             body = render r ++ SEQ_DEFAULT).

(** What [snprintf(buf, size, ...)] leaves in [buf] for the formatted
    text [text]: at most [size - 1] bytes of it and the terminator.
    Its result is the length of [text]. *)
Definition snprintf_buf (size : Z) (text : list ascii) : list ascii :=
  firstn (Z.to_nat (size - 1)) text ++ [NUL].

(** ["%.20s - %d lines %s - %s"] for the status bar. *)
Definition status_text (E : editorConfig) : list ascii :=
  firstn 20 (cstr match filename E with
                  | Some fname => fname
                  | None => cs "[No Name]"
                  end)
  ++ cs " - " ++ print_int (numrows E) ++ cs " lines "
  ++ (if dirty E =? 0 then [] else cs "(modified)")
  ++ cs " - " ++ (if editorMode E =? 0 then cs "st" else cs "ed").

(** ["%s | %d/%d"] for the right of the status bar. *)
Definition rstatus_text (E : editorConfig) : list ascii :=
  cs match syntax E with
     | Some syn => filetype syn
     | None => "no ft"%string
     end
  ++ cs " | " ++ print_int (cy E + 1) ++ cs "/" ++ print_int (numrows E).

(** [while (len < E.screencols)] of [editorDrawStatusBar], with
    [n = E.screencols - len] turns left at most. *)
Fixpoint status_pad (n : nat) (len rlen : Z) (rstatus : list ascii)
  (E : editorConfig) (ab : list ascii) : result (list ascii) :=
  match n with
  | O => Ok ab
  | S n' =>
      if screencols E - len =? rlen then abAppend ab rstatus rlen
      else
        ab <- abAppend ab (cs " ") 1 ;;
        status_pad n' (len + 1) rlen rstatus E ab
  end.

(** [editorDrawStatusBar(ab)] *)
Definition editorDrawStatusBar (E : editorConfig) (ab : list ascii)
  : result (list ascii) :=
  ab <- abAppend ab SEQ_INVERT 4 ;;
  let status := snprintf_buf 80 (status_text E) in
  let len := zlen (status_text E) in
  let rstatus := snprintf_buf 80 (rstatus_text E) in
  let rlen := zlen (rstatus_text E) in
  let len := if len >? screencols E then screencols E else len in
  ab <- abAppend ab status len ;;
  ab <- status_pad (Z.to_nat (screencols E - len)) len rlen rstatus E ab ;;
  ab <- abAppend ab SEQ_RESET 3 ;;
  abAppend ab CRLF 2.

(** [n] spaces. *)
Definition spaces (n : Z) : list ascii := repeat " "%char (Z.to_nat n).

(* ================================================================= *)
(** ** Vocabulary: the order of a search *)

(** The keys that continue a search forward and backward. *)
Definition forward_key (key : Z) : bool := (key =? ARROW_RIGHT) || (key =? ARROW_DOWN).
Definition backward_key (key : Z) : bool := (key =? ARROW_LEFT) || (key =? ARROW_UP).

(** The row a scan starts from: the row of the last match when the key
    continues the search, no row otherwise. *)
Definition scan_start (S : findState) (key : Z) : Z :=
  if forward_key key || backward_key key then last_match S else -1.

(** The direction of a scan: backward when the key asks for it and
    there is a last match, forward otherwise. *)
Definition scan_dir (S : findState) (key : Z) : Z :=
  if backward_key key && negb (last_match S =? -1) then -1 else 1.

(** The rows of a document of [N] rows in the order of a circular scan:
    the row after [start] in direction [dir] comes first, and the row
    after the last one is row 0, the row before row 0 the last one. *)
Definition scan_order (N start dir : Z) : list Z :=
  map (fun i => (start + dir * (Z.of_nat i + 1)) mod N) (seq 0 (Z.to_nat N)).

(** Two searches in progress in the three-row document: [a] has been
    typed and its match in row 0 is marked; [c] has been typed and its
    match in the last row is marked. *)
Definition after_a : editorConfig * findState :=
  match editorFindCallback last_row_doc find_init (cs "a") 97 with
  | Ok st => st
  | Fault _ => (last_row_doc, find_init)
  end.

Definition after_c : editorConfig * findState :=
  match editorFindCallback three_rows_doc find_init (cs "c") 99 with
  | Ok st => st
  | Fault _ => (three_rows_doc, find_init)
  end.

(* ================================================================= *)
(** ** The slot past the row array *)

Section Spare.

(** What the memory just past the row array holds, read as a row. *)
Variable spare : erow.

(** [editorDelRow(at)] in a build that does not check array bounds,
    where the slot past the row array can be read and written: the
    index loop increments the [idx] field found there, and the array is
    as long as before. *)
Definition editorDelRow_spare (E : editorConfig) (at_ : Z) : result editorConfig :=
  E' <- editorDelRow (set_rows E (row E ++ [spare])) at_ ;;
  Ok (set_rows E' (removelast (row E'))).

(** [editorDelChar()] with that row deletion. *)
Definition editorDelChar_spare (E : editorConfig) : result editorConfig :=
  if cy E =? numrows E then Ok E
  else if (cx E =? 0) && (cy E =? 0) then Ok E
  else
    r <- get_row (row E) (cy E) ;;
    if cx E >? 0
    then
      E <- editorRowDelChar E (cy E) (cx E - 1) ;;
      Ok (set_cx E (cx E - 1))
    else
      p <- get_row (row E) (cy E - 1) ;;
      let E := set_cx E (size p) in
      E <- editorRowAppendString E (cy E - 1) (chars r) (size r) ;;
      E <- editorDelRow_spare E (cy E) ;;
      Ok (set_cy E (cy E - 1)).

(** The transition system of that build: the two operations that
    delete a row use the slot past the array, the others are as in
    [apply_op]. *)
Definition apply_op_spare (o : op) (st : editorConfig * findState)
  : result (editorConfig * findState) :=
  match o with
  | OpDelRow at_ => E' <- editorDelRow_spare (fst st) at_ ;; Ok (E', snd st)
  | OpDelChar => E' <- editorDelChar_spare (fst st) ;; Ok (E', snd st)
  | _ => apply_op o st
  end.

Fixpoint run_spare (ops : list op) (st : editorConfig * findState)
  : result (editorConfig * findState) :=
  match ops with
  | [] => Ok st
  | o :: ops' => st' <- apply_op_spare o st ;; run_spare ops' st'
  end.

End Spare.

(** A row whose sizes and highlight fit its buffers and whose display
    text is the one [editorUpdateRow] computes from its raw text. *)
Definition row_inv (r : erow) : Prop := row_ok r /\ shown r.

(** The row array holds the document, and every slot of it, used or
    not, holds such a row. *)
Definition array_inv (E : editorConfig) : Prop :=
  0 <= numrows E <= zlen (row E) /\ Forall row_inv (row E).

(** The rows of the document: the first [numrows] slots of the array. *)
Definition doc_rows (E : editorConfig) : list erow :=
  firstn (Z.to_nat (numrows E)) (row E).

(** The part of [row_inv] that does not depend on the highlight. *)
Definition text_inv (r : erow) : Prop := text_ok r /\ shown r.

(** The highlight of a row has one cell per display byte. *)
Definition hl_fits (r : erow) : Prop := zlen (hl r) = rsize r.

(** A session with deletions: a C file of three lines is loaded, a
    comment opener and a newline are typed, Backspace at the start of
    the new line joins it to the line above, a row is deleted, a byte
    is typed, a search is run, a row is deleted while the match is
    marked, and the search is accepted. *)
Definition delete_ops : list op :=
  [ OpOpen (cs "a.c") [cs "int x = 42;" ++ [LF]; cs "return x;" ++ [LF]; cs "}" ++ [LF]];
    OpInsertChar 47; OpInsertChar 42; OpInsertNewline;
    OpDelChar; OpDelRow 1; OpInsertChar 120;
    OpFindCallback (cs "x") 120; OpFindCallback (cs "x") ARROW_DOWN;
    OpDelRow 1; OpFindCallback (cs "x") KEY_ENTER ].

Definition delete_end : editorConfig * findState :=
  match run_spare fresh_slot delete_ops (initEditor 24 80, find_init) with
  | Ok st => st
  | Fault _ => (initEditor 24 80, find_init)
  end.

(* ================================================================= *)
(** ** Sample documents: the key handler *)

(** The two-line document in edit mode, with unsaved changes and the
    cursor at the start of its second line. *)
Definition edit_doc : editorConfig :=
  set_dirty (set_editorMode (set_cy (set_cx two_lines 0) 1) 1) 1.

(* ================================================================= *)
(** ** Sample documents: a line split above the last line *)

(** A C file of the four lines [x], [y], a quote followed by [/*], and
    [b] is opened; the cursor goes to the third line, behind the
    quote, and Enter splits the line; the cursor goes back to the
    first line, where [/] is typed at its start. *)
Definition stale_ops : list op :=
  [ OpOpen (cs "a.c") [cs "x" ++ [LF]; cs "y" ++ [LF]; DQUOTE :: cs "/*" ++ [LF];
                       cs "b" ++ [LF]];
    OpMoveCursor ARROW_DOWN; OpMoveCursor ARROW_DOWN; OpMoveCursor ARROW_RIGHT;
    OpInsertNewline;
    OpMoveCursor ARROW_UP; OpMoveCursor ARROW_UP; OpMoveCursor ARROW_UP;
    OpInsertChar 47 ].

(* ================================================================= *)
(** ** How a call ends *)

(** No row has an index below its slot.  The rows of a consistent
    document have their slots as indices; a row deletion leaves the
    indices of the rows behind it too large. *)
Definition idx_ge (rows : list erow) : Prop :=
  forall k r, nth_error rows k = Some r -> Z.of_nat k <= idx r.

(** How a call ends: with a result that has the property [P], or at an
    access outside a buffer; never for lack of fuel. *)
Definition ends_with {A : Type} (P : A -> Prop) (x : result A) : Prop :=
  match x with
  | Ok a => P a
  | Fault f => f <> OutOfFuel
  end.

(** What the operations keep, deletions included. *)
Definition spare_inv (E : editorConfig) : Prop :=
  array_inv E /\ idx_ge (row E).

(* ================================================================= *)
(** ** Tactics *)

Ltac scan_simpl :=
  cbn [sc_i sc_hl sc_prev_sep sc_in_comment sc_in_string bind good_step] in *.

(** Invert [bind]s in a hypothesis [H : ... = Ok _]. *)
Ltac bind_inv H :=
  repeat match type of H with
         | bind ?r _ = Ok _ =>
             let x := fresh "x" in
             let Hx := fresh "Hx" in
             destruct r as [x|] eqn:Hx; [cbn [bind] in H | discriminate H]
         end.

(* ================================================================= *)
(** * Properties *)

(** ** The two column spaces *)

Lemma advance_rx_gt (c : ascii) (rx : Z) : 0 <= rx -> rx < advance_rx c rx.
Proof.
  intros Hrx. unfold advance_rx, EDITOR_TAB_STOP.
  destruct (Ascii.eqb c TAB); [|lia].
  assert (0 <= Z.rem rx 2 < 2) by (apply Z.rem_bound_pos; lia). lia.
Qed.

Lemma CxToRx_loop_snoc (r : erow) (n : nat) (j rx : Z) :
  CxToRx_loop r (S n) j rx =
  advance_rx (byte_at (chars r) (j + Z.of_nat n)) (CxToRx_loop r n j rx).
Proof.
  revert j rx. induction n as [|n IH]; intros j rx.
  - simpl. now rewrite Z.add_0_r.
  - change (CxToRx_loop r (S (S n)) j rx)
      with (CxToRx_loop r (S n) (j + 1) (advance_rx (byte_at (chars r) j) rx)).
    rewrite IH. simpl CxToRx_loop. f_equal. f_equal. lia.
Qed.

Lemma editorRowCxToRx_succ (r : erow) (k : Z) :
  0 <= k ->
  editorRowCxToRx r (k + 1) = advance_rx (byte_at (chars r) k) (editorRowCxToRx r k).
Proof.
  intros Hk. unfold editorRowCxToRx.
  replace (Z.to_nat (k + 1)) with (S (Z.to_nat k)) by lia.
  rewrite CxToRx_loop_snoc. f_equal. f_equal. lia.
Qed.

Lemma editorRowCxToRx_nonneg (r : erow) (k : Z) : 0 <= editorRowCxToRx r k.
Proof.
  destruct (Z_lt_le_dec k 0) as [Hneg|Hk].
  - unfold editorRowCxToRx. replace (Z.to_nat k) with O by lia. simpl. lia.
  - pattern k. apply natlike_ind; [| | exact Hk].
    + unfold editorRowCxToRx. simpl. lia.
    + intros x Hx IH. unfold Z.succ.
      rewrite editorRowCxToRx_succ by lia.
      pose proof (advance_rx_gt (byte_at (chars r) x) _ IH). lia.
Qed.

Lemma editorRowCxToRx_lt (r : erow) (a b : Z) :
  0 <= a < b -> editorRowCxToRx r a < editorRowCxToRx r b.
Proof.
  intros [Ha Hab].
  assert (Hgen : forall d, 0 <= d ->
            editorRowCxToRx r a < editorRowCxToRx r (a + 1 + d)).
  { intros d Hd. pattern d. apply natlike_ind; [| |exact Hd].
    - rewrite Z.add_0_r, editorRowCxToRx_succ by lia.
      apply advance_rx_gt, editorRowCxToRx_nonneg.
    - intros x Hx IH. replace (a + 1 + Z.succ x) with ((a + 1 + x) + 1) by lia.
      rewrite editorRowCxToRx_succ by lia.
      pose proof (advance_rx_gt (byte_at (chars r) (a + 1 + x)) _
                    (editorRowCxToRx_nonneg r (a + 1 + x))). lia. }
  replace b with (a + 1 + (b - a - 1)) by lia. apply Hgen. lia.
Qed.

Lemma RxToCx_loop_inverse (r : erow) (n : nat) (k target : Z) :
  0 <= k <= target ->
  target <= k + Z.of_nat n ->
  RxToCx_loop r n k (editorRowCxToRx r k) (editorRowCxToRx r target) = target.
Proof.
  revert k. induction n as [|n IH]; intros k Hk Hn.
  - simpl. lia.
  - simpl. rewrite <- editorRowCxToRx_succ by lia.
    destruct (Z.eq_dec k target) as [->|Hne].
    + pose proof (editorRowCxToRx_lt r target (target + 1)).
      destruct (Z.gtb_spec (editorRowCxToRx r (target + 1)) (editorRowCxToRx r target));
        [reflexivity | lia].
    + assert (Hle : editorRowCxToRx r (k + 1) <= editorRowCxToRx r target).
      { destruct (Z.eq_dec (k + 1) target) as [->|]; [lia|].
        pose proof (editorRowCxToRx_lt r (k + 1) target). lia. }
      destruct (Z.gtb_spec (editorRowCxToRx r (k + 1)) (editorRowCxToRx r target));
        [lia|].
      apply IH; lia.
Qed.

(** C4.  Converting a raw column of a row to its display column with
    [editorRowCxToRx] and back with [editorRowRxToCx] is the identity,
    for every row and every raw column [0 <= cx <= row.size]. *)
Theorem C4_rx_to_cx_of_cx_to_rx (r : erow) (c : Z) :
  0 <= c <= size r ->
  editorRowRxToCx r (editorRowCxToRx r c) = c.
Proof.
  intros Hc. unfold editorRowRxToCx.
  change 0 with (editorRowCxToRx r 0) at 2.
  apply RxToCx_loop_inverse; lia.
Qed.

Lemma C4_rx_to_cx_of_cx_to_rx_witness :
  0 <= 3 <= size tabbed_row /\
  editorRowRxToCx tabbed_row (editorRowCxToRx tabbed_row 3) = 3.
Proof.
  assert (H : 0 <= 3 <= size tabbed_row) by (simpl; lia).
  split; [exact H | exact (C4_rx_to_cx_of_cx_to_rx tabbed_row 3 H)].
Defined.

(** ** Scrolling *)

Lemma editorScroll_rx (E : editorConfig) : rx (editorScroll E) = cx E.
Proof.
  unfold editorScroll.
  repeat match goal with
         | |- context [if ?b then _ else _] => destruct b
         end; reflexivity.
Qed.

(** C1 (the code departs from the claim).  On a row that starts with a
    tab, with the cursor on raw column 1, [editorScroll] leaves
    [E.rx = 1], the raw column, while the display column
    [editorRowCxToRx] of that cursor is 2. *)
Theorem C1_editorScroll_keeps_raw_column :
  exists E r,
    tab_doc = Ok E /\ get_row (row E) (cy E) = Ok r /\
    chars r = [TAB; "x"%char] /\ cx E = 1 /\ cy E = 0 /\
    rx (editorScroll E) = 1 /\ editorRowCxToRx r (cx E) = 2.
Proof.
  eexists. eexists.
  split; [vm_compute; reflexivity|].
  split; [vm_compute; reflexivity|].
  repeat split.
Qed.

(** ** The string escape *)

(** C2 (the code departs from the claim).  In the C line holding the
    four bytes of a string literal with the escape backslash-n, the
    scanner inside the string at the backslash classifies the backslash
    as String a second time and skips the next byte, which is left
    Normal; the string stays open until the closing quote. *)
Theorem C2_escaped_byte_left_normal :
  exists E r syn,
    escape_doc = Ok E /\ syntax E = Some syn /\ get_row (row E) 0 = Ok r /\
    render r = escape_line /\
    scan_step syn r (mkScan 1 true DQUOTE false
                       [HL_STRING; HL_NORMAL; HL_NORMAL; HL_NORMAL])
    = Ok (Continue (mkScan 3 true DQUOTE false
                      [HL_STRING; HL_STRING; HL_NORMAL; HL_NORMAL])) /\
    hl r = [HL_STRING; HL_STRING; HL_NORMAL; HL_STRING].
Proof.
  eexists. eexists. eexists.
  split; [vm_compute; reflexivity|].
  split; [vm_compute; reflexivity|].
  split; [vm_compute; reflexivity|].
  repeat split.
Qed.

(** ** The row array *)

Lemma get_row_Ok (rows : list erow) (k : Z) (r : erow) :
  get_row rows k = Ok r <-> 0 <= k /\ nth_error rows (Z.to_nat k) = Some r.
Proof.
  unfold get_row. destruct (Z.ltb_spec k 0).
  - split; [discriminate | lia].
  - destruct (nth_error rows (Z.to_nat k)) eqn:Hn; split.
    + intros [= ->]. auto.
    + intros [_ [= ->]]. reflexivity.
    + discriminate.
    + intros [_ [=]].
Qed.

Lemma get_row_range (rows : list erow) (k : Z) (r : erow) :
  get_row rows k = Ok r -> 0 <= k < zlen rows.
Proof.
  intros H. apply get_row_Ok in H. destruct H as [Hk Hn].
  assert (Z.to_nat k < length rows)%nat by (apply nth_error_Some; congruence).
  unfold zlen. lia.
Qed.

Lemma get_row_in_range (rows : list erow) (k : Z) :
  0 <= k < zlen rows -> exists r, get_row rows k = Ok r.
Proof.
  intros Hk. unfold zlen in Hk.
  destruct (nth_error rows (Z.to_nat k)) eqn:Hn.
  - exists e. apply get_row_Ok. split; [lia | assumption].
  - apply nth_error_None in Hn. lia.
Qed.

Lemma get_row_outside (rows : list erow) (k : Z) :
  ~ 0 <= k < zlen rows -> get_row rows k = Fault (RowOutOfBounds k).
Proof.
  intros Hk. unfold get_row. destruct (Z.ltb_spec k 0); [reflexivity|].
  destruct (nth_error rows (Z.to_nat k)) eqn:Hn; [|reflexivity].
  exfalso. apply Hk.
  assert (Z.to_nat k < length rows)%nat by (apply nth_error_Some; congruence).
  unfold zlen. lia.
Qed.

Lemma put_row_in_range (rows : list erow) (k : Z) (r : erow) :
  0 <= k < zlen rows -> put_row rows k r = Ok (replace_nth (Z.to_nat k) rows r).
Proof.
  intros Hk. unfold put_row.
  destruct (Z.ltb_spec k 0); [lia|].
  destruct (Z.leb_spec (zlen rows) k); [lia|]. reflexivity.
Qed.

Lemma put_row_Ok (rows rows' : list erow) (k : Z) (r : erow) :
  put_row rows k r = Ok rows' ->
  0 <= k < zlen rows /\ rows' = replace_nth (Z.to_nat k) rows r.
Proof.
  unfold put_row.
  destruct (Z.ltb_spec k 0); [discriminate|].
  destruct (Z.leb_spec (zlen rows) k); [discriminate|].
  simpl. intros [= <-]. split; [lia | reflexivity].
Qed.

Lemma replace_nth_length {A : Type} (n : nat) (l : list A) (x : A) :
  length (replace_nth n l x) = length l.
Proof.
  revert n. induction l as [|a l IH]; intros [|n]; simpl; auto.
Qed.

Lemma nth_error_replace_nth_eq {A : Type} (n : nat) (l : list A) (x : A) :
  (n < length l)%nat -> nth_error (replace_nth n l x) n = Some x.
Proof.
  revert n. induction l as [|a l IH]; intros [|n] Hn; simpl in *; try lia; auto.
  apply IH. lia.
Qed.

Lemma nth_error_replace_nth_ne {A : Type} (n m : nat) (l : list A) (x : A) :
  n <> m -> nth_error (replace_nth n l x) m = nth_error l m.
Proof.
  revert n m. induction l as [|a l IH]; intros [|n] [|m] Hnm; simpl; auto.
  - congruence.
Qed.

Lemma zlen_replace_nth {A : Type} (n : nat) (l : list A) (x : A) :
  zlen (replace_nth n l x) = zlen l.
Proof. unfold zlen. now rewrite replace_nth_length. Qed.

(** The index loop shared by the two row operations runs up to slot
    [numrows] inclusive: on an array of [numrows] slots its last turn is
    outside the array. *)
Lemma idx_loop_overrun (n : nat) (j : Z) (rows : list erow) :
  0 <= j ->
  j + Z.of_nat n = zlen rows ->
  idx_loop (S n) j rows = Fault (RowOutOfBounds (zlen rows)).
Proof.
  revert j rows. induction n as [|n IH]; intros j rows Hj Hlen.
  - simpl. rewrite get_row_outside by lia. simpl. f_equal. f_equal. lia.
  - change (idx_loop (S (S n)) j rows)
      with (r <- get_row rows j ;;
            rows' <- put_row rows j (set_idx r (idx r + 1)) ;;
            idx_loop (S n) (j + 1) rows').
    destruct (get_row_in_range rows j) as [r Hr]; [lia|].
    rewrite Hr. cbn [bind].
    rewrite put_row_in_range by lia. cbn [bind].
    rewrite IH.
    + now rewrite zlen_replace_nth.
    + lia.
    + rewrite zlen_replace_nth. lia.
Qed.

Lemma memmove_rows_length (rows rows' : list erow) (dst src n : Z) :
  memmove_rows rows dst src n = Ok rows' -> zlen rows' = zlen rows.
Proof.
  unfold memmove_rows.
  destruct (Z.leb_spec n 0); [now intros [= <-]|].
  destruct (Z.ltb_spec src 0); [discriminate|].
  destruct (Z.ltb_spec (zlen rows) (src + n)); [discriminate|].
  destruct (Z.ltb_spec dst 0); [discriminate|].
  destruct (Z.ltb_spec (zlen rows) (dst + n)); [discriminate|].
  simpl. intros [= <-]. unfold zlen in *.
  rewrite !length_app, !length_firstn, !length_skipn. lia.
Qed.

(** [editorDelRow] with a row to delete never completes on an array of
    exactly [numrows] slots: its index loop reaches slot [numrows]. *)
Lemma editorDelRow_overrun (E : editorConfig) (at_ : Z) :
  numrows E = zlen (row E) ->
  0 <= at_ < numrows E ->
  editorDelRow E at_ = Fault (RowOutOfBounds (numrows E)).
Proof.
  intros Hn Hat. unfold editorDelRow.
  destruct (Z.ltb_spec at_ 0); [lia|].
  destruct (Z.geb_spec at_ (numrows E)); [lia|]. simpl orb. cbv iota.
  destruct (memmove_rows (row E) at_ (at_ + 1) (numrows E - at_ - 1)) as [rows|f] eqn:Hm.
  - cbn [bind]. apply memmove_rows_length in Hm.
    replace (Z.to_nat (numrows E + 1 - (at_ + 1)))
      with (S (Z.to_nat (numrows E - at_ - 1))) by lia.
    rewrite idx_loop_overrun; [simpl; congruence | lia | lia].
  - exfalso. revert Hm. unfold memmove_rows.
    destruct (Z.leb_spec (numrows E - at_ - 1) 0); [discriminate|].
    destruct (Z.ltb_spec (at_ + 1) 0); [lia|].
    destruct (Z.ltb_spec (zlen (row E)) (at_ + 1 + (numrows E - at_ - 1))); [lia|].
    destruct (Z.ltb_spec at_ 0); [lia|].
    destruct (Z.ltb_spec (zlen (row E)) (at_ + (numrows E - at_ - 1))); [lia|].
    discriminate.
Qed.

(** C3 (the code departs from the claim).  On a document of three rows
    with indices 0, 1, 2, [editorDelRow(0)] touches slot 3, outside the
    array of three slots; in an array with a spare slot, where the loop
    stays inside the allocation, the two surviving rows end with
    indices 1 and 3 instead of 0 and 1. *)
Theorem C3_editorDelRow_breaks_indices :
  exists E,
    three_rows = Ok E /\ numrows E = 3 /\ map idx (row E) = [0; 1; 2] /\
    editorDelRow E 0 = Fault (RowOutOfBounds 3) /\
    exists E',
      editorDelRow (set_rows E (row E ++ [fresh_slot])) 0 = Ok E' /\
      numrows E' = 2 /\
      map idx (firstn 2 (row E')) = [1; 3].
Proof.
  eexists. split; [vm_compute; reflexivity|].
  repeat split.
  eexists. split; [vm_compute; reflexivity|].
  repeat split.
Qed.

(** ** The quit key *)


(* ================================================================= *)
(** ** Buffers *)

Lemma bind_Ok {A B : Type} (r : result A) (k : A -> result B) (b : B) :
  bind r k = Ok b -> exists a, r = Ok a /\ k a = Ok b.
Proof. destruct r as [a|f]; simpl; [eauto | discriminate]. Qed.

Lemma zlen_nonneg {A : Type} (l : list A) : 0 <= zlen l.
Proof. unfold zlen. lia. Qed.

Lemma zlen_app {A : Type} (l1 l2 : list A) : zlen (l1 ++ l2) = zlen l1 + zlen l2.
Proof. unfold zlen. rewrite length_app. lia. Qed.

Lemma zlen_repeat {A : Type} (v : A) (n : nat) : zlen (repeat v n) = Z.of_nat n.
Proof. unfold zlen. now rewrite repeat_length. Qed.

Lemma zlen_splice {A : Type} (buf : list A) (i : Z) (v : A) (n : Z) :
  0 <= i -> 0 <= n -> i + n <= zlen buf -> zlen (splice buf i v n) = zlen buf.
Proof.
  intros Hi Hn Hb. unfold splice, zlen in *.
  rewrite !length_app, repeat_length, length_firstn, length_skipn. lia.
Qed.

Lemma firstn_splice {A : Type} (buf : list A) (i : Z) (v : A) (n : Z) (k : nat) :
  0 <= i -> i <= zlen buf -> (k <= Z.to_nat i)%nat ->
  firstn k (splice buf i v n) = firstn k buf.
Proof.
  intros Hi Hb Hk. unfold splice, zlen in *.
  rewrite firstn_app.
  replace (k - length (firstn (Z.to_nat i) buf))%nat with O
    by (rewrite length_firstn; lia).
  rewrite firstn_O, app_nil_r, firstn_firstn. f_equal. lia.
Qed.

Lemma hl_at_nth (buf : list editorHighlight) (j : Z) :
  0 <= j -> hl_at buf j = nth (Z.to_nat j) buf HL_NORMAL.
Proof. intros Hj. unfold hl_at. destruct (Z.ltb_spec j 0); [lia | reflexivity]. Qed.

Lemma hl_at_splice_in (buf : list editorHighlight) (i : Z) (v : editorHighlight)
  (n j : Z) :
  0 <= i -> i + n <= zlen buf -> i <= j < i + n ->
  hl_at (splice buf i v n) j = v.
Proof.
  intros Hi Hb Hj. rewrite hl_at_nth by lia. unfold splice, zlen in *.
  rewrite app_nth2 by (rewrite length_firstn; lia).
  rewrite length_firstn.
  rewrite app_nth1 by (rewrite repeat_length; lia).
  apply nth_repeat_lt. lia.
Qed.

Lemma hl_at_firstn_eq (a b : list editorHighlight) (k : nat) (j : Z) :
  firstn k a = firstn k b -> 0 <= j < Z.of_nat k -> hl_at a j = hl_at b j.
Proof.
  intros Heq Hj. rewrite !hl_at_nth by lia.
  rewrite <- (firstn_skipn k a), <- (firstn_skipn k b), Heq.
  destruct (Nat.lt_ge_cases (Z.to_nat j) (length (firstn k b))) as [Hlt|Hge].
  - now rewrite !app_nth1 by assumption.
  - assert (Ha : length (firstn k a) = length (firstn k b)) by now rewrite Heq.
    rewrite length_firstn in Hge, Ha. rewrite length_firstn in Ha.
    assert (length a <= Z.to_nat j)%nat by lia.
    assert (length b <= Z.to_nat j)%nat by lia.
    rewrite <- Heq at 1. rewrite (firstn_skipn k a), (firstn_skipn k b).
    now rewrite !nth_overflow by assumption.
Qed.

Lemma memset_Ok {A : Type} (buf : list A) (i : Z) (v : A) (n : Z) :
  0 <= i -> 0 <= n -> i + n <= zlen buf -> memset buf i v n = Ok (splice buf i v n).
Proof.
  intros Hi Hn Hb. unfold memset.
  destruct (Z.ltb_spec i 0); [lia|].
  destruct (Z.ltb_spec n 0); [lia|].
  destruct (Z.ltb_spec (zlen buf) (i + n)); [lia|]. reflexivity.
Qed.

Lemma memset_inv {A : Type} (buf buf' : list A) (i : Z) (v : A) (n : Z) :
  memset buf i v n = Ok buf' ->
  0 <= i /\ 0 <= n /\ i + n <= zlen buf /\ buf' = splice buf i v n.
Proof.
  unfold memset.
  destruct (Z.ltb_spec i 0); [discriminate|].
  destruct (Z.ltb_spec n 0); [discriminate|].
  destruct (Z.ltb_spec (zlen buf) (i + n)); [discriminate|].
  simpl. intros [= <-]. repeat split; lia.
Qed.

(** ** Strings *)

Lemma strncmp0_bound (s1 t : list ascii) (n : nat) :
  (n <= length (cstr t))%nat -> strncmp0 s1 t n = true -> (n <= length s1)%nat.
Proof.
  revert s1 t. induction n as [|n IH]; intros s1 t Hn Hm; [lia|].
  destruct t as [|c t]; [cbn [cstr length] in Hn; lia|].
  cbn [cstr] in Hn.
  destruct (Ascii.eqb_spec c NUL) as [->|Hc]; [cbn [length] in Hn; lia|].
  cbn [length] in Hn. cbn [strncmp0 hd tl] in Hm.
  destruct s1 as [|a s1]; cbn [hd tl] in Hm.
  - destruct (Ascii.eqb_spec NUL c) as [<-|]; [contradiction | discriminate].
  - destruct (Ascii.eqb_spec a c) as [->|]; [|discriminate].
    destruct (Ascii.eqb_spec c NUL); [contradiction|].
    cbn [length]. apply le_n_S. apply (IH s1 t); [lia | assumption].
Qed.

Lemma matches_at_bound (r : erow) (i : Z) (t : list ascii) (n : Z) :
  rsize r = zlen (render r) -> 0 <= i <= rsize r -> 0 <= n <= strlen t ->
  matches_at r i t n = true -> i + n <= rsize r.
Proof.
  intros Hr Hi Hn Hm. unfold matches_at, offset in Hm.
  apply strncmp0_bound in Hm.
  - rewrite length_skipn in Hm. unfold zlen in Hr. lia.
  - unfold strlen, zlen in Hn. lia.
Qed.

Lemma tok_len_nonneg (t : option string) : 0 <= tok_len t.
Proof. destruct t; simpl; [apply zlen_nonneg | lia]. Qed.

Lemma tok_len_strlen (t : option string) : tok_len t <= strlen (tok t).
Proof. destruct t; simpl; [lia | unfold strlen; simpl; apply zlen_nonneg]. Qed.

(* ================================================================= *)
(** ** The scanning loop *)

Lemma step_post_splice (r : erow) (s : scan) (v : editorHighlight) (n i' : Z)
  (ps : bool) (ins : ascii) (inc : bool) :
  scan_inv r s -> 0 <= n -> sc_i s + n <= rsize r ->
  sc_i s <= i' <= rsize r ->
  step_post r s (mkScan i' ps ins inc (splice (sc_hl s) (sc_i s) v n)).
Proof.
  intros [Hi Hl] Hn Hb Hi'. unfold step_post, scan_inv. scan_simpl.
  rewrite zlen_splice by lia.
  rewrite firstn_splice by lia. repeat split; lia.
Qed.

Lemma splice_splice_same {A : Type} (buf : list A) (i : Z) (v : A) (n : Z) :
  0 <= i -> 1 <= n -> i + n <= zlen buf ->
  splice (splice buf i v 1) i v n = splice buf i v n.
Proof.
  intros Hi Hn Hb. unfold splice.
  assert (Hlen : length (firstn (Z.to_nat i) buf) = Z.to_nat i).
  { rewrite length_firstn. unfold zlen in Hb. lia. }
  rewrite firstn_app, Hlen, Nat.sub_diag, firstn_O, app_nil_r.
  rewrite firstn_firstn, Nat.min_id.
  do 2 f_equal.
  rewrite skipn_app, Hlen.
  rewrite (skipn_all2 (firstn (Z.to_nat i) buf)) by lia.
  cbn [app].
  replace (Z.to_nat (i + n) - Z.to_nat i)%nat with (Z.to_nat n) by lia.
  rewrite skipn_app, repeat_length.
  rewrite (skipn_all2 (repeat v (Z.to_nat 1))) by (rewrite repeat_length; lia).
  cbn [app]. rewrite skipn_skipn. f_equal. lia.
Qed.

Lemma scan_line_comment_good (syn : editorSyntax) (r : erow) (s : scan) x :
  rsize r = zlen (render r) -> scan_inv r s -> sc_i s < rsize r ->
  scan_line_comment syn r s = Some x -> good_step r s x.
Proof.
  intros Hr Hinv Hlt. pose proof Hinv as [Hi Hl]. unfold scan_line_comment.
  destruct (_ && _ && _); [|discriminate].
  destruct (matches_at _ _ _ _); [|discriminate].
  intros [= <-]. rewrite memset_Ok by lia. scan_simpl.
  split; [|reflexivity]. destruct s; apply step_post_splice; scan_simpl; auto; lia.
Qed.

Lemma scan_block_comment_good (syn : editorSyntax) (r : erow) (s : scan) x :
  rsize r = zlen (render r) -> scan_inv r s -> sc_i s < rsize r ->
  scan_block_comment syn r s = Some x -> good_step r s x.
Proof.
  intros Hr Hinv Hlt. pose proof Hinv as [Hi Hl]. unfold scan_block_comment.
  destruct (Z.eqb_spec (mcs_len syn) 0) as [|Hmcs]; [discriminate|].
  destruct (Z.eqb_spec (mce_len syn) 0) as [|Hmce]; [discriminate|].
  cbn [negb andb].
  destruct (Ascii.eqb (sc_in_string s) NUL); [|discriminate].
  pose proof (tok_len_nonneg (multiline_comment_start syn)) as Hs0.
  pose proof (tok_len_nonneg (multiline_comment_end syn)) as He0.
  pose proof (tok_len_strlen (multiline_comment_start syn)) as Hs1.
  pose proof (tok_len_strlen (multiline_comment_end syn)) as He1.
  fold (mcs_len syn) in Hs0, Hs1. fold (mce_len syn) in He0, He1.
  fold (mcs syn) in Hs1. fold (mce syn) in He1.
  destruct (sc_in_comment s) eqn:Hin.
  - intros [= <-]. unfold store. rewrite memset_Ok by lia. scan_simpl.
    destruct (matches_at r (sc_i s) (mce syn) (mce_len syn)) eqn:Hm.
    + apply matches_at_bound in Hm; [|assumption|lia|lia].
      rewrite memset_Ok by (rewrite ?zlen_splice; lia). scan_simpl.
      rewrite splice_splice_same by lia.
      split; [apply step_post_splice; auto; lia|].
      unfold scan_measure. scan_simpl. destruct (sc_prev_sep s); lia.
    + scan_simpl. split; [apply step_post_splice; auto; lia|].
      unfold scan_measure. scan_simpl. destruct (sc_prev_sep s); lia.
  - destruct (matches_at r (sc_i s) (mcs syn) (mcs_len syn)) eqn:Hm; [|discriminate].
    apply matches_at_bound in Hm; [|assumption|lia|lia].
    intros [= <-]. rewrite memset_Ok by lia. scan_simpl.
    split; [apply step_post_splice; auto; lia|].
    unfold scan_measure. scan_simpl. destruct (sc_prev_sep s); lia.
Qed.

Lemma scan_string_good (syn : editorSyntax) (r : erow) (s : scan) x :
  rsize r = zlen (render r) -> scan_inv r s -> sc_i s < rsize r ->
  scan_string syn r s = Some x -> good_step r s x.
Proof.
  intros Hr Hinv Hlt. pose proof Hinv as [Hi Hl]. unfold scan_string.
  destruct (negb _); [|discriminate].
  destruct (negb (Ascii.eqb (sc_in_string s) NUL)).
  - intros [= <-]. unfold store. rewrite memset_Ok by lia. scan_simpl.
    destruct (Ascii.eqb _ BACKSLASH); cbn [andb].
    + destruct (Z.ltb_spec (sc_i s + 1) (rsize r)).
      * rewrite memset_Ok by (rewrite ?zlen_splice; lia). scan_simpl.
        rewrite splice_splice_same by lia.
        split; [apply step_post_splice; auto; lia|].
        unfold scan_measure. scan_simpl. destruct (sc_prev_sep s); lia.
      * scan_simpl. split; [apply step_post_splice; auto; lia|].
        unfold scan_measure. scan_simpl. destruct (sc_prev_sep s); lia.
    + scan_simpl. split; [apply step_post_splice; auto; lia|].
      unfold scan_measure. scan_simpl. destruct (sc_prev_sep s); lia.
  - destruct (_ || _); [|discriminate].
    intros [= <-]. unfold store. rewrite memset_Ok by lia. scan_simpl.
    split; [apply step_post_splice; auto; lia|].
    unfold scan_measure. scan_simpl. destruct (sc_prev_sep s); lia.
Qed.

Lemma scan_number_good (syn : editorSyntax) (r : erow) (s : scan) x :
  rsize r = zlen (render r) -> scan_inv r s -> sc_i s < rsize r ->
  scan_number syn r s = Some x -> good_step r s x.
Proof.
  intros Hr Hinv Hlt. pose proof Hinv as [Hi Hl]. unfold scan_number.
  destruct (negb _); [|discriminate].
  destruct (_ || _); [|discriminate].
  intros [= <-]. unfold store. rewrite memset_Ok by lia. scan_simpl.
  split; [apply step_post_splice; auto; lia|].
  unfold scan_measure. scan_simpl. destruct (sc_prev_sep s); lia.
Qed.

Lemma byte_at_neg (buf : list ascii) (i : Z) : i < 0 -> byte_at buf i = NUL.
Proof. intros H. unfold byte_at. destruct (Z.ltb_spec i 0); [reflexivity | lia]. Qed.

Lemma find_keyword_bound (kws : list string) (r : erow) (i klen : Z) (kw2 : bool) :
  rsize r = zlen (render r) -> 0 <= i <= rsize r ->
  find_keyword kws r i = Some (klen, kw2) -> 0 <= klen /\ i + klen <= rsize r.
Proof.
  intros Hr Hi. induction kws as [|kw kws IH]; [discriminate|].
  cbn [find_keyword]. 
  set (k := cs kw). set (klen0 := strlen k).
  set (b := Ascii.eqb (byte_at k (klen0 - 1)) BAR).
  destruct (matches_at r i k (if b then klen0 - 1 else klen0) && _) eqn:Hm; [|exact IH].
  intros [= <- <-]. apply andb_prop in Hm. destruct Hm as [Hm _].
  assert (H0 : 0 <= klen0) by apply zlen_nonneg.
  assert (Hk : 0 <= (if b then klen0 - 1 else klen0) <= strlen k).
  { destruct b eqn:Hb; [|fold klen0; lia].
    fold klen0. split; [|lia].
    destruct (Z.eq_dec klen0 0) as [Hz|]; [|lia].
    subst b. rewrite Hz, byte_at_neg in Hb by lia. discriminate. }
  split; [lia|]. eapply matches_at_bound; eauto.
Qed.

Lemma scan_keyword_good (syn : editorSyntax) (r : erow) (s : scan) x :
  rsize r = zlen (render r) -> scan_inv r s -> sc_i s < rsize r ->
  scan_keyword syn r s = Some x -> good_step r s x.
Proof.
  intros Hr Hinv Hlt. pose proof Hinv as [Hi Hl]. unfold scan_keyword.
  destruct (sc_prev_sep s) eqn:Hps; [|discriminate].
  destruct (find_keyword _ _ _) as [[klen kw2]|] eqn:Hk; [|discriminate].
  apply find_keyword_bound in Hk; [|assumption|lia].
  intros [= <-]. rewrite memset_Ok by lia. scan_simpl.
  split; [apply step_post_splice; auto; lia|].
  unfold scan_measure. scan_simpl. rewrite Hps. lia.
Qed.

Lemma scan_default_good (r : erow) (s : scan) :
  scan_inv r s -> sc_i s < rsize r -> good_step r s (scan_default r s).
Proof.
  intros Hinv Hlt. pose proof Hinv as [Hi Hl]. unfold scan_default. scan_simpl.
  split.
  - unfold step_post, scan_inv. scan_simpl. repeat split; lia.
  - unfold scan_measure. scan_simpl.
    destruct (sc_prev_sep s), (is_separator _); lia.
Qed.

Lemma scan_step_good (syn : editorSyntax) (r : erow) (s : scan) :
  rsize r = zlen (render r) -> scan_inv r s -> sc_i s < rsize r ->
  good_step r s (scan_step syn r s).
Proof.
  intros Hr Hinv Hlt. unfold scan_step.
  destruct (scan_line_comment syn r s) eqn:H1; cbn [or_else];
    [eapply scan_line_comment_good; eauto|].
  destruct (scan_block_comment syn r s) eqn:H2; cbn [or_else];
    [eapply scan_block_comment_good; eauto|].
  destruct (scan_string syn r s) eqn:H3; cbn [or_else];
    [eapply scan_string_good; eauto|].
  destruct (scan_number syn r s) eqn:H4; cbn [or_else];
    [eapply scan_number_good; eauto|].
  destruct (scan_keyword syn r s) eqn:H5; cbn [or_else];
    [eapply scan_keyword_good; eauto|].
  now apply scan_default_good.
Qed.

Lemma firstn_le_eq {A : Type} (a b : list A) (k k' : nat) :
  (k <= k')%nat -> firstn k' a = firstn k' b -> firstn k a = firstn k b.
Proof.
  intros Hk Heq.
  replace (firstn k a) with (firstn k (firstn k' a))
    by (rewrite firstn_firstn; f_equal; lia).
  replace (firstn k b) with (firstn k (firstn k' b))
    by (rewrite firstn_firstn; f_equal; lia).
  now rewrite Heq.
Qed.

Lemma scan_loop_ok (syn : editorSyntax) (r : erow) :
  rsize r = zlen (render r) ->
  forall (fuel : nat) (s : scan),
    scan_inv r s -> scan_measure r s <= Z.of_nat fuel ->
    exists s', scan_loop fuel syn r s = Ok s' /\ scan_inv r s' /\
               sc_i s <= sc_i s' /\
               firstn (Z.to_nat (sc_i s)) (sc_hl s')
               = firstn (Z.to_nat (sc_i s)) (sc_hl s).
Proof.
  intros Hr. induction fuel as [|fuel IH]; intros s Hinv Hm.
  - exists s. cbn [scan_loop].
    destruct (Z.ltb_spec (sc_i s) (rsize r)).
    + unfold scan_measure in Hm. destruct (sc_prev_sep s); lia.
    + repeat split; try apply Hinv; try lia.
  - cbn [scan_loop].
    destruct (Z.ltb_spec (sc_i s) (rsize r)) as [Hlt|Hge].
    + pose proof (scan_step_good syn r s Hr Hinv Hlt) as Hg.
      destruct (scan_step syn r s) as [[s1|s1]|f]; cbn [good_step bind] in *;
        [| |contradiction].
      * destruct Hg as [(Hinv1 & Hle & Hpre) Hdec].
        destruct (IH s1 Hinv1) as (s' & Hs' & Hinv' & Hle' & Hpre'); [lia|].
        exists s'. repeat split; try apply Hinv'; auto; try lia.
        rewrite <- Hpre. eapply firstn_le_eq; [|exact Hpre']. lia.
      * destruct Hg as [(Hinv1 & Hle & Hpre) _].
        exists s1. repeat split; try apply Hinv1; auto.
    + exists s. repeat split; try apply Hinv; lia.
Qed.


(** ** Rows and their text *)

Lemma firstn_replace_nth {A : Type} (k n : nat) (l : list A) (x : A) :
  (k <= n)%nat -> firstn k (replace_nth n l x) = firstn k l.
Proof.
  revert k n. induction l as [|a l IH]; intros [|k] [|n] Hk; simpl; auto; try lia.
  f_equal. apply IH. lia.
Qed.

Lemma map_replace_nth {A B : Type} (f : A -> B) (n : nat) (l : list A) (x a : A) :
  nth_error l n = Some a -> f x = f a -> map f (replace_nth n l x) = map f l.
Proof.
  revert n. induction l as [|h l IH]; intros [|n] Hn Hf; simpl in *; try discriminate.
  - injection Hn as ->. now rewrite Hf.
  - f_equal. now apply IH.
Qed.

Lemma nth_error_firstn_eq {A : Type} (a b : list A) (n k : nat) :
  firstn n a = firstn n b -> (k < n)%nat -> nth_error a k = nth_error b k.
Proof.
  revert b n k. induction a as [|x a IH]; intros [|y b] [|n] [|k] H Hk;
    simpl in *; try lia; try discriminate; auto.
  - injection H as -> _. reflexivity.
  - injection H as _ H. apply (IH b n k); [assumption | lia].
Qed.

Lemma map_strip_nth (a b : list erow) (k : nat) (r : erow) :
  map strip a = map strip b -> nth_error a k = Some r ->
  exists r0, nth_error b k = Some r0 /\ strip r = strip r0.
Proof.
  intros Hm Hk.
  assert (H : nth_error (map strip a) k = Some (strip r))
    by (rewrite nth_error_map, Hk; reflexivity).
  rewrite Hm, nth_error_map in H.
  destruct (nth_error b k) as [r0|]; cbn [option_map] in H; [|discriminate].
  exists r0. split; [reflexivity | congruence].
Qed.

Lemma map_strip_length (a b : list erow) :
  map strip a = map strip b -> zlen a = zlen b.
Proof.
  intros H. apply (f_equal (@length erow)) in H. rewrite !length_map in H.
  unfold zlen. now rewrite H.
Qed.

Lemma map_strip_idx_ok (a b : list erow) :
  map strip a = map strip b -> idx_ok b -> idx_ok a.
Proof.
  intros Hm Hb k r Hk.
  destruct (map_strip_nth a b k r Hm Hk) as (r0 & H0 & Hs).
  rewrite <- (Hb k r0 H0). now injection Hs.
Qed.

Lemma map_strip_text_ok (a b : list erow) :
  map strip a = map strip b -> Forall text_ok b -> Forall text_ok a.
Proof.
  intros Hm Hb. apply Forall_forall. intros r Hin.
  apply In_nth_error in Hin. destruct Hin as [k Hk].
  destruct (map_strip_nth a b k r Hm Hk) as (r0 & H0 & Hs).
  apply nth_error_In in H0. rewrite Forall_forall in Hb. specialize (Hb r0 H0).
  unfold text_ok in *. injection Hs as _ -> -> -> ->. exact Hb.
Qed.

Lemma set_rows_twice (E : editorConfig) (a b : list erow) :
  set_rows (set_rows E a) b = set_rows E b.
Proof. reflexivity. Qed.

(* ================================================================= *)
(** ** Highlighting a row and the rows below it *)

Lemma replace_nth_twice {A : Type} (n : nat) (l : list A) (x y : A) :
  replace_nth n (replace_nth n l x) y = replace_nth n l y.
Proof.
  revert n. induction l as [|a l IH]; intros [|n]; simpl; auto. now rewrite IH.
Qed.

Lemma row_scan_ok (syn : editorSyntax) (r : erow) (seed : bool) :
  rsize r = zlen (render r) ->
  exists s, row_scan syn r seed = Ok s /\ zlen (sc_hl s) = rsize r.
Proof.
  intros Hr. pose proof (zlen_nonneg (render r)) as H0.
  destruct (scan_loop_ok syn r Hr (scan_fuel r)
              (mkScan 0 true NUL seed (repeat HL_NORMAL (Z.to_nat (rsize r)))))
    as (s & Hs & [_ Hl] & _).
  - split; cbn [sc_i sc_hl]; [lia|]. rewrite zlen_repeat. lia.
  - unfold scan_measure, scan_fuel. cbn [sc_i sc_prev_sep]. lia.
  - exists s. split; assumption.
Qed.

(** One activation of [editorUpdateSyntax] on a row that knows its
    position: the row is rescanned from the state its predecessor ends
    in, and the call on the next row is made exactly when the row's own
    final state differs from the stored one and a next row exists. *)
Lemma editorUpdateSyntax_rec_unfold (E : editorConfig) (slot : Z) (r : erow)
  (syn : editorSyntax) :
  get_row (row E) slot = Ok r -> idx r = slot -> rsize r = zlen (render r) ->
  syntax E = Some syn ->
  exists s,
    row_scan syn r (seed_of (row E) slot) = Ok s /\
    zlen (sc_hl s) = rsize r /\
    forall depth,
      editorUpdateSyntax_rec depth E slot =
      let E1 := set_rows E (replace_nth (Z.to_nat slot) (row E) (rescanned r s)) in
      if negb (Bool.eqb (hl_open_comment r) (sc_in_comment s))
         && (slot + 1 <? numrows E)
      then match depth with
           | O => Fault OutOfFuel
           | S depth' => editorUpdateSyntax_rec depth' E1 (slot + 1)
           end
      else Ok E1.
Proof.
  intros Hr Hix Hrs Hsyn.
  pose proof (get_row_range _ _ _ Hr) as Hslot.
  pose proof Hr as Hr'. apply get_row_Ok in Hr'. destruct Hr' as [_ Hnth].
  assert (Hlt : (Z.to_nat slot < length (row E))%nat) by (unfold zlen in Hslot; lia).
  destruct (row_scan_ok syn r (seed_of (row E) slot) Hrs) as (s & Hs & Hl).
  exists s. split; [exact Hs|]. split; [exact Hl|].
  assert (Hseed : forall hl0,
            (if idx r >? 0
             then p <- get_row (replace_nth (Z.to_nat slot) (row E) (set_hl r hl0))
                         (idx r - 1) ;;
                  Ok (hl_open_comment p)
             else Ok false) = Ok (seed_of (row E) slot)).
  { intros hl0. unfold seed_of. rewrite Hix.
    destruct (Z.gtb_spec slot 0); [|reflexivity].
    destruct (get_row_in_range (row E) (slot - 1)) as [p Hp]; [lia|].
    pose proof Hp as Hp'. apply get_row_Ok in Hp'. destruct Hp' as [_ Hp'].
    rewrite Hp'.
    assert (Hp0 : get_row (replace_nth (Z.to_nat slot) (row E) (set_hl r hl0))
                    (slot - 1) = Ok p).
    { apply get_row_Ok. split; [lia|].
      rewrite nth_error_replace_nth_ne by lia. exact Hp'. }
    rewrite Hp0. reflexivity. }
  intros depth.
  destruct depth; cbn [editorUpdateSyntax_rec]; rewrite Hr; cbn [bind];
    rewrite put_row_in_range by assumption; cbn [bind]; rewrite Hsyn, Hseed;
    cbn [bind]; rewrite Hs; cbn [bind];
    rewrite put_row_in_range by (rewrite zlen_replace_nth; assumption);
    cbn [bind]; rewrite replace_nth_twice, Hix; reflexivity.
Qed.

Lemma editorUpdateSyntax_rec_plain (E : editorConfig) (slot : Z) (r : erow)
  (depth : nat) :
  get_row (row E) slot = Ok r -> syntax E = None ->
  editorUpdateSyntax_rec depth E slot
  = Ok (set_rows E (replace_nth (Z.to_nat slot) (row E)
                      (set_hl r (repeat HL_NORMAL (Z.to_nat (rsize r)))))).
Proof.
  intros Hr Hsyn. pose proof (get_row_range _ _ _ Hr) as Hslot.
  destruct depth; cbn [editorUpdateSyntax_rec]; rewrite Hr; cbn [bind];
    rewrite put_row_in_range by assumption; cbn [bind]; rewrite Hsyn; reflexivity.
Qed.

Lemma updated_from_replace (slot : Z) (rows : list erow) (r r1 : erow) :
  0 <= slot -> nth_error rows (Z.to_nat slot) = Some r ->
  strip r1 = strip r -> zlen (hl r1) = rsize r1 ->
  updated_from slot rows (replace_nth (Z.to_nat slot) rows r1).
Proof.
  intros H0 Hnth Hstrip Hlen.
  assert (Hlt : (Z.to_nat slot < length rows)%nat)
    by (apply nth_error_Some; congruence).
  split; [eapply map_replace_nth; eauto|].
  split; [apply firstn_replace_nth; lia|].
  split.
  - intros k r' Hk. destruct (Nat.eq_dec (Z.to_nat slot) k) as [<-|Hne].
    + rewrite nth_error_replace_nth_eq in Hk by assumption.
      injection Hk as <-. now right.
    + rewrite nth_error_replace_nth_ne in Hk by assumption. now left.
  - exists r1. split; [now apply nth_error_replace_nth_eq | assumption].
Qed.

Lemma updated_from_trans (slot : Z) (rows rows1 rows' : list erow) :
  0 <= slot ->
  updated_from slot rows rows1 -> updated_from (slot + 1) rows1 rows' ->
  updated_from slot rows rows'.
Proof.
  intros H0 (Hs1 & Hf1 & He1 & r1 & Hn1 & Hl1) (Hs & Hf & He & _).
  split; [congruence|].
  split.
  { rewrite <- Hf1. eapply firstn_le_eq; [|exact Hf]. lia. }
  split.
  - intros k r' Hk. destruct (He k r' Hk) as [H1|H1]; [now apply He1 | now right].
  - exists r1. split; [|exact Hl1]. rewrite <- Hn1.
    eapply nth_error_firstn_eq; [exact Hf|]. lia.
Qed.

(** One activation either finishes the run or hands over to the next
    row. *)
Lemma editorUpdateSyntax_rec_level (E : editorConfig) (slot : Z) :
  idx_ok (row E) -> Forall text_ok (row E) -> 0 <= slot < zlen (row E) ->
  exists rows1,
    updated_from slot (row E) rows1 /\
    ((forall depth, editorUpdateSyntax_rec depth E slot = Ok (set_rows E rows1))
     \/ (slot + 1 < numrows E /\
         (forall r r1, nth_error (row E) (Z.to_nat slot) = Some r ->
                       nth_error rows1 (Z.to_nat slot) = Some r1 ->
                       hl_open_comment r1 <> hl_open_comment r) /\
         editorUpdateSyntax_rec O E slot = Fault OutOfFuel /\
         forall depth,
           editorUpdateSyntax_rec (S depth) E slot
           = editorUpdateSyntax_rec depth (set_rows E rows1) (slot + 1))).
Proof.
  intros Hidx Htext Hslot.
  destruct (get_row_in_range (row E) slot Hslot) as [r Hr].
  pose proof Hr as Hr'. apply get_row_Ok in Hr'. destruct Hr' as [_ Hnth].
  assert (Htr : text_ok r)
    by (rewrite Forall_forall in Htext; apply Htext; eapply nth_error_In; eauto).
  assert (Hix : idx r = slot) by (rewrite (Hidx _ _ Hnth); lia).
  destruct (syntax E) as [syn|] eqn:Hsyn.
  - destruct (editorUpdateSyntax_rec_unfold E slot r syn Hr Hix (proj2 Htr) Hsyn)
      as (s & Hs & Hl & Hun).
    exists (replace_nth (Z.to_nat slot) (row E) (rescanned r s)).
    split.
    { apply (updated_from_replace slot (row E) r);
        [lia | exact Hnth | reflexivity | exact Hl]. }
    destruct (negb (Bool.eqb (hl_open_comment r) (sc_in_comment s))
              && (slot + 1 <? numrows E)) eqn:Hrec.
    + right. pose proof Hrec as Hrec'. apply andb_prop in Hrec'.
      destruct Hrec' as [_ Hlt]. apply Z.ltb_lt in Hlt.
      split; [exact Hlt|].
      split.
      { intros r0 r1 H0 H1. rewrite Hnth in H0. injection H0 as <-.
        rewrite nth_error_replace_nth_eq in H1 by (unfold zlen in Hslot; lia).
        injection H1 as <-. cbn [rescanned hl_open_comment set_hl_open_comment].
        apply andb_prop in Hrec. destruct Hrec as [Hch _].
        destruct (hl_open_comment r), (sc_in_comment s); simpl in Hch; congruence. }
      split; [rewrite Hun; reflexivity|].
      intros depth. rewrite Hun. reflexivity.
    + left. intros depth. rewrite Hun. reflexivity.
  - exists (replace_nth (Z.to_nat slot) (row E)
              (set_hl r (repeat HL_NORMAL (Z.to_nat (rsize r))))).
    split.
    + apply (updated_from_replace slot (row E) r);
        [lia | exact Hnth | reflexivity|].
      cbn [hl rsize set_hl]. rewrite zlen_repeat.
      destruct Htr as [_ ->]. unfold zlen. lia.
    + left. intros depth. now apply editorUpdateSyntax_rec_plain.
Qed.

Lemma updated_from_pre (slot : Z) (E : editorConfig) (rows1 : list erow) :
  numrows E <= zlen (row E) -> idx_ok (row E) -> Forall text_ok (row E) ->
  updated_from slot (row E) rows1 ->
  numrows E <= zlen rows1 /\ idx_ok rows1 /\ Forall text_ok rows1 /\
  zlen rows1 = zlen (row E).
Proof.
  intros Hn Hidx Htext (Hs & _).
  pose proof (map_strip_length _ _ Hs) as Hlen.
  split; [lia|]. split; [eapply map_strip_idx_ok; eauto|].
  split; [eapply map_strip_text_ok; eauto | exact Hlen].
Qed.

(** A run of [editorUpdateSyntax] from row [slot] ends, at any nesting
    budget of at least [numrows - slot - 1]. *)
Lemma editorUpdateSyntax_rec_ok (n : nat) :
  forall (E : editorConfig) (slot : Z),
    numrows E <= zlen (row E) -> idx_ok (row E) -> Forall text_ok (row E) ->
    0 <= slot < zlen (row E) -> numrows E - slot - 1 <= Z.of_nat n ->
    exists rows',
      (forall depth, (n <= depth)%nat ->
         editorUpdateSyntax_rec depth E slot = Ok (set_rows E rows')) /\
      updated_from slot (row E) rows'.
Proof.
  induction n as [|n IH]; intros E slot Hn Hidx Htext Hslot Hdepth;
    destruct (editorUpdateSyntax_rec_level E slot Hidx Htext Hslot)
      as (rows1 & Hup & [Hdone | (Hlt & _ & _ & Hnext)]).
  - exists rows1. split; [intros; apply Hdone | exact Hup].
  - lia.
  - exists rows1. split; [intros; apply Hdone | exact Hup].
  - destruct (updated_from_pre slot E rows1 Hn Hidx Htext Hup)
      as (Hn1 & Hidx1 & Htext1 & Hlen1).
    destruct (IH (set_rows E rows1) (slot + 1)) as (rows' & Hrun & Hup2);
      cbn [row numrows set_rows]; auto; try lia.
    exists rows'. split.
    + intros [|depth] Hd; [lia|]. rewrite Hnext. apply Hrun. lia.
    + eapply updated_from_trans; [lia | exact Hup | exact Hup2].
Qed.

Lemma idx_okb_sound (rows : list erow) (k0 : Z) :
  idx_okb k0 rows = true ->
  forall k r, nth_error rows k = Some r -> idx r = k0 + Z.of_nat k.
Proof.
  revert k0. induction rows as [|a rows IH]; intros k0 H [|k] r Hk;
    simpl in *; try discriminate.
  - injection Hk as <-. apply andb_prop in H. destruct H as [H _].
    apply Z.eqb_eq in H. lia.
  - apply andb_prop in H. destruct H as [_ H].
    rewrite (IH _ H k r Hk). lia.
Qed.

Lemma doc_okb_sound (E : editorConfig) : doc_okb E = true -> doc_ok E.
Proof.
  unfold doc_okb, doc_ok. intros H.
  apply andb_prop in H. destruct H as [H H3].
  apply andb_prop in H. destruct H as [H1 H2].
  apply Z.eqb_eq in H1. split; [exact H1|]. split.
  - intros k r Hk. now rewrite (idx_okb_sound _ _ H2 k r Hk).
  - apply Forall_forall. intros r Hin. rewrite forallb_forall in H3.
    specialize (H3 r Hin). unfold row_okb in H3.
    apply andb_prop in H3. destruct H3 as [H3 Hc].
    apply andb_prop in H3. destruct H3 as [Ha Hb].
    apply Z.eqb_eq in Ha, Hb, Hc. repeat split; assumption.
Qed.

Lemma doc_ok_text (E : editorConfig) : doc_ok E -> Forall text_ok (row E).
Proof.
  intros (_ & _ & H). eapply Forall_impl; [|exact H]. now intros r [Ht _].
Qed.

(* ================================================================= *)
(** ** Row operations keep the document in order *)

Lemma get_row_app (pre : list erow) (x : erow) (post : list erow) :
  get_row (pre ++ x :: post) (zlen pre) = Ok x.
Proof.
  apply get_row_Ok. split; [apply zlen_nonneg|].
  unfold zlen. rewrite Nat2Z.id, nth_error_app2, Nat.sub_diag by lia. reflexivity.
Qed.

Lemma replace_nth_app {A : Type} (pre : list A) (x y : A) (post : list A) :
  replace_nth (length pre) (pre ++ x :: post) y = pre ++ y :: post.
Proof. induction pre as [|a pre IH]; simpl; [reflexivity | now rewrite IH]. Qed.

Lemma put_row_app (pre : list erow) (x y : erow) (post : list erow) :
  put_row (pre ++ x :: post) (zlen pre) y = Ok (pre ++ y :: post).
Proof.
  rewrite put_row_in_range.
  - unfold zlen. now rewrite Nat2Z.id, replace_nth_app.
  - rewrite zlen_app. unfold zlen. cbn [length]. lia.
Qed.

Lemma idx_loop_app (mid : list erow) :
  forall (pre post : list erow) (j : Z),
    j = zlen pre ->
    idx_loop (length mid) j (pre ++ mid ++ post) = Ok (pre ++ map bump mid ++ post).
Proof.
  induction mid as [|m mid IH]; intros pre post j ->; [reflexivity|].
  cbn [length idx_loop app map]. rewrite get_row_app. cbn [bind].
  rewrite put_row_app. cbn [bind].
  change (pre ++ set_idx m (idx m + 1) :: mid ++ post)
    with (pre ++ [bump m] ++ mid ++ post).
  rewrite app_assoc. rewrite IH.
  - now rewrite <- app_assoc.
  - rewrite zlen_app. unfold zlen. cbn [length]. lia.
Qed.

Lemma realloc_rows_grow (rows : list erow) (n : Z) :
  n = zlen rows + 1 -> realloc_rows rows n = rows ++ [fresh_slot].
Proof.
  intros ->. unfold realloc_rows, zlen.
  rewrite firstn_all2 by lia.
  replace (Z.to_nat (Z.of_nat (length rows) + 1) - length rows)%nat with 1%nat by lia.
  reflexivity.
Qed.

Lemma firstn_skipn_length {A : Type} (n : nat) (l : list A) :
  (n <= length l)%nat -> length (firstn n l) = n /\ (length (skipn n l) = length l - n)%nat.
Proof. intros H. rewrite length_firstn, length_skipn. lia. Qed.

Lemma skipn_app_exact {A : Type} (p l : list A) : skipn (length p) (p ++ l) = l.
Proof. induction p; simpl; auto. Qed.

Lemma firstn_app_exact {A : Type} (m q : list A) : firstn (length m) (m ++ q) = m.
Proof. induction m; simpl; [reflexivity | now f_equal]. Qed.

(** The array after the [realloc], the [memmove], the index loop and
    the assignment of the new row in [editorInsertRow]. *)
Lemma insert_rows_shape (rows : list erow) (at_ : Z) (new : erow) :
  0 <= at_ <= zlen rows ->
  (rows1 <- memmove_rows (realloc_rows rows (zlen rows + 1)) (at_ + 1) at_
              (zlen rows - at_) ;;
   rows2 <- idx_loop (Z.to_nat (zlen rows + 1 - (at_ + 1))) (at_ + 1) rows1 ;;
   put_row rows2 at_ new)
  = Ok (firstn (Z.to_nat at_) rows ++ new :: map bump (skipn (Z.to_nat at_) rows)).
Proof.
  intros Hat. rewrite realloc_rows_grow by reflexivity.
  set (pre := firstn (Z.to_nat at_) rows).
  set (suf := skipn (Z.to_nat at_) rows).
  assert (Hrows : rows = pre ++ suf) by (unfold pre, suf; now rewrite firstn_skipn).
  assert (Hpre : zlen pre = at_).
  { unfold pre, zlen in *. rewrite length_firstn. lia. }
  assert (Hsuf : zlen suf = zlen rows - at_).
  { unfold suf, zlen in *. rewrite length_skipn. lia. }
  unfold memmove_rows.
  destruct (Z.leb_spec (zlen rows - at_) 0) as [Hz|Hpos].
  - assert (suf = [])
      by (destruct suf; [reflexivity | unfold zlen in *; cbn [length] in *; lia]).
    cbn [bind].
    replace (Z.to_nat (zlen rows + 1 - (at_ + 1))) with O by lia.
    cbn [idx_loop bind]. rewrite Hrows, H, app_nil_r. cbn [map].
    rewrite <- Hpre. apply put_row_app.
  - destruct suf as [|x suf'] eqn:Esuf;
      [unfold zlen in *; cbn [length] in *; lia|].
    destruct (Z.ltb_spec at_ 0); [lia|].
    rewrite zlen_app.
    destruct (Z.ltb_spec (zlen rows + zlen [fresh_slot]) (at_ + (zlen rows - at_)));
      [unfold zlen in *; cbn [length] in *; lia|].
    destruct (Z.ltb_spec (at_ + 1) 0); [lia|].
    destruct (Z.ltb_spec (zlen rows + zlen [fresh_slot]) (at_ + 1 + (zlen rows - at_)));
      [unfold zlen in *; cbn [length] in *; lia|].
    cbn [orb bind].
    assert (E1 : firstn (Z.to_nat (at_ + 1)) (rows ++ [fresh_slot]) = pre ++ [x]).
    { rewrite Hrows.
      replace (Z.to_nat (at_ + 1)) with (length (pre ++ [x]))
        by (rewrite length_app; unfold zlen in Hpre; cbn [length]; lia).
      replace ((pre ++ x :: suf') ++ [fresh_slot])
        with ((pre ++ [x]) ++ suf' ++ [fresh_slot])
        by (now rewrite <- !app_assoc).
      apply firstn_app_exact. }
    assert (E2 : firstn (Z.to_nat (zlen rows - at_))
                   (skipn (Z.to_nat at_) (rows ++ [fresh_slot])) = x :: suf').
    { rewrite Hrows at 2. rewrite <- app_assoc.
      replace (Z.to_nat at_) with (length pre) by (unfold zlen in Hpre; lia).
      rewrite skipn_app_exact.
      replace (Z.to_nat (zlen rows - at_)) with (length (x :: suf'))
        by (unfold zlen in *; lia).
      apply firstn_app_exact. }
    assert (E3 : skipn (Z.to_nat (at_ + 1 + (zlen rows - at_))) (rows ++ [fresh_slot]) = []).
    { apply skipn_all2. rewrite length_app. unfold zlen. cbn [length]. lia. }
    rewrite E1, E2, E3.
    replace (Z.to_nat (zlen rows + 1 - (at_ + 1))) with (length (x :: suf'))
      by (unfold zlen in *; lia).
    rewrite idx_loop_app by (rewrite zlen_app; unfold zlen in *; cbn [length]; lia).
    cbn [bind]. rewrite app_nil_r, <- app_assoc. cbn [app].
    rewrite <- Hpre. apply put_row_app.
Qed.

Lemma idx_ok_insert (rows : list erow) (at_ : nat) (new : erow) :
  idx_ok rows -> (at_ <= length rows)%nat -> idx new = Z.of_nat at_ ->
  idx_ok (firstn at_ rows ++ new :: map bump (skipn at_ rows)).
Proof.
  intros Hidx Hat Hnew k r Hk.
  assert (Hlen : length (firstn at_ rows) = at_) by (rewrite length_firstn; lia).
  destruct (Nat.lt_ge_cases k at_) as [Hlt|Hge].
  - rewrite nth_error_app1 in Hk by lia.
    rewrite nth_error_firstn in Hk.
    destruct (Nat.ltb_spec k at_); [|lia]. now apply Hidx.
  - rewrite nth_error_app2, Hlen in Hk by lia.
    destruct (k - at_)%nat as [|d] eqn:Hd; cbn [nth_error] in Hk.
    + injection Hk as <-. rewrite Hnew. f_equal. lia.
    + rewrite nth_error_map, nth_error_skipn in Hk.
      destruct (nth_error rows (at_ + d)) as [r0|] eqn:H0; [|discriminate].
      cbn [option_map] in Hk. injection Hk as <-.
      cbn [bump idx set_idx]. rewrite (Hidx _ _ H0). lia.
Qed.

Lemma editorUpdateSyntax_ok (E : editorConfig) (slot : Z) :
  numrows E <= zlen (row E) -> idx_ok (row E) -> Forall text_ok (row E) ->
  0 <= slot < zlen (row E) ->
  exists rows',
    editorUpdateSyntax E slot = Ok (set_rows E rows') /\
    updated_from slot (row E) rows'.
Proof.
  intros Hn Hidx Htext Hslot.
  destruct (editorUpdateSyntax_rec_ok (Z.to_nat (numrows E - slot - 1)) E slot)
    as (rows' & Hrun & Hup); auto; try lia.
  exists rows'. split; [|exact Hup]. apply Hrun. lia.
Qed.

Lemma Forall_replace_nth {A : Type} (P : A -> Prop) (n : nat) (l : list A) (x : A) :
  (forall k a, nth_error l k = Some a -> k <> n -> P a) -> P x ->
  Forall P (replace_nth n l x).
Proof.
  intros Hl Hx. apply Forall_forall. intros a Hin.
  apply In_nth_error in Hin. destruct Hin as [k Hk].
  destruct (Nat.eq_dec n k) as [<-|Hne].
  - destruct (Nat.lt_ge_cases n (length l)) as [Hlt|Hge].
    + rewrite nth_error_replace_nth_eq in Hk by assumption. now injection Hk as <-.
    + assert (nth_error (replace_nth n l x) n = None)
        by (apply nth_error_None; rewrite replace_nth_length; lia).
      congruence.
  - rewrite nth_error_replace_nth_ne in Hk by assumption. eapply Hl; eauto.
Qed.

Lemma idx_ok_replace_nth (n : nat) (rows : list erow) (r x : erow) :
  idx_ok rows -> nth_error rows n = Some r -> idx x = idx r ->
  idx_ok (replace_nth n rows x).
Proof.
  intros Hidx Hn Hx k a Hk.
  destruct (Nat.eq_dec n k) as [<-|Hne].
  - rewrite nth_error_replace_nth_eq in Hk by (apply nth_error_Some; congruence).
    injection Hk as <-. rewrite Hx. now apply Hidx.
  - rewrite nth_error_replace_nth_ne in Hk by assumption. now apply Hidx.
Qed.

Lemma updated_rows_ok (slot : Z) (rows rows' : list erow) :
  0 <= slot ->
  updated_from slot rows rows' -> Forall text_ok rows ->
  ok_except (Z.to_nat slot) row_ok rows -> Forall row_ok rows'.
Proof.
  intros H0 (Hs & _ & He & r1 & Hn1 & Hl1) Htext Hex.
  pose proof (map_strip_text_ok _ _ Hs Htext) as Htext'.
  apply Forall_forall. intros r' Hin. split.
  - rewrite Forall_forall in Htext'. now apply Htext'.
  - apply In_nth_error in Hin. destruct Hin as [k Hk].
    destruct (Nat.eq_dec k (Z.to_nat slot)) as [->|Hne]; [congruence|].
    destruct (He k r' Hk) as [Hsame|Hlen]; [|exact Hlen].
    now apply (Hex k r' Hsame Hne).
Qed.

Lemma rendered_text_ok (r : erow) : size r = zlen (chars r) -> text_ok (rendered r).
Proof. intros H. split; [exact H | reflexivity]. Qed.

(** [editorUpdateRow] on a row whose [size] is right, in an array whose
    other rows are in order, returns and leaves every row in order. *)
Lemma editorUpdateRow_doc (E : editorConfig) (slot : Z) (r : erow) :
  get_row (row E) slot = Ok r -> size r = zlen (chars r) ->
  numrows E <= zlen (row E) -> idx_ok (row E) ->
  ok_except (Z.to_nat slot) row_ok (row E) ->
  exists rows',
    editorUpdateRow E slot = Ok (set_rows E rows') /\
    idx_ok rows' /\ Forall row_ok rows' /\
    updated_from slot (replace_nth (Z.to_nat slot) (row E) (rendered r)) rows'.
Proof.
  intros Hr Hsize Hn Hidx Hex.
  pose proof (get_row_range _ _ _ Hr) as Hslot.
  pose proof Hr as Hr'. apply get_row_Ok in Hr'. destruct Hr' as [_ Hnth].
  set (rows1 := replace_nth (Z.to_nat slot) (row E) (rendered r)).
  assert (Htext1 : Forall text_ok rows1).
  { apply Forall_replace_nth; [|now apply rendered_text_ok].
    intros k a Hk Hne. now apply (Hex k a Hk Hne). }
  assert (Hidx1 : idx_ok rows1) by (eapply idx_ok_replace_nth; eauto).
  assert (Hlen1 : zlen rows1 = zlen (row E)) by apply zlen_replace_nth.
  destruct (editorUpdateSyntax_ok (set_rows E rows1) slot)
    as (rows' & Hrun & Hup); cbn [row numrows set_rows]; auto; try lia.
  exists rows'. split; [|split; [|split]].
  - unfold editorUpdateRow. rewrite Hr. cbn [bind].
    rewrite put_row_in_range by assumption. cbn [bind]. exact Hrun.
  - destruct Hup as (Hs & _). eapply map_strip_idx_ok; eauto.
  - eapply (updated_rows_ok slot rows1); eauto; [lia|].
    intros k a Hk Hne. unfold rows1 in Hk.
    rewrite nth_error_replace_nth_ne in Hk by congruence. now apply (Hex k a Hk Hne).
  - exact Hup.
Qed.

Lemma doc_ok_except (E : editorConfig) (slot : nat) :
  doc_ok E -> ok_except slot row_ok (row E).
Proof.
  intros (_ & _ & H) k r Hk _. rewrite Forall_forall in H.
  apply H. eapply nth_error_In; eauto.
Qed.

Lemma ok_except_replace_nth (slot : nat) (P : erow -> Prop) (rows : list erow) (x : erow) :
  ok_except slot P rows -> ok_except slot P (replace_nth slot rows x).
Proof.
  intros H k r Hk Hne. rewrite nth_error_replace_nth_ne in Hk by congruence.
  now apply (H k r).
Qed.

Lemma updated_from_zlen (slot : Z) (rows rows' : list erow) :
  updated_from slot rows rows' -> zlen rows' = zlen rows.
Proof. intros (Hs & _). now apply map_strip_length. Qed.

(** A row operation that rewrites the bytes of one row and then calls
    [editorUpdateRow] keeps the document in order. *)
Lemma edit_row_doc (E E' : editorConfig) (slot : Z) (r : erow) (sz : Z)
  (bytes : list ascii) :
  doc_ok E -> get_row (row E) slot = Ok r -> sz = zlen bytes ->
  editorUpdateRow
    (set_rows E (replace_nth (Z.to_nat slot) (row E) (set_chars r sz bytes))) slot
  = Ok E' ->
  doc_ok E' /\ numrows E' = numrows E /\ syntax E' = syntax E.
Proof.
  intros Hdoc Hr Hsz Hrun.
  pose proof (get_row_range _ _ _ Hr) as Hslot.
  pose proof Hr as Hr'. apply get_row_Ok in Hr'. destruct Hr' as [_ Hnth].
  destruct Hdoc as (Hn & Hidx & Hrows).
  set (rows1 := replace_nth (Z.to_nat slot) (row E) (set_chars r sz bytes)) in *.
  assert (Hlt : (Z.to_nat slot < length (row E))%nat) by (unfold zlen in Hslot; lia).
  assert (Hn1 : nth_error rows1 (Z.to_nat slot) = Some (set_chars r sz bytes))
    by (unfold rows1; now apply nth_error_replace_nth_eq).
  destruct (editorUpdateRow_doc (set_rows E rows1) slot (set_chars r sz bytes))
    as (rows' & Hrun' & Hidx' & Hrows' & Hup); cbn [row numrows set_rows].
  - apply get_row_Ok. split; [lia | exact Hn1].
  - exact Hsz.
  - unfold rows1. rewrite zlen_replace_nth. lia.
  - unfold rows1. eapply idx_ok_replace_nth; eauto.
  - unfold rows1. apply ok_except_replace_nth.
    intros k a Hk _. rewrite Forall_forall in Hrows. apply Hrows.
    eapply nth_error_In; eauto.
  - rewrite Hrun in Hrun'. injection Hrun' as ->.
    cbn [row numrows syntax set_rows]. cbn [row set_rows] in Hup.
    apply updated_from_zlen in Hup. rewrite zlen_replace_nth in Hup.
    unfold rows1 in Hup. rewrite zlen_replace_nth in Hup.
    split; [|split; reflexivity].
    split; [cbn [row numrows set_rows]; congruence|]. split; assumption.
Qed.

Lemma doc_ok_frame (E E' : editorConfig) :
  row E' = row E -> numrows E' = numrows E -> doc_ok E -> doc_ok E'.
Proof. unfold doc_ok. intros -> ->. auto. Qed.

Lemma doc_ok_row (E : editorConfig) (k : Z) (r : erow) :
  doc_ok E -> get_row (row E) k = Ok r -> row_ok r /\ idx r = k.
Proof.
  intros (_ & Hidx & Hrows) Hr. apply get_row_Ok in Hr. destruct Hr as [Hk Hn].
  split.
  - rewrite Forall_forall in Hrows. apply Hrows. eapply nth_error_In; eauto.
  - rewrite (Hidx _ _ Hn). lia.
Qed.

Lemma zlen_firstn {A : Type} (n : Z) (l : list A) :
  0 <= n <= zlen l -> zlen (firstn (Z.to_nat n) l) = n.
Proof. intros H. unfold zlen in *. rewrite length_firstn. lia. Qed.

Lemma zlen_skipn {A : Type} (n : Z) (l : list A) :
  0 <= n <= zlen l -> zlen (skipn (Z.to_nat n) l) = zlen l - n.
Proof. intros H. unfold zlen in *. rewrite length_skipn. lia. Qed.

Lemma memcpy_bytes_Ok (s bytes : list ascii) (n : Z) :
  memcpy_bytes s n = Ok bytes -> zlen bytes = n /\ 0 <= n.
Proof.
  unfold memcpy_bytes.
  destruct (Z.ltb_spec n 0); [discriminate|].
  destruct (Z.ltb_spec (zlen s + 1) n); [discriminate|].
  cbn [orb]. intros [= <-]. split; [|lia].
  apply zlen_firstn. rewrite zlen_app. unfold zlen at 2. cbn [length]. lia.
Qed.

Lemma editorRowInsertChar_doc (E E' : editorConfig) (slot at_ c : Z) :
  doc_ok E -> editorRowInsertChar E slot at_ c = Ok E' ->
  doc_ok E' /\ numrows E' = numrows E /\ syntax E' = syntax E.
Proof.
  intros Hdoc H. unfold editorRowInsertChar in H. bind_inv H.
  injection H as <-.
  destruct (doc_ok_row E slot x Hdoc Hx) as [[[Hsz _] _] _].
  apply put_row_Ok in Hx0. destruct Hx0 as [_ ->].
  pose proof (zlen_nonneg (chars x)).
  set (a := if (at_ <? 0) || (at_ >? size x) then size x else at_) in *.
  assert (Ha : 0 <= a <= size x).
  { unfold a. destruct (Z.ltb_spec at_ 0); cbn [orb]; [lia|].
    destruct (Z.gtb_spec at_ (size x)); lia. }
  match type of Hx1 with
  | editorUpdateRow (set_rows _ (replace_nth _ _ (set_chars _ ?sz ?bytes))) _ = _ =>
      assert (Hz : sz = zlen bytes)
  end.
  { rewrite !zlen_app, zlen_firstn, zlen_firstn by (rewrite ?zlen_skipn; lia).
    unfold zlen at 1. cbn [length]. lia. }
  destruct (edit_row_doc _ _ _ _ _ _ Hdoc Hx Hz Hx1) as (Hd & Hn & Hs).
  split; [|split; assumption].
  eapply doc_ok_frame; [| |exact Hd]; reflexivity.
Qed.

Lemma editorRowAppendString_doc (E E' : editorConfig) (slot : Z) (s : list ascii)
  (len : Z) :
  doc_ok E -> editorRowAppendString E slot s len = Ok E' ->
  doc_ok E' /\ numrows E' = numrows E /\ syntax E' = syntax E.
Proof.
  intros Hdoc H. unfold editorRowAppendString in H. bind_inv H.
  injection H as <-.
  destruct (doc_ok_row E slot x Hdoc Hx) as [[[Hsz _] _] _].
  apply put_row_Ok in Hx1. destruct Hx1 as [_ ->].
  apply memcpy_bytes_Ok in Hx0. destruct Hx0 as [Hb Hl].
  pose proof (zlen_nonneg (chars x)).
  match type of Hx2 with
  | editorUpdateRow (set_rows _ (replace_nth _ _ (set_chars _ ?sz ?bytes))) _ = _ =>
      assert (Hz : sz = zlen bytes)
  end.
  { rewrite zlen_app, zlen_firstn by lia. lia. }
  destruct (edit_row_doc _ _ _ _ _ _ Hdoc Hx Hz Hx2) as (Hd & Hn & Hs).
  split; [|split; assumption].
  eapply doc_ok_frame; [| |exact Hd]; reflexivity.
Qed.

Lemma editorRowDelChar_doc (E E' : editorConfig) (slot at_ : Z) :
  doc_ok E -> editorRowDelChar E slot at_ = Ok E' ->
  doc_ok E' /\ numrows E' = numrows E /\ syntax E' = syntax E.
Proof.
  intros Hdoc H. unfold editorRowDelChar in H. bind_inv H.
  destruct (Z.ltb_spec at_ 0); cbn [orb] in H; [injection H as <-; auto|].
  destruct (Z.geb_spec at_ (size x)); [injection H as <-; auto|].
  bind_inv H. injection H as <-.
  destruct (doc_ok_row E slot x Hdoc Hx) as [[[Hsz _] _] _].
  apply put_row_Ok in Hx0. destruct Hx0 as [_ ->].
  pose proof (zlen_nonneg (chars x)).
  match type of Hx1 with
  | editorUpdateRow (set_rows _ (replace_nth _ _ (set_chars _ ?sz ?bytes))) _ = _ =>
      assert (Hz : sz = zlen bytes)
  end.
  { rewrite zlen_app, zlen_firstn, zlen_firstn by (rewrite ?zlen_skipn; lia). lia. }
  destruct (edit_row_doc _ _ _ _ _ _ Hdoc Hx Hz Hx1) as (Hd & Hn & Hs).
  split; [|split; assumption].
  eapply doc_ok_frame; [| |exact Hd]; reflexivity.
Qed.

Lemma editorUpdateRow_partial (E E' : editorConfig) (slot : Z) :
  doc_ok E -> editorUpdateRow E slot = Ok E' ->
  doc_ok E' /\ numrows E' = numrows E /\ syntax E' = syntax E.
Proof.
  intros Hdoc H. pose proof H as H'. unfold editorUpdateRow in H'. bind_inv H'.
  destruct (doc_ok_row E slot x Hdoc Hx) as [[[Hsz _] _] _].
  destruct Hdoc as (Hn & Hidx & Hrows).
  destruct (editorUpdateRow_doc E slot x Hx Hsz) as (rows' & Hrun & Hi & Hr & Hup);
    auto; try lia.
  { intros k a Hk _. rewrite Forall_forall in Hrows. apply Hrows.
    eapply nth_error_In; eauto. }
  rewrite H in Hrun. injection Hrun as ->.
  apply updated_from_zlen in Hup. rewrite zlen_replace_nth in Hup.
  split; [|split; reflexivity].
  split; [cbn [row numrows set_rows]; congruence|]. split; assumption.
Qed.

Lemma editorUpdateSyntax_partial (E E' : editorConfig) (slot : Z) :
  doc_ok E -> editorUpdateSyntax E slot = Ok E' ->
  doc_ok E' /\ numrows E' = numrows E /\ syntax E' = syntax E.
Proof.
  intros Hdoc H.
  assert (Hslot : 0 <= slot < zlen (row E)).
  { unfold editorUpdateSyntax in H.
    destruct (Z.to_nat (numrows E)); cbn [editorUpdateSyntax_rec] in H;
      apply bind_Ok in H; destruct H as (r & Hr & _); eapply get_row_range; eauto. }
  pose proof (doc_ok_text E Hdoc) as Htext.
  pose proof (doc_ok_except E (Z.to_nat slot) Hdoc) as Hex.
  destruct Hdoc as (Hn & Hidx & Hrows).
  destruct (editorUpdateSyntax_ok E slot) as (rows' & Hrun & Hup); auto; try lia.
  rewrite H in Hrun. injection Hrun as ->.
  split; [|split; reflexivity].
  split; [|split].
  - cbn [row numrows set_rows]. apply updated_from_zlen in Hup. congruence.
  - destruct Hup as (Hs & _). eapply map_strip_idx_ok; eauto.
  - eapply updated_rows_ok; eauto. lia.
Qed.

Lemma editorDelRow_doc (E E' : editorConfig) (at_ : Z) :
  doc_ok E -> editorDelRow E at_ = Ok E' -> E' = E.
Proof.
  intros (Hn & _) H.
  destruct (Z_lt_le_dec at_ 0) as [Hneg|Hpos];
    [|destruct (Z_lt_le_dec at_ (numrows E)) as [Hin|Hout]].
  - unfold editorDelRow in H. destruct (Z.ltb_spec at_ 0); [|lia].
    cbn [orb] in H. now injection H.
  - rewrite editorDelRow_overrun in H by (auto; lia). discriminate.
  - unfold editorDelRow in H. destruct (Z.geb_spec at_ (numrows E)); [|lia].
    rewrite orb_true_r in H. now injection H.
Qed.

Lemma In_firstn {A : Type} (x : A) (n : nat) (l : list A) :
  In x (firstn n l) -> In x l.
Proof. intros H. rewrite <- (firstn_skipn n l). apply in_or_app. now left. Qed.

Lemma In_skipn {A : Type} (x : A) (n : nat) (l : list A) :
  In x (skipn n l) -> In x l.
Proof. intros H. rewrite <- (firstn_skipn n l). apply in_or_app. now right. Qed.

Lemma editorInsertRow_doc (E E' : editorConfig) (at_ : Z) (s : list ascii) (len : Z) :
  doc_ok E -> editorInsertRow E at_ s len = Ok E' ->
  doc_ok E' /\ syntax E' = syntax E /\
  (E' = E \/ (0 <= at_ <= numrows E /\ numrows E' = numrows E + 1)).
Proof.
  intros Hdoc H. unfold editorInsertRow in H.
  destruct (Z.ltb_spec at_ 0); cbn [orb] in H; [injection H as <-; auto|].
  destruct (Z.gtb_spec at_ (numrows E)); [injection H as <-; auto|].
  bind_inv H. injection H as <-.
  destruct Hdoc as (Hn & Hidx & Hrows).
  assert (Hat : 0 <= at_ <= zlen (row E)) by lia.
  pose proof (insert_rows_shape (row E) at_ (mkRow at_ len 0 x1 [] [] false) Hat)
    as Hsh.
  rewrite <- Hn in Hsh. rewrite Hx in Hsh. cbn [bind] in Hsh.
  rewrite Hx0 in Hsh. cbn [bind] in Hsh. rewrite Hx2 in Hsh.
  injection Hsh as ->.
  apply memcpy_bytes_Ok in Hx1. destruct Hx1 as [Hb Hl].
  set (new := mkRow at_ len 0 x1 [] [] false) in *.
  set (rows2 := firstn (Z.to_nat at_) (row E) ++ new :: map bump (skipn (Z.to_nat at_) (row E))) in *.
  assert (Hlen2 : zlen rows2 = zlen (row E) + 1).
  { unfold rows2, zlen in *. rewrite length_app, length_firstn. cbn [length].
    rewrite length_map, length_skipn. lia. }
  assert (Hnew : get_row rows2 at_ = Ok new).
  { unfold rows2. rewrite <- (zlen_firstn at_ (row E)) at 3 by lia.
    apply get_row_app. }
  destruct (editorUpdateRow_doc (set_rows E rows2) at_ new)
    as (rows' & Hrun & Hi & Hr & Hup); cbn [row numrows set_rows]; auto; try lia.
  - unfold rows2. apply idx_ok_insert; auto; [unfold zlen in *; lia|].
    cbn [idx new]. lia.
  - intros k a Hk Hne. unfold rows2 in Hk.
    assert (Hpl : length (firstn (Z.to_nat at_) (row E)) = Z.to_nat at_)
      by (rewrite length_firstn; unfold zlen in *; lia).
    rewrite Forall_forall in Hrows.
    destruct (Nat.lt_ge_cases k (Z.to_nat at_)) as [Hlt|Hge].
    + rewrite nth_error_app1 in Hk by lia. apply Hrows.
      apply nth_error_In in Hk. eapply In_firstn; eauto.
    + rewrite nth_error_app2, Hpl in Hk by lia.
      destruct (k - Z.to_nat at_)%nat as [|d] eqn:Hd; [lia|].
      cbn [nth_error] in Hk. rewrite nth_error_map in Hk.
      destruct (nth_error (skipn (Z.to_nat at_) (row E)) d) as [r0|] eqn:Er0;
        [|discriminate].
      cbn [option_map] in Hk. injection Hk as <-.
      apply nth_error_In in Er0. apply In_skipn in Er0.
      exact (Hrows r0 Er0).
  - rewrite Hx3 in Hrun. injection Hrun as ->.
    apply updated_from_zlen in Hup. rewrite zlen_replace_nth in Hup.
    cbn [row set_rows] in Hup.
    split; [|split; [reflexivity|right; split; [lia|reflexivity]]].
    split; [cbn [row numrows set_rows set_numrows set_dirty]; lia|].
    split; assumption.
Qed.

(* ================================================================= *)
(** ** Every operation keeps the document in order *)

Lemma editorInsertChar_doc (E E' : editorConfig) (c : Z) :
  doc_ok E -> editorInsertChar E c = Ok E' -> doc_ok E' /\ syntax E' = syntax E.
Proof.
  intros Hdoc H. unfold editorInsertChar in H. bind_inv H. injection H as <-.
  assert (H1 : doc_ok x /\ syntax x = syntax E).
  { destruct (cy E =? numrows E); [|injection Hx as <-; auto].
    apply editorInsertRow_doc in Hx; [|exact Hdoc]. tauto. }
  destruct H1 as [H1 Hs1].
  apply editorRowInsertChar_doc in Hx0; [|exact H1].
  destruct Hx0 as (Hd & _ & Hs). split; [|cbn [syntax set_cx]; congruence].
  eapply doc_ok_frame; [| |exact Hd]; reflexivity.
Qed.

Lemma truncate_bytes_Ok (buf head : list ascii) (n : Z) :
  truncate_bytes buf n = Ok head -> n = zlen head.
Proof.
  unfold truncate_bytes.
  destruct (Z.ltb_spec n 0); [discriminate|].
  destruct (Z.ltb_spec (zlen buf) n); [discriminate|].
  cbn [orb]. intros [= <-]. rewrite zlen_firstn; lia.
Qed.

Lemma editorInsertNewline_doc (E E' : editorConfig) :
  doc_ok E -> editorInsertNewline E = Ok E' -> doc_ok E' /\ syntax E' = syntax E.
Proof.
  intros Hdoc H. unfold editorInsertNewline in H. bind_inv H. injection H as <-.
  assert (H1 : doc_ok x /\ syntax x = syntax E).
  { destruct (cx E =? 0).
    - apply editorInsertRow_doc in Hx; [|exact Hdoc]. tauto.
    - bind_inv Hx.
      apply editorInsertRow_doc in Hx2; [|exact Hdoc].
      destruct Hx2 as (Hd2 & Hs2 & _).
      apply put_row_Ok in Hx5. destruct Hx5 as [_ ->].
      apply truncate_bytes_Ok in Hx4.
      destruct (edit_row_doc _ _ _ _ _ _ Hd2 Hx3 Hx4 Hx) as (Hd & _ & Hs).
      split; [exact Hd | congruence]. }
  destruct H1 as [H1 Hs1]. split; [|exact Hs1].
  eapply doc_ok_frame; [| |exact H1]; reflexivity.
Qed.

Lemma editorDelChar_doc (E E' : editorConfig) :
  doc_ok E -> editorDelChar E = Ok E' -> doc_ok E' /\ syntax E' = syntax E.
Proof.
  intros Hdoc H. unfold editorDelChar in H.
  destruct (cy E =? numrows E); [injection H as <-; auto|].
  destruct ((cx E =? 0) && (cy E =? 0)); [injection H as <-; auto|].
  bind_inv H. destruct (cx E >? 0).
  - bind_inv H. injection H as <-.
    apply editorRowDelChar_doc in Hx0; [|exact Hdoc].
    destruct Hx0 as (Hd & _ & Hs). split; [|exact Hs].
    eapply doc_ok_frame; [| |exact Hd]; reflexivity.
  - bind_inv H. injection H as <-.
    apply editorRowAppendString_doc in Hx1;
      [|eapply doc_ok_frame; [| |exact Hdoc]; reflexivity].
    destruct Hx1 as (Hd & _ & Hs).
    apply editorDelRow_doc in Hx2; [|exact Hd]. subst x2.
    split; [|exact Hs].
    eapply doc_ok_frame; [| |exact Hd]; reflexivity.
Qed.

Lemma update_all_loop_doc (n : nat) :
  forall (filerow : Z) (E E' : editorConfig),
    doc_ok E -> update_all_loop n filerow E = Ok E' ->
    doc_ok E' /\ syntax E' = syntax E.
Proof.
  induction n as [|n IH]; intros filerow E E' Hdoc H; cbn [update_all_loop] in H.
  - injection H as <-. auto.
  - bind_inv H. apply editorUpdateSyntax_partial in Hx; [|exact Hdoc].
    destruct Hx as (Hd & _ & Hs).
    destruct (IH _ _ _ Hd H) as [Hd' Hs']. split; [exact Hd' | congruence].
Qed.

Lemma editorSelectSyntaxHighlight_doc (E E' : editorConfig) :
  doc_ok E -> editorSelectSyntaxHighlight E = Ok E' -> doc_ok E'.
Proof.
  intros Hdoc H. unfold editorSelectSyntaxHighlight in H.
  cbn [filename set_syntax] in H.
  destruct (filename E) as [fname|];
    [|injection H as <-; eapply doc_ok_frame; [| |exact Hdoc]; reflexivity].
  destruct (select_entry HLDB fname (strrchr fname DOT)) as [syn|];
    [|injection H as <-; eapply doc_ok_frame; [| |exact Hdoc]; reflexivity].
  apply update_all_loop_doc in H; [tauto|].
  eapply doc_ok_frame; [| |exact Hdoc]; reflexivity.
Qed.

Lemma open_loop_doc (lines : list (list ascii)) :
  forall (E E' : editorConfig),
    doc_ok E -> open_loop lines E = Ok E' -> doc_ok E'.
Proof.
  induction lines as [|line lines IH]; intros E E' Hdoc H; cbn [open_loop] in H.
  - now injection H as <-.
  - bind_inv H. apply editorInsertRow_doc in Hx; [|exact Hdoc].
    apply (IH x E'); tauto.
Qed.

Lemma editorOpen_doc (E E' : editorConfig) (fname : list ascii)
  (lines : list (list ascii)) :
  doc_ok E -> editorOpen E fname lines = Ok E' -> doc_ok E'.
Proof.
  intros Hdoc H. unfold editorOpen in H. bind_inv H. injection H as <-.
  apply editorSelectSyntaxHighlight_doc in Hx;
    [|eapply doc_ok_frame; [| |exact Hdoc]; reflexivity].
  apply open_loop_doc in Hx0; [|exact Hx].
  eapply doc_ok_frame; [| |exact Hx0]; reflexivity.
Qed.

Lemma memcpy_hl_Ok (dst src h : list editorHighlight) (n : Z) :
  memcpy_hl dst src n = Ok h -> zlen h = zlen dst /\ 0 <= n <= zlen src.
Proof.
  unfold memcpy_hl.
  destruct (Z.ltb_spec n 0); [discriminate|].
  destruct (Z.ltb_spec (zlen dst) n); [discriminate|].
  destruct (Z.ltb_spec (zlen src) n); [discriminate|].
  cbn [orb]. intros [= <-].
  rewrite zlen_app, zlen_firstn, zlen_skipn by lia. lia.
Qed.

Lemma doc_ok_set_hl (E : editorConfig) (k : Z) (r : erow) (h : list editorHighlight) :
  doc_ok E -> get_row (row E) k = Ok r -> zlen h = zlen (hl r) ->
  doc_ok (set_rows E (replace_nth (Z.to_nat k) (row E) (set_hl r h))).
Proof.
  intros Hdoc Hr Hh. destruct (doc_ok_row E k r Hdoc Hr) as [[Ht Hl] Hi].
  pose proof Hr as Hr'. apply get_row_Ok in Hr'. destruct Hr' as [_ Hnth].
  destruct Hdoc as (Hn & Hidx & Hrows).
  split; [cbn [row numrows set_rows]; now rewrite zlen_replace_nth|].
  split; cbn [row set_rows].
  - eapply idx_ok_replace_nth; eauto.
  - apply Forall_replace_nth.
    + intros j a Hj _. rewrite Forall_forall in Hrows. apply Hrows.
      eapply nth_error_In; eauto.
    + split; [exact Ht|]. cbn [hl rsize set_hl]. congruence.
Qed.

Lemma find_restore_doc (E E' : editorConfig) (S : findState) :
  doc_ok E -> find_restore E S = Ok E' -> doc_ok E'.
Proof.
  intros Hdoc H. unfold find_restore in H.
  destruct (saved_hl S) as [saved|]; [|now injection H as <-].
  bind_inv H. injection H as <-.
  apply put_row_Ok in Hx1. destruct Hx1 as [_ ->].
  apply memcpy_hl_Ok in Hx0. apply doc_ok_set_hl; tauto.
Qed.

Lemma editorFindCallback_doc (E E' : editorConfig) (S S' : findState)
  (query : list ascii) (key : Z) :
  doc_ok E -> editorFindCallback E S query key = Ok (E', S') -> doc_ok E'.
Proof.
  intros Hdoc H. unfold editorFindCallback in H. bind_inv H.
  apply find_restore_doc in Hx; [|exact Hdoc].
  destruct (is_find_exit key); [now injection H as <- _|].
  bind_inv H. destruct (snd x0) as [[current off]|]; [|now injection H as <- _].
  bind_inv H. injection H as <- _.
  apply put_row_Ok in Hx4. destruct Hx4 as [_ Hx4].
  cbn [row set_rows set_cx set_cy set_rowoff] in Hx4. subst x4.
  apply memset_inv in Hx3. destruct Hx3 as (H0 & H1 & H2 & ->).
  pose proof (doc_ok_set_hl x current x1 (splice (hl x1) off HL_MATCH (strlen query))
                Hx Hx1 (zlen_splice _ _ _ _ H0 H1 H2)) as Hd.
  eapply doc_ok_frame; [| |exact Hd]; reflexivity.
Qed.

Lemma editorMoveCursor_frame (E E' : editorConfig) (key : Z) :
  editorMoveCursor E key = Ok E' ->
  row E' = row E /\ numrows E' = numrows E /\ syntax E' = syntax E.
Proof.
  intros H. unfold editorMoveCursor in H. bind_inv H.
  assert (H1 : row x0 = row E /\ numrows x0 = numrows E /\ syntax x0 = syntax E).
  { clear H Hx1.
    repeat match type of Hx0 with
           | (if ?b then _ else _) = Ok _ => destruct b
           | match ?o with Some _ => _ | None => _ end = Ok _ => destruct o
           | bind ?r _ = Ok _ => destruct r; [cbn [bind] in Hx0 | discriminate Hx0]
           end; injection Hx0 as <-; auto. }
  destruct (cx x0 >? _); injection H as <-; exact H1.
Qed.

Lemma editorScroll_frame (E : editorConfig) :
  row (editorScroll E) = row E /\ numrows (editorScroll E) = numrows E.
Proof.
  unfold editorScroll.
  repeat match goal with
         | |- context [if ?b then _ else _] => destruct b
         end; auto.
Qed.

Lemma apply_op_doc (o : op) (E E' : editorConfig) (S S' : findState) :
  doc_ok E -> apply_op o (E, S) = Ok (E', S') -> doc_ok E'.
Proof.
  intros Hdoc H. destruct o; cbn [apply_op fst snd] in H;
    try (bind_inv H; injection H as <- _).
  - eapply editorOpen_doc; eauto.
  - eapply editorSelectSyntaxHighlight_doc; [|eauto].
    eapply doc_ok_frame; [| |exact Hdoc]; reflexivity.
  - eapply editorInsertRow_doc; eauto.
  - apply editorDelRow_doc in Hx; [now subst | exact Hdoc].
  - eapply editorRowInsertChar_doc; eauto.
  - eapply editorRowAppendString_doc; eauto.
  - eapply editorRowDelChar_doc; eauto.
  - eapply editorUpdateRow_partial; eauto.
  - eapply editorUpdateSyntax_partial; eauto.
  - eapply editorInsertChar_doc; eauto.
  - eapply editorInsertNewline_doc; eauto.
  - eapply editorDelChar_doc; eauto.
  - apply editorMoveCursor_frame in Hx. destruct Hx as (Hr & Hn & _).
    eapply doc_ok_frame; eauto.
  - destruct (editorScroll_frame E) as [Hr Hn].
    eapply doc_ok_frame; eauto.
  - eapply editorFindCallback_doc; eauto.
  - eapply doc_ok_frame; [| |exact Hdoc]; reflexivity.
Qed.

Lemma run_doc (ops : list op) :
  forall (E E' : editorConfig) (S S' : findState),
    doc_ok E -> run ops (E, S) = Ok (E', S') -> doc_ok E'.
Proof.
  induction ops as [|o ops IH]; intros E E' S S' Hdoc H; cbn [run] in H.
  - now injection H as <- _.
  - bind_inv H. destruct x as [E1 S1].
    apply (IH E1 E' S1 S'); [|exact H]. eapply apply_op_doc; eauto.
Qed.

Lemma initEditor_doc (rows cols : Z) : doc_ok (initEditor rows cols).
Proof.
  split; [reflexivity|]. split; [|constructor].
  intros [|k] r Hk; discriminate.
Qed.


(* ================================================================= *)
(** ** Incremental search *)

Lemma find_next_mod (E : editorConfig) (current dir : Z) :
  find_start_ok E current dir ->
  find_next E current dir = (current + dir) mod numrows E /\
  0 <= find_next E current dir < numrows E.
Proof.
  intros (HN & Hc & Hd). unfold find_next. cbv zeta.
  destruct (Z.eqb_spec (current + dir) (-1)) as [He|Hne].
  - split; [|lia].
    apply (Z.mod_unique _ _ (-1)); [left|]; lia.
  - destruct (Z.eqb_spec (current + dir) (numrows E)) as [He|Hne'].
    + split; [|lia]. rewrite He. symmetry. apply Z_mod_same_full.
    + assert (0 <= current + dir < numrows E) by lia.
      split; [|lia]. symmetry. now apply Z.mod_small.
Qed.

Lemma find_start_ok_next (E : editorConfig) (current dir : Z) :
  find_start_ok E current dir -> find_start_ok E (find_next E current dir) dir.
Proof.
  intros H. pose proof (find_next_mod E current dir H) as [_ Hr].
  destruct H as (HN & _ & Hd). split; [lia|]. split; lia.
Qed.

Lemma find_order_closed (n : nat) (E : editorConfig) (dir : Z) :
  forall current,
    find_start_ok E current dir ->
    find_order n E current dir
    = map (fun j => (current + dir * Z.of_nat j) mod numrows E) (seq 1 n).
Proof.
  induction n as [|n IH]; intros current H; [reflexivity|].
  cbn [find_order seq map].
  destruct (find_next_mod E current dir H) as [Hm Hr].
  rewrite IH by now apply find_start_ok_next.
  f_equal.
  - rewrite Hm. f_equal. lia.
  - rewrite <- (seq_shift n 1), map_map. apply map_ext. intros j.
    rewrite Hm, Zplus_mod_idemp_l. f_equal. lia.
Qed.

Lemma mod_eq_small (a b N : Z) :
  0 < N -> a mod N = b mod N -> Z.abs (a - b) < N -> a = b.
Proof.
  intros HN Hm Hd.
  pose proof (Z.div_mod a N ltac:(lia)) as Ha.
  pose proof (Z.div_mod b N ltac:(lia)) as Hb.
  assert (Hk : a - b = N * (a / N - b / N)) by lia.
  assert (a / N - b / N = 0) by nia. lia.
Qed.

(** The order visits every row exactly once. *)
Lemma find_order_all (E : editorConfig) (current dir : Z) :
  find_start_ok E current dir ->
  let order := find_order (Z.to_nat (numrows E)) E current dir in
  NoDup order /\ (forall k, In k order <-> 0 <= k < numrows E).
Proof.
  intros H order. pose proof H as (HN & Hc & Hd).
  assert (Hclosed := find_order_closed (Z.to_nat (numrows E)) E dir current H).
  fold order in Hclosed.
  assert (Hnd : NoDup order).
  { rewrite Hclosed. apply NoDup_map_NoDup_ForallPairs; [|apply seq_NoDup].
    intros x y Hx Hy Heq. apply in_seq in Hx, Hy.
    apply mod_eq_small in Heq; [nia | lia | nia]. }
  assert (Hrange : forall k, In k order -> 0 <= k < numrows E).
  { intros k Hk. rewrite Hclosed in Hk. apply in_map_iff in Hk.
    destruct Hk as (j & <- & _). apply Z.mod_pos_bound. lia. }
  split; [exact Hnd|]. intros k. split; [apply Hrange|]. intros Hk.
  assert (Hincl : incl (map Z.of_nat (seq 0 (Z.to_nat (numrows E)))) order).
  { apply NoDup_length_incl; [exact Hnd| |].
    - rewrite length_map, length_seq, Hclosed, length_map, length_seq. lia.
    - intros z Hz. apply Hrange in Hz. apply in_map_iff.
      exists (Z.to_nat z). split; [lia|]. apply in_seq. lia. }
  apply Hincl. apply in_map_iff. exists (Z.to_nat k). split; [lia|].
  apply in_seq. lia.
Qed.

(** The loop follows the order and stops at the first row that holds
    the query. *)
Lemma find_loop_trace (E : editorConfig) (query : list ascii) (dir : Z) (n : nat) :
  numrows E = zlen (row E) ->
  forall current,
    find_start_ok E current dir ->
    exists visited hit,
      find_loop n E query current dir = Ok (visited, hit) /\
      visited = firstn (length visited) (find_order n E current dir) /\
      (forall k r, In k (removelast visited) -> get_row (row E) k = Ok r ->
                   strstr (render r) query = None) /\
      match hit with
      | None =>
          visited = find_order n E current dir /\
          (forall k r, In k visited -> get_row (row E) k = Ok r ->
                       strstr (render r) query = None)
      | Some (c, off) =>
          last visited (-1) = c /\
          exists r, get_row (row E) c = Ok r /\ strstr (render r) query = Some off
      end.
Proof.
  intros Hn. induction n as [|n IH]; intros current H.
  - exists [], None. cbn. repeat split; auto; intros k r [].
  - cbn [find_loop find_order].
    destruct (find_next_mod E current dir H) as [_ Hr].
    set (c := find_next E current dir) in *.
    destruct (get_row_in_range (row E) c) as [r Hrow]; [lia|].
    rewrite Hrow. cbn [bind].
    destruct (strstr (render r) query) as [off|] eqn:Hs.
    + exists [c], (Some (c, off)). cbn [length firstn removelast last].
      repeat split; auto; [intros k r0 []|]. exists r. auto.
    + destruct (IH c (find_start_ok_next E current dir H))
        as (visited & hit & Hrun & Hpre & Hrm & Hhit).
      rewrite Hrun. cbn [bind fst snd].
      exists (c :: visited), hit. split; [reflexivity|].
      split; [cbn [length firstn]; now f_equal|].
      split.
      { intros k r0 Hk Hk0. destruct visited as [|v visited']; [destruct Hk|].
        change (removelast (c :: v :: visited')) with (c :: removelast (v :: visited')) in Hk.
        destruct Hk as [<-|Hk]; [congruence | eauto]. }
      destruct hit as [[c' off']|].
      * destruct Hhit as (Hlast & r' & Hr' & Hs').
        split; [|eauto].
        destruct visited as [|v visited']; [|exact Hlast].
        cbn [last] in Hlast. subst c'. apply get_row_range in Hr'. lia.
      * destruct Hhit as [Hall Hnone]. split; [now f_equal|].
        intros k r0 [<-|Hk] Hk0; [congruence | eauto].
Qed.

Lemma is_prefix_length (p s : list ascii) :
  is_prefix p s = true -> (length p <= length s)%nat.
Proof.
  revert s. induction p as [|a p IH]; intros [|b s] H; cbn in *; try lia;
    try discriminate.
  apply andb_prop in H. destruct H as [_ H]. apply IH in H. lia.
Qed.

Lemma strstr_from_bound (needle : list ascii) (hay : list ascii) :
  forall o off,
    strstr_from hay needle o = Some off ->
    o <= off /\ (off - o) + zlen needle <= zlen hay.
Proof.
  induction hay as [|c hay IH]; intros o off H; cbn [strstr_from] in H.
  - destruct (is_prefix needle []) eqn:Hp; [|discriminate].
    injection H as <-. apply is_prefix_length in Hp. unfold zlen. lia.
  - destruct (is_prefix needle (c :: hay)) eqn:Hp.
    + injection H as <-. apply is_prefix_length in Hp. unfold zlen. lia.
    + apply IH in H. unfold zlen in *. cbn [length]. lia.
Qed.

Lemma cstr_length (s : list ascii) : zlen (cstr s) <= zlen s.
Proof.
  unfold zlen. induction s as [|c s IH]; cbn [cstr length]; [lia|].
  destruct (Ascii.eqb c NUL); cbn [length]; lia.
Qed.

Lemma strstr_bound (hay needle : list ascii) (off : Z) :
  strstr hay needle = Some off -> 0 <= off /\ off + strlen needle <= zlen hay.
Proof.
  unfold strstr, strlen. intros H. apply strstr_from_bound in H.
  pose proof (cstr_length hay). lia.
Qed.

Lemma find_restore_ok (E : editorConfig) (S : findState) :
  doc_ok E -> find_ok E S ->
  exists rows1,
    find_restore E S = Ok (set_rows E rows1) /\
    map strip rows1 = map strip (row E) /\
    (forall k, Z.of_nat k <> saved_hl_line S ->
               nth_error rows1 k = nth_error (row E) k) /\
    (saved_hl S = None -> rows1 = row E).
Proof.
  intros Hdoc [_ Hsaved]. unfold find_restore.
  destruct (saved_hl S) as [saved|].
  - destruct (Hsaved saved eq_refl) as (r & Hr & Hlen).
    destruct (doc_ok_row E _ r Hdoc Hr) as [[[_ Hrs] Hl] _].
    pose proof (get_row_range _ _ _ Hr) as Hrange.
    pose proof Hr as Hr'. apply get_row_Ok in Hr'. destruct Hr' as [_ Hnth].
    rewrite Hr. cbn [bind]. unfold memcpy_hl.
    pose proof (zlen_nonneg (render r)).
    destruct (Z.ltb_spec (rsize r) 0); [lia|].
    destruct (Z.ltb_spec (zlen (hl r)) (rsize r)); [lia|].
    destruct (Z.ltb_spec (zlen saved) (rsize r)); [lia|].
    cbn [orb bind]. rewrite put_row_in_range by assumption. cbn [bind].
    eexists. split; [destruct E; reflexivity|].
    split; [eapply map_replace_nth; eauto|].
    split; [|discriminate].
    intros k Hk. apply nth_error_replace_nth_ne. lia.
  - exists (row E). split; [destruct E; reflexivity|]. auto.
Qed.

Lemma find_key_start (E : editorConfig) (S : findState) (key : Z) :
  0 < numrows E -> -1 <= last_match S < numrows E ->
  let S1 := find_key S key in
  let S2 := if last_match S1 =? -1
            then mkFind (last_match S1) 1 (saved_hl_line S1) None else S1 in
  find_start_ok E (last_match S2) (direction S2).
Proof.
  intros HN Hl. unfold find_key, find_start_ok. cbv zeta.
  destruct ((key =? ARROW_RIGHT) || (key =? ARROW_DOWN));
    [|destruct ((key =? ARROW_LEFT) || (key =? ARROW_UP))];
    cbn [last_match direction];
    try destruct (Z.eqb_spec (last_match S) (-1));
    cbn [last_match direction Z.eqb Pos.eqb]; lia.
Qed.

(** C10.  When no row holds the query, the callback returns with the
    editor in the state the restoration of the saved highlight row
    leaves: the cursor and the viewport are those of before, every row
    has its index, sizes, raw and display bytes of before, and the
    highlight arrays are those of after the restoration, which touches
    the saved row only. *)
Theorem C10_find_without_match (E : editorConfig) (S : findState)
  (query : list ascii) (key : Z) :
  doc_ok E -> find_ok E S ->
  (forall r, In r (row E) -> strstr (render r) query = None) ->
  exists E1 S',
    find_restore E S = Ok E1 /\
    editorFindCallback E S query key = Ok (E1, S') /\
    cx E1 = cx E /\ cy E1 = cy E /\ rowoff E1 = rowoff E /\ coloff E1 = coloff E /\
    map strip (row E1) = map strip (row E) /\
    (forall k, Z.of_nat k <> saved_hl_line S ->
               nth_error (row E1) k = nth_error (row E) k) /\
    (saved_hl S = None -> row E1 = row E).
Proof.
  intros Hdoc Hfind Hnone.
  destruct (find_restore_ok E S Hdoc Hfind) as (rows1 & Hres & Hstrip & Hother & Hsame).
  assert (Hdoc1 : doc_ok (set_rows E rows1)) by (eapply find_restore_doc; eauto).
  assert (Hnone1 : forall k r, get_row rows1 k = Ok r -> strstr (render r) query = None).
  { intros k r Hr. apply get_row_Ok in Hr. destruct Hr as [_ Hr].
    destruct (map_strip_nth _ _ _ _ Hstrip Hr) as (r0 & H0 & Hs).
    assert (render r = render r0) by (injection Hs; auto).
    rewrite H. apply Hnone. eapply nth_error_In; eauto. }
  unfold editorFindCallback. rewrite Hres. cbn [bind].
  destruct (is_find_exit key).
  { eexists. eexists. repeat split; eauto. }
  cbn [numrows set_rows].
  set (S1 := find_key S key).
  set (S2 := if last_match S1 =? -1
             then mkFind (last_match S1) 1 (saved_hl_line S1) None else S1).
  assert (Hloop : exists visited,
             find_loop (Z.to_nat (numrows E)) (set_rows E rows1) query
               (last_match S2) (direction S2) = Ok (visited, None)).
  { destruct (Z_le_gt_dec (numrows E) 0) as [Hz|Hpos].
    - replace (Z.to_nat (numrows E)) with O by lia. exists []. reflexivity.
    - destruct (find_loop_trace (set_rows E rows1) query (direction S2)
                  (Z.to_nat (numrows E)) (proj1 Hdoc1) (last_match S2))
        as (visited & hit & Hrun & _ & _ & Hhit).
      + apply (find_key_start (set_rows E rows1) S key); cbn [numrows set_rows]; [lia|].
        destruct Hfind as [Hl _]. lia.
      + destruct hit as [[c off]|]; [|eauto].
        destruct Hhit as (_ & r & Hr & Hs). cbn [row set_rows] in Hr.
        rewrite (Hnone1 _ _ Hr) in Hs. discriminate. }
  destruct Hloop as [visited ->]. cbn [bind snd].
  eexists. eexists. repeat split; eauto.
Qed.

Lemma find_init_ok (E : editorConfig) : find_ok E find_init.
Proof. split; [cbn; lia | discriminate]. Qed.

(** The callback keeps its [static]s fitting the document. *)
Lemma editorFindCallback_find_ok (E E' : editorConfig) (S S' : findState)
  (query : list ascii) (key : Z) :
  doc_ok E -> find_ok E S ->
  editorFindCallback E S query key = Ok (E', S') -> find_ok E' S'.
Proof.
  intros Hdoc [Hl _] H. unfold editorFindCallback in H. bind_inv H.
  assert (Hn : numrows x = numrows E).
  { unfold find_restore in Hx. destruct (saved_hl S); [|now injection Hx as <-].
    bind_inv Hx. now injection Hx as <-. }
  apply find_restore_doc in Hx; [|exact Hdoc].
  destruct (is_find_exit key).
  { injection H as <- <-. split; [cbn; lia | discriminate]. }
  bind_inv H. destruct (snd x0) as [[current off]|].
  - bind_inv H. injection H as <- <-.
    apply put_row_Ok in Hx4. destruct Hx4 as [Hrange ->].
    cbn [row set_rows set_cx set_cy set_rowoff] in *.
    destruct Hx as (Hnz & _). 
    split; cbn [last_match saved_hl saved_hl_line numrows set_rows set_cx set_cy
                  set_rowoff]; [lia|].
    intros b [= <-]. eexists. split.
    + apply get_row_Ok. split; [lia|]. apply nth_error_replace_nth_eq.
      unfold zlen in Hrange. lia.
    + apply memcpy_hl_Ok in Hx2. destruct Hx2 as [Hz _].
      rewrite zlen_repeat in Hz. cbn [rsize set_hl]. lia.
  - injection H as <- <-. split; [|destruct (last_match (find_key S key) =? -1);
                                   unfold find_key;
                                   repeat match goal with
                                          | |- context [if ?b then _ else _] => destruct b
                                          end; discriminate].
    unfold find_key.
    repeat match goal with
           | |- context [if ?b then _ else _] => destruct b
           end; cbn [last_match]; lia.
Qed.


Lemma C10_find_without_match_witness :
  doc_ok (fst mid_search) /\ find_ok (fst mid_search) (snd mid_search) /\
  saved_hl (snd mid_search) <> None /\
  exists E1 S',
    editorFindCallback (fst mid_search) (snd mid_search) (cs "bz") 122 = Ok (E1, S') /\
    cy E1 = cy (fst mid_search).
Proof.
  assert (Hdoc : doc_ok (fst mid_search))
    by (apply doc_okb_sound; vm_compute; reflexivity).
  assert (Hfind : find_ok (fst mid_search) (snd mid_search)).
  { split; [vm_compute; split; congruence|].
    intros b Hb. vm_compute in Hb. injection Hb as <-.
    eexists. split; [vm_compute; reflexivity | vm_compute; congruence]. }
  assert (Hnone : forall r, In r (row (fst mid_search)) ->
                            strstr (render r) (cs "bz") = None).
  { apply Forall_forall. vm_compute. repeat constructor. }
  split; [exact Hdoc|]. split; [exact Hfind|].
  split; [vm_compute; discriminate|].
  destruct (C10_find_without_match (fst mid_search) (snd mid_search) (cs "bz") 122
              Hdoc Hfind Hnone) as (E1 & S' & _ & Hrun & _ & Hcy & _).
  exists E1, S'. split; assumption.
Defined.

(* ================================================================= *)
(** ** Block comments across rows *)

Lemma find_keyword_text (kws : list string) (r r' : erow) (i : Z) :
  render r = render r' -> find_keyword kws r i = find_keyword kws r' i.
Proof.
  intros Hr. induction kws as [|kw kws IH]; [reflexivity|].
  cbn [find_keyword]. unfold matches_at. now rewrite Hr, IH.
Qed.

Lemma scan_step_text (syn : editorSyntax) (r r' : erow) (s : scan) :
  render r = render r' -> rsize r = rsize r' ->
  scan_step syn r s = scan_step syn r' s.
Proof.
  intros Hr Hs.
  unfold scan_step, scan_line_comment, scan_block_comment, scan_string,
    scan_number, scan_keyword, scan_default, matches_at.
  now rewrite (find_keyword_text _ r r' _ Hr), Hr, Hs.
Qed.

Lemma scan_loop_text (syn : editorSyntax) (r r' : erow) :
  render r = render r' -> rsize r = rsize r' ->
  forall fuel s, scan_loop fuel syn r s = scan_loop fuel syn r' s.
Proof.
  intros Hr Hs. induction fuel as [|fuel IH]; intros s; cbn [scan_loop];
    rewrite Hs; [reflexivity|].
  rewrite (scan_step_text syn r r' s Hr Hs).
  destruct (sc_i s <? rsize r'); [|reflexivity].
  destruct (scan_step syn r' s) as [[s1|s1]|f]; cbn [bind]; auto.
Qed.

Lemma row_scan_text (syn : editorSyntax) (r r' : erow) (seed : bool) :
  render r = render r' -> rsize r = rsize r' ->
  row_scan syn r seed = row_scan syn r' seed.
Proof.
  intros Hr Hs. unfold row_scan, scan_fuel. rewrite Hs. now apply scan_loop_text.
Qed.

Lemma scan_loop_partial (syn : editorSyntax) (r : erow) :
  rsize r = zlen (render r) ->
  forall fuel s s',
    scan_inv r s -> scan_loop fuel syn r s = Ok s' ->
    scan_inv r s' /\ sc_i s <= sc_i s' /\
    firstn (Z.to_nat (sc_i s)) (sc_hl s') = firstn (Z.to_nat (sc_i s)) (sc_hl s).
Proof.
  intros Hr. induction fuel as [|fuel IH]; intros s s' Hinv H; cbn [scan_loop] in H.
  - destruct (Z.ltb_spec (sc_i s) (rsize r)); [discriminate|].
    injection H as <-. repeat split; try apply Hinv; lia.
  - destruct (Z.ltb_spec (sc_i s) (rsize r)) as [Hlt|Hge].
    + pose proof (scan_step_good syn r s Hr Hinv Hlt) as Hg.
      destruct (scan_step syn r s) as [[s1|s1]|f]; cbn [good_step bind] in *;
        [| |contradiction].
      * destruct Hg as [(Hinv1 & Hle & Hpre) _].
        destruct (IH s1 s' Hinv1 H) as (Hinv' & Hle' & Hpre').
        split; [exact Hinv'|]. split; [lia|].
        rewrite <- Hpre. eapply firstn_le_eq; [|exact Hpre']. lia.
      * injection H as <-. destruct Hg as [(Hinv1 & Hle & Hpre) _]. auto.
    + injection H as <-. repeat split; try apply Hinv; lia.
Qed.

(** A turn of the loop inside a block comment. *)
Lemma scan_step_in_comment (syn : editorSyntax) (r : erow) (s : scan) :
  has_block_comments syn -> sc_in_comment s = true -> sc_in_string s = NUL ->
  scan_step syn r s =
  (h <- store (sc_hl s) (sc_i s) HL_MLCOMMENT ;;
   if matches_at r (sc_i s) (mce syn) (mce_len syn)
   then h' <- memset h (sc_i s) HL_MLCOMMENT (mce_len syn) ;;
        Ok (Continue (mkScan (sc_i s + mce_len syn) true NUL false h'))
   else Ok (Continue (mkScan (sc_i s + 1) (sc_prev_sep s) NUL true h))).
Proof.
  intros [Hs He] Hin Hstr.
  unfold scan_step, scan_line_comment, scan_block_comment.
  rewrite Hin, Hstr.
  destruct (Z.eqb_spec (mcs_len syn) 0); [contradiction|].
  destruct (Z.eqb_spec (mce_len syn) 0); [contradiction|].
  rewrite !andb_false_r. cbn [negb andb or_else].
  change (Ascii.eqb NUL NUL) with true. cbn [or_else]. reflexivity.
Qed.

Lemma scan_in_comment (syn : editorSyntax) (r : erow) :
  has_block_comments syn -> rsize r = zlen (render r) ->
  forall fuel s s',
    scan_inv r s -> sc_in_comment s = true -> sc_in_string s = NUL ->
    scan_loop fuel syn r s = Ok s' ->
    (forall j,
       sc_i s <= j <
       match close_from (Z.to_nat (rsize r - sc_i s)) syn r (sc_i s) with
       | Some p => p + mce_len syn
       | None => rsize r
       end -> hl_at (sc_hl s') j = HL_MLCOMMENT) /\
    (close_from (Z.to_nat (rsize r - sc_i s)) syn r (sc_i s) = None ->
     sc_in_comment s' = true).
Proof.
  intros Hbc Hr. induction fuel as [|fuel IH]; intros s s' Hinv Hin Hstr H;
    cbn [scan_loop] in H.
  - destruct (Z.ltb_spec (sc_i s) (rsize r)); [discriminate|].
    injection H as <-.
    replace (Z.to_nat (rsize r - sc_i s)) with O by lia. cbn [close_from].
    split; [intros j Hj; lia | auto].
  - destruct (Z.ltb_spec (sc_i s) (rsize r)) as [Hlt|Hge].
    2:{ injection H as <-.
        replace (Z.to_nat (rsize r - sc_i s)) with O by lia. cbn [close_from].
        split; [intros j Hj; lia | auto]. }
    pose proof Hinv as [Hi Hl].
    pose proof (tok_len_nonneg (multiline_comment_end syn)) as He0.
    pose proof (tok_len_strlen (multiline_comment_end syn)) as He1.
    fold (mce_len syn) in He0, He1. fold (mce syn) in He1.
    destruct Hbc as [Hbs Hbe]. 
    replace (Z.to_nat (rsize r - sc_i s))
      with (S (Z.to_nat (rsize r - (sc_i s + 1)))) by lia.
    cbn [close_from].
    rewrite (scan_step_in_comment syn r s (conj Hbs Hbe) Hin Hstr) in H.
    unfold store in H. rewrite memset_Ok in H by lia. cbn [bind] in H.
    destruct (matches_at r (sc_i s) (mce syn) (mce_len syn)) eqn:Hm.
    + apply matches_at_bound in Hm; [|assumption|lia|lia].
      rewrite memset_Ok in H by (rewrite ?zlen_splice; lia). cbn [bind] in H.
      rewrite splice_splice_same in H by lia.
      apply scan_loop_partial in H; [|assumption|].
      2:{ split; cbn [sc_i sc_hl]; [lia|]. rewrite zlen_splice; lia. }
      cbn [sc_i sc_hl] in H. destruct H as (_ & _ & Hpre).
      split; [|discriminate].
      intros j Hj.
      rewrite (hl_at_firstn_eq _ _ _ j Hpre) by lia.
      apply hl_at_splice_in; lia.
    + pose proof H as H'.
      apply scan_loop_partial in H'; [|assumption|].
      2:{ split; cbn [sc_i sc_hl]; [lia|]. rewrite zlen_splice; lia. }
      cbn [sc_i sc_hl] in H'. destruct H' as (_ & _ & Hpre).
      apply IH in H; cbn [sc_i sc_hl sc_in_comment sc_in_string]; auto.
      2:{ split; cbn [sc_i sc_hl]; [lia|]. rewrite zlen_splice; lia. }
      cbn [sc_i sc_hl sc_in_comment sc_in_string] in H.
      destruct H as [Hcells Hflag]. split; [|exact Hflag].
      intros j Hj. destruct (Z.eq_dec j (sc_i s)) as [->|Hne].
      * rewrite (hl_at_firstn_eq _ _ _ (sc_i s) Hpre) by lia.
        apply hl_at_splice_in; lia.
      * apply Hcells. lia.
Qed.

Lemma highlighted_in_comment (syn : editorSyntax) (r : erow) :
  has_block_comments syn -> rsize r = zlen (render r) ->
  highlighted syn true r ->
  in_comment_prefix syn r /\ (first_close syn r = None -> hl_open_comment r = true).
Proof.
  intros Hbc Hr (s & Hrun & Hhl & Hflag).
  pose proof (zlen_nonneg (render r)).
  unfold row_scan in Hrun. apply scan_in_comment in Hrun; auto.
  - cbn [sc_i] in Hrun. rewrite Z.sub_0_r in Hrun. destruct Hrun as [Hcells Hopen].
    split.
    + intros j Hj. rewrite Hhl. apply Hcells. exact Hj.
    + intros Hnone. rewrite Hflag. now apply Hopen.
  - split; cbn [sc_i sc_hl]; [lia|]. rewrite zlen_repeat. lia.
Qed.

Lemma close_from_text (syn : editorSyntax) (r r' : erow) :
  render r = render r' -> forall n p, close_from n syn r p = close_from n syn r' p.
Proof.
  intros Hr. induction n as [|n IH]; intros p; [reflexivity|].
  cbn [close_from]. unfold matches_at. now rewrite Hr, IH.
Qed.

Lemma strip_text (r r' : erow) :
  strip r = strip r' -> render r = render r' /\ rsize r = rsize r'.
Proof. intros H. injection H. auto. Qed.

Lemma first_close_strip (syn : editorSyntax) (r r' : erow) :
  strip r = strip r' -> first_close syn r = first_close syn r'.
Proof.
  intros H. apply strip_text in H. destruct H as [Hr Hs].
  unfold first_close. rewrite Hs. now apply close_from_text.
Qed.

Lemma highlighted_rescanned (syn : editorSyntax) (r : erow) (seed : bool) (s : scan) :
  row_scan syn r seed = Ok s -> highlighted syn seed (rescanned r s).
Proof.
  intros H. exists s. split; [|split; reflexivity].
  rewrite <- H. now apply row_scan_text.
Qed.

(** Below a row that ends inside an open comment, the rows that are up
    to date are highlighted as comment as far as no closing token
    occurs. *)
Lemma open_rows_chain (syn : editorSyntax) (rows : list erow) (m : nat) (rm : erow) :
  has_block_comments syn -> Forall text_ok rows ->
  open_rows_up_to_date syn rows m ->
  nth_error rows m = Some rm -> hl_open_comment rm = true ->
  forall d k rk,
    k = (m + 1 + d)%nat -> nth_error rows k = Some rk ->
    (forall j rj, (m < j < k)%nat -> nth_error rows j = Some rj ->
                  first_close syn rj = None) ->
    highlighted syn true rk.
Proof.
  intros Hbc Htext Hup Hm Hopen. induction d as [|d IH]; intros k rk -> Hk Hnone.
  - apply (Hup m rm rk); auto. now replace (S m) with (m + 1 + 0)%nat by lia.
  - assert (Hlt : (m + 1 + d < length rows)%nat).
    { assert (m + 1 + S d < length rows)%nat by (apply nth_error_Some; congruence). lia. }
    destruct (nth_error rows (m + 1 + d)) as [rp|] eqn:Hp;
      [|apply nth_error_None in Hp; lia].
    assert (Hhp : highlighted syn true rp).
    { apply (IH (m + 1 + d)%nat rp eq_refl Hp).
      intros j rj Hj. apply Hnone. lia. }
    assert (Htp : text_ok rp)
      by (rewrite Forall_forall in Htext; apply Htext; eapply nth_error_In; eauto).
    destruct (highlighted_in_comment syn rp Hbc (proj2 Htp) Hhp) as [_ Hflag].
    apply (Hup (m + 1 + d)%nat rp rk); [lia | exact Hp | | ].
    + now replace (S (m + 1 + d)) with (m + 1 + S d)%nat by lia.
    + apply Hflag. apply (Hnone (m + 1 + d)%nat rp); [lia | exact Hp].
Qed.

Lemma editorUpdateSyntax_rec_partial (depth : nat) :
  forall (E E' : editorConfig) (slot : Z),
    numrows E <= zlen (row E) -> idx_ok (row E) -> Forall text_ok (row E) ->
    editorUpdateSyntax_rec depth E slot = Ok E' ->
    exists rows', E' = set_rows E rows' /\ updated_from slot (row E) rows'.
Proof.
  induction depth as [|depth IH]; intros E E' slot Hn Hidx Htext H.
  all: assert (Hslot : 0 <= slot < zlen (row E))
         by (cbn [editorUpdateSyntax_rec] in H; apply bind_Ok in H;
             destruct H as (r & Hr & _); eapply get_row_range; eauto).
  all: destruct (editorUpdateSyntax_rec_level E slot Hidx Htext Hslot)
         as (rows1 & Hup & [Hdone | (Hlt & _ & Hzero & Hnext)]).
  - rewrite Hdone in H. injection H as <-. eauto.
  - rewrite Hzero in H. discriminate.
  - rewrite Hdone in H. injection H as <-. eauto.
  - rewrite Hnext in H.
    destruct (updated_from_pre slot E rows1 Hn Hidx Htext Hup)
      as (Hn1 & Hidx1 & Htext1 & Hlen1).
    destruct (IH (set_rows E rows1) E' (slot + 1)) as (rows' & -> & Hup2);
      cbn [row numrows set_rows]; auto.
    exists rows'. split; [reflexivity|].
    eapply updated_from_trans; [lia | exact Hup | exact Hup2].
Qed.

Lemma seed_of_next (rows : list erow) (m : Z) (r : erow) :
  0 <= m -> nth_error rows (Z.to_nat m) = Some r ->
  seed_of rows (m + 1) = hl_open_comment r.
Proof.
  intros Hm Hr. unfold seed_of. destruct (Z.gtb_spec (m + 1) 0); [|lia].
  replace (m + 1 - 1) with m by lia. now rewrite Hr.
Qed.

(** One level of [editorUpdateSyntax] on a row that starts inside an
    open comment. *)
Lemma comment_level (syn : editorSyntax) (E : editorConfig) (m : Z) (r : erow) :
  idx_ok (row E) -> Forall text_ok (row E) -> syntax E = Some syn ->
  seed_of (row E) m = true -> 0 <= m ->
  nth_error (row E) (Z.to_nat m) = Some r ->
  exists s,
    let rows1 := replace_nth (Z.to_nat m) (row E) (rescanned r s) in
    row_scan syn r true = Ok s /\
    updated_from m (row E) rows1 /\
    (((hl_open_comment r = sc_in_comment s \/ numrows E <= m + 1) /\
      forall depth, editorUpdateSyntax_rec depth E m = Ok (set_rows E rows1))
     \/ (hl_open_comment r <> sc_in_comment s /\ m + 1 < numrows E /\
         editorUpdateSyntax_rec O E m = Fault OutOfFuel /\
         forall depth,
           editorUpdateSyntax_rec (S depth) E m
           = editorUpdateSyntax_rec depth (set_rows E rows1) (m + 1))).
Proof.
  intros Hidx Htext Hsyn Hseed Hm Hnth.
  assert (Hlt : (Z.to_nat m < length (row E))%nat)
    by (apply nth_error_Some; congruence).
  assert (Hr : get_row (row E) m = Ok r).
  { apply get_row_Ok. split; [unfold zlen; lia | exact Hnth]. }
  assert (Htr : text_ok r)
    by (rewrite Forall_forall in Htext; apply Htext; eapply nth_error_In; eauto).
  assert (Hix : idx r = m) by (rewrite (Hidx _ _ Hnth); lia).
  destruct (editorUpdateSyntax_rec_unfold E m r syn Hr Hix (proj2 Htr) Hsyn)
    as (s & Hs & Hl & Hun).
  rewrite Hseed in Hs. exists s. cbv zeta.
  split; [exact Hs|]. split.
  { apply (updated_from_replace m (row E) r); auto. }
  destruct (Z.ltb_spec (m + 1) (numrows E)) as [Hlast|Hlast].
  - destruct (Bool.eqb (hl_open_comment r) (sc_in_comment s)) eqn:Heq.
    + left. split; [left; now apply Bool.eqb_prop|].
      intros depth. rewrite Hun. cbv zeta. reflexivity.
    + right. split; [|split; [exact Hlast|]].
      * intros Hc. rewrite Hc, Bool.eqb_reflx in Heq. discriminate.
      * split; [|intros depth]; rewrite Hun; cbv zeta;
          destruct (Z.ltb_spec (m + 1) (numrows E)); try lia; reflexivity.
  - left. split; [right; lia|].
    intros depth. rewrite Hun. cbv zeta.
    destruct (Z.ltb_spec (m + 1) (numrows E)); [lia|].
    now rewrite andb_false_r.
Qed.

(** A run of [editorUpdateSyntax] that starts on a row below an open
    comment leaves that row, and every row below it as far as no
    closing token occurs, highlighted as inside the comment. *)
Lemma comment_propagates (syn : editorSyntax) (depth : nat) :
  has_block_comments syn ->
  forall (E E' : editorConfig) (m : Z),
    numrows E = zlen (row E) -> idx_ok (row E) -> Forall text_ok (row E) ->
    syntax E = Some syn -> seed_of (row E) m = true -> 0 <= m ->
    open_rows_up_to_date syn (row E) (Z.to_nat m) ->
    editorUpdateSyntax_rec depth E m = Ok E' ->
    forall k rk,
      (Z.to_nat m <= k)%nat -> nth_error (row E') k = Some rk ->
      (forall j rj, (Z.to_nat m <= j < k)%nat -> nth_error (row E) j = Some rj ->
                    first_close syn rj = None) ->
      highlighted syn true rk.
Proof.
  intros Hbc. induction depth as [|depth IH];
    intros E E' m Hn Hidx Htext Hsyn Hseed Hm0 Hup H k rk Hk Hrk Hnone.
  all: assert (Hr : exists r, get_row (row E) m = Ok r)
         by (cbn [editorUpdateSyntax_rec] in H; apply bind_Ok in H;
             destruct H as (r & Hr & _); eauto).
  all: destruct Hr as [r Hr].
  all: apply get_row_Ok in Hr; destruct Hr as [_ Hnth].
  all: assert (Hm : (Z.to_nat m < length (row E))%nat)
         by (apply nth_error_Some; congruence).
  all: assert (Htr : text_ok r)
         by (rewrite Forall_forall in Htext; apply Htext; eapply nth_error_In; eauto).
  all: destruct (comment_level syn E m r Hidx Htext Hsyn Hseed Hm0 Hnth)
         as (s & Hs & Hup1 & Hcase); cbv zeta in Hup1, Hcase.
  all: pose proof (highlighted_rescanned syn r true s Hs) as Hh1.
  all: assert (Hn1 : nth_error (replace_nth (Z.to_nat m) (row E) (rescanned r s))
                       (Z.to_nat m) = Some (rescanned r s))
         by (apply nth_error_replace_nth_eq; exact Hm).
  all: assert (Hopen : (Z.to_nat m < k)%nat -> sc_in_comment s = true)
         by (intros Hmk;
             destruct (highlighted_in_comment syn (rescanned r s) Hbc (proj2 Htr) Hh1)
               as [_ Hflag];
             apply Hflag; rewrite (first_close_strip syn (rescanned r s) r eq_refl);
             apply (Hnone (Z.to_nat m) r); [lia | exact Hnth]).
  all: assert (Hdone : (hl_open_comment r = sc_in_comment s \/ numrows E <= m + 1) ->
                       E' = set_rows E (replace_nth (Z.to_nat m) (row E) (rescanned r s)) ->
                       highlighted syn true rk).
  1,3: intros Hwhy ->; cbn [row set_rows] in Hrk;
       destruct (Nat.eq_dec k (Z.to_nat m)) as [->|Hne];
       [rewrite Hn1 in Hrk; injection Hrk as <-; exact Hh1|];
       rewrite nth_error_replace_nth_ne in Hrk by lia;
       assert (Hkl : (k < length (row E))%nat) by (apply nth_error_Some; congruence);
       destruct Hwhy as [Hsame | Hlast]; [|unfold zlen in *; lia];
       apply (open_rows_chain syn (row E) (Z.to_nat m) r Hbc Htext Hup Hnth
                ltac:(rewrite Hsame; apply Hopen; lia)
                (k - Z.to_nat m - 1)%nat k rk); [lia | exact Hrk|];
       intros j rj Hj; apply Hnone; lia.
  all: destruct Hcase as [[Hwhy Hrun] | (Hchg & Hlt & Hzero & Hnext)].
  1,3: apply (Hdone Hwhy); rewrite Hrun in H; now injection H.
  - rewrite Hzero in H. discriminate.
  - rewrite Hnext in H.
    destruct (updated_from_pre m E _ ltac:(lia) Hidx Htext Hup1)
      as (Hn1' & Hidx1 & Htext1 & Hlen1).
    set (rows1 := replace_nth (Z.to_nat m) (row E) (rescanned r s)) in *.
    destruct (Nat.eq_dec k (Z.to_nat m)) as [->|Hne].
    + destruct (editorUpdateSyntax_rec_partial depth (set_rows E rows1) E' (m + 1))
        as (rows2 & -> & Hup2); cbn [row numrows set_rows]; auto.
      cbn [row set_rows] in *. destruct Hup2 as (_ & Hf2 & _).
      assert (Hrk' : nth_error rows1 (Z.to_nat m) = Some rk).
      { rewrite <- Hrk. symmetry. eapply nth_error_firstn_eq; [exact Hf2|]. lia. }
      rewrite Hn1 in Hrk'. injection Hrk' as <-. exact Hh1.
    + apply (IH (set_rows E rows1) E' (m + 1)) with (k := k);
        cbn [row numrows syntax set_rows]; auto; try lia.
      * rewrite (seed_of_next rows1 m (rescanned r s)); [apply Hopen; lia | lia | exact Hn1].
      * intros j p q Hj Hp Hq. unfold rows1 in Hp, Hq.
        rewrite nth_error_replace_nth_ne in Hp by lia.
        rewrite nth_error_replace_nth_ne in Hq by lia.
        apply (Hup j p q); auto. lia.
      * intros j rj Hj Hrj. unfold rows1 in Hrj.
        rewrite nth_error_replace_nth_ne in Hrj by lia.
        apply (Hnone j rj); [lia | exact Hrj].
Qed.

Lemma open_rows_replace (syn : editorSyntax) (rows : list erow) (n : nat) (x : erow) :
  open_rows_up_to_date syn rows (S n) ->
  open_rows_up_to_date syn (replace_nth n rows x) (S n).
Proof.
  intros Hup j p q Hj Hp Hq.
  rewrite nth_error_replace_nth_ne in Hp by lia.
  rewrite nth_error_replace_nth_ne in Hq by lia.
  now apply (Hup j p q).
Qed.

(** A run of [editorUpdateSyntax] on a row that did not end inside a
    comment and now does brings the rows below it up to date. *)
Lemma editorUpdateSyntax_opens (syn : editorSyntax) (depth : nat)
  (E E' : editorConfig) (n : Z) (r r' : erow) :
  has_block_comments syn ->
  numrows E = zlen (row E) -> idx_ok (row E) -> Forall text_ok (row E) ->
  syntax E = Some syn ->
  get_row (row E) n = Ok r -> hl_open_comment r = false ->
  open_rows_up_to_date syn (row E) (S (Z.to_nat n)) ->
  editorUpdateSyntax_rec depth E n = Ok E' ->
  get_row (row E') n = Ok r' -> hl_open_comment r' = true ->
  forall k rk,
    (Z.to_nat n < k)%nat -> nth_error (row E') k = Some rk ->
    (forall j rj, (Z.to_nat n < j < k)%nat -> nth_error (row E) j = Some rj ->
                  first_close syn rj = None) ->
    highlighted syn true rk.
Proof.
  intros Hbc Hn Hidx Htext Hsyn Hr Hold Hup H Hr' Hnew k rk Hk Hrk Hnone.
  pose proof (get_row_range _ _ _ Hr) as Hslot.
  pose proof Hr as Hnth. apply get_row_Ok in Hnth. destruct Hnth as [_ Hnth].
  apply get_row_Ok in Hr'. destruct Hr' as [_ Hnth'].
  assert (Hlt : (Z.to_nat n < length (row E))%nat) by (unfold zlen in Hslot; lia).
  assert (Htr : text_ok r)
    by (rewrite Forall_forall in Htext; apply Htext; eapply nth_error_In; eauto).
  assert (Hix : idx r = n) by (rewrite (Hidx _ _ Hnth); lia).
  destruct (editorUpdateSyntax_rec_partial depth E E' n) as (rows' & -> & Hup');
    auto; try lia.
  cbn [row set_rows] in Hrk, Hnth'.
  assert (Hkl : Z.of_nat k < numrows E).
  { apply updated_from_zlen in Hup'.
    assert (k < length rows')%nat by (apply nth_error_Some; congruence).
    unfold zlen in *. lia. }
  destruct (editorUpdateSyntax_rec_unfold E n r syn Hr Hix (proj2 Htr) Hsyn)
    as (s & Hs & Hl & Hun).
  rewrite Hun in H. cbv zeta in H. rewrite Hold in H.
  set (rows1 := replace_nth (Z.to_nat n) (row E) (rescanned r s)) in *.
  assert (Hn1 : nth_error rows1 (Z.to_nat n) = Some (rescanned r s))
    by (unfold rows1; now apply nth_error_replace_nth_eq).
  destruct (Z.ltb_spec (n + 1) (numrows E)); [|lia].
  rewrite andb_true_r in H.
  destruct (sc_in_comment s) eqn:Hflag; cbn [Bool.eqb negb] in H.
  - destruct depth as [|depth]; [discriminate|].
    assert (Hup1 : updated_from n (row E) rows1)
      by (apply (updated_from_replace n (row E) r); auto; lia).
    destruct (updated_from_pre n E rows1 ltac:(lia) Hidx Htext Hup1)
      as (_ & Hidx1 & Htext1 & Hlen1).
    apply (comment_propagates syn depth Hbc (set_rows E rows1) (set_rows E rows') (n + 1))
      with (k := k); cbn [row numrows syntax set_rows]; auto; try lia.
    + rewrite (seed_of_next rows1 n (rescanned r s)); [exact Hflag | lia | exact Hn1].
    + replace (Z.to_nat (n + 1)) with (S (Z.to_nat n)) by lia.
      unfold rows1. now apply open_rows_replace.
    + intros j rj Hj Hrj. unfold rows1 in Hrj.
      rewrite nth_error_replace_nth_ne in Hrj by lia.
      apply (Hnone j rj); [lia | exact Hrj].
  - injection H as H. rewrite <- H in Hnth'. rewrite Hn1 in Hnth'. injection Hnth' as <-.
    cbn in Hnew. congruence.
Qed.

Lemma highlighted_prefix (syn : editorSyntax) (r : erow) :
  has_block_comments syn -> text_ok r -> highlighted syn true r ->
  in_comment_prefix syn r.
Proof.
  intros Hbc Ht Hh. now destruct (highlighted_in_comment syn r Hbc (proj2 Ht) Hh).
Qed.

(** [editorUpdateRow] on a row that did not end inside a comment and
    does afterwards. *)
Lemma editorUpdateRow_opens (syn : editorSyntax) (E E' : editorConfig) (n : Z)
  (r r' : erow) :
  has_block_comments syn ->
  numrows E = zlen (row E) -> idx_ok (row E) -> Forall text_ok (row E) ->
  syntax E = Some syn ->
  get_row (row E) n = Ok r -> hl_open_comment r = false ->
  open_rows_up_to_date syn (row E) (S (Z.to_nat n)) ->
  editorUpdateRow E n = Ok E' ->
  get_row (row E') n = Ok r' -> hl_open_comment r' = true ->
  forall k rk,
    (Z.to_nat n < k)%nat -> nth_error (row E') k = Some rk ->
    (forall j rj, (Z.to_nat n < j < k)%nat -> nth_error (row E) j = Some rj ->
                  first_close syn rj = None) ->
    highlighted syn true rk.
Proof.
  intros Hbc Hn Hidx Htext Hsyn Hr Hold Hup H Hr' Hnew k rk Hk Hrk Hnone.
  pose proof (get_row_range _ _ _ Hr) as Hslot.
  pose proof Hr as Hnth. apply get_row_Ok in Hnth. destruct Hnth as [_ Hnth].
  assert (Hlt : (Z.to_nat n < length (row E))%nat) by (unfold zlen in Hslot; lia).
  assert (Htr : text_ok r)
    by (rewrite Forall_forall in Htext; apply Htext; eapply nth_error_In; eauto).
  unfold editorUpdateRow in H. rewrite Hr in H. cbn [bind] in H.
  rewrite (put_row_in_range _ _ _ Hslot) in H. cbn [bind] in H.
  fold (display_of r) in H. fold (rendered r) in H.
  unfold editorUpdateSyntax in H.
  apply (editorUpdateSyntax_opens syn _ _ E' n (rendered r) r' Hbc) with (k := k)
         (8 := H); cbn [row numrows syntax set_rows]; auto.
  - rewrite zlen_replace_nth. exact Hn.
  - eapply idx_ok_replace_nth; eauto.
  - apply Forall_replace_nth.
    + intros j a Hj _. rewrite Forall_forall in Htext. apply Htext.
      eapply nth_error_In; eauto.
    + apply rendered_text_ok. exact (proj1 Htr).
  - apply get_row_Ok. split; [lia|]. now apply nth_error_replace_nth_eq.
  - now apply open_rows_replace.
  - intros j rj Hj Hrj. rewrite nth_error_replace_nth_ne in Hrj by lia.
    now apply (Hnone j rj).
Qed.

(** A byte is inserted into row [N] of a document whose filetype has
    block-comment tokens; row [N] did not end inside an open comment and
    the rows below it are up to date.  The insertion returns, and if
    row [N] then ends inside an open comment, every row [k] below [N],
    as far as no row strictly between [N] and [k] holds a closing
    token, carries the highlight of a scan started inside the comment:
    it is HL_MLCOMMENT from its first byte to the end of its first
    closing token, or to its end when it has none. *)
Theorem open_comment_propagates (syn : editorSyntax) (E : editorConfig)
  (N at_ c : Z) (rN : erow) :
  doc_ok E -> syntax E = Some syn -> has_block_comments syn ->
  get_row (row E) N = Ok rN -> hl_open_comment rN = false ->
  open_rows_up_to_date syn (row E) (S (Z.to_nat N)) ->
  exists E',
    editorRowInsertChar E N at_ c = Ok E' /\
    forall rN',
      get_row (row E') N = Ok rN' -> hl_open_comment rN' = true ->
      forall k rk,
        N < k -> get_row (row E') k = Ok rk ->
        (forall j rj, N < j < k -> get_row (row E') j = Ok rj ->
                      first_close syn rj = None) ->
        highlighted syn true rk /\ in_comment_prefix syn rk.
Proof.
  intros Hdoc Hsyn Hbc Hr Hold Hup.
  pose proof (get_row_range _ _ _ Hr) as Hslot.
  pose proof Hr as Hnth. apply get_row_Ok in Hnth. destruct Hnth as [_ Hnth].
  assert (Hlt : (Z.to_nat N < length (row E))%nat) by (unfold zlen in Hslot; lia).
  destruct (doc_ok_row E N rN Hdoc Hr) as [[[Hsz Hrs] _] _].
  pose proof (doc_ok_text E Hdoc) as Htext.
  destruct Hdoc as (Hn & Hidx & Hrows).
  unfold editorRowInsertChar. rewrite Hr. cbn [bind].
  rewrite (put_row_in_range _ _ _ Hslot). cbn [bind].
  pose proof (zlen_nonneg (chars rN)).
  set (a := if (at_ <? 0) || (at_ >? size rN) then size rN else at_) in *.
  assert (Ha : 0 <= a <= size rN).
  { unfold a. destruct (Z.ltb_spec at_ 0); cbn [orb]; [lia|].
    destruct (Z.gtb_spec at_ (size rN)); lia. }
  set (bytes := firstn (Z.to_nat a) (chars rN) ++ [char_of_int c]
                ++ firstn (Z.to_nat (size rN - a)) (skipn (Z.to_nat a) (chars rN))).
  assert (Hz : size rN + 1 = zlen bytes).
  { unfold bytes.
    rewrite !zlen_app, zlen_firstn, zlen_firstn by (rewrite ?zlen_skipn; lia).
    unfold zlen at 1. cbn [length]. lia. }
  set (rA := set_chars rN (size rN + 1) bytes).
  set (EA := set_rows E (replace_nth (Z.to_nat N) (row E) rA)).
  assert (HrA : get_row (row EA) N = Ok rA).
  { apply get_row_Ok. split; [lia|]. now apply nth_error_replace_nth_eq. }
  assert (HnA : numrows EA = zlen (row EA))
    by (cbn [EA row numrows set_rows]; rewrite zlen_replace_nth; exact Hn).
  assert (HidxA : idx_ok (row EA))
    by (cbn [EA row set_rows]; eapply idx_ok_replace_nth; eauto).
  assert (HtextA : Forall text_ok (row EA)).
  { cbn [EA row set_rows]. apply Forall_replace_nth.
    - intros j x Hj _. rewrite Forall_forall in Htext. apply Htext.
      eapply nth_error_In; eauto.
    - split; [exact Hz | exact Hrs]. }
  destruct (editorUpdateRow_doc EA N rA HrA Hz ltac:(lia) HidxA)
    as (rows' & Hrun & _ & Hrows' & Hup').
  { cbn [EA row set_rows]. apply ok_except_replace_nth.
    intros j x Hj _. rewrite Forall_forall in Hrows. apply Hrows.
    eapply nth_error_In; eauto. }
  rewrite Hrun. cbn [bind]. eexists. split; [reflexivity|].
  cbn [row set_dirty set_rows].
  intros rN' HrN' Hnew k rk Hk Hrk Hnone.
  apply get_row_Ok in Hrk. destruct Hrk as [_ Hrk].
  destruct Hup' as (Hstrip & _). cbn [EA row set_rows] in Hstrip.
  rewrite replace_nth_twice in Hstrip.
  assert (Hh : highlighted syn true rk).
  { apply (editorUpdateRow_opens syn EA (set_rows EA rows') N rA rN' Hbc)
      with (k := Z.to_nat k); cbn [row syntax set_rows]; auto; try lia.
    - unfold EA. cbn [row set_rows]. now apply open_rows_replace.
    - intros j rj Hj Hrj. unfold EA in Hrj. cbn [row set_rows] in Hrj.
      rewrite nth_error_replace_nth_ne in Hrj by lia.
      assert (Hrj0 : nth_error (replace_nth (Z.to_nat N) (row E) (rendered rA)) j
                     = Some rj)
        by (rewrite nth_error_replace_nth_ne by lia; exact Hrj).
      symmetry in Hstrip.
      destruct (map_strip_nth _ _ j rj Hstrip Hrj0) as (rj' & Hrj' & Hsj).
      rewrite (first_close_strip syn rj rj' Hsj).
      apply (Hnone (Z.of_nat j) rj'); [lia|].
      apply get_row_Ok. split; [lia|]. now rewrite Nat2Z.id. }
  split; [exact Hh|].
  apply highlighted_prefix; auto.
  rewrite Forall_forall in Hrows'. apply Hrows'. eapply nth_error_In; eauto.
Qed.

Lemma open_comment_propagates_witness :
  doc_ok comment_doc /\ syntax comment_doc = Some c_entry /\
  exists E' r2,
    editorRowInsertChar comment_doc 0 1 42 = Ok E' /\
    get_row (row E') 2 = Ok r2 /\
    render r2 = cs "b */ c" /\
    in_comment_prefix c_entry r2.
Proof.
  assert (Hdoc : doc_ok comment_doc) by (apply doc_okb_sound; vm_compute; reflexivity).
  assert (Hsyn : syntax comment_doc = Some c_entry) by (vm_compute; reflexivity).
  assert (Hbc : has_block_comments c_entry) by (split; vm_compute; discriminate).
  assert (Hr : get_row (row comment_doc) 0
               = Ok (mkRow 0 1 1 (cs "/") (cs "/") [HL_NORMAL] false))
    by (vm_compute; reflexivity).
  assert (Hflags : forallb (fun r => negb (hl_open_comment r)) (row comment_doc) = true)
    by (vm_compute; reflexivity).
  assert (Hup : open_rows_up_to_date c_entry (row comment_doc) (S (Z.to_nat 0))).
  { intros j p r Hj Hp _ Hopen. apply nth_error_In in Hp.
    rewrite forallb_forall in Hflags. apply Hflags in Hp.
    rewrite Hopen in Hp. discriminate. }
  split; [exact Hdoc|]. split; [exact Hsyn|].
  destruct (open_comment_propagates c_entry comment_doc 0 1 42 _
              Hdoc Hsyn Hbc Hr eq_refl Hup) as (E' & Hrun & Hprop).
  exists E'.
  assert (HE : exists E0, editorRowInsertChar comment_doc 0 1 42 = Ok E0 /\
                 exists r0, get_row (row E0) 0 = Ok r0 /\ hl_open_comment r0 = true /\
                 exists r1, get_row (row E0) 1 = Ok r1 /\ first_close c_entry r1 = None /\
                 exists r2, get_row (row E0) 2 = Ok r2 /\ render r2 = cs "b */ c").
  { eexists. split; [vm_compute; reflexivity|].
    eexists. split; [vm_compute; reflexivity|]. split; [vm_compute; reflexivity|].
    eexists. split; [vm_compute; reflexivity|]. split; [vm_compute; reflexivity|].
    eexists. split; [vm_compute; reflexivity|]. vm_compute; reflexivity. }
  destruct HE as (E0 & Hrun0 & r0 & Hr0 & Hopen0 & r1 & Hr1 & Hnone1 & r2 & Hr2 & Htext2).
  rewrite Hrun in Hrun0. injection Hrun0 as <-.
  exists r2. split; [exact Hrun|]. split; [exact Hr2|]. split; [exact Htext2|].
  apply (Hprop r0 Hr0 Hopen0 2 r2 ltac:(lia) Hr2).
  intros j rj Hj Hrj. assert (j = 1) by lia. subst j.
  rewrite Hr1 in Hrj. injection Hrj as <-. exact Hnone1.
Defined.

(** The scan of a row that starts inside a block comment returns; the
    row is HL_MLCOMMENT from its first byte to the end of its first
    closing token, or to its end when it has none, and in that case it
    ends inside the open comment. *)
Theorem row_scan_in_open_comment (syn : editorSyntax) (r : erow) :
  has_block_comments syn -> rsize r = zlen (render r) ->
  exists s,
    row_scan syn r true = Ok s /\
    (forall j, 0 <= j < comment_end syn r -> hl_at (sc_hl s) j = HL_MLCOMMENT) /\
    (first_close syn r = None -> sc_in_comment s = true).
Proof.
  intros Hbc Hr.
  destruct (row_scan_ok syn r true Hr) as (s & Hs & Hl).
  exists s. split; [exact Hs|].
  destruct (highlighted_in_comment syn (rescanned r s) Hbc Hr) as [Hp Hopen].
  - now apply highlighted_rescanned.
  - split.
    + intros j Hj. apply (Hp j).
      unfold comment_end in *.
      now rewrite (first_close_strip syn (rescanned r s) r eq_refl).
    + intros Hnone. apply Hopen.
      now rewrite (first_close_strip syn (rescanned r s) r eq_refl).
Qed.

Lemma row_scan_in_open_comment_witness :
  has_block_comments c_entry /\ rsize closing_row = zlen (render closing_row) /\
  comment_end c_entry closing_row = 4 /\
  exists s, row_scan c_entry closing_row true = Ok s /\
            hl_at (sc_hl s) 3 = HL_MLCOMMENT.
Proof.
  assert (Hbc : has_block_comments c_entry) by (split; vm_compute; discriminate).
  assert (Hr : rsize closing_row = zlen (render closing_row)) by reflexivity.
  assert (He : comment_end c_entry closing_row = 4) by (vm_compute; reflexivity).
  split; [exact Hbc|]. split; [exact Hr|]. split; [exact He|].
  destruct (row_scan_in_open_comment c_entry closing_row Hbc Hr) as (s & Hs & Hp & _).
  exists s. split; [exact Hs|]. apply Hp. rewrite He. lia.
Defined.

(** C6 (the code departs from the claim).  A C file of the four lines
    [x], [y], a quote followed by [/*], and [b] is opened, and its
    third line is split behind the quote.  [editorInsertRow] has the
    new row [/*] highlighted by [editorUpdateRow] before it increments
    [E.numrows], so the test [row->idx + 1 < E.numrows] of
    [editorUpdateSyntax] is made with the old count, 3 + 1 < 4, and the
    last row [b] is not recomputed: it stays HL_NORMAL below a row that
    ends inside an open comment.  Then [/*] is typed at the start of
    row 0, which did not end inside an open comment, and neither did
    row 1.  Rows 0, 1 and 2 change their flag to open; row 3 had it
    already, so the recomputation stops there.  No row of the document
    holds a closing token, all of rows 1, 2 and 3 are HL_MLCOMMENT, and
    row 4 is still HL_NORMAL. *)
Theorem C6_stale_row_stays_normal :
  exists E1 S1 E2 S2 E3,
    run (firstn 5 stale_ops) (initEditor 24 80, find_init) = Ok (E1, S1) /\
    numrows E1 = 5 /\
    map render (row E1) = [cs "x"; cs "y"; [DQUOTE]; cs "/*"; cs "b"] /\
    map hl_open_comment (row E1) = [false; false; false; true; false] /\
    map hl (row E1) = [[HL_NORMAL]; [HL_NORMAL]; [HL_STRING];
                       [HL_MLCOMMENT; HL_MLCOMMENT]; [HL_NORMAL]] /\
    run stale_ops (initEditor 24 80, find_init) = Ok (E2, S2) /\
    doc_ok E2 /\ syntax E2 = Some c_entry /\ cx E2 = 1 /\ cy E2 = 0 /\
    map render (row E2) = [cs "/x"; cs "y"; [DQUOTE]; cs "/*"; cs "b"] /\
    map hl_open_comment (row E2) = [false; false; false; true; false] /\
    editorInsertChar E2 42 = Ok E3 /\
    numrows E3 = 5 /\
    map render (row E3) = [cs "/*x"; cs "y"; [DQUOTE]; cs "/*"; cs "b"] /\
    Forall (fun r => first_close c_entry r = None) (row E3) /\
    map hl_open_comment (row E3) = [true; true; true; true; false] /\
    map hl (row E3) = [[HL_MLCOMMENT; HL_MLCOMMENT; HL_MLCOMMENT]; [HL_MLCOMMENT];
                       [HL_MLCOMMENT]; [HL_MLCOMMENT; HL_MLCOMMENT]; [HL_NORMAL]].
Proof.
  eexists. eexists. eexists. eexists. eexists.
  split; [vm_compute; reflexivity|].
  split; [vm_compute; reflexivity|]. split; [vm_compute; reflexivity|].
  split; [vm_compute; reflexivity|]. split; [vm_compute; reflexivity|].
  split; [vm_compute; reflexivity|].
  split; [apply doc_okb_sound; vm_compute; reflexivity|].
  split; [vm_compute; reflexivity|]. split; [vm_compute; reflexivity|].
  split; [vm_compute; reflexivity|]. split; [vm_compute; reflexivity|].
  split; [vm_compute; reflexivity|]. split; [vm_compute; reflexivity|].
  split; [vm_compute; reflexivity|]. split; [vm_compute; reflexivity|].
  split; [vm_compute; repeat constructor|].
  split; vm_compute; reflexivity.
Qed.

(* ================================================================= *)
(** ** Tabs and the display text *)

Lemma advance_rx_tab (rx : Z) :
  0 <= rx ->
  advance_rx TAB rx = if Z.rem rx EDITOR_TAB_STOP =? 0 then rx + 2 else rx + 1.
Proof.
  intros Hrx. unfold advance_rx, EDITOR_TAB_STOP.
  assert (0 <= Z.rem rx 2 < 2) by (apply Z.rem_bound_pos; lia).
  change (Ascii.eqb TAB TAB) with true. cbv iota.
  destruct (Z.eqb_spec (Z.rem rx 2) 0); lia.
Qed.

Lemma advance_rx_plain (c : ascii) (rx : Z) :
  c <> TAB -> advance_rx c rx = rx + 1.
Proof.
  intros Hc. unfold advance_rx.
  destruct (Ascii.eqb_spec c TAB); [contradiction | reflexivity].
Qed.

Lemma rem_succ_even (n : Z) : 0 <= n -> Z.rem n 2 = 0 -> Z.rem (n + 1) 2 <> 0.
Proof.
  intros Hn H. rewrite Z.rem_mod_nonneg in * by lia.
  pose proof (Z.mod_pos_bound n 2). pose proof (Z.mod_pos_bound (n + 1) 2).
  pose proof (Z.div_mod n 2). pose proof (Z.div_mod (n + 1) 2). lia.
Qed.

Lemma rem_succ_odd (n : Z) : 0 <= n -> Z.rem n 2 <> 0 -> Z.rem (n + 1) 2 = 0.
Proof.
  intros Hn H. rewrite Z.rem_mod_nonneg in * by lia.
  pose proof (Z.mod_pos_bound n 2). pose proof (Z.mod_pos_bound (n + 1) 2).
  pose proof (Z.div_mod n 2). pose proof (Z.div_mod (n + 1) 2). lia.
Qed.

(** The bytes a tab contributes to the display text: spaces up to the
    next tab stop. *)
Lemma pad_to_tab_stop_tab (out : list ascii) :
  exists k : nat,
    pad_to_tab_stop (Z.to_nat EDITOR_TAB_STOP) (out ++ [SPACE])
    = out ++ repeat SPACE k /\
    zlen out + Z.of_nat k = advance_rx TAB (zlen out).
Proof.
  pose proof (zlen_nonneg out) as H0.
  rewrite advance_rx_tab by exact H0.
  change (Z.to_nat EDITOR_TAB_STOP) with 2%nat. cbn [pad_to_tab_stop].
  rewrite !zlen_app. change (zlen [SPACE]) with 1. unfold EDITOR_TAB_STOP.
  destruct (Z.eqb_spec (Z.rem (zlen out) 2) 0) as [He|Ho].
  - pose proof (rem_succ_even _ H0 He) as H1.
    destruct (Z.eqb_spec (Z.rem (zlen out + 1) 2) 0); [contradiction|].
    pose proof (rem_succ_odd (zlen out + 1) ltac:(lia) H1) as H2.
    destruct (Z.eqb_spec (Z.rem (zlen out + 1 + 1) 2) 0); [|contradiction].
    exists 2%nat. split; [now rewrite <- app_assoc | lia].
  - pose proof (rem_succ_odd _ H0 Ho) as H1.
    destruct (Z.eqb_spec (Z.rem (zlen out + 1) 2) 0); [|contradiction].
    exists 1%nat. split; [reflexivity | lia].
Qed.

Lemma render_loop_width (r : erow) (n : nat) :
  forall (j : Z) (out : list ascii),
    zlen (render_loop r n j out) = CxToRx_loop r n j (zlen out).
Proof.
  induction n as [|n IH]; intros j out; [reflexivity|].
  cbn [render_loop CxToRx_loop]. rewrite IH. f_equal.
  destruct (Ascii.eqb_spec (byte_at (chars r) j) TAB) as [->|Hne].
  - destruct (pad_to_tab_stop_tab out) as (k & -> & Hk).
    rewrite zlen_app, zlen_repeat. exact Hk.
  - rewrite zlen_app, advance_rx_plain by exact Hne. reflexivity.
Qed.

Lemma display_width_eq (r : erow) :
  zlen (display_of r) = editorRowCxToRx r (size r).
Proof. unfold display_of, editorRowCxToRx. apply render_loop_width. Qed.

Lemma render_loop_no_tab (r : erow) (n : nat) :
  forall (j : Z) (out : list ascii),
    ~ In TAB out -> ~ In TAB (render_loop r n j out).
Proof.
  induction n as [|n IH]; intros j out Hout; [exact Hout|].
  cbn [render_loop]. apply IH.
  destruct (Ascii.eqb_spec (byte_at (chars r) j) TAB) as [He|Hne].
  - destruct (pad_to_tab_stop_tab out) as (k & -> & _).
    intros Hin. apply in_app_or in Hin. destruct Hin as [Hin|Hin]; [auto|].
    apply repeat_spec in Hin. discriminate.
  - intros Hin. apply in_app_or in Hin. destruct Hin as [Hin|[Hin|[]]]; [auto|].
    congruence.
Qed.

(** The display text [editorUpdateRow] builds for a row has as many
    bytes as [editorRowCxToRx] gives columns to the end of the row:
    [row->rsize == editorRowCxToRx(row, row->size)]. *)
Theorem display_of_width (r : erow) :
  zlen (display_of r) = editorRowCxToRx r (size r).
Proof.
  intros.
  eapply display_width_eq; eassumption.
Qed.

Lemma skipn_nth {A : Type} (n : nat) (l : list A) (d : A) :
  (n < length l)%nat -> skipn n l = nth n l d :: skipn (S n) l.
Proof.
  revert n. induction l as [|a l IH]; intros [|n] H; cbn [length] in H; try lia.
  - reflexivity.
  - cbn [skipn nth]. rewrite IH by lia. reflexivity.
Qed.

Lemma render_loop_plain (r : erow) (n : nat) :
  forall (j : Z) (out : list ascii),
    0 <= j -> Z.of_nat n + j <= zlen (chars r) ->
    (forall i, j <= i < j + Z.of_nat n -> byte_at (chars r) i <> TAB) ->
    render_loop r n j out
    = out ++ firstn n (skipn (Z.to_nat j) (chars r)).
Proof.
  induction n as [|n IH]; intros j out Hj Hn Hfree.
  - cbn [render_loop firstn]. now rewrite app_nil_r.
  - cbn [render_loop].
    destruct (Ascii.eqb_spec (byte_at (chars r) j) TAB) as [He|Hne];
      [exfalso; apply (Hfree j); [lia | exact He]|].
    rewrite IH by (try lia; intros i Hi; apply Hfree; lia).
    rewrite <- app_assoc. f_equal.
    rewrite (skipn_nth (Z.to_nat j) (chars r) NUL) by (unfold zlen in Hn; lia).
    cbn [firstn app]. unfold byte_at. destruct (Z.ltb_spec j 0); [lia|].
    replace (Z.to_nat (j + 1)) with (S (Z.to_nat j)) by lia. reflexivity.
Qed.

Lemma display_no_tab (r : erow) :
  ~ In TAB (display_of r) /\
  (size r = zlen (chars r) -> tab_free r (size r) -> display_of r = chars r).
Proof.
  split.
  - unfold display_of. apply render_loop_no_tab. intros [].
  - intros Hsz Hfree. unfold display_of.
    pose proof (zlen_nonneg (chars r)).
    rewrite render_loop_plain; try lia.
    + cbn [app Z.to_nat skipn]. apply firstn_all2. unfold zlen in Hsz. lia.
    + intros i Hi. apply Hfree. lia.
Qed.

(** The display text of a row never holds a tab, and for a row without
    tabs it is the raw text. *)
Theorem display_of_tabs (r : erow) :
  ~ In TAB (display_of r) /\
  (size r = zlen (chars r) -> tab_free r (size r) -> display_of r = chars r).
Proof.
  intros.
  eapply display_no_tab; eassumption.
Qed.

Lemma display_of_tabs_witness :
  size plain_row = zlen (chars plain_row) /\ tab_free plain_row (size plain_row) /\
  display_of plain_row = cs "abc".
Proof.
  assert (Hs : size plain_row = zlen (chars plain_row)) by reflexivity.
  assert (Hf : tab_free plain_row (size plain_row)).
  { intros j Hj. change (size plain_row) with 3 in Hj.
    assert (Hc : j = 0 \/ j = 1 \/ j = 2) by lia.
    destruct Hc as [->|[->| ->]]; vm_compute; discriminate. }
  split; [exact Hs|]. split; [exact Hf|].
  exact (proj2 (display_of_tabs plain_row) Hs Hf).
Defined.

Lemma editorRowCxToRx_le (r : erow) (a b : Z) :
  a <= b -> editorRowCxToRx r a <= editorRowCxToRx r b.
Proof.
  intros Hab. destruct (Z_lt_le_dec b 0) as [Hb|Hb].
  - unfold editorRowCxToRx.
    replace (Z.to_nat a) with O by lia. replace (Z.to_nat b) with O by lia. lia.
  - destruct (Z.eq_dec a b) as [->|Hne]; [lia|].
    destruct (Z_lt_le_dec a 0) as [Ha|Ha].
    + unfold editorRowCxToRx at 1. replace (Z.to_nat a) with O by lia.
      cbn [CxToRx_loop]. apply editorRowCxToRx_nonneg.
    + pose proof (editorRowCxToRx_lt r a b). lia.
Qed.

(** The display column is at least the raw column and at most
    [EDITOR_TAB_STOP] times it; with no tab before the raw column the
    two are equal. *)
Theorem editorRowCxToRx_bounds (r : erow) (c : Z) :
  0 <= c ->
  c <= editorRowCxToRx r c <= EDITOR_TAB_STOP * c /\
  (tab_free r c -> editorRowCxToRx r c = c).
Proof.
  intros Hc. pattern c. apply natlike_ind; [| |exact Hc].
  - unfold editorRowCxToRx, EDITOR_TAB_STOP. cbn. split; [lia | reflexivity].
  - intros x Hx [[IH1 IH2] IH3]. unfold Z.succ.
    rewrite editorRowCxToRx_succ by lia.
    pose proof (editorRowCxToRx_nonneg r x) as Hn.
    split.
    + destruct (Ascii.eqb_spec (byte_at (chars r) x) TAB) as [->|Hne].
      * rewrite advance_rx_tab by exact Hn. unfold EDITOR_TAB_STOP in *.
        destruct (Z.rem (editorRowCxToRx r x) 2 =? 0); lia.
      * rewrite advance_rx_plain by exact Hne. unfold EDITOR_TAB_STOP in *. lia.
    + intros Hfree. rewrite advance_rx_plain by (apply Hfree; lia).
      rewrite IH3; [reflexivity|]. intros j Hj. apply Hfree. lia.
Qed.

Lemma editorRowCxToRx_bounds_witness :
  0 <= 3 /\ 3 <= editorRowCxToRx two_tab_row 3 <= EDITOR_TAB_STOP * 3.
Proof.
  assert (H : 0 <= 3) by lia.
  split; [exact H | exact (proj1 (editorRowCxToRx_bounds two_tab_row 3 H))].
Defined.

Lemma RxToCx_loop_bracket (r : erow) (n : nat) :
  forall (k rx : Z),
    0 <= k -> editorRowCxToRx r k <= rx ->
    let c := RxToCx_loop r n k (editorRowCxToRx r k) rx in
    k <= c <= k + Z.of_nat n /\
    editorRowCxToRx r c <= rx /\
    (c < k + Z.of_nat n -> rx < editorRowCxToRx r (c + 1)).
Proof.
  induction n as [|n IH]; intros k rx Hk Hle; cbv zeta.
  - cbn [RxToCx_loop]. split; [lia|]. split; [exact Hle | lia].
  - cbn [RxToCx_loop]. rewrite <- editorRowCxToRx_succ by lia.
    destruct (Z.gtb_spec (editorRowCxToRx r (k + 1)) rx) as [Hgt|Hngt].
    + split; [lia|]. split; [exact Hle | lia].
    + specialize (IH (k + 1) rx ltac:(lia) Hngt). cbv zeta in IH.
      destruct IH as (H1 & H2 & H3).
      split; [lia|]. split; [exact H2|]. intros Hc. apply H3. lia.
Qed.

Lemma editorRowRxToCx_between (r : erow) (x : Z) :
  0 <= x -> 0 <= size r ->
  let c := editorRowRxToCx r x in
  0 <= c <= size r /\
  editorRowCxToRx r c <= x /\
  (c < size r -> x < editorRowCxToRx r (c + 1)) /\
  (editorRowCxToRx r (size r) <= x -> c = size r).
Proof.
  intros Hx Hs. cbv zeta. unfold editorRowRxToCx.
  change 0 with (editorRowCxToRx r 0) at 1 3 5 7.
  pose proof (RxToCx_loop_bracket r (Z.to_nat (size r)) 0 x ltac:(lia)) as H.
  cbv zeta in H. change (editorRowCxToRx r 0) with 0 in *.
  destruct (H Hx) as (H1 & H2 & H3).
  split; [lia|]. split; [exact H2|]. split; [intros Hc; apply H3; lia|].
  intros Hend.
  set (c := RxToCx_loop r (Z.to_nat (size r)) 0 0 x) in *.
  destruct (Z.eq_dec c (size r)) as [He|Hne]; [exact He|].
  assert (Hc : c < size r) by lia.
  specialize (H3 ltac:(lia)).
  pose proof (editorRowCxToRx_le r (c + 1) (size r) ltac:(lia)). lia.
Qed.

(** [editorRowRxToCx] returns the raw column whose display cells cover
    the display column [rx]: the column conversion of the result is at
    most [rx], that of the next raw column is beyond [rx], and a
    display column at or past the end of the row gives [row->size]. *)
Theorem editorRowRxToCx_bracket (r : erow) (x : Z) :
  0 <= x -> 0 <= size r ->
  let c := editorRowRxToCx r x in
  0 <= c <= size r /\
  editorRowCxToRx r c <= x /\
  (c < size r -> x < editorRowCxToRx r (c + 1)) /\
  (editorRowCxToRx r (size r) <= x -> c = size r).
Proof.
  intros.
  eapply editorRowRxToCx_between; eassumption.
Qed.

Lemma editorRowRxToCx_bracket_witness :
  0 <= 3 /\ 0 <= size two_tab_row /\
  editorRowRxToCx two_tab_row 3 = 2 /\
  editorRowCxToRx two_tab_row (editorRowRxToCx two_tab_row 3) <= 3.
Proof.
  assert (Hx : 0 <= 3) by lia.
  assert (Hs : 0 <= size two_tab_row) by (cbn; lia).
  split; [exact Hx|]. split; [exact Hs|]. split; [reflexivity|].
  exact (proj1 (proj2 (editorRowRxToCx_bracket two_tab_row 3 Hx Hs))).
Defined.

(* ================================================================= *)
(** ** Scrolling keeps the cursor in the window *)

(** [editorScroll] in closed form. *)
Lemma editorScroll_eq (E : editorConfig) :
  editorScroll E =
  let ro := if cy E <? rowoff E then cy E else rowoff E in
  let ro := if cy E >=? ro + screenrows E then cy E - screenrows E + 1 else ro in
  let co := if cx E <? coloff E then cx E else coloff E in
  let co := if cx E >=? co + screencols E then cx E - screencols E + 1 else co in
  mkConfig (cx E) (cy E) (cx E) ro co (screenrows E) (screencols E)
    (numrows E) (row E) (dirty E) (filename E) (statusmsg E) (editorMode E) (syntax E).
Proof.
  destruct E as [x y r ro co sr sc n rows d f m em sy].
  unfold editorScroll.
  repeat (cbn -[Z.ltb Z.geb Z.add Z.sub];
          match goal with
          | |- context [if ?b then _ else _] =>
              lazymatch b with
              | context [if _ then _ else _] => fail
              | _ => destruct b
              end
          end).
  all: reflexivity.
Qed.

Ltac scroll_cases :=
  rewrite ?editorScroll_eq; cbv zeta;
  cbn [cx cy rx rowoff coloff screenrows screencols row numrows];
  repeat match goal with
         | |- context [?a <? ?b] => destruct (Z.ltb_spec a b)
         | |- context [?a >=? ?b] => destruct (Z.geb_spec a b)
         end.

(** On a window of at least one row and one column, [editorScroll]
    leaves the cursor inside the window, so the position
    [editorRefreshScreen] sends to the terminal lies on the screen; it
    moves neither the cursor nor the document, and offsets that are not
    negative stay so when the cursor is not at a negative position. *)
Theorem editorScroll_in_window (E : editorConfig) :
  0 < screenrows E -> 0 < screencols E ->
  let E' := editorScroll E in
  in_window E' /\
  1 <= (cy E' - rowoff E') + 1 <= screenrows E /\
  1 <= (rx E' - coloff E') + 1 <= screencols E /\
  cx E' = cx E /\ cy E' = cy E /\ row E' = row E /\ numrows E' = numrows E /\
  (0 <= cy E -> 0 <= rowoff E -> 0 <= rowoff E') /\
  (0 <= cx E -> 0 <= coloff E -> 0 <= coloff E').
Proof.
  intros Hr Hc. cbv zeta. unfold in_window. scroll_cases.
  all: repeat split; intros; try lia; try reflexivity.
Qed.

Lemma editorScroll_in_window_witness :
  0 < screenrows far_cursor /\ 0 < screencols far_cursor /\
  in_window (editorScroll far_cursor) /\
  rowoff (editorScroll far_cursor) = 79 /\ coloff (editorScroll far_cursor) = 121.
Proof.
  assert (Hr : 0 < screenrows far_cursor) by (cbn; lia).
  assert (Hc : 0 < screencols far_cursor) by (cbn; lia).
  split; [exact Hr|]. split; [exact Hc|].
  split; [exact (proj1 (editorScroll_in_window far_cursor Hr Hc))|].
  split; reflexivity.
Defined.

(** [editorScroll] scrolls only when it has to: with the cursor column
    [cx] inside the window it changes nothing but [rx], and running it
    a second time changes nothing at all. *)
Theorem editorScroll_idempotent (E : editorConfig) :
  0 < screenrows E -> 0 < screencols E ->
  (rowoff E <= cy E < rowoff E + screenrows E ->
   coloff E <= cx E < coloff E + screencols E ->
   editorScroll E = set_rx E (cx E)) /\
  editorScroll (editorScroll E) = editorScroll E.
Proof.
  intros Hr Hc. split.
  - intros Hy Hx. scroll_cases; try lia.
    destruct E; reflexivity.
  - rewrite (editorScroll_eq (editorScroll E)). rewrite (editorScroll_eq E).
    cbv zeta. cbn [cx cy rx rowoff coloff screenrows screencols row numrows
                     dirty filename statusmsg editorMode syntax].
    repeat match goal with
           | |- context [?a <? ?b] => destruct (Z.ltb_spec a b)
           | |- context [?a >=? ?b] => destruct (Z.geb_spec a b)
           end; try lia; reflexivity.
Qed.

Lemma editorScroll_idempotent_witness :
  0 < screenrows far_cursor /\ 0 < screencols far_cursor /\
  editorScroll (editorScroll far_cursor) = editorScroll far_cursor.
Proof.
  assert (Hr : 0 < screenrows far_cursor) by (cbn; lia).
  assert (Hc : 0 < screencols far_cursor) by (cbn; lia).
  split; [exact Hr|]. split; [exact Hc|].
  exact (proj2 (editorScroll_idempotent far_cursor Hr Hc)).
Defined.

(* ================================================================= *)
(** ** The text of the document under the editing operations *)

Lemma chars_strip (r : erow) : chars (strip r) = chars r.
Proof. reflexivity. Qed.

Lemma map_strip_chars (a b : list erow) :
  map strip a = map strip b -> map chars a = map chars b.
Proof.
  intros H. apply (f_equal (map chars)) in H. rewrite !map_map in H.
  exact H.
Qed.

Lemma render_loop_ext (r r' : erow) (n : nat) :
  chars r = chars r' ->
  forall j out, render_loop r n j out = render_loop r' n j out.
Proof.
  intros Hc. induction n as [|n IH]; intros j out; [reflexivity|].
  cbn [render_loop]. rewrite Hc, IH. reflexivity.
Qed.

Lemma display_of_ext (r r' : erow) :
  chars r = chars r' -> size r = size r' -> display_of r = display_of r'.
Proof. intros Hc Hs. unfold display_of. rewrite Hs. now apply render_loop_ext. Qed.

Lemma shown_strip (r r' : erow) : strip r = strip r' -> shown r' -> shown r.
Proof.
  intros H Hs. injection H as _ Hsz _ Hc Hr. unfold shown in *.
  rewrite Hr, Hs. symmetry. now apply display_of_ext.
Qed.

Lemma Forall_shown_strip (a b : list erow) :
  map strip a = map strip b -> Forall shown b -> Forall shown a.
Proof.
  intros Hm Hb. apply Forall_forall. intros r Hin.
  apply In_nth_error in Hin. destruct Hin as [k Hk].
  destruct (map_strip_nth a b k r Hm Hk) as (r0 & Hk0 & Hs).
  apply (shown_strip r r0 Hs).
  rewrite Forall_forall in Hb. apply Hb. eapply nth_error_In; eauto.
Qed.

Lemma shown_rendered (r : erow) : shown (rendered r).
Proof.
  unfold shown, rendered. cbn [render set_render].
  apply display_of_ext; reflexivity.
Qed.

Lemma shown_bump (r : erow) : shown r -> shown (bump r).
Proof.
  unfold shown, bump. cbn [render set_idx]. intros ->.
  apply display_of_ext; reflexivity.
Qed.

(** [editorUpdateRow] on a row whose bytes have just been replaced:
    the call returns, the text of the row is the new text with its tab
    expansion, and everything else but highlighting is as before. *)
Lemma edit_row_spec (E : editorConfig) (slot : Z) (r : erow) (bytes : list ascii) :
  doc_ok E -> get_row (row E) slot = Ok r ->
  exists rows',
    editorUpdateRow
      (set_rows E (replace_nth (Z.to_nat slot) (row E)
                     (set_chars r (zlen bytes) bytes))) slot
    = Ok (set_rows E rows') /\
    doc_ok (set_rows E rows') /\
    map strip rows'
    = map strip (replace_nth (Z.to_nat slot) (row E) (with_text r bytes)).
Proof.
  intros Hdoc Hr.
  pose proof (get_row_range _ _ _ Hr) as Hslot.
  pose proof Hr as Hr'. apply get_row_Ok in Hr'. destruct Hr' as [_ Hnth].
  destruct Hdoc as (Hn & Hidx & Hrows).
  set (rA := set_chars r (zlen bytes) bytes).
  set (rows1 := replace_nth (Z.to_nat slot) (row E) rA).
  assert (Hlt : (Z.to_nat slot < length (row E))%nat) by (unfold zlen in Hslot; lia).
  assert (Hn1 : nth_error rows1 (Z.to_nat slot) = Some rA)
    by (unfold rows1; now apply nth_error_replace_nth_eq).
  destruct (editorUpdateRow_doc (set_rows E rows1) slot rA)
    as (rows' & Hrun & Hidx' & Hrows' & Hup); cbn [row numrows set_rows].
  - apply get_row_Ok. split; [lia | exact Hn1].
  - reflexivity.
  - unfold rows1. rewrite zlen_replace_nth. lia.
  - unfold rows1. eapply idx_ok_replace_nth; eauto.
  - unfold rows1. apply ok_except_replace_nth.
    intros k a Hk _. rewrite Forall_forall in Hrows. apply Hrows.
    eapply nth_error_In; eauto.
  - exists rows'. split; [exact Hrun|].
    pose proof (updated_from_zlen _ _ _ Hup) as Hlen.
    rewrite zlen_replace_nth in Hlen. cbn [row set_rows] in Hlen.
    unfold rows1 in Hlen. rewrite zlen_replace_nth in Hlen.
    split.
    + split; [cbn [row numrows set_rows]; congruence|]. split; assumption.
    + destruct Hup as (Hs & _). rewrite Hs. cbn [row set_rows]. unfold rows1.
      now rewrite replace_nth_twice.
Qed.

Lemma lines_replace (rows rows' : list erow) (k : nat) (r : erow) :
  map strip rows' = map strip (replace_nth k rows r) ->
  map chars rows' = replace_nth k (map chars rows) (chars r).
Proof.
  intros H. rewrite (map_strip_chars _ _ H). clear H.
  revert k. induction rows as [|a rows IH]; intros [|k]; cbn; try reflexivity.
  now rewrite IH.
Qed.

Lemma Forall_replace_nth_all {A : Type} (P : A -> Prop) (n : nat) (l : list A) (x : A) :
  Forall P l -> P x -> Forall P (replace_nth n l x).
Proof.
  intros Hl Hx. apply Forall_replace_nth; [|exact Hx].
  intros k a Hk _. rewrite Forall_forall in Hl. apply Hl.
  eapply nth_error_In; eauto.
Qed.

(** [editorRowInsertChar] in a consistent document: the call returns,
    the byte is in the text of the row at [at], or at its end when [at]
    is out of range, and the other rows keep their text. *)
Lemma editorRowInsertChar_spec (E : editorConfig) (slot at_ c : Z) (r : erow) :
  doc_ok E -> get_row (row E) slot = Ok r ->
  let a := if (at_ <? 0) || (at_ >? size r) then size r else at_ in
  let bytes := insert_at (Z.to_nat a) (char_of_int c) (chars r) in
  exists rows',
    editorRowInsertChar E slot at_ c
    = Ok (set_dirty (set_rows E rows') (dirty E + 1)) /\
    doc_ok (set_rows E rows') /\
    map strip rows'
    = map strip (replace_nth (Z.to_nat slot) (row E) (with_text r bytes)).
Proof.
  intros Hdoc Hr a bytes.
  pose proof (get_row_range _ _ _ Hr) as Hslot.
  destruct (doc_ok_row E slot r Hdoc Hr) as [[[Hsz _] _] _].
  pose proof (zlen_nonneg (chars r)).
  assert (Ha : 0 <= a <= size r).
  { unfold a. destruct (Z.ltb_spec at_ 0); cbn [orb]; [lia|].
    destruct (Z.gtb_spec at_ (size r)); lia. }
  assert (Hb : firstn (Z.to_nat a) (chars r) ++ [char_of_int c]
               ++ firstn (Z.to_nat (size r - a)) (skipn (Z.to_nat a) (chars r))
               = bytes).
  { unfold bytes, insert_at. cbn [app]. f_equal. f_equal.
    apply firstn_all2. rewrite length_skipn. unfold zlen in Hsz. lia. }
  assert (Hz : size r + 1 = zlen bytes).
  { unfold bytes, insert_at.
    change (char_of_int c :: skipn (Z.to_nat a) (chars r))
      with ([char_of_int c] ++ skipn (Z.to_nat a) (chars r)).
    rewrite !zlen_app, zlen_firstn, zlen_skipn by lia.
    change (zlen [char_of_int c]) with 1. lia. }
  destruct (edit_row_spec E slot r bytes Hdoc Hr) as (rows' & Hrun & Hd & Hs).
  exists rows'. split; [|split; assumption].
  unfold editorRowInsertChar. rewrite Hr. cbn [bind]. fold a.
  rewrite (put_row_in_range _ _ _ Hslot). cbn [bind].
  rewrite Hb, Hz, Hrun. reflexivity.
Qed.

(** [editorRowDelChar] with [at] inside the row. *)
Lemma editorRowDelChar_spec (E : editorConfig) (slot at_ : Z) (r : erow) :
  doc_ok E -> get_row (row E) slot = Ok r -> 0 <= at_ < size r ->
  let bytes := delete_at (Z.to_nat at_) (chars r) in
  exists rows',
    editorRowDelChar E slot at_
    = Ok (set_dirty (set_rows E rows') (dirty E + 1)) /\
    doc_ok (set_rows E rows') /\
    map strip rows'
    = map strip (replace_nth (Z.to_nat slot) (row E) (with_text r bytes)).
Proof.
  intros Hdoc Hr Hat bytes.
  pose proof (get_row_range _ _ _ Hr) as Hslot.
  destruct (doc_ok_row E slot r Hdoc Hr) as [[[Hsz _] _] _].
  assert (Hb : firstn (Z.to_nat at_) (chars r)
               ++ firstn (Z.to_nat (size r - at_ - 1))
                    (skipn (Z.to_nat (at_ + 1)) (chars r))
               = bytes).
  { unfold bytes, delete_at. f_equal.
    replace (Z.to_nat (at_ + 1)) with (S (Z.to_nat at_)) by lia.
    apply firstn_all2. rewrite length_skipn. unfold zlen in Hsz. lia. }
  assert (Hz : size r - 1 = zlen bytes).
  { unfold bytes, delete_at. rewrite zlen_app, zlen_firstn by lia.
    replace (S (Z.to_nat at_)) with (Z.to_nat (at_ + 1)) by lia.
    rewrite zlen_skipn by lia. lia. }
  destruct (edit_row_spec E slot r bytes Hdoc Hr) as (rows' & Hrun & Hd & Hs).
  exists rows'. split; [|split; assumption].
  unfold editorRowDelChar. rewrite Hr. cbn [bind].
  destruct (Z.ltb_spec at_ 0); [lia|].
  destruct (Z.geb_spec at_ (size r)); [lia|]. cbn [orb].
  rewrite (put_row_in_range _ _ _ Hslot). cbn [bind].
  rewrite Hb, Hz, Hrun. reflexivity.
Qed.

(** [editorRowAppendString] with a length within the source string. *)
Lemma editorRowAppendString_spec (E : editorConfig) (slot : Z) (s : list ascii)
  (len : Z) (r : erow) :
  doc_ok E -> get_row (row E) slot = Ok r -> 0 <= len <= zlen s ->
  let bytes := chars r ++ firstn (Z.to_nat len) s in
  exists rows',
    editorRowAppendString E slot s len
    = Ok (set_dirty (set_rows E rows') (dirty E + 1)) /\
    doc_ok (set_rows E rows') /\
    map strip rows'
    = map strip (replace_nth (Z.to_nat slot) (row E) (with_text r bytes)).
Proof.
  intros Hdoc Hr Hlen bytes.
  pose proof (get_row_range _ _ _ Hr) as Hslot.
  destruct (doc_ok_row E slot r Hdoc Hr) as [[[Hsz _] _] _].
  assert (Hm : memcpy_bytes s len = Ok (firstn (Z.to_nat len) s)).
  { unfold memcpy_bytes. destruct (Z.ltb_spec len 0); [lia|].
    destruct (Z.ltb_spec (zlen s + 1) len); [lia|]. cbn [orb].
    rewrite firstn_app. replace (Z.to_nat len - length s)%nat with O
      by (unfold zlen in Hlen; lia).
    cbn [firstn]. now rewrite app_nil_r. }
  assert (Hb : firstn (Z.to_nat (size r)) (chars r) ++ firstn (Z.to_nat len) s = bytes).
  { unfold bytes. f_equal. apply firstn_all2. unfold zlen in Hsz. lia. }
  assert (Hz : size r + len = zlen bytes).
  { unfold bytes. rewrite zlen_app, zlen_firstn by lia. lia. }
  destruct (edit_row_spec E slot r bytes Hdoc Hr) as (rows' & Hrun & Hd & Hs).
  exists rows'. split; [|split; assumption].
  unfold editorRowAppendString. rewrite Hr. cbn [bind]. rewrite Hm. cbn [bind].
  rewrite (put_row_in_range _ _ _ Hslot). cbn [bind].
  rewrite Hb, Hz, Hrun. reflexivity.
Qed.
Lemma memcpy_bytes_prefix (s : list ascii) (len : Z) :
  0 <= len <= zlen s -> memcpy_bytes s len = Ok (firstn (Z.to_nat len) s).
Proof.
  intros Hlen. unfold memcpy_bytes. destruct (Z.ltb_spec len 0); [lia|].
  destruct (Z.ltb_spec (zlen s + 1) len); [lia|]. cbn [orb].
  rewrite firstn_app. replace (Z.to_nat len - length s)%nat with O
    by (unfold zlen in Hlen; lia).
  cbn [firstn]. now rewrite app_nil_r.
Qed.

Lemma Forall_insert_rows (P : erow -> Prop) (rows : list erow) (n : nat) (x : erow) :
  Forall P rows -> P x -> (forall r, P r -> P (bump r)) ->
  Forall P (firstn n rows ++ x :: map bump (skipn n rows)).
Proof.
  intros Hrows Hx Hb. rewrite Forall_forall in Hrows.
  apply Forall_forall. intros r Hin. apply in_app_or in Hin.
  destruct Hin as [Hin|[<-|Hin]].
  - apply Hrows. eapply In_firstn; eauto.
  - exact Hx.
  - apply in_map_iff in Hin. destruct Hin as (r0 & <- & Hin).
    apply Hb, Hrows. eapply In_skipn; eauto.
Qed.

(** [editorInsertRow] in a consistent document, at a position in
    range: the call returns, the new row holds the first [len] bytes of
    [s] and sits at [at], the rows from [at] on have moved down by one
    and the row count and the dirty counter have grown by one. *)
Lemma editorInsertRow_spec (E : editorConfig) (at_ : Z) (s : list ascii) (len : Z) :
  doc_ok E -> 0 <= at_ <= numrows E -> 0 <= len <= zlen s ->
  let bytes := firstn (Z.to_nat len) s in
  exists rows',
    editorInsertRow E at_ s len
    = Ok (set_dirty (set_numrows (set_rows E rows') (numrows E + 1)) (dirty E + 1)) /\
    doc_ok (set_numrows (set_rows E rows') (numrows E + 1)) /\
    map strip rows'
    = map strip (firstn (Z.to_nat at_) (row E)
                 ++ new_row at_ bytes :: map bump (skipn (Z.to_nat at_) (row E))).
Proof.
  intros Hdoc Hat Hlen bytes.
  destruct Hdoc as (Hn & Hidx & Hrows).
  assert (Hz : len = zlen bytes) by (unfold bytes; rewrite zlen_firstn; lia).
  set (new := mkRow at_ len 0 bytes [] [] false).
  set (rows2 := firstn (Z.to_nat at_) (row E)
                ++ new :: map bump (skipn (Z.to_nat at_) (row E))).
  pose proof (insert_rows_shape (row E) at_ new ltac:(lia)) as Hsh.
  rewrite <- Hn in Hsh. fold rows2 in Hsh.
  apply bind_Ok in Hsh. destruct Hsh as (rows0 & Hmove & Hsh).
  apply bind_Ok in Hsh. destruct Hsh as (rows1 & Hloop & Hput).
  assert (Hlen2 : zlen rows2 = zlen (row E) + 1).
  { unfold rows2, zlen in *. rewrite length_app, length_firstn. cbn [length].
    rewrite length_map, length_skipn. lia. }
  assert (Hnew : get_row rows2 at_ = Ok new).
  { unfold rows2. rewrite <- (zlen_firstn at_ (row E)) at 3 by lia.
    apply get_row_app. }
  destruct (editorUpdateRow_doc (set_rows E rows2) at_ new)
    as (rows' & Hrun & Hi & Hr & Hup); cbn [row numrows set_rows]; auto; try lia.
  - unfold rows2. apply idx_ok_insert; auto; [unfold zlen in *; lia|].
    cbn [idx new]. lia.
  - intros k a Hk Hne. unfold rows2 in Hk.
    assert (Hpl : length (firstn (Z.to_nat at_) (row E)) = Z.to_nat at_)
      by (rewrite length_firstn; unfold zlen in *; lia).
    rewrite Forall_forall in Hrows.
    destruct (Nat.lt_ge_cases k (Z.to_nat at_)) as [Hlt|Hge].
    + rewrite nth_error_app1 in Hk by lia. apply Hrows.
      apply nth_error_In in Hk. eapply In_firstn; eauto.
    + rewrite nth_error_app2, Hpl in Hk by lia.
      destruct (k - Z.to_nat at_)%nat as [|d] eqn:Hd; [lia|].
      cbn [nth_error] in Hk. rewrite nth_error_map in Hk.
      destruct (nth_error (skipn (Z.to_nat at_) (row E)) d) as [r0|] eqn:Er0;
        [|discriminate].
      cbn [option_map] in Hk. injection Hk as <-.
      apply nth_error_In in Er0. apply In_skipn in Er0.
      exact (Hrows r0 Er0).
  - exists rows'.
    pose proof (updated_from_zlen _ _ _ Hup) as Hlen'.
    rewrite zlen_replace_nth in Hlen'. cbn [row set_rows] in Hlen'.
    split; [|split].
    + unfold editorInsertRow.
      destruct (Z.ltb_spec at_ 0); [lia|].
      destruct (Z.gtb_spec at_ (numrows E)); [lia|]. cbn [orb].
      rewrite Hmove. cbn [bind]. rewrite Hloop. cbn [bind].
      rewrite (memcpy_bytes_prefix s len Hlen). cbn [bind].
      fold bytes. fold new. rewrite Hput. cbn [bind].
      rewrite Hrun. cbn [bind]. reflexivity.
    + split; [cbn [row numrows set_rows set_numrows]; lia|].
      split; assumption.
    + destruct Hup as (Hs & _). rewrite Hs. cbn [row set_rows]. unfold rows2.
      assert (Hl : length (firstn (Z.to_nat at_) (row E)) = Z.to_nat at_)
        by (rewrite length_firstn; unfold zlen in *; lia).
      rewrite <- Hl at 1. rewrite replace_nth_app.
      unfold new_row. rewrite <- Hz. reflexivity.
Qed.
Lemma cursor_len_nonneg (E : editorConfig) : doc_ok E -> 0 <= cursor_len E.
Proof.
  intros (_ & _ & Hrows). unfold cursor_len.
  destruct (nth_error (row E) (Z.to_nat (cy E))) as [r|] eqn:Hr; [|lia].
  rewrite Forall_forall in Hrows.
  destruct (Hrows r (nth_error_In _ _ Hr)) as [[Hs _] _].
  rewrite Hs. apply zlen_nonneg.
Qed.

(** The row under the cursor, in a consistent document. *)
Lemma cursor_row_spec (E : editorConfig) :
  doc_ok E -> 0 <= cy E <= numrows E ->
  exists o,
    cursor_row E = Ok o /\
    cursor_len E = match o with Some r => size r | None => 0 end /\
    match o with
    | Some r => get_row (row E) (cy E) = Ok r /\ cy E < numrows E
    | None => cy E = numrows E
    end.
Proof.
  intros Hdoc Hcy. pose proof Hdoc as (Hn & _ & _).
  unfold cursor_row, cursor_len.
  destruct (Z.geb_spec (cy E) (numrows E)) as [Hge|Hlt].
  - exists None. split; [reflexivity|]. split; [|lia].
    destruct (nth_error (row E) (Z.to_nat (cy E))) eqn:Hr; [|reflexivity].
    assert (Z.to_nat (cy E) < length (row E))%nat by (apply nth_error_Some; congruence).
    unfold zlen in Hn. lia.
  - destruct (get_row_in_range (row E) (cy E) ltac:(lia)) as [r Hr].
    exists (Some r). split; [rewrite Hr; reflexivity|].
    pose proof Hr as Hr'. apply get_row_Ok in Hr'. destruct Hr' as [_ Hnth].
    rewrite Hnth. split; [reflexivity|]. split; [exact Hr | lia].
Qed.

Lemma cursor_ok_clamp (E : editorConfig) :
  doc_ok E -> 0 <= cy E <= numrows E -> 0 <= cx E ->
  exists o,
    cursor_row E = Ok o /\
    let rowlen := match o with Some r => size r | None => 0 end in
    cursor_ok (if cx E >? rowlen then set_cx E rowlen else E).
Proof.
  intros Hdoc Hcy Hcx.
  destruct (cursor_row_spec E Hdoc Hcy) as (o & Ho & Hlen & _).
  exists o. split; [exact Ho|]. cbv zeta. rewrite <- Hlen.
  pose proof (cursor_len_nonneg E Hdoc) as H0.
  destruct (Z.gtb_spec (cx E) (cursor_len E)).
  - split; cbn [cx cy numrows set_cx]; [exact Hcy|].
    unfold cursor_len in *. cbn [row cy set_cx]. lia.
  - split; [exact Hcy | lia].
Qed.

Lemma editorMoveCursor_snap (E : editorConfig) (key : Z) :
  doc_ok E -> 0 <= cy E <= numrows E -> 0 <= cx E ->
  exists x y,
    editorMoveCursor E key = Ok (set_cx (set_cy E y) x) /\
    doc_ok (set_cx (set_cy E y) x) /\ cursor_ok (set_cx (set_cy E y) x) /\
    cy E - 1 <= y <= cy E + 1.
Proof.
  intros Hdoc Hcy Hcx.
  destruct (cursor_row_spec E Hdoc Hcy) as (o & Ho & Hlen & Hrow).
  assert (Hmove : exists x y,
    (if (key =? ARROW_LEFT) || (key =? KEY_h) then
          if negb (cx E =? 0) then Ok (set_cx E (cx E - 1))
          else if cy E >? 0 then
            let E := set_cy E (cy E - 1) in
            p <- get_row (row E) (cy E) ;;
            Ok (set_cx E (size p))
          else Ok E
        else if (key =? ARROW_RIGHT) || (key =? KEY_l) then
          match o with
          | Some r =>
              if cx E <? size r then Ok (set_cx E (cx E + 1))
              else if cx E =? size r then Ok (set_cx (set_cy E (cy E + 1)) 0)
              else Ok E
          | None => Ok E
          end
        else if (key =? ARROW_UP) || (key =? KEY_k) then
          if negb (cy E =? 0) then Ok (set_cy E (cy E - 1)) else Ok E
        else if (key =? ARROW_DOWN) || (key =? KEY_j) then
          if cy E <? numrows E then Ok (set_cy E (cy E + 1)) else Ok E
        else Ok E) = Ok (set_cx (set_cy E y) x) /\
    0 <= y <= numrows E /\ 0 <= x /\ cy E - 1 <= y <= cy E + 1).
  { assert (Hsame : E = set_cx (set_cy E (cy E)) (cx E)) by (destruct E; reflexivity).
    destruct ((key =? ARROW_LEFT) || (key =? KEY_h)).
    - destruct (Z.eqb_spec (cx E) 0) as [H0|H0]; cbn [negb].
      + destruct (Z.gtb_spec (cy E) 0) as [Hpos|Hnp].
        * cbv zeta. cbn [row cy set_cy].
          destruct (get_row_in_range (row E) (cy E - 1)) as [p Hp];
            [destruct Hdoc as (Hn & _); lia|].
          rewrite Hp. cbn [bind]. exists (size p), (cy E - 1).
          split; [destruct E; reflexivity|].
          destruct (doc_ok_row E _ p Hdoc Hp) as [[[Hs _] _] _].
          pose proof (zlen_nonneg (chars p)). lia.
        * exists (cx E), (cy E). split; [now rewrite <- Hsame | lia].
      + exists (cx E - 1), (cy E). split; [destruct E; reflexivity | lia].
    - destruct ((key =? ARROW_RIGHT) || (key =? KEY_l)).
      + destruct o as [r|].
        * destruct Hrow as [_ Hlt].
          destruct (Z.ltb_spec (cx E) (size r)).
          -- exists (cx E + 1), (cy E). split; [destruct E; reflexivity | lia].
          -- destruct (Z.eqb_spec (cx E) (size r)).
             ++ exists 0, (cy E + 1). split; [reflexivity | lia].
             ++ exists (cx E), (cy E). split; [now rewrite <- Hsame | lia].
        * exists (cx E), (cy E). split; [now rewrite <- Hsame | lia].
      + destruct ((key =? ARROW_UP) || (key =? KEY_k)).
        * destruct (Z.eqb_spec (cy E) 0); cbn [negb].
          -- exists (cx E), (cy E). split; [now rewrite <- Hsame | lia].
          -- exists (cx E), (cy E - 1). split; [destruct E; reflexivity | lia].
        * destruct ((key =? ARROW_DOWN) || (key =? KEY_j)).
          -- destruct (Z.ltb_spec (cy E) (numrows E)).
             ++ exists (cx E), (cy E + 1). split; [destruct E; reflexivity | lia].
             ++ exists (cx E), (cy E). split; [now rewrite <- Hsame | lia].
          -- exists (cx E), (cy E). split; [now rewrite <- Hsame | lia]. }
  destruct Hmove as (x & y & Hrun & Hy & Hx & Hstep).
  set (E1 := set_cx (set_cy E y) x) in *.
  assert (Hdoc1 : doc_ok E1) by (eapply doc_ok_frame; [| |exact Hdoc]; reflexivity).
  destruct (cursor_ok_clamp E1 Hdoc1) as (o1 & Ho1 & Hc1);
    [exact Hy | exact Hx |].
  cbv zeta in Hc1.
  set (rowlen := match o1 with Some r => size r | None => 0 end) in *.
  exists (if x >? rowlen then rowlen else x), y.
  assert (Hres : (if cx E1 >? rowlen then set_cx E1 rowlen else E1)
                 = set_cx (set_cy E y) (if x >? rowlen then rowlen else x)).
  { change (cx E1) with x. destruct (x >? rowlen); reflexivity. }
  rewrite Hres in Hc1.
  split; [|split; [eapply doc_ok_frame; [| |exact Hdoc]; reflexivity|split; assumption]].
  unfold editorMoveCursor. rewrite Ho. cbn [bind].
  match goal with
  | |- bind ?m _ = _ => replace m with (Ok E1) by (symmetry; exact Hrun)
  end.
  cbn [bind]. rewrite Ho1. cbn [bind].
  fold rowlen. now rewrite Hres.
Qed.

(** [editorMoveCursor], for every key, returns and keeps the cursor on
    the document: on a row or on the line past the last row, and within
    the row.  Nothing but [cx] and [cy] changes. *)
Theorem editorMoveCursor_cursor (E : editorConfig) (key : Z) :
  doc_ok E -> cursor_ok E ->
  exists x y,
    editorMoveCursor E key = Ok (set_cx (set_cy E y) x) /\
    doc_ok (set_cx (set_cy E y) x) /\ cursor_ok (set_cx (set_cy E y) x) /\
    cy E - 1 <= y <= cy E + 1.
Proof.
  intros Hdoc [Hcy [Hcx _]].
  apply editorMoveCursor_snap; assumption.
Qed.

Lemma editorMoveCursor_cursor_witness :
  doc_ok two_lines /\ cursor_ok two_lines /\
  exists E', editorMoveCursor two_lines ARROW_DOWN = Ok E' /\ cursor_ok E'.
Proof.
  assert (Hdoc : doc_ok two_lines) by (apply doc_okb_sound; vm_compute; reflexivity).
  assert (Hcur : cursor_ok two_lines) by (vm_compute; intuition discriminate).
  split; [exact Hdoc|]. split; [exact Hcur|].
  destruct (editorMoveCursor_cursor two_lines ARROW_DOWN Hdoc Hcur)
    as (x & y & Hrun & _ & Hc & _).
  eexists. split; [exact Hrun | exact Hc].
Defined.
Lemma size_strip (r r' : erow) : strip r = strip r' -> size r = size r' /\ chars r = chars r'.
Proof. intros H. injection H as _ Hs _ Hc _. auto. Qed.

Lemma strip_row_at (rows' rows2 : list erow) (k : nat) (x : erow) :
  map strip rows' = map strip rows2 -> nth_error rows2 k = Some x ->
  exists r', nth_error rows' k = Some r' /\ strip r' = strip x.
Proof.
  intros Hm Hk. symmetry in Hm.
  destruct (map_strip_nth _ _ k x Hm Hk) as (r' & Hr' & Hs). eauto.
Qed.

Lemma lines_insert (rows rows' : list erow) (n : nat) (x : erow) :
  map strip rows'
  = map strip (firstn n rows ++ x :: map bump (skipn n rows)) ->
  map chars rows' = insert_at n (chars x) (map chars rows).
Proof.
  intros H. rewrite (map_strip_chars _ _ H). unfold insert_at.
  rewrite map_app. cbn [map]. rewrite map_map.
  rewrite firstn_map, skipn_map. reflexivity.
Qed.

Lemma nth_error_lines (E : editorConfig) (k : nat) :
  nth_error (lines E) k = option_map chars (nth_error (row E) k).
Proof. unfold lines. apply nth_error_map. Qed.

Lemma cursor_len_at (E : editorConfig) (r : erow) :
  nth_error (row E) (Z.to_nat (cy E)) = Some r -> cursor_len E = size r.
Proof. intros H. unfold cursor_len. now rewrite H. Qed.

Lemma replace_nth_same {A : Type} (n : nat) (l : list A) (x : A) :
  nth_error l n = Some x -> replace_nth n l x = l.
Proof.
  revert n. induction l as [|a l IH]; intros [|n] H; cbn in *; try discriminate.
  - now injection H as ->.
  - now rewrite IH.
Qed.

Lemma delete_at_insert_at {A : Type} (n : nat) (x : A) (l : list A) :
  (n <= length l)%nat -> delete_at n (insert_at n x l) = l.
Proof.
  intros Hn. unfold delete_at, insert_at.
  assert (Hl : length (firstn n l) = n) by (rewrite length_firstn; lia).
  rewrite <- Hl at 1. rewrite firstn_app_exact.
  replace (S n) with (length (firstn n l ++ [x]))
    by (rewrite length_app; cbn [length]; lia).
  change (firstn n l ++ x :: skipn n l) with (firstn n l ++ [x] ++ skipn n l).
  rewrite app_assoc, skipn_app_exact. apply firstn_skipn.
Qed.

Lemma editorInsertChar_total (E : editorConfig) (c : Z) :
  doc_ok E -> cursor_ok E ->
  exists E',
    editorInsertChar E c = Ok E' /\
    doc_ok E' /\ cursor_ok E' /\
    lines E' = typed (lines E) (Z.to_nat (cy E)) (Z.to_nat (cx E)) (char_of_int c) /\
    cx E' = cx E + 1 /\ cy E' = cy E /\ dirty E < dirty E'.
Proof.
  intros Hdoc [Hcy Hcx]. pose proof Hdoc as (Hn & _ & _).
  unfold editorInsertChar, typed. rewrite nth_error_lines.
  destruct (Z.eqb_spec (cy E) (numrows E)) as [Hend|Hin].
  - (* on the line past the last row *)
    assert (Hnone : nth_error (row E) (Z.to_nat (cy E)) = None)
      by (apply nth_error_None; unfold zlen in Hn; lia).
    rewrite Hnone. cbn [option_map].
    assert (Hcx0 : cx E = 0) by (unfold cursor_len in Hcx; rewrite Hnone in Hcx; lia).
    destruct (editorInsertRow_spec E (numrows E) [] 0 Hdoc ltac:(lia))
      as (rows1 & Hrun1 & Hdoc1 & Hs1); [cbn; lia|].
    rewrite Hrun1. cbn [bind firstn Z.to_nat] in *.
    set (E1 := set_dirty (set_numrows (set_rows E rows1) (numrows E + 1)) (dirty E + 1)).
    assert (Hd1 : doc_ok E1) by (eapply doc_ok_frame; [| |exact Hdoc1]; reflexivity).
    rewrite firstn_all2, skipn_all2 in Hs1 by (unfold zlen in Hn; lia).
    cbn [map] in Hs1.
    assert (Hlast : nth_error (row E ++ [new_row (numrows E) []]) (Z.to_nat (cy E))
                    = Some (new_row (numrows E) [])).
    { rewrite nth_error_app2 by (unfold zlen in Hn; lia).
      replace (Z.to_nat (cy E) - length (row E))%nat with O
        by (unfold zlen in Hn; lia). reflexivity. }
    destruct (strip_row_at _ _ _ _ Hs1 Hlast) as (r1 & Hr1 & Hst1).
    destruct (size_strip _ _ Hst1) as [Hsz1 Hch1].
    cbn in Hsz1, Hch1.
    assert (Hg1 : get_row (row E1) (cy E1) = Ok r1)
      by (apply get_row_Ok; split; [cbn; lia | exact Hr1]).
    destruct (editorRowInsertChar_spec E1 (cy E1) (cx E1) c r1 Hd1 Hg1)
      as (rows2 & Hrun2 & Hdoc2 & Hs2).
    cbv zeta in Hrun2, Hs2. rewrite Hrun2. cbn [bind].
    eexists. split; [reflexivity|].
    change (cx E1) with (cx E) in *. change (cy E1) with (cy E) in *.
    rewrite Hcx0, Hsz1, Hch1 in Hs2. cbn [Z.ltb Z.gtb Z.compare orb Z.to_nat] in Hs2.
    change (insert_at 0 (char_of_int c) []) with [char_of_int c] in Hs2.
    split; [eapply doc_ok_frame; [| |exact Hdoc2]; reflexivity|].
    split; [|split; [|split; [|split]]].
    + split; [unfold E1; cbn [cx cy numrows set_cx set_dirty set_rows set_numrows]; lia|].
      cbn [cx set_cx].
      assert (Hk : nth_error (replace_nth (Z.to_nat (cy E)) (row E1)
                                (with_text r1 [char_of_int c])) (Z.to_nat (cy E))
                   = Some (with_text r1 [char_of_int c])).
      { apply nth_error_replace_nth_eq. apply nth_error_Some. cbn [row E1 set_dirty set_numrows set_rows]. congruence. }
      destruct (strip_row_at _ _ _ _ Hs2 Hk) as (r2 & Hr2 & Hst2).
      destruct (size_strip _ _ Hst2) as [Hsz2 _].
      unfold cursor_len. cbn [row cy set_cx set_dirty set_rows].
      change (cy E1) with (cy E). change (cx E1) with (cx E).
      rewrite Hr2, Hsz2. cbn. lia.
    + unfold lines. cbn [row set_cx set_dirty set_rows].
      rewrite (lines_replace _ _ _ _ Hs2). cbn [row E1 set_dirty set_numrows set_rows].
      rewrite (map_strip_chars _ _ Hs1). rewrite map_app. cbn [map].
      replace (Z.to_nat (cy E)) with (length (map chars (row E)))
        by (rewrite length_map; unfold zlen in Hn; lia).
      rewrite replace_nth_app. reflexivity.
    + reflexivity.
    + reflexivity.
    + cbn [dirty set_cx set_dirty set_rows set_numrows E1]. lia.
  - (* on a row *)
    cbn [bind].
    destruct (get_row_in_range (row E) (cy E) ltac:(lia)) as [r Hr].
    pose proof Hr as Hr'. apply get_row_Ok in Hr'. destruct Hr' as [_ Hnth].
    rewrite Hnth. cbn [option_map].
    rewrite (cursor_len_at E r Hnth) in Hcx.
    destruct (editorRowInsertChar_spec E (cy E) (cx E) c r Hdoc Hr)
      as (rows2 & Hrun2 & Hdoc2 & Hs2).
    cbv zeta in Hrun2, Hs2. rewrite Hrun2. cbn [bind].
    eexists. split; [reflexivity|].
    destruct (Z.ltb_spec (cx E) 0); [lia|].
    destruct (Z.gtb_spec (cx E) (size r)); [lia|]. cbn [orb] in Hs2.
    split; [eapply doc_ok_frame; [| |exact Hdoc2]; reflexivity|].
    split; [|split; [|split; [|split]]].
    + split; cbn [cx cy numrows set_cx set_dirty set_rows]; [lia|].
      assert (Hk : nth_error (replace_nth (Z.to_nat (cy E)) (row E)
                     (with_text r (insert_at (Z.to_nat (cx E)) (char_of_int c) (chars r))))
                     (Z.to_nat (cy E))
                   = Some (with_text r (insert_at (Z.to_nat (cx E)) (char_of_int c) (chars r)))).
      { apply nth_error_replace_nth_eq. apply nth_error_Some. congruence. }
      destruct (strip_row_at _ _ _ _ Hs2 Hk) as (r2 & Hr2 & Hst2).
      destruct (size_strip _ _ Hst2) as [Hsz2 _].
      unfold cursor_len. cbn [row cy set_cx set_dirty set_rows].
      rewrite Hr2, Hsz2. cbn [size with_text rendered set_render set_chars].
      destruct (doc_ok_row E _ r Hdoc Hr) as [[[Hsz _] _] _].
      unfold insert_at.
      change (char_of_int c :: skipn (Z.to_nat (cx E)) (chars r))
        with ([char_of_int c] ++ skipn (Z.to_nat (cx E)) (chars r)).
      rewrite !zlen_app, zlen_firstn, zlen_skipn by lia.
      change (zlen [char_of_int c]) with 1. lia.
    + unfold lines. cbn [row set_cx set_dirty set_rows].
      rewrite (lines_replace _ _ _ _ Hs2). reflexivity.
    + reflexivity.
    + reflexivity.
    + cbn [dirty set_cx set_dirty set_rows]. lia.
Qed.

(** [editorInsertChar] in a consistent document with the cursor on it:
    the call returns, the byte is in the text at the cursor (on the line
    past the last row a row is made for it), every other line is as
    before, the cursor has moved one column to the right and stays on
    the document. *)
Theorem editorInsertChar_text (E : editorConfig) (c : Z) :
  doc_ok E -> cursor_ok E ->
  exists E',
    editorInsertChar E c = Ok E' /\
    doc_ok E' /\ cursor_ok E' /\
    lines E' = typed (lines E) (Z.to_nat (cy E)) (Z.to_nat (cx E)) (char_of_int c) /\
    cx E' = cx E + 1 /\ cy E' = cy E /\ dirty E < dirty E'.
Proof.
  intros.
  eapply editorInsertChar_total; eassumption.
Qed.
Lemma editorDelChar_total (E : editorConfig) :
  doc_ok E -> cursor_ok E -> 0 < cx E ->
  exists E',
    editorDelChar E = Ok E' /\
    doc_ok E' /\ cursor_ok E' /\
    lines E' = erased (lines E) (Z.to_nat (cy E)) (Z.to_nat (cx E - 1)) /\
    cx E' = cx E - 1 /\ cy E' = cy E /\ dirty E' = dirty E + 1.
Proof.
  intros Hdoc [Hcy Hcx] Hpos. pose proof Hdoc as (Hn & _ & _).
  assert (Hsome : exists r, nth_error (row E) (Z.to_nat (cy E)) = Some r).
  { unfold cursor_len in Hcx.
    destruct (nth_error (row E) (Z.to_nat (cy E))) as [r|]; [eauto | lia]. }
  destruct Hsome as [r Hnth].
  assert (Hlt : cy E < numrows E).
  { assert (Z.to_nat (cy E) < length (row E))%nat by (apply nth_error_Some; congruence).
    unfold zlen in Hn. lia. }
  assert (Hr : get_row (row E) (cy E) = Ok r)
    by (apply get_row_Ok; split; [lia | exact Hnth]).
  rewrite (cursor_len_at E r Hnth) in Hcx.
  destruct (editorRowDelChar_spec E (cy E) (cx E - 1) r Hdoc Hr ltac:(lia))
    as (rows2 & Hrun2 & Hdoc2 & Hs2).
  cbv zeta in Hrun2, Hs2.
  unfold editorDelChar, erased. rewrite nth_error_lines, Hnth. cbn [option_map].
  destruct (Z.eqb_spec (cy E) (numrows E)); [lia|].
  destruct (Z.eqb_spec (cx E) 0); [lia|]. cbn [andb].
  rewrite Hr. cbn [bind].
  destruct (Z.gtb_spec (cx E) 0); [|lia].
  rewrite Hrun2. cbn [bind].
  eexists. split; [reflexivity|].
  split; [eapply doc_ok_frame; [| |exact Hdoc2]; reflexivity|].
  assert (Hk : nth_error (replace_nth (Z.to_nat (cy E)) (row E)
                 (with_text r (delete_at (Z.to_nat (cx E - 1)) (chars r))))
                 (Z.to_nat (cy E))
               = Some (with_text r (delete_at (Z.to_nat (cx E - 1)) (chars r)))).
  { apply nth_error_replace_nth_eq. apply nth_error_Some. congruence. }
  destruct (strip_row_at _ _ _ _ Hs2 Hk) as (r2 & Hr2 & Hst2).
  destruct (size_strip _ _ Hst2) as [Hsz2 _].
  destruct (doc_ok_row E _ r Hdoc Hr) as [[[Hsz _] _] _].
  split; [|split; [|split; [|split]]].
  - split; cbn [cx cy numrows set_cx set_dirty set_rows]; [lia|].
    unfold cursor_len. cbn [row cy set_cx set_dirty set_rows].
    rewrite Hr2, Hsz2. cbn [size with_text rendered set_render set_chars].
    unfold delete_at.
    replace (S (Z.to_nat (cx E - 1))) with (Z.to_nat (cx E)) by lia.
    rewrite zlen_app, zlen_firstn, zlen_skipn by lia. lia.
  - unfold lines. cbn [row set_cx set_dirty set_rows].
    rewrite (lines_replace _ _ _ _ Hs2). reflexivity.
  - reflexivity.
  - reflexivity.
  - reflexivity.
Qed.

(** [editorDelChar] with the cursor behind a byte of a row: the call
    returns, the byte before the cursor is gone from the text, every
    other line is as before and the cursor has moved one column to the
    left. *)
Theorem editorDelChar_text (E : editorConfig) :
  doc_ok E -> cursor_ok E -> 0 < cx E ->
  exists E',
    editorDelChar E = Ok E' /\
    doc_ok E' /\ cursor_ok E' /\
    lines E' = erased (lines E) (Z.to_nat (cy E)) (Z.to_nat (cx E - 1)) /\
    cx E' = cx E - 1 /\ cy E' = cy E /\ dirty E' = dirty E + 1.
Proof.
  intros.
  eapply editorDelChar_total; eassumption.
Qed.

Lemma editorDelChar_text_witness :
  doc_ok two_lines /\ cursor_ok two_lines /\ 0 < cx two_lines /\
  exists E', editorDelChar two_lines = Ok E' /\ lines E' = [cs "bc"; cs "de"].
Proof.
  assert (Hdoc : doc_ok two_lines) by (apply doc_okb_sound; vm_compute; reflexivity).
  assert (Hcur : cursor_ok two_lines) by (vm_compute; intuition discriminate).
  assert (Hpos : 0 < cx two_lines) by (vm_compute; reflexivity).
  split; [exact Hdoc|]. split; [exact Hcur|]. split; [exact Hpos|].
  destruct (editorDelChar_text two_lines Hdoc Hcur Hpos) as (E' & Hrun & _ & _ & Hl & _).
  exists E'. split; [exact Hrun|]. rewrite Hl. vm_compute. reflexivity.
Defined.

(** Typing a byte on a row and deleting it again gives back the text
    and the cursor; the dirty counter has grown by two. *)
Theorem editorInsertChar_editorDelChar (E : editorConfig) (c : Z) :
  doc_ok E -> cursor_ok E -> cy E < numrows E ->
  exists E1 E2,
    editorInsertChar E c = Ok E1 /\ editorDelChar E1 = Ok E2 /\
    lines E2 = lines E /\ cx E2 = cx E /\ cy E2 = cy E /\
    dirty E2 = dirty E1 + 1.
Proof.
  intros Hdoc Hcur Hlt. pose proof Hdoc as (Hn & _ & _).
  destruct (editorInsertChar_total E c Hdoc Hcur)
    as (E1 & Hrun1 & Hdoc1 & Hcur1 & Hl1 & Hx1 & Hy1 & _).
  destruct Hcur as [Hcy Hcx].
  destruct (editorDelChar_total E1 Hdoc1 Hcur1 ltac:(lia))
    as (E2 & Hrun2 & _ & _ & Hl2 & Hx2 & Hy2 & Hd2).
  exists E1, E2. split; [exact Hrun1|]. split; [exact Hrun2|].
  split; [|split; [lia|split; [lia|exact Hd2]]].
  rewrite Hl2, Hl1, Hx1, Hy1.
  replace (cx E + 1 - 1) with (cx E) by lia.
  destruct (get_row_in_range (row E) (cy E) ltac:(lia)) as [r Hr].
  pose proof Hr as Hr'. apply get_row_Ok in Hr'. destruct Hr' as [_ Hnth].
  rewrite (cursor_len_at E r Hnth) in Hcx.
  destruct (doc_ok_row E _ r Hdoc Hr) as [[[Hsz _] _] _].
  assert (Hline : nth_error (lines E) (Z.to_nat (cy E)) = Some (chars r))
    by (rewrite nth_error_lines, Hnth; reflexivity).
  unfold typed. rewrite Hline. unfold erased.
  rewrite nth_error_replace_nth_eq by (apply nth_error_Some; congruence).
  rewrite replace_nth_twice, delete_at_insert_at by (unfold zlen in Hsz; lia).
  now apply replace_nth_same.
Qed.

Lemma editorInsertChar_editorDelChar_witness :
  doc_ok two_lines /\ cursor_ok two_lines /\ cy two_lines < numrows two_lines /\
  exists E1 E2,
    editorInsertChar two_lines 120 = Ok E1 /\ editorDelChar E1 = Ok E2 /\
    lines E1 = [cs "axbc"; cs "de"] /\ lines E2 = [cs "abc"; cs "de"].
Proof.
  assert (Hdoc : doc_ok two_lines) by (apply doc_okb_sound; vm_compute; reflexivity).
  assert (Hcur : cursor_ok two_lines) by (vm_compute; intuition discriminate).
  assert (Hlt : cy two_lines < numrows two_lines) by (vm_compute; reflexivity).
  split; [exact Hdoc|]. split; [exact Hcur|]. split; [exact Hlt|].
  destruct (editorInsertChar_editorDelChar two_lines 120 Hdoc Hcur Hlt)
    as (E1 & E2 & Hrun1 & Hrun2 & Hl & _).
  exists E1, E2. split; [exact Hrun1|]. split; [exact Hrun2|].
  split; [|rewrite Hl; vm_compute; reflexivity].
  assert (H1 : exists E0, editorInsertChar two_lines 120 = Ok E0 /\
                          lines E0 = [cs "axbc"; cs "de"])
    by (eexists; split; vm_compute; reflexivity).
  destruct H1 as (E0 & H0 & Hl0). rewrite Hrun1 in H0. injection H0 as <-. exact Hl0.
Defined.

Lemma editorDelChar_join (E : editorConfig) :
  doc_ok E -> cursor_ok E -> cx E = 0 -> 0 < cy E < numrows E ->
  editorDelChar E = Fault (RowOutOfBounds (numrows E)).
Proof.
  intros Hdoc [Hcy Hcx] Hx0 Hrange. pose proof Hdoc as (Hn & _ & _).
  destruct (get_row_in_range (row E) (cy E) ltac:(lia)) as [r Hr].
  destruct (get_row_in_range (row E) (cy E - 1) ltac:(lia)) as [p Hp].
  destruct (doc_ok_row E _ r Hdoc Hr) as [[[Hsz _] _] _].
  unfold editorDelChar.
  destruct (Z.eqb_spec (cy E) (numrows E)); [lia|].
  destruct (Z.eqb_spec (cy E) 0); [lia|]. rewrite andb_false_r.
  rewrite Hr. cbn [bind].
  destruct (Z.gtb_spec (cx E) 0); [lia|].
  rewrite Hp. cbn [bind]. cbv zeta.
  set (E1 := set_cx E (size p)).
  assert (Hd1 : doc_ok E1) by (eapply doc_ok_frame; [| |exact Hdoc]; reflexivity).
  pose proof (zlen_nonneg (chars r)).
  destruct (editorRowAppendString_spec E1 (cy E1 - 1) (chars r) (size r) p Hd1 Hp
              ltac:(lia)) as (rows2 & Hrun2 & Hdoc2 & _).
  rewrite Hrun2. cbn [bind].
  rewrite editorDelRow_overrun.
  - cbn [bind]. reflexivity.
  - destruct Hdoc2 as (Hn2 & _). exact Hn2.
  - cbn [cy numrows set_dirty set_rows E1 set_cx]. lia.
Qed.

(** Backspace at the start of a row other than the first: the row is
    appended to the one above it, and [editorDelRow], called to remove
    it, reads [E.row[E.numrows]], one slot past the array. *)
Theorem editorDelChar_line_start (E : editorConfig) :
  doc_ok E -> cursor_ok E -> cx E = 0 -> 0 < cy E < numrows E ->
  editorDelChar E = Fault (RowOutOfBounds (numrows E)).
Proof.
  intros.
  eapply editorDelChar_join; eassumption.
Qed.

Lemma editorDelChar_line_start_witness :
  doc_ok (set_cy (set_cx two_lines 0) 1) /\
  editorDelChar (set_cy (set_cx two_lines 0) 1) = Fault (RowOutOfBounds 2).
Proof.
  assert (Hdoc : doc_ok (set_cy (set_cx two_lines 0) 1))
    by (apply doc_okb_sound; vm_compute; reflexivity).
  split; [exact Hdoc|].
  apply (editorDelChar_line_start (set_cy (set_cx two_lines 0) 1) Hdoc).
  - vm_compute. intuition discriminate.
  - reflexivity.
  - vm_compute. split; reflexivity.
Defined.
Lemma skipn_nth_error {A : Type} (n : nat) (l : list A) (x : A) :
  nth_error l n = Some x -> skipn n l = x :: skipn (S n) l.
Proof.
  revert n. induction l as [|a l IH]; intros [|n] H; cbn in *; try discriminate.
  - now injection H as ->.
  - now apply IH.
Qed.

Lemma insert_at_split {A : Type} (y : nat) (ls : list A) (l h t : A) :
  nth_error ls y = Some l ->
  replace_nth y (insert_at (S y) t ls) h = firstn y ls ++ h :: t :: skipn (S y) ls.
Proof.
  revert y. induction ls as [|a ls IH]; intros [|y] H; cbn in *; try discriminate.
  - reflexivity.
  - f_equal. now apply IH.
Qed.

Lemma offset_checked_Ok (buf : list ascii) (i : Z) :
  0 <= i <= zlen buf -> offset_checked buf i = Ok (skipn (Z.to_nat i) buf).
Proof.
  intros H. unfold offset_checked, offset.
  destruct (Z.ltb_spec i 0); [lia|]. destruct (Z.ltb_spec (zlen buf) i); [lia|].
  reflexivity.
Qed.

Lemma truncate_bytes_prefix (buf : list ascii) (n : Z) :
  0 <= n <= zlen buf -> truncate_bytes buf n = Ok (firstn (Z.to_nat n) buf).
Proof.
  intros H. unfold truncate_bytes.
  destruct (Z.ltb_spec n 0); [lia|]. destruct (Z.ltb_spec (zlen buf) n); [lia|].
  reflexivity.
Qed.

Lemma editorInsertNewline_total (E : editorConfig) :
  doc_ok E -> cursor_ok E ->
  exists E',
    editorInsertNewline E = Ok E' /\
    doc_ok E' /\ cursor_ok E' /\
    lines E' = split_at (lines E) (Z.to_nat (cy E)) (Z.to_nat (cx E)) /\
    cx E' = 0 /\ cy E' = cy E + 1 /\ numrows E' = numrows E + 1.
Proof.
  intros Hdoc [Hcy Hcx]. pose proof Hdoc as (Hn & _ & _).
  unfold editorInsertNewline, split_at. rewrite nth_error_lines.
  destruct (Z.eqb_spec (cx E) 0) as [Hx0|Hx0].
  - (* at the start of a line: an empty row is inserted above it *)
    destruct (editorInsertRow_spec E (cy E) [] 0 Hdoc Hcy)
      as (rows1 & Hrun1 & Hdoc1 & Hs1); [cbn; lia|].
    cbn [firstn Z.to_nat] in Hs1. rewrite Hrun1. cbn [bind].
    eexists. split; [reflexivity|].
    assert (Hd' : doc_ok (set_cx (set_cy (set_dirty (set_numrows (set_rows E rows1)
                            (numrows E + 1)) (dirty E + 1)) (cy E + 1)) 0))
      by (eapply doc_ok_frame; [| |exact Hdoc1]; reflexivity).
    split; [exact Hd'|].
    split; [|split; [|split; [|split]]]; try reflexivity.
    + split; [cbn [cx cy numrows set_cx set_cy set_dirty set_numrows set_rows]; lia|].
      match goal with
      | |- _ <= cx ?X <= cursor_len ?Y =>
          change (cx X) with 0;
          assert (0 <= cursor_len Y) by (apply cursor_len_nonneg; exact Hd')
      end. lia.
    + unfold lines at 1. cbn [row set_cx set_cy set_dirty set_numrows set_rows].
      rewrite (lines_insert _ _ _ _ Hs1). cbn [chars new_row rendered set_render].
      rewrite Hx0. cbn [Z.to_nat firstn skipn]. unfold insert_at. fold (lines E).
      destruct (nth_error (row E) (Z.to_nat (cy E))) as [r|] eqn:Hnth; cbn [option_map].
      * assert (Hl : nth_error (lines E) (Z.to_nat (cy E)) = Some (chars r))
          by (rewrite nth_error_lines, Hnth; reflexivity).
        now rewrite (skipn_nth_error _ _ _ Hl).
      * apply nth_error_None in Hnth.
        rewrite firstn_all2, skipn_all2
          by (unfold lines; rewrite length_map; lia).
        reflexivity.
  - (* inside a line *)
    assert (Hsome : exists r, nth_error (row E) (Z.to_nat (cy E)) = Some r).
    { unfold cursor_len in Hcx.
      destruct (nth_error (row E) (Z.to_nat (cy E))) as [r|]; [eauto | lia]. }
    destruct Hsome as [r Hnth]. rewrite Hnth. cbn [option_map].
    assert (Hlt : cy E < numrows E).
    { assert (Z.to_nat (cy E) < length (row E))%nat by (apply nth_error_Some; congruence).
      unfold zlen in Hn. lia. }
    assert (Hr : get_row (row E) (cy E) = Ok r)
      by (apply get_row_Ok; split; [lia | exact Hnth]).
    rewrite (cursor_len_at E r Hnth) in Hcx.
    destruct (doc_ok_row E _ r Hdoc Hr) as [[[Hsz _] _] _].
    rewrite Hr. cbn [bind].
    rewrite (offset_checked_Ok (chars r) (cx E)) by lia. cbn [bind].
    set (tail := skipn (Z.to_nat (cx E)) (chars r)).
    set (head := firstn (Z.to_nat (cx E)) (chars r)).
    assert (Htl : zlen tail = size r - cx E) by (unfold tail; rewrite zlen_skipn; lia).
    assert (Hhd : zlen head = cx E) by (unfold head; rewrite zlen_firstn; lia).
    destruct (editorInsertRow_spec E (cy E + 1) tail (size r - cx E) Hdoc)
      as (rows1 & Hrun1 & Hdoc1 & Hs1); [lia | lia |].
    cbv zeta in Hs1. rewrite Hrun1. cbn [bind].
    rewrite (@firstn_all2 _ (Z.to_nat (size r - cx E)) tail) in Hs1
      by (unfold zlen in Htl; lia).
    set (E1 := set_dirty (set_numrows (set_rows E rows1) (numrows E + 1)) (dirty E + 1)).
    assert (Hd1 : doc_ok E1) by (eapply doc_ok_frame; [| |exact Hdoc1]; reflexivity).
    change (cy E1) with (cy E). change (cx E1) with (cx E).
    assert (Hat : nth_error (firstn (Z.to_nat (cy E + 1)) (row E)
                             ++ new_row (cy E + 1) tail
                             :: map bump (skipn (Z.to_nat (cy E + 1)) (row E)))
                    (Z.to_nat (cy E)) = Some r).
    { rewrite nth_error_app1 by (rewrite length_firstn; unfold zlen in Hn; lia).
      rewrite nth_error_firstn.
      destruct (Nat.ltb_spec (Z.to_nat (cy E)) (Z.to_nat (cy E + 1))); [exact Hnth | lia]. }
    destruct (strip_row_at _ _ _ _ Hs1 Hat) as (r1 & Hr1 & Hst1).
    destruct (size_strip _ _ Hst1) as [Hsz1 Hch1].
    assert (Hg1 : get_row (row E1) (cy E) = Ok r1)
      by (apply get_row_Ok; split; [lia | exact Hr1]).
    rewrite Hg1. cbn [bind]. rewrite Hch1.
    rewrite (truncate_bytes_prefix (chars r) (cx E)) by lia. cbn [bind]. fold head.
    rewrite (put_row_in_range (row E1) (cy E)) by (eapply get_row_range; eauto).
    cbn [bind].
    destruct (edit_row_spec E1 (cy E) r1 head Hd1 Hg1) as (rows2 & Hrun2 & Hdoc2 & Hs2).
    rewrite Hhd in Hrun2. rewrite Hrun2. cbn [bind].
    eexists. split; [reflexivity|].
    assert (Hd' : doc_ok (set_cx (set_cy (set_rows E1 rows2) (cy E + 1)) 0))
      by (eapply doc_ok_frame; [| |exact Hdoc2]; reflexivity).
    split; [exact Hd'|].
    split; [|split; [|split; [|split]]]; try reflexivity.
    + split; [cbn [cx cy numrows set_cx set_cy set_rows E1 set_dirty set_numrows]; lia|].
      match goal with
      | |- _ <= cx ?X <= cursor_len ?Y =>
          change (cx X) with 0;
          assert (0 <= cursor_len Y) by (apply cursor_len_nonneg; exact Hd')
      end. lia.
    + unfold lines at 1. cbn [row set_cx set_cy set_rows].
      rewrite (lines_replace _ _ _ _ Hs2). cbn [row E1 set_dirty set_numrows set_rows].
      rewrite (lines_insert _ _ _ _ Hs1).
      cbn [chars with_text new_row rendered set_render set_chars].
      fold (lines E).
      replace (Z.to_nat (cy E + 1)) with (S (Z.to_nat (cy E))) by lia.
      apply insert_at_split with (l := chars r).
      rewrite nth_error_lines, Hnth. reflexivity.
Qed.

(** [editorInsertNewline] in a consistent document with the cursor on
    it: the call returns, the line under the cursor is split at the
    cursor (on the line past the last row an empty row is added), every
    other line is as before, and the cursor is at the start of the next
    line. *)
Theorem editorInsertNewline_text (E : editorConfig) :
  doc_ok E -> cursor_ok E ->
  exists E',
    editorInsertNewline E = Ok E' /\
    doc_ok E' /\ cursor_ok E' /\
    lines E' = split_at (lines E) (Z.to_nat (cy E)) (Z.to_nat (cx E)) /\
    cx E' = 0 /\ cy E' = cy E + 1 /\ numrows E' = numrows E + 1.
Proof.
  intros.
  eapply editorInsertNewline_total; eassumption.
Qed.

Lemma editorInsertNewline_text_witness :
  doc_ok two_lines /\ cursor_ok two_lines /\
  exists E', editorInsertNewline two_lines = Ok E' /\
             lines E' = [cs "a"; cs "bc"; cs "de"] /\ (cx E', cy E') = (0, 1).
Proof.
  assert (Hdoc : doc_ok two_lines) by (apply doc_okb_sound; vm_compute; reflexivity).
  assert (Hcur : cursor_ok two_lines) by (vm_compute; intuition discriminate).
  split; [exact Hdoc|]. split; [exact Hcur|].
  destruct (editorInsertNewline_text two_lines Hdoc Hcur)
    as (E' & Hrun & _ & _ & Hl & Hx & Hy & _).
  exists E'. split; [exact Hrun|]. split.
  - rewrite Hl. vm_compute. reflexivity.
  - rewrite Hx, Hy. vm_compute. reflexivity.
Defined.

Lemma editorInsertChar_text_witness :
  doc_ok two_lines /\ cursor_ok two_lines /\
  exists E', editorInsertChar two_lines 120 = Ok E' /\
             lines E' = [cs "axbc"; cs "de"] /\ cx E' = 2.
Proof.
  assert (Hdoc : doc_ok two_lines) by (apply doc_okb_sound; vm_compute; reflexivity).
  assert (Hcur : cursor_ok two_lines) by (vm_compute; intuition discriminate).
  split; [exact Hdoc|]. split; [exact Hcur|].
  destruct (editorInsertChar_text two_lines 120 Hdoc Hcur)
    as (E' & Hrun & _ & _ & Hl & Hx & _).
  exists E'. split; [exact Hrun|]. split.
  - rewrite Hl. vm_compute. reflexivity.
  - rewrite Hx. vm_compute. reflexivity.
Defined.
Lemma shown_set_hl (r : erow) (h : list editorHighlight) : shown r -> shown (set_hl r h).
Proof. intros H. apply (shown_strip (set_hl r h) r eq_refl H). Qed.

Lemma edit_row_shown (E E' : editorConfig) (slot : Z) (r : erow) (sz : Z)
  (bytes : list ascii) :
  doc_ok E -> Forall shown (row E) -> get_row (row E) slot = Ok r -> sz = zlen bytes ->
  editorUpdateRow
    (set_rows E (replace_nth (Z.to_nat slot) (row E) (set_chars r sz bytes))) slot
  = Ok E' ->
  Forall shown (row E').
Proof.
  intros Hdoc Hsh Hr -> Hrun.
  destruct (edit_row_spec E slot r bytes Hdoc Hr) as (rows' & Hrun' & _ & Hs).
  rewrite Hrun in Hrun'. injection Hrun' as ->. cbn [row set_rows].
  apply (Forall_shown_strip _ _ Hs).
  apply Forall_replace_nth_all; [exact Hsh | apply shown_rendered].
Qed.

Lemma editorRowInsertChar_shown (E E' : editorConfig) (slot at_ c : Z) :
  doc_ok E -> Forall shown (row E) -> editorRowInsertChar E slot at_ c = Ok E' ->
  Forall shown (row E').
Proof.
  intros Hdoc Hsh H. unfold editorRowInsertChar in H. bind_inv H.
  injection H as <-.
  destruct (doc_ok_row E slot x Hdoc Hx) as [[[Hsz _] _] _].
  apply put_row_Ok in Hx0. destruct Hx0 as [_ ->].
  pose proof (zlen_nonneg (chars x)).
  set (a := if (at_ <? 0) || (at_ >? size x) then size x else at_) in *.
  assert (Ha : 0 <= a <= size x).
  { unfold a. destruct (Z.ltb_spec at_ 0); cbn [orb]; [lia|].
    destruct (Z.gtb_spec at_ (size x)); lia. }
  match type of Hx1 with
  | editorUpdateRow (set_rows _ (replace_nth _ _ (set_chars _ ?sz ?bytes))) _ = _ =>
      assert (Hz : sz = zlen bytes)
  end.
  { rewrite !zlen_app, zlen_firstn, zlen_firstn by (rewrite ?zlen_skipn; lia).
    unfold zlen at 1. cbn [length]. lia. }
  cbn [row set_dirty]. exact (edit_row_shown _ _ _ _ _ _ Hdoc Hsh Hx Hz Hx1).
Qed.

Lemma editorRowAppendString_shown (E E' : editorConfig) (slot : Z) (s : list ascii)
  (len : Z) :
  doc_ok E -> Forall shown (row E) -> editorRowAppendString E slot s len = Ok E' ->
  Forall shown (row E').
Proof.
  intros Hdoc Hsh H. unfold editorRowAppendString in H. bind_inv H.
  injection H as <-.
  destruct (doc_ok_row E slot x Hdoc Hx) as [[[Hsz _] _] _].
  apply put_row_Ok in Hx1. destruct Hx1 as [_ ->].
  apply memcpy_bytes_Ok in Hx0. destruct Hx0 as [Hb Hl].
  pose proof (zlen_nonneg (chars x)).
  match type of Hx2 with
  | editorUpdateRow (set_rows _ (replace_nth _ _ (set_chars _ ?sz ?bytes))) _ = _ =>
      assert (Hz : sz = zlen bytes)
  end.
  { rewrite zlen_app, zlen_firstn by lia. lia. }
  cbn [row set_dirty]. exact (edit_row_shown _ _ _ _ _ _ Hdoc Hsh Hx Hz Hx2).
Qed.

Lemma editorRowDelChar_shown (E E' : editorConfig) (slot at_ : Z) :
  doc_ok E -> Forall shown (row E) -> editorRowDelChar E slot at_ = Ok E' ->
  Forall shown (row E').
Proof.
  intros Hdoc Hsh H. unfold editorRowDelChar in H. bind_inv H.
  destruct (Z.ltb_spec at_ 0); cbn [orb] in H; [injection H as <-; auto|].
  destruct (Z.geb_spec at_ (size x)); [injection H as <-; auto|].
  bind_inv H. injection H as <-.
  destruct (doc_ok_row E slot x Hdoc Hx) as [[[Hsz _] _] _].
  apply put_row_Ok in Hx0. destruct Hx0 as [_ ->].
  pose proof (zlen_nonneg (chars x)).
  match type of Hx1 with
  | editorUpdateRow (set_rows _ (replace_nth _ _ (set_chars _ ?sz ?bytes))) _ = _ =>
      assert (Hz : sz = zlen bytes)
  end.
  { rewrite zlen_app, zlen_firstn, zlen_firstn by (rewrite ?zlen_skipn; lia). lia. }
  cbn [row set_dirty]. exact (edit_row_shown _ _ _ _ _ _ Hdoc Hsh Hx Hz Hx1).
Qed.

Lemma editorUpdateRow_shown (E E' : editorConfig) (slot : Z) :
  doc_ok E -> Forall shown (row E) -> editorUpdateRow E slot = Ok E' ->
  Forall shown (row E').
Proof.
  intros Hdoc Hsh H. pose proof H as H'. unfold editorUpdateRow in H'. bind_inv H'.
  destruct (doc_ok_row E slot x Hdoc Hx) as [[[Hsz _] _] _].
  pose proof Hx as Hnth. apply get_row_Ok in Hnth. destruct Hnth as [_ Hnth].
  apply (edit_row_shown E E' slot x (size x) (chars x) Hdoc Hsh Hx Hsz).
  replace (set_chars x (size x) (chars x)) with x by (destruct x; reflexivity).
  rewrite (replace_nth_same _ _ _ Hnth).
  replace (set_rows E (row E)) with E by (destruct E; reflexivity).
  exact H.
Qed.

Lemma editorUpdateSyntax_strip (E E' : editorConfig) (slot : Z) :
  doc_ok E -> editorUpdateSyntax E slot = Ok E' ->
  map strip (row E') = map strip (row E).
Proof.
  intros Hdoc H. pose proof (doc_ok_text E Hdoc) as Htext.
  destruct Hdoc as (Hn & Hidx & _).
  destruct (editorUpdateSyntax_rec_partial _ E E' slot ltac:(lia) Hidx Htext H)
    as (rows' & -> & Hs & _).
  exact Hs.
Qed.

Lemma editorUpdateSyntax_shown (E E' : editorConfig) (slot : Z) :
  doc_ok E -> Forall shown (row E) -> editorUpdateSyntax E slot = Ok E' ->
  Forall shown (row E').
Proof.
  intros Hdoc Hsh H.
  apply (Forall_shown_strip _ _ (editorUpdateSyntax_strip E E' slot Hdoc H) Hsh).
Qed.

Lemma editorInsertRow_shown (E E' : editorConfig) (at_ : Z) (s : list ascii) (len : Z) :
  doc_ok E -> Forall shown (row E) -> editorInsertRow E at_ s len = Ok E' ->
  Forall shown (row E').
Proof.
  intros Hdoc Hsh H. unfold editorInsertRow in H.
  destruct (Z.ltb_spec at_ 0); cbn [orb] in H; [injection H as <-; auto|].
  destruct (Z.gtb_spec at_ (numrows E)); [injection H as <-; auto|].
  bind_inv H. injection H as <-.
  destruct Hdoc as (Hn & Hidx & Hrows).
  assert (Hat : 0 <= at_ <= zlen (row E)) by lia.
  pose proof (insert_rows_shape (row E) at_ (mkRow at_ len 0 x1 [] [] false) Hat)
    as Hsh2.
  rewrite <- Hn in Hsh2. rewrite Hx in Hsh2. cbn [bind] in Hsh2.
  rewrite Hx0 in Hsh2. cbn [bind] in Hsh2. rewrite Hx2 in Hsh2.
  injection Hsh2 as ->.
  apply memcpy_bytes_Ok in Hx1. destruct Hx1 as [Hb Hl].
  set (new := mkRow at_ len 0 x1 [] [] false) in *.
  set (rows2 := firstn (Z.to_nat at_) (row E) ++ new :: map bump (skipn (Z.to_nat at_) (row E))) in *.
  assert (Hlen2 : zlen rows2 = zlen (row E) + 1).
  { unfold rows2, zlen in *. rewrite length_app, length_firstn. cbn [length].
    rewrite length_map, length_skipn. lia. }
  assert (Hnew : get_row rows2 at_ = Ok new).
  { unfold rows2. rewrite <- (zlen_firstn at_ (row E)) at 3 by lia.
    apply get_row_app. }
  assert (Hpl : length (firstn (Z.to_nat at_) (row E)) = Z.to_nat at_)
    by (rewrite length_firstn; unfold zlen in *; lia).
  assert (Hother : forall (P : erow -> Prop), Forall P (row E) ->
                     (forall r, P r -> P (bump r)) -> ok_except (Z.to_nat at_) P rows2).
  { intros P HP Hbump k a Hk Hne. unfold rows2 in Hk. rewrite Forall_forall in HP.
    destruct (Nat.lt_ge_cases k (Z.to_nat at_)) as [Hlt|Hge].
    - rewrite nth_error_app1 in Hk by lia. apply HP.
      apply nth_error_In in Hk. eapply In_firstn; eauto.
    - rewrite nth_error_app2, Hpl in Hk by lia.
      destruct (k - Z.to_nat at_)%nat as [|d] eqn:Hd; [lia|].
      cbn [nth_error] in Hk. rewrite nth_error_map in Hk.
      destruct (nth_error (skipn (Z.to_nat at_) (row E)) d) as [r0|] eqn:Er0;
        [|discriminate].
      cbn [option_map] in Hk. injection Hk as <-.
      apply nth_error_In in Er0. apply In_skipn in Er0.
      apply Hbump. exact (HP r0 Er0). }
  destruct (editorUpdateRow_doc (set_rows E rows2) at_ new)
    as (rows' & Hrun & Hi & Hr & Hup); cbn [row numrows set_rows]; auto; try lia.
  - unfold rows2. apply idx_ok_insert; auto; [unfold zlen in *; lia|].
    cbn [idx new]. lia.
  - rewrite Hx3 in Hrun. injection Hrun as ->.
    cbn [row set_rows set_numrows set_dirty].
    destruct Hup as (Hs & _). apply (Forall_shown_strip _ _ Hs).
    cbn [row set_rows]. apply Forall_replace_nth; [|apply shown_rendered].
    intros k a Hk Hne. apply (Hother shown Hsh shown_bump k a Hk Hne).
Qed.

Lemma editorInsertChar_shown (E E' : editorConfig) (c : Z) :
  doc_ok E -> Forall shown (row E) -> editorInsertChar E c = Ok E' ->
  Forall shown (row E').
Proof.
  intros Hdoc Hsh H. unfold editorInsertChar in H. bind_inv H. injection H as <-.
  assert (H1 : doc_ok x /\ Forall shown (row x)).
  { destruct (cy E =? numrows E); [|injection Hx as <-; auto].
    split; [eapply editorInsertRow_doc; eauto | eapply editorInsertRow_shown; eauto]. }
  destruct H1 as [H1 Hs1]. cbn [row set_cx].
  eapply editorRowInsertChar_shown; eauto.
Qed.

Lemma editorInsertNewline_shown (E E' : editorConfig) :
  doc_ok E -> Forall shown (row E) -> editorInsertNewline E = Ok E' ->
  Forall shown (row E').
Proof.
  intros Hdoc Hsh H. unfold editorInsertNewline in H. bind_inv H. injection H as <-.
  cbn [row set_cx set_cy].
  destruct (cx E =? 0).
  - eapply editorInsertRow_shown; eauto.
  - bind_inv Hx.
    pose proof (editorInsertRow_shown _ _ _ _ _ Hdoc Hsh Hx2) as Hs2.
    apply editorInsertRow_doc in Hx2; [|exact Hdoc].
    destruct Hx2 as (Hd2 & _ & _).
    apply put_row_Ok in Hx5. destruct Hx5 as [_ ->].
    apply truncate_bytes_Ok in Hx4.
    exact (edit_row_shown _ _ _ _ _ _ Hd2 Hs2 Hx3 Hx4 Hx).
Qed.

Lemma editorDelChar_shown (E E' : editorConfig) :
  doc_ok E -> Forall shown (row E) -> editorDelChar E = Ok E' ->
  Forall shown (row E').
Proof.
  intros Hdoc Hsh H. unfold editorDelChar in H.
  destruct (cy E =? numrows E); [injection H as <-; auto|].
  destruct ((cx E =? 0) && (cy E =? 0)); [injection H as <-; auto|].
  bind_inv H. destruct (cx E >? 0).
  - bind_inv H. injection H as <-. cbn [row set_cx].
    eapply editorRowDelChar_shown; eauto.
  - bind_inv H. injection H as <-. cbn [row set_cy].
    assert (Hd1 : doc_ok (set_cx E (size x0)))
      by (eapply doc_ok_frame; [| |exact Hdoc]; reflexivity).
    pose proof (editorRowAppendString_shown _ _ _ _ _ Hd1 Hsh Hx1) as Hs1.
    apply editorRowAppendString_doc in Hx1; [|exact Hd1].
    destruct Hx1 as (Hd & _ & _).
    apply editorDelRow_doc in Hx2; [|exact Hd]. now subst x2.
Qed.

Lemma update_all_loop_shown (n : nat) :
  forall (filerow : Z) (E E' : editorConfig),
    doc_ok E -> Forall shown (row E) -> update_all_loop n filerow E = Ok E' ->
    Forall shown (row E').
Proof.
  induction n as [|n IH]; intros filerow E E' Hdoc Hsh H; cbn [update_all_loop] in H.
  - now injection H as <-.
  - bind_inv H.
    pose proof (editorUpdateSyntax_shown _ _ _ Hdoc Hsh Hx) as Hs.
    apply editorUpdateSyntax_partial in Hx; [|exact Hdoc].
    destruct Hx as (Hd & _ & _). exact (IH _ _ _ Hd Hs H).
Qed.

Lemma editorSelectSyntaxHighlight_shown (E E' : editorConfig) :
  doc_ok E -> Forall shown (row E) -> editorSelectSyntaxHighlight E = Ok E' ->
  Forall shown (row E').
Proof.
  intros Hdoc Hsh H. unfold editorSelectSyntaxHighlight in H.
  cbn [filename set_syntax] in H.
  destruct (filename E) as [fname|]; [|injection H as <-; exact Hsh].
  destruct (select_entry HLDB fname (strrchr fname DOT)) as [syn|];
    [|injection H as <-; exact Hsh].
  apply update_all_loop_shown in H; [exact H | | exact Hsh].
  eapply doc_ok_frame; [| |exact Hdoc]; reflexivity.
Qed.

Lemma open_loop_shown (ls : list (list ascii)) :
  forall (E E' : editorConfig),
    doc_ok E -> Forall shown (row E) -> open_loop ls E = Ok E' ->
    Forall shown (row E').
Proof.
  induction ls as [|line ls IH]; intros E E' Hdoc Hsh H; cbn [open_loop] in H.
  - now injection H as <-.
  - bind_inv H.
    pose proof (editorInsertRow_shown _ _ _ _ _ Hdoc Hsh Hx) as Hs.
    apply editorInsertRow_doc in Hx; [|exact Hdoc].
    apply (IH x E'); tauto.
Qed.

Lemma editorOpen_shown (E E' : editorConfig) (fname : list ascii)
  (ls : list (list ascii)) :
  doc_ok E -> Forall shown (row E) -> editorOpen E fname ls = Ok E' ->
  Forall shown (row E').
Proof.
  intros Hdoc Hsh H. unfold editorOpen in H. bind_inv H. injection H as <-.
  cbn [row set_dirty].
  assert (Hd0 : doc_ok (set_filename E (Some fname)))
    by (eapply doc_ok_frame; [| |exact Hdoc]; reflexivity).
  pose proof (editorSelectSyntaxHighlight_shown _ _ Hd0 Hsh Hx) as Hs.
  apply editorSelectSyntaxHighlight_doc in Hx; [|exact Hd0].
  exact (open_loop_shown ls x x0 Hx Hs Hx0).
Qed.

Lemma find_restore_shown (E E' : editorConfig) (S : findState) :
  Forall shown (row E) -> find_restore E S = Ok E' -> Forall shown (row E').
Proof.
  intros Hsh H. unfold find_restore in H.
  destruct (saved_hl S) as [saved|]; [|now injection H as <-].
  bind_inv H. injection H as <-.
  apply put_row_Ok in Hx1. destruct Hx1 as [_ ->]. cbn [row set_rows].
  apply get_row_Ok in Hx. destruct Hx as [_ Hx].
  apply Forall_replace_nth_all; [exact Hsh|].
  apply shown_set_hl. rewrite Forall_forall in Hsh. apply Hsh.
  eapply nth_error_In; eauto.
Qed.

Lemma editorFindCallback_shown (E E' : editorConfig) (S S' : findState)
  (query : list ascii) (key : Z) :
  Forall shown (row E) -> editorFindCallback E S query key = Ok (E', S') ->
  Forall shown (row E').
Proof.
  intros Hsh H. unfold editorFindCallback in H. bind_inv H.
  apply find_restore_shown in Hx; [|exact Hsh].
  destruct (is_find_exit key); [now injection H as <- _|].
  bind_inv H. destruct (snd x0) as [[current off]|]; [|now injection H as <- _].
  bind_inv H. injection H as <- _.
  apply put_row_Ok in Hx4. destruct Hx4 as [_ Hx4].
  cbn [row set_rows set_cx set_cy set_rowoff] in Hx4. subst x4.
  cbn [row set_rows].
  apply get_row_Ok in Hx1. destruct Hx1 as [_ Hx1].
  apply Forall_replace_nth_all; [exact Hx|].
  apply shown_set_hl. rewrite Forall_forall in Hx. apply Hx.
  eapply nth_error_In; eauto.
Qed.

Lemma apply_op_shown (o : op) (E E' : editorConfig) (S S' : findState) :
  doc_ok E -> Forall shown (row E) -> apply_op o (E, S) = Ok (E', S') ->
  Forall shown (row E').
Proof.
  intros Hdoc Hsh H. destruct o; cbn [apply_op fst snd] in H;
    try (bind_inv H; injection H as <- _).
  - eapply editorOpen_shown; eauto.
  - eapply editorSelectSyntaxHighlight_shown; [| |eauto]; [|exact Hsh].
    eapply doc_ok_frame; [| |exact Hdoc]; reflexivity.
  - eapply editorInsertRow_shown; eauto.
  - apply editorDelRow_doc in Hx; [now subst | exact Hdoc].
  - eapply editorRowInsertChar_shown; eauto.
  - eapply editorRowAppendString_shown; eauto.
  - eapply editorRowDelChar_shown; eauto.
  - eapply editorUpdateRow_shown; eauto.
  - eapply editorUpdateSyntax_shown; eauto.
  - eapply editorInsertChar_shown; eauto.
  - eapply editorInsertNewline_shown; eauto.
  - eapply editorDelChar_shown; eauto.
  - apply editorMoveCursor_frame in Hx. destruct Hx as (Hr & _). now rewrite Hr.
  - destruct (editorScroll_frame E) as [Hr _]. now rewrite Hr.
  - eapply editorFindCallback_shown; eauto.
  - exact Hsh.
Qed.

Lemma run_shown (ops : list op) :
  forall (E E' : editorConfig) (S S' : findState),
    doc_ok E -> Forall shown (row E) -> run ops (E, S) = Ok (E', S') ->
    Forall shown (row E').
Proof.
  induction ops as [|o ops IH]; intros E E' S S' Hdoc Hsh H; cbn [run] in H.
  - now injection H as <- _.
  - bind_inv H. destruct x as [E1 S1].
    apply (IH E1 E' S1 S'); [| |exact H].
    + eapply apply_op_doc; eauto.
    + eapply apply_op_shown; eauto.
Qed.


(* ================================================================= *)
(** ** Saving and loading *)

Lemma totlen_loop_spec (rows : list erow) :
  forall (pre : list erow) (t : Z),
    totlen_loop (length rows) (zlen pre) (pre ++ rows) t
    = Ok (t + fold_right (fun r a => size r + 1 + a) 0 rows).
Proof.
  induction rows as [|r rows IH]; intros pre t.
  - cbn. f_equal. lia.
  - cbn [length totlen_loop fold_right]. rewrite get_row_app. cbn [bind].
    replace (pre ++ r :: rows) with ((pre ++ [r]) ++ rows)
      by (now rewrite <- app_assoc).
    replace (zlen pre + 1) with (zlen (pre ++ [r]))
      by (rewrite zlen_app; reflexivity).
    rewrite IH. f_equal. lia.
Qed.

Lemma flat_length (rows : list erow) :
  Forall row_ok rows ->
  zlen (flat (map chars rows)) = fold_right (fun r a => size r + 1 + a) 0 rows.
Proof.
  induction rows as [|r rows IH]; intros H; [reflexivity|].
  inversion H as [|? ? [[Hs _] _] Hrest]; subst.
  unfold flat in *. cbn [map concat fold_right].
  rewrite !zlen_app, IH by exact Hrest. change (zlen [LF]) with 1. lia.
Qed.

Lemma copy_loop_spec (rows : list erow) :
  forall (pre : list erow) (cap : Z) (buf : list ascii),
    Forall row_ok rows ->
    zlen buf + zlen (flat (map chars rows)) <= cap ->
    copy_loop (length rows) (zlen pre) (pre ++ rows) cap buf
    = Ok (buf ++ flat (map chars rows)).
Proof.
  induction rows as [|r rows IH]; intros pre cap buf Hok Hcap.
  - cbn. now rewrite app_nil_r.
  - inversion Hok as [|? ? [[Hs _] _] Hrest]; subst.
    cbn [length copy_loop]. rewrite get_row_app. cbn [bind].
    pose proof (zlen_nonneg (chars r)).
    rewrite memcpy_bytes_prefix by lia. cbn [bind].
    rewrite firstn_all2 by (unfold zlen in Hs; lia).
    unfold flat in *. cbn [map concat] in *. rewrite !zlen_app in Hcap.
    change (zlen [LF]) with 1 in Hcap.
    pose proof (zlen_nonneg (concat (map (fun l => l ++ [LF]) (map chars rows)))).
    destruct (Z.ltb_spec cap (zlen buf + size r + 1)); [lia|].
    replace (pre ++ r :: rows) with ((pre ++ [r]) ++ rows)
      by (now rewrite <- app_assoc).
    replace (zlen pre + 1) with (zlen (pre ++ [r]))
      by (rewrite zlen_app; reflexivity).
    rewrite IH; [|exact Hrest|].
    + now rewrite <- !app_assoc.
    + rewrite !zlen_app. change (zlen [LF]) with 1. lia.
Qed.

Lemma editorRowsToString_total (E : editorConfig) :
  doc_ok E ->
  editorRowsToString E = Ok (flat (lines E), zlen (flat (lines E))).
Proof.
  intros (Hn & _ & Hrows). unfold editorRowsToString, lines.
  replace (Z.to_nat (numrows E)) with (length (row E)) by (unfold zlen in Hn; lia).
  pose proof (totlen_loop_spec (row E) [] 0) as Ht. cbn [app] in Ht.
  change (zlen []) with 0 in Ht. rewrite Ht. cbn [bind].
  pose proof (copy_loop_spec (row E) [] (zlen (flat (map chars (row E)))) [] Hrows)
    as Hc. cbn [app] in Hc. change (zlen []) with 0 in Hc.
  rewrite Z.add_0_l, <- (flat_length _ Hrows).
  rewrite Hc by lia. reflexivity.
Qed.

(** [editorRowsToString] on a consistent document returns; the block is
    filled exactly: it holds the text of every row, in order, each
    followed by one newline, and [buflen] is the number of these
    bytes. *)
Theorem editorRowsToString_flat (E : editorConfig) :
  doc_ok E ->
  editorRowsToString E = Ok (flat (lines E), zlen (flat (lines E))).
Proof.
  intros.
  eapply editorRowsToString_total; eassumption.
Qed.

Lemma editorRowsToString_flat_witness :
  doc_ok two_lines /\
  editorRowsToString two_lines = Ok (cs "abc" ++ [LF] ++ cs "de" ++ [LF], 7).
Proof.
  assert (Hdoc : doc_ok two_lines) by (apply doc_okb_sound; vm_compute; reflexivity).
  split; [exact Hdoc|].
  exact (editorRowsToString_flat two_lines Hdoc).
Defined.

Lemma strip_eol_le (line : list ascii) (n : nat) : (strip_eol line n <= n)%nat.
Proof.
  induction n as [|n IH]; cbn [strip_eol]; [lia|].
  destruct (_ || _); lia.
Qed.

(** The rows [editorOpen] appends, line by line. *)
Lemma open_loop_lines (ls : list (list ascii)) :
  forall E, doc_ok E ->
    exists rows' d,
      open_loop ls E
      = Ok (set_dirty (set_numrows (set_rows E rows')
                         (numrows E + zlen ls)) d) /\
      doc_ok (set_numrows (set_rows E rows') (numrows E + zlen ls)) /\
      map chars rows' = lines E ++ map chomp ls.
Proof.
  induction ls as [|line ls IH]; intros E Hdoc.
  - exists (row E), (dirty E). cbn [open_loop map]. change (zlen []) with 0.
    rewrite Z.add_0_r, app_nil_r.
    replace (set_dirty (set_numrows (set_rows E (row E)) (numrows E)) (dirty E))
      with E by (destruct E; reflexivity).
    replace (set_numrows (set_rows E (row E)) (numrows E))
      with E by (destruct E; reflexivity).
    auto.
  - cbn [open_loop]. pose proof Hdoc as (Hn & _).
    pose proof (strip_eol_le line (length line)) as Hle.
    destruct (editorInsertRow_spec E (numrows E) line
                (Z.of_nat (strip_eol line (length line))) Hdoc)
      as (rows1 & Hrun1 & Hdoc1 & Hs1);
      [pose proof (zlen_nonneg (row E)); lia | unfold zlen; lia |].
    cbv zeta in Hs1. rewrite Hrun1. cbn [bind].
    rewrite Nat2Z.id in Hs1. fold (chomp line) in Hs1.
    set (E1 := set_dirty (set_numrows (set_rows E rows1) (numrows E + 1)) (dirty E + 1)).
    assert (Hd1 : doc_ok E1) by (eapply doc_ok_frame; [| |exact Hdoc1]; reflexivity).
    destruct (IH E1 Hd1) as (rows' & d & Hrun & Hdoc' & Hl).
    exists rows', d. rewrite Hrun.
    assert (Hz : numrows E1 + zlen ls = numrows E + zlen (line :: ls)).
    { unfold zlen. cbn [length E1 numrows set_dirty set_numrows set_rows]. lia. }
    rewrite Hz in *.
    split; [reflexivity|]. split; [exact Hdoc'|].
    rewrite Hl. unfold lines. cbn [row E1 set_dirty set_numrows set_rows map].
    rewrite (lines_insert _ _ _ _ Hs1). unfold insert_at.
    rewrite firstn_all2, skipn_all2
      by (rewrite length_map; unfold zlen in Hn; lia).
    cbn [chars new_row rendered set_render]. now rewrite <- app_assoc.
Qed.

Lemma editorOpen_total (rows cols : Z) (fname : list ascii)
  (ls : list (list ascii)) :
  exists E,
    editorOpen (initEditor rows cols) fname ls = Ok E /\
    doc_ok E /\ lines E = map chomp ls /\ numrows E = zlen ls /\
    dirty E = 0 /\ cx E = 0 /\ cy E = 0 /\ filename E = Some fname.
Proof.
  unfold editorOpen.
  assert (Hsel : exists syn,
    editorSelectSyntaxHighlight (set_filename (initEditor rows cols) (Some fname))
    = Ok (set_syntax (set_filename (initEditor rows cols) (Some fname)) syn)).
  { unfold editorSelectSyntaxHighlight. cbn [filename set_syntax set_filename initEditor].
    destruct (select_entry HLDB fname (strrchr fname DOT)) as [syn|].
    - exists (Some syn). reflexivity.
    - exists None. reflexivity. }
  destruct Hsel as [syn ->]. cbn [bind].
  set (E0 := set_syntax (set_filename (initEditor rows cols) (Some fname)) syn).
  assert (Hd0 : doc_ok E0)
    by (eapply doc_ok_frame; [| |exact (initEditor_doc rows cols)]; reflexivity).
  destruct (open_loop_lines ls E0 Hd0) as (rows' & d & Hrun & Hdoc & Hl).
  rewrite Hrun. cbn [bind]. eexists. split; [reflexivity|].
  split; [eapply doc_ok_frame; [| |exact Hdoc]; reflexivity|].
  split; [exact Hl|]. repeat split.
Qed.

Lemma firstn_succ_nth {A : Type} (d : A) (l : list A) :
  forall k, (k < length l)%nat -> firstn (S k) l = firstn k l ++ [nth k l d].
Proof.
  induction l as [|a l IH]; intros k Hk; cbn [length] in Hk; [lia|].
  destruct k as [|k]; [reflexivity|].
  cbn [firstn nth app]. f_equal. change (firstn (S k) l = firstn k l ++ [nth k l d]).
  apply IH. lia.
Qed.

Lemma nth_skipn_add {A : Type} (d : A) (l : list A) :
  forall m k, nth k (skipn m l) d = nth (m + k) l d.
Proof.
  induction l as [|a l IH]; intros m k.
  - rewrite skipn_nil. destruct k, m; reflexivity.
  - destruct m as [|m]; [reflexivity|]. cbn [skipn Nat.add nth]. apply IH.
Qed.

(** The loop that drops the line end stops below a byte that is
    neither a newline nor a carriage return, and drops only newlines
    and carriage returns. *)
Lemma strip_eol_spec (line : list ascii) :
  forall n, (n <= length line)%nat ->
    (strip_eol line n <= n)%nat /\
    Forall eol (firstn (n - strip_eol line n) (skipn (strip_eol line n) line)) /\
    forall k, strip_eol line n = S k -> ~ eol (nth k line NUL).
Proof.
  induction n as [|n IH]; intros Hn.
  - cbn [strip_eol]. split; [lia|]. split; [constructor | discriminate].
  - cbn [strip_eol].
    destruct (Ascii.eqb_spec (nth n line NUL) LF) as [Hlf|Hlf]; cbn [orb];
      [|destruct (Ascii.eqb_spec (nth n line NUL) CR) as [Hcr|Hcr]].
    + destruct (IH ltac:(lia)) as (Hle & Hall & Hlast).
      split; [lia|]. split; [|exact Hlast].
      replace (S n - strip_eol line n)%nat with (S (n - strip_eol line n)) by lia.
      rewrite (firstn_succ_nth NUL) by (rewrite length_skipn; lia).
      apply Forall_app. split; [exact Hall|].
      constructor; [|constructor].
      rewrite nth_skipn_add.
      replace (strip_eol line n + (n - strip_eol line n))%nat with n by lia.
      now left.
    + destruct (IH ltac:(lia)) as (Hle & Hall & Hlast).
      split; [lia|]. split; [|exact Hlast].
      replace (S n - strip_eol line n)%nat with (S (n - strip_eol line n)) by lia.
      rewrite (firstn_succ_nth NUL) by (rewrite length_skipn; lia).
      apply Forall_app. split; [exact Hall|].
      constructor; [|constructor].
      rewrite nth_skipn_add.
      replace (strip_eol line n + (n - strip_eol line n))%nat with n by lia.
      now right.
    + split; [lia|]. split.
      * rewrite Nat.sub_diag. constructor.
      * intros k Hk. injection Hk as <-. intros [H|H]; contradiction.
Qed.

Lemma chomp_stripped (l : list ascii) : stripped l (chomp l).
Proof.
  destruct (strip_eol_spec l (length l) (Nat.le_refl _)) as (Hle & Hall & Hlast).
  unfold chomp. exists (skipn (strip_eol l (length l)) l).
  split; [symmetry; apply firstn_skipn|]. split.
  - rewrite firstn_all2 in Hall by (rewrite length_skipn; lia). exact Hall.
  - intros q c Hq.
    assert (Hlen : strip_eol l (length l) = S (length q)).
    { apply (f_equal (@length ascii)) in Hq.
      rewrite length_firstn, length_app in Hq. cbn [length] in Hq. lia. }
    assert (Hc : nth (length q) l NUL = c).
    { rewrite <- (firstn_skipn (strip_eol l (length l)) l), Hq.
      rewrite app_nth1 by (rewrite length_app; cbn [length]; lia).
      rewrite app_nth2, Nat.sub_diag by lia. reflexivity. }
    rewrite <- Hc. now apply Hlast.
Qed.

Lemma stripped_lines (ls : list (list ascii)) : Forall2 stripped ls (map chomp ls).
Proof.
  induction ls as [|l ls IH]; cbn [map]; constructor;
    [apply chomp_stripped | exact IH].
Qed.

(** [editorOpen] from the initial state returns for every file: there
    is one row per line, and the text of each row is its line without
    the line end: the line is the text of the row followed by newlines
    and carriage returns only, and the text of the row does not end in
    a newline or a carriage return.  The document is consistent and not
    dirty and the cursor is at its start. *)
Theorem editorOpen_lines (rows cols : Z) (fname : list ascii)
  (ls : list (list ascii)) :
  exists E,
    editorOpen (initEditor rows cols) fname ls = Ok E /\
    doc_ok E /\ Forall2 stripped ls (lines E) /\ numrows E = zlen ls /\
    dirty E = 0 /\ cx E = 0 /\ cy E = 0 /\ filename E = Some fname.
Proof.
  destruct (editorOpen_total rows cols fname ls)
    as (E & Hrun & Hdoc & Hl & Hrest).
  exists E. split; [exact Hrun|]. split; [exact Hdoc|].
  split; [rewrite Hl; apply stripped_lines | exact Hrest].
Qed.

Lemma getlines_flat (ls : list (list ascii)) :
  Forall (fun l => ~ In LF l) ls ->
  getlines (flat ls) [] = map (fun l => l ++ [LF]) ls.
Proof.
  assert (Hline : forall (l cur rest : list ascii),
            ~ In LF l ->
            getlines (l ++ LF :: rest) cur
            = (cur ++ l ++ [LF]) :: getlines rest []).
  { induction l as [|c l IH]; intros cur rest Hl.
    - cbn. reflexivity.
    - cbn [app getlines].
      destruct (Ascii.eqb_spec c LF) as [->|Hne];
        [exfalso; apply Hl; now left|].
      rewrite IH by (intros Hin; apply Hl; now right).
      now rewrite <- app_assoc. }
  induction ls as [|l ls IH]; intros H; [reflexivity|].
  inversion H; subst. unfold flat in *. cbn [map concat].
  rewrite <- app_assoc. cbn [app]. rewrite Hline by assumption.
  cbn [app]. now rewrite IH.
Qed.

Lemma strip_eol_stop (line : list ascii) (n : nat) :
  (0 < n)%nat -> nth (n - 1) line NUL <> LF ->
  nth (n - 1) line NUL <> CR -> strip_eol line n = n.
Proof.
  intros Hn H1 H2. destruct n as [|n]; [lia|].
  cbn [strip_eol]. replace (S n - 1)%nat with n in * by lia.
  destruct (Ascii.eqb_spec (nth n line NUL) LF); [contradiction|].
  destruct (Ascii.eqb_spec (nth n line NUL) CR); [contradiction|].
  reflexivity.
Qed.

Lemma nth_last {A : Type} (l : list A) (d : A) : nth (length l - 1) l d = last l d.
Proof.
  induction l as [|a l IH]; [reflexivity|].
  destruct l as [|b l]; [reflexivity|].
  change (last (a :: b :: l) d) with (last (b :: l) d). rewrite <- IH.
  cbn [length]. replace (S (S (length l)) - 1)%nat with (S (length l)) by lia.
  replace (S (length l) - 1)%nat with (length l) by lia. reflexivity.
Qed.

Lemma chomp_clean (l : list ascii) : clean l -> chomp (l ++ [LF]) = l.
Proof.
  intros [Hlf Hcr]. unfold chomp. rewrite length_app. cbn [length].
  replace (length l + 1)%nat with (S (length l)) by lia.
  cbn [strip_eol]. rewrite app_nth2, Nat.sub_diag by lia. cbn [nth].
  rewrite Ascii.eqb_refl. cbn [orb].
  assert (Hs : strip_eol (l ++ [LF]) (length l) = length l).
  { destruct l as [|a l']; [reflexivity|]. set (l := a :: l') in *.
    assert (Hpos : (0 < length l)%nat) by (cbn; lia).
    assert (Hn : nth (length l - 1) (l ++ [LF]) NUL = last l NUL).
    { rewrite app_nth1 by lia. apply nth_last. }
    apply strip_eol_stop; [exact Hpos | |]; rewrite Hn.
    - intros He. apply Hlf. rewrite <- He.
      destruct (@exists_last _ l ltac:(discriminate)) as (l0 & x & Hx).
      rewrite Hx, last_last. apply in_or_app. right. now left.
    - exact Hcr. }
  rewrite Hs. apply firstn_app_exact.
Qed.

Lemma cleanb_sound (ls : list (list ascii)) :
  forallb cleanb ls = true -> Forall clean ls.
Proof.
  intros H. rewrite forallb_forall in H. apply Forall_forall. intros l Hin.
  specialize (H l Hin). unfold cleanb in H. apply andb_true_iff in H.
  destruct H as [H1 H2]. rewrite forallb_forall in H1. split.
  - intros Hlf. specialize (H1 _ Hlf). now rewrite Ascii.eqb_refl in H1.
  - intros Hcr. rewrite Hcr in H2. discriminate.
Qed.

(** Saving and loading: the bytes [editorRowsToString] produces for a
    consistent document whose lines hold no newline and do not end in
    a carriage return are read back by [editorOpen] as the same
    lines. *)
Theorem save_then_load (E : editorConfig) (rows cols : Z) (fname : list ascii) :
  doc_ok E -> Forall clean (lines E) ->
  exists buf len E',
    editorRowsToString E = Ok (buf, len) /\
    editorOpen (initEditor rows cols) fname (getlines buf []) = Ok E' /\
    lines E' = lines E /\ numrows E' = numrows E.
Proof.
  intros Hdoc Hclean.
  exists (flat (lines E)), (zlen (flat (lines E))).
  destruct (editorOpen_total rows cols fname (getlines (flat (lines E)) []))
    as (E' & Hrun & _ & Hl & Hn & _).
  exists E'. split; [now apply editorRowsToString_total|]. split; [exact Hrun|].
  rewrite getlines_flat in Hl, Hn
    by (eapply Forall_impl; [|exact Hclean]; now intros l [H _]).
  split.
  - rewrite Hl, map_map. rewrite <- (map_id (lines E)) at 2.
    apply map_ext_in. intros l Hin. apply chomp_clean.
    rewrite Forall_forall in Hclean. now apply Hclean.
  - rewrite Hn. destruct Hdoc as (Hd & _). rewrite Hd.
    unfold zlen, lines. now rewrite !length_map.
Qed.

Lemma save_then_load_witness :
  doc_ok two_lines /\ Forall clean (lines two_lines) /\
  exists buf len E',
    editorRowsToString two_lines = Ok (buf, len) /\
    editorOpen (initEditor 24 80) (cs "copy") (getlines buf []) = Ok E' /\
    lines E' = [cs "abc"; cs "de"].
Proof.
  assert (Hdoc : doc_ok two_lines) by (apply doc_okb_sound; vm_compute; reflexivity).
  assert (Hclean : Forall clean (lines two_lines))
    by (apply cleanb_sound; vm_compute; reflexivity).
  split; [exact Hdoc|]. split; [exact Hclean|].
  destruct (save_then_load two_lines 24 80 (cs "copy") Hdoc Hclean)
    as (buf & len & E' & Hs & Ho & Hl & _).
  exists buf, len, E'. split; [exact Hs|]. split; [exact Ho|].
  rewrite Hl. vm_compute. reflexivity.
Defined.

(** Loading and saving: a file whose lines end in one newline, hold no
    other newline and no carriage return at their end is written back
    byte for byte. *)
Theorem load_then_save (rows cols : Z) (fname : list ascii) (ls : list (list ascii)) :
  Forall clean ls ->
  exists E,
    editorOpen (initEditor rows cols) fname (getlines (flat ls) []) = Ok E /\
    editorRowsToString E = Ok (flat ls, zlen (flat ls)).
Proof.
  intros Hclean.
  destruct (editorOpen_total rows cols fname (getlines (flat ls) []))
    as (E & Hrun & Hdoc & Hl & _).
  exists E. split; [exact Hrun|].
  rewrite getlines_flat in Hl
    by (eapply Forall_impl; [|exact Hclean]; now intros l [H _]).
  assert (Hls : lines E = ls).
  { rewrite Hl, map_map. rewrite <- (map_id ls) at 2.
    apply map_ext_in. intros l Hin. apply chomp_clean.
    rewrite Forall_forall in Hclean. now apply Hclean. }
  rewrite <- Hls. now apply editorRowsToString_total.
Qed.

Lemma load_then_save_witness :
  Forall clean [cs "x = 1;"; []] /\
  exists E,
    editorOpen (initEditor 24 80) (cs "a.c") (getlines (flat [cs "x = 1;"; []]) []) = Ok E /\
    editorRowsToString E = Ok (flat [cs "x = 1;"; []], 8).
Proof.
  assert (Hclean : Forall clean [cs "x = 1;"; []])
    by (apply cleanb_sound; vm_compute; reflexivity).
  split; [exact Hclean|].
  exact (load_then_save 24 80 (cs "a.c") _ Hclean).
Defined.

(* ================================================================= *)
(** ** Filetypes and line comments *)

Lemma cstr_id (s : list ascii) : ~ In NUL s -> cstr s = s.
Proof.
  induction s as [|c s IH]; intros H; [reflexivity|].
  cbn [cstr]. destruct (Ascii.eqb_spec c NUL) as [->|Hne];
    [exfalso; apply H; now left|].
  rewrite IH; [reflexivity|]. intros Hin. apply H. now right.
Qed.

Lemma strrchr_bytes_none (t : list ascii) (c : ascii) :
  ~ In c t -> strrchr_bytes t c = None.
Proof.
  induction t as [|a t IH]; intros H; [reflexivity|].
  cbn [strrchr_bytes]. rewrite IH by (intros Hin; apply H; now right).
  destruct (Ascii.eqb_spec a c) as [->|Hne]; [exfalso; apply H; now left|].
  reflexivity.
Qed.

Lemma strrchr_bytes_last (s t : list ascii) (c : ascii) :
  ~ In c t -> strrchr_bytes (s ++ c :: t) c = Some (c :: t).
Proof.
  intros Ht. induction s as [|a s IH].
  - cbn [app strrchr_bytes]. rewrite strrchr_bytes_none by exact Ht.
    now rewrite Ascii.eqb_refl.
  - cbn [app strrchr_bytes]. now rewrite IH.
Qed.

(** The state [editorOpen] leaves when started from the initial state:
    the filetype is the one the file name selects. *)
Lemma editorOpen_syntax (rows cols : Z) (fname : list ascii)
  (ls : list (list ascii)) :
  exists E,
    editorOpen (initEditor rows cols) fname ls = Ok E /\
    syntax E = select_entry HLDB fname (strrchr fname DOT).
Proof.
  unfold editorOpen.
  set (E0 := set_syntax (set_filename (initEditor rows cols) (Some fname))
               (select_entry HLDB fname (strrchr fname DOT))).
  assert (Hsel : editorSelectSyntaxHighlight
                   (set_filename (initEditor rows cols) (Some fname)) = Ok E0).
  { unfold E0, editorSelectSyntaxHighlight.
    cbn [filename set_syntax set_filename initEditor].
    destruct (select_entry HLDB fname (strrchr fname DOT)); reflexivity. }
  rewrite Hsel. cbn [bind].
  assert (Hd0 : doc_ok E0)
    by (eapply doc_ok_frame; [| |exact (initEditor_doc rows cols)]; reflexivity).
  destruct (open_loop_lines ls E0 Hd0) as (rows' & d & Hrun & _).
  rewrite Hrun. cbn [bind]. eexists. split; reflexivity.
Qed.

(** A file name that ends in one of the extensions of the C entry
    selects that entry, whatever precedes the extension. *)
Theorem editorOpen_c_extension (rows cols : Z) (stem : list ascii) (e : string)
  (ls : list (list ascii)) :
  ~ In NUL stem -> In e C_HL_extensions ->
  exists E,
    editorOpen (initEditor rows cols) (stem ++ cs e) ls = Ok E /\
    syntax E = Some c_entry.
Proof.
  intros Hstem He.
  destruct (editorOpen_syntax rows cols (stem ++ cs e) ls) as (E & Hrun & Hsyn).
  exists E. split; [exact Hrun|]. rewrite Hsyn. clear Hrun Hsyn.
  assert (Hext : exists t, cs e = DOT :: t /\ ~ In DOT t /\ ~ In NUL t /\
                           existsb (fun pat => bytes_eqb (DOT :: t) (cstr (cs pat))
                                               && Ascii.eqb (byte_at (cs pat) 0) DOT)
                             C_HL_extensions = true).
  { destruct He as [<-|[<-|[<-|[]]]]; eexists; (split; [reflexivity|]);
      (split; [cbn; intuition discriminate|]);
      (split; [cbn; intuition discriminate|]); reflexivity. }
  destruct Hext as (t & -> & Hdot & Hnul & Hhit).
  assert (Hc : cstr (stem ++ DOT :: t) = stem ++ DOT :: t).
  { apply cstr_id. intros Hin. apply in_app_or in Hin.
    destruct Hin as [Hin|[Hin|Hin]]; [auto | discriminate | auto]. }
  unfold strrchr. rewrite Hc, strrchr_bytes_last by exact Hdot.
  unfold HLDB. cbn [select_entry filematch].
  assert (Hany : existsb (fun pat => filematch_hit (stem ++ DOT :: t) (Some (DOT :: t)) (cs pat))
                   C_HL_extensions = true).
  { rewrite existsb_exists in *. destruct Hhit as (pat & Hin & Hp).
    exists pat. split; [exact Hin|]. unfold filematch_hit.
    apply andb_true_iff in Hp. destruct Hp as [Hb Hd]. rewrite Hd. cbn [andb negb orb].
    rewrite (cstr_id (DOT :: t)); [now rewrite Hb|].
    intros [Hin'|Hin']; [discriminate | auto]. }
  rewrite Hany. reflexivity.
Qed.

Lemma editorOpen_c_extension_witness :
  ~ In NUL (cs "src/main") /\ In ".cpp"%string C_HL_extensions /\
  exists E,
    editorOpen (initEditor 24 80) (cs "src/main" ++ cs ".cpp") [] = Ok E /\
    syntax E = Some c_entry.
Proof.
  assert (H1 : ~ In NUL (cs "src/main")) by (cbn; intuition discriminate).
  assert (H2 : In ".cpp"%string C_HL_extensions) by (cbn; auto).
  split; [exact H1|]. split; [exact H2|].
  exact (editorOpen_c_extension 24 80 (cs "src/main") ".cpp" [] H1 H2).
Defined.

Lemma editorUpdateRow_plain (E : editorConfig) (slot : Z) (r : erow) :
  get_row (row E) slot = Ok r -> syntax E = None ->
  editorUpdateRow E slot
  = Ok (set_rows E (replace_nth (Z.to_nat slot) (row E)
                      (set_hl (rendered r)
                         (repeat HL_NORMAL (Z.to_nat (rsize (rendered r))))))).
Proof.
  intros Hr Hsyn. pose proof (get_row_range _ _ _ Hr) as Hslot.
  pose proof Hr as Hnth. apply get_row_Ok in Hnth. destruct Hnth as [_ Hnth].
  unfold editorUpdateRow. rewrite Hr. cbn [bind].
  rewrite put_row_in_range by exact Hslot. cbn [bind].
  fold (display_of r). fold (rendered r). unfold editorUpdateSyntax.
  rewrite (editorUpdateSyntax_rec_plain _ slot (rendered r)).
  - cbn [row set_rows]. now rewrite replace_nth_twice.
  - cbn [row set_rows]. apply get_row_Ok. split; [lia|].
    apply nth_error_replace_nth_eq. apply nth_error_Some. congruence.
  - exact Hsyn.
Qed.

Lemma editorInsertRow_unlit (E E' : editorConfig) (at_ : Z) (s : list ascii) (len : Z) :
  doc_ok E -> syntax E = None -> Forall unlit (row E) ->
  editorInsertRow E at_ s len = Ok E' ->
  Forall unlit (row E') /\ syntax E' = None.
Proof.
  intros Hdoc Hsyn Hun H. unfold editorInsertRow in H.
  destruct (Z.ltb_spec at_ 0); cbn [orb] in H; [injection H as <-; auto|].
  destruct (Z.gtb_spec at_ (numrows E)); [injection H as <-; auto|].
  bind_inv H. injection H as <-.
  destruct Hdoc as (Hn & Hidx & Hrows).
  assert (Hat : 0 <= at_ <= zlen (row E)) by lia.
  pose proof (insert_rows_shape (row E) at_ (mkRow at_ len 0 x1 [] [] false) Hat)
    as Hsh2.
  rewrite <- Hn in Hsh2. rewrite Hx in Hsh2. cbn [bind] in Hsh2.
  rewrite Hx0 in Hsh2. cbn [bind] in Hsh2. rewrite Hx2 in Hsh2.
  injection Hsh2 as ->.
  set (new := mkRow at_ len 0 x1 [] [] false) in *.
  assert (Hnew : get_row (firstn (Z.to_nat at_) (row E)
                          ++ new :: map bump (skipn (Z.to_nat at_) (row E))) at_
                 = Ok new).
  { rewrite <- (zlen_firstn at_ (row E)) at 3 by lia. apply get_row_app. }
  rewrite (editorUpdateRow_plain _ at_ new) in Hx3 by (cbn [row set_rows]; auto).
  injection Hx3 as <-. cbn [row syntax set_rows set_numrows set_dirty].
  split; [|exact Hsyn].
  assert (Hl : length (firstn (Z.to_nat at_) (row E)) = Z.to_nat at_)
    by (rewrite length_firstn; unfold zlen in *; lia).
  rewrite <- Hl at 1. rewrite replace_nth_app.
  apply Forall_insert_rows; [exact Hun | split; reflexivity | intros r Hr; exact Hr].
Qed.

Lemma open_loop_unlit (ls : list (list ascii)) :
  forall E E',
    doc_ok E -> syntax E = None -> Forall unlit (row E) ->
    open_loop ls E = Ok E' -> Forall unlit (row E') /\ syntax E' = None.
Proof.
  induction ls as [|line ls IH]; intros E E' Hdoc Hsyn Hun H; cbn [open_loop] in H.
  - injection H as <-. auto.
  - bind_inv H.
    destruct (editorInsertRow_unlit _ _ _ _ _ Hdoc Hsyn Hun Hx) as [Hun1 Hsyn1].
    apply editorInsertRow_doc in Hx; [|exact Hdoc].
    apply (IH x E'); tauto.
Qed.

(** A file whose name holds no dot selects no filetype, and no byte of
    it is highlighted: after [editorOpen] every highlight cell of
    every row is HL_NORMAL and no row is marked as ending inside a
    comment, whatever the file contains. *)
Theorem editorOpen_no_filetype (rows cols : Z) (fname : list ascii)
  (ls : list (list ascii)) :
  ~ In DOT (cstr fname) ->
  exists E,
    editorOpen (initEditor rows cols) fname ls = Ok E /\
    syntax E = None /\
    Forall (fun r => (forall j, hl_at (hl r) j = HL_NORMAL) /\
                     hl_open_comment r = false) (row E).
Proof.
  intros Hdot.
  destruct (editorOpen_syntax rows cols fname ls) as (E & Hrun & Hsyn).
  exists E. split; [exact Hrun|].
  assert (Hnone : select_entry HLDB fname (strrchr fname DOT) = None).
  { unfold strrchr. rewrite strrchr_bytes_none by exact Hdot. reflexivity. }
  rewrite Hnone in Hsyn. split; [exact Hsyn|].
  unfold editorOpen in Hrun. bind_inv Hrun. injection Hrun as <-.
  cbn [row set_dirty].
  assert (Hx' : x = set_syntax (set_filename (initEditor rows cols) (Some fname)) None).
  { unfold editorSelectSyntaxHighlight in Hx.
    cbn [filename set_syntax set_filename initEditor] in Hx.
    rewrite Hnone in Hx. now injection Hx as <-. }
  subst x.
  assert (Hd : doc_ok (set_syntax (set_filename (initEditor rows cols) (Some fname)) None))
    by (eapply doc_ok_frame; [| |exact (initEditor_doc rows cols)]; reflexivity).
  destruct (open_loop_unlit ls _ x0 Hd eq_refl ltac:(constructor) Hx0) as [Hun _].
  eapply Forall_impl; [|exact Hun]. intros r [Hh Ho]. split; [|exact Ho].
  intros j. rewrite Hh. unfold hl_at. destruct (j <? 0); [reflexivity|].
  destruct (Nat.lt_ge_cases (Z.to_nat j) (Z.to_nat (rsize r))) as [Hlt|Hge].
  - now rewrite nth_repeat_lt.
  - apply nth_overflow. now rewrite repeat_length.
Qed.

Lemma editorOpen_no_filetype_witness :
  ~ In DOT (cstr (cs "Makefile")) /\
  exists E,
    editorOpen (initEditor 24 80) (cs "Makefile") [cs "int x; /* y */" ++ [LF]] = Ok E /\
    syntax E = None.
Proof.
  assert (H : ~ In DOT (cstr (cs "Makefile"))) by (cbn; intuition discriminate).
  split; [exact H|].
  destruct (editorOpen_no_filetype 24 80 (cs "Makefile") [cs "int x; /* y */" ++ [LF]] H)
    as (E & Hrun & Hsyn & _).
  exists E. split; assumption.
Defined.

Lemma splice_all {A : Type} (buf : list A) (v : A) :
  splice buf 0 v (zlen buf) = repeat v (length buf).
Proof.
  unfold splice. cbn [Z.to_nat firstn app]. rewrite Z.add_0_l.
  unfold zlen. rewrite Nat2Z.id, skipn_all. now rewrite app_nil_r.
Qed.

(** A row that begins with the token of a line comment is HL_COMMENT
    from its first to its last byte, whatever else it holds, and does
    not end inside a block comment (the row above does not, either). *)
Theorem row_scan_line_comment (syn : editorSyntax) (r : erow) :
  rsize r = zlen (render r) -> scs_len syn <> 0 ->
  matches_at r 0 (scs syn) (scs_len syn) = true ->
  exists s,
    row_scan syn r false = Ok s /\
    sc_hl s = repeat HL_COMMENT (Z.to_nat (rsize r)) /\
    sc_in_comment s = false.
Proof.
  intros Hr Hlen Hm. pose proof (zlen_nonneg (render r)) as H0.
  pose proof (tok_len_nonneg (singleline_comment_start syn)) as Hn.
  fold (scs_len syn) in Hn.
  assert (Hpos : 0 < rsize r).
  { assert (Hb : 0 <= scs_len syn <= strlen (scs syn)).
    { pose proof (tok_len_strlen (singleline_comment_start syn)).
      unfold scs_len, scs in *. lia. }
    pose proof (matches_at_bound r 0 (scs syn) (scs_len syn) Hr ltac:(lia) Hb Hm).
    lia. }
  unfold row_scan, scan_fuel. cbn [scan_loop sc_i].
  destruct (Z.ltb_spec 0 (rsize r)); [|lia].
  unfold scan_step, scan_line_comment.
  cbn [sc_i sc_in_string sc_in_comment sc_hl sc_prev_sep].
  destruct (Z.eqb_spec (scs_len syn) 0); [contradiction|].
  change (Ascii.eqb NUL NUL) with true. cbn [negb andb]. rewrite Hm.
  cbn [or_else]. rewrite memset_Ok.
  - cbn [bind]. eexists. split; [reflexivity|]. cbn [sc_hl sc_in_comment].
    split; [|reflexivity].
    rewrite Z.sub_0_r.
    replace (rsize r) with (zlen (repeat HL_NORMAL (Z.to_nat (rsize r)))) at 2
      by (rewrite zlen_repeat; lia).
    rewrite splice_all. now rewrite repeat_length.
  - lia.
  - lia.
  - rewrite zlen_repeat. lia.
Qed.

Lemma row_scan_line_comment_witness :
  rsize remark_row = zlen (render remark_row) /\ scs_len c_entry <> 0 /\
  matches_at remark_row 0 (scs c_entry) (scs_len c_entry) = true /\
  exists s, row_scan c_entry remark_row false = Ok s /\
            sc_hl s = repeat HL_COMMENT 9.
Proof.
  assert (H1 : rsize remark_row = zlen (render remark_row)) by reflexivity.
  assert (H2 : scs_len c_entry <> 0) by (vm_compute; discriminate).
  assert (H3 : matches_at remark_row 0 (scs c_entry) (scs_len c_entry) = true)
    by (vm_compute; reflexivity).
  split; [exact H1|]. split; [exact H2|]. split; [exact H3|].
  destruct (row_scan_line_comment c_entry remark_row H1 H2 H3) as (s & Hs & Hh & _).
  exists s. split; [exact Hs | exact Hh].
Defined.

(* ================================================================= *)
(** ** A search session *)

Lemma memcpy_hl_all (dst src : list editorHighlight) (n : Z) :
  zlen dst = n -> zlen src = n -> memcpy_hl dst src n = Ok src.
Proof.
  intros Hd Hs. pose proof (zlen_nonneg dst). unfold memcpy_hl.
  destruct (Z.ltb_spec n 0); [lia|].
  destruct (Z.ltb_spec (zlen dst) n); [lia|].
  destruct (Z.ltb_spec (zlen src) n); [lia|]. cbn [orb].
  rewrite firstn_all2, skipn_all2 by (unfold zlen in *; lia).
  now rewrite app_nil_r.
Qed.

Lemma find_prepared_saved (S : findState) (key : Z) :
  saved_hl (find_prepared S key) = None.
Proof.
  unfold find_prepared, find_key. cbv zeta.
  destruct ((key =? ARROW_RIGHT) || (key =? ARROW_DOWN));
    [|destruct ((key =? ARROW_LEFT) || (key =? ARROW_UP))];
    cbn [last_match saved_hl_line saved_hl];
    try (destruct (last_match S =? -1)); reflexivity.
Qed.

Lemma find_loop_total (E : editorConfig) (S : findState) (query : list ascii)
  (key : Z) :
  doc_ok E -> -1 <= last_match S < Z.max 0 (numrows E) ->
  exists visited hit,
    find_loop (Z.to_nat (numrows E)) E query
      (last_match (find_prepared S key)) (direction (find_prepared S key))
    = Ok (visited, hit) /\
    match hit with
    | None => forall r, In r (row E) -> strstr (render r) query = None
    | Some (c, off) =>
        exists r, get_row (row E) c = Ok r /\ strstr (render r) query = Some off /\
                  forall k r', In k (removelast visited) -> get_row (row E) k = Ok r' ->
                               strstr (render r') query = None
    end.
Proof.
  intros Hdoc Hlm. pose proof Hdoc as (Hn & _).
  destruct (Z_le_gt_dec (numrows E) 0) as [Hz|Hpos].
  - replace (Z.to_nat (numrows E)) with O by lia. cbn [find_loop].
    exists [], None. split; [reflexivity|].
    intros r Hin. destruct (row E); [destruct Hin | unfold zlen in Hn; cbn in Hn; lia].
  - pose proof (find_key_start E S key ltac:(lia) ltac:(lia)) as Hstart.
    cbv zeta in Hstart. fold (find_prepared S key) in Hstart.
    destruct (find_loop_trace E query (direction (find_prepared S key))
                (Z.to_nat (numrows E)) Hn _ Hstart)
      as (visited & hit & Hrun & _ & Hbefore & Hhit).
    exists visited, hit. split; [exact Hrun|].
    destruct hit as [[c off]|].
    + destruct Hhit as (_ & r & Hr & Hs). exists r. auto.
    + destruct Hhit as [Hall Hnone]. intros r Hin.
      apply In_nth_error in Hin. destruct Hin as [k Hk].
      assert (Hkr : 0 <= Z.of_nat k < numrows E).
      { assert (k < length (row E))%nat by (apply nth_error_Some; congruence).
        unfold zlen in Hn. lia. }
      apply (Hnone (Z.of_nat k) r).
      * rewrite Hall. apply (find_order_all E _ _ Hstart). exact Hkr.
      * apply get_row_Ok. split; [lia|]. now rewrite Nat2Z.id.
Qed.

(** The callback on a key other than Enter and Escape, once the saved
    highlight is back and the loop has found a match. *)
Lemma editorFindCallback_found (E E0 : editorConfig) (S : findState)
  (query : list ascii) (key : Z) (visited : list Z) (c off : Z) (r : erow) :
  find_restore E S = Ok E0 -> doc_ok E0 -> is_find_exit key = false ->
  find_loop (Z.to_nat (numrows E0)) E0 query
    (last_match (find_prepared S key)) (direction (find_prepared S key))
  = Ok (visited, Some (c, off)) ->
  get_row (row E0) c = Ok r -> strstr (render r) query = Some off ->
  editorFindCallback E S query key
  = Ok (set_rows (set_rowoff (set_cx (set_cy E0 c) (editorRowRxToCx r off))
                    (numrows E0))
          (replace_nth (Z.to_nat c) (row E0) (marked r off query)),
        mkFind c (direction (find_prepared S key)) c (Some (hl r))).
Proof.
  intros Hres Hdoc Hkey Hloop Hr Hs.
  destruct (doc_ok_row E0 c r Hdoc Hr) as [[[_ Hrs] Hl] _].
  pose proof (get_row_range _ _ _ Hr) as Hrange.
  unfold editorFindCallback. rewrite Hres. cbn [bind]. rewrite Hkey.
  fold (find_prepared S key). rewrite Hloop. cbn [bind snd].
  rewrite Hr. cbn [bind].
  apply strstr_bound in Hs. destruct Hs as [Ho Hb].
  pose proof (zlen_nonneg (render r)).
  assert (Hq : 0 <= strlen query) by apply zlen_nonneg.
  rewrite memcpy_hl_all by (rewrite ?zlen_repeat; lia). cbn [bind].
  rewrite memset_Ok by lia. cbn [bind].
  cbn [row set_rows set_cx set_cy set_rowoff].
  rewrite put_row_in_range by assumption. cbn [bind]. reflexivity.
Qed.

Lemma restores_marked (E0 : editorConfig) (c off : Z) (r : erow) (query : list ascii)
  (F : editorConfig) (dir : Z) :
  doc_ok E0 -> get_row (row E0) c = Ok r ->
  0 <= off -> 0 <= strlen query -> off + strlen query <= rsize r ->
  row F = replace_nth (Z.to_nat c) (row E0) (marked r off query) ->
  restores (row E0) F (mkFind c dir c (Some (hl r))).
Proof.
  intros Hdoc Hr Ho Hq Hb HF.
  destruct (doc_ok_row E0 c r Hdoc Hr) as [[[_ Hrs] Hl] _].
  pose proof (get_row_range _ _ _ Hr) as Hrange.
  pose proof Hr as Hnth. apply get_row_Ok in Hnth. destruct Hnth as [_ Hnth].
  assert (Hlt : (Z.to_nat c < length (row E0))%nat) by (unfold zlen in Hrange; lia).
  unfold restores, find_restore. cbn [saved_hl saved_hl_line]. rewrite HF.
  assert (Hg : get_row (replace_nth (Z.to_nat c) (row E0) (marked r off query)) c
               = Ok (marked r off query)).
  { apply get_row_Ok. split; [lia|]. now apply nth_error_replace_nth_eq. }
  rewrite Hg. cbn [bind]. cbn [hl rsize marked set_hl].
  rewrite memcpy_hl_all by (rewrite ?zlen_splice; lia). cbn [bind].
  rewrite put_row_in_range by (rewrite zlen_replace_nth; exact Hrange).
  cbn [bind]. eexists. split; [reflexivity|]. cbn [row set_rows].
  rewrite replace_nth_twice.
  replace (set_hl (marked r off query) (hl r)) with r by (destruct r; reflexivity).
  now apply replace_nth_same.
Qed.

(** One call of the callback in a search session: it returns, the
    document stays consistent, and the rows that the next call will put
    back are those of before the session. *)
Lemma editorFindCallback_step (base : list erow) (E : editorConfig) (S : findState)
  (query : list ascii) (key : Z) :
  doc_ok E -> find_ok E S -> restores base E S ->
  exists E' S',
    editorFindCallback E S query key = Ok (E', S') /\
    doc_ok E' /\ find_ok E' S' /\ restores base E' S' /\
    (is_find_exit key = true ->
     row E' = base /\ saved_hl S' = None /\ last_match S' = -1 /\ direction S' = 1 /\
     cx E' = cx E /\ cy E' = cy E /\ rowoff E' = rowoff E /\ coloff E' = coloff E).
Proof.
  intros Hdoc Hfind (E0 & Hres & Hbase).
  pose proof (find_restore_doc _ _ _ Hdoc Hres) as Hdoc0.
  destruct (find_restore_ok E S Hdoc Hfind) as (rows1 & Hres' & _).
  rewrite Hres in Hres'. injection Hres' as HE0.
  assert (Hn0 : numrows E0 = numrows E) by (rewrite HE0; reflexivity).
  assert (Hrun : exists E' S', editorFindCallback E S query key = Ok (E', S') /\
                   restores base E' S' /\
                   (is_find_exit key = true ->
                    row E' = base /\ saved_hl S' = None /\ last_match S' = -1 /\
                    direction S' = 1 /\
                    cx E' = cx E /\ cy E' = cy E /\ rowoff E' = rowoff E /\
                    coloff E' = coloff E)).
  { destruct (is_find_exit key) eqn:Hkey.
    - exists E0, (mkFind (-1) 1 (saved_hl_line S) None).
      split; [unfold editorFindCallback; rewrite Hres; cbn [bind]; now rewrite Hkey|].
      split; [exists E0; split; [reflexivity | exact Hbase]|].
      intros _. rewrite HE0. cbn. rewrite HE0 in Hbase. cbn in Hbase. repeat split; auto.
    - destruct (find_loop_total E0 S query key Hdoc0) as (visited & hit & Hloop & Hhit).
      { destruct Hfind as [Hlm _]. rewrite Hn0. exact Hlm. }
      destruct hit as [[c off]|].
      + destruct Hhit as (r & Hr & Hs & _).
        pose proof (editorFindCallback_found E E0 S query key visited c off r
                      Hres Hdoc0 Hkey Hloop Hr Hs) as Heq.
        eexists. eexists. split; [exact Heq|]. split; [|discriminate].
        rewrite <- Hbase.
        destruct (doc_ok_row E0 c r Hdoc0 Hr) as [[[_ Hrs] _] _].
        apply strstr_bound in Hs. destruct Hs as [Ho Hb].
        apply (restores_marked E0 c off r query); auto; try lia.
        apply zlen_nonneg.
      + exists E0, (find_prepared S key).
        split.
        * unfold editorFindCallback. rewrite Hres. cbn [bind]. rewrite Hkey.
          fold (find_prepared S key). rewrite Hloop. reflexivity.
        * split; [|discriminate].
          exists E0. split; [|exact Hbase].
          unfold find_restore. now rewrite find_prepared_saved. }
  destruct Hrun as (E' & S' & Heq & Hrest & Hexit).
  exists E', S'. split; [exact Heq|].
  split; [exact (editorFindCallback_doc E E' S S' query key Hdoc Heq)|].
  split; [exact (editorFindCallback_find_ok E E' S S' query key Hdoc Hfind Heq)|].
  split; assumption.
Qed.

Lemma find_session_step (base : list erow) (qks : list (list ascii * Z)) :
  forall E S,
    doc_ok E -> find_ok E S -> restores base E S ->
    exists E' S',
      run (find_ops qks) (E, S) = Ok (E', S') /\
      doc_ok E' /\ find_ok E' S' /\ restores base E' S'.
Proof.
  induction qks as [|[q k] qks IH]; intros E S Hdoc Hfind Hrest.
  - exists E, S. cbn. auto.
  - destruct (editorFindCallback_step base E S q k Hdoc Hfind Hrest)
      as (E1 & S1 & Heq & Hd1 & Hf1 & Hr1 & _).
    destruct (IH E1 S1 Hd1 Hf1 Hr1) as (E' & S' & Hrun & H').
    exists E', S'. split; [|exact H'].
    cbn [find_ops map run apply_op fst snd]. rewrite Heq. cbn [bind]. exact Hrun.
Qed.

Lemma run_app (ops1 ops2 : list op) (st st1 : editorConfig * findState) :
  run ops1 st = Ok st1 -> run (ops1 ++ ops2) st = run ops2 st1.
Proof.
  revert st. induction ops1 as [|o ops1 IH]; intros st H; cbn [run app] in *.
  - now injection H as ->.
  - destruct (apply_op o st) as [st'|f]; cbn [bind] in *; [|discriminate].
    now apply IH.
Qed.

(** A search session: any number of calls of the callback, with any
    queries and keys, followed by the call for Enter or Escape.  Every
    call returns, and at the end every row is exactly as it was before
    the session, text and highlighting, and the [static]s are back in
    their initial state. *)
Theorem find_session_restores (E : editorConfig) (S : findState)
  (qks : list (list ascii * Z)) (query : list ascii) (key : Z) :
  doc_ok E -> find_ok E S -> saved_hl S = None -> is_find_exit key = true ->
  exists E' S',
    run (find_ops qks ++ [OpFindCallback query key]) (E, S) = Ok (E', S') /\
    row E' = row E /\ numrows E' = numrows E /\
    saved_hl S' = None /\ last_match S' = -1 /\ direction S' = 1.
Proof.
  intros Hdoc Hfind Hsaved Hkey.
  assert (Hrest : restores (row E) E S).
  { exists E. split; [|reflexivity]. unfold find_restore. now rewrite Hsaved. }
  destruct (find_session_step (row E) qks E S Hdoc Hfind Hrest)
    as (E1 & S1 & Hrun & Hd1 & Hf1 & Hr1).
  destruct (editorFindCallback_step (row E) E1 S1 query key Hd1 Hf1 Hr1)
    as (E' & S' & Heq & Hd' & _ & _ & Hexit).
  destruct (Hexit Hkey) as (Hrow & Hs' & Hl' & Hdir' & _).
  exists E', S'. rewrite (run_app _ _ _ _ Hrun).
  cbn [run apply_op fst snd]. rewrite Heq. cbn [bind].
  split; [reflexivity|]. split; [exact Hrow|].
  split; [|auto].
  destruct Hd' as (Hn' & _). destruct Hdoc as (Hn & _).
  rewrite Hn', Hn, Hrow. reflexivity.
Qed.

Lemma find_session_restores_witness :
  doc_ok three_rows_doc /\ find_ok three_rows_doc find_init /\
  exists E' S',
    run (find_ops [(cs "b", 98); (cs "b", ARROW_DOWN)] ++ [OpFindCallback (cs "b") KEY_ESC])
      (three_rows_doc, find_init) = Ok (E', S') /\
    row E' = row three_rows_doc.
Proof.
  assert (Hdoc : doc_ok three_rows_doc) by (apply doc_okb_sound; vm_compute; reflexivity).
  pose proof (find_init_ok three_rows_doc) as Hfind.
  split; [exact Hdoc|]. split; [exact Hfind|].
  destruct (find_session_restores three_rows_doc find_init
              [(cs "b", 98); (cs "b", ARROW_DOWN)] (cs "b") KEY_ESC
              Hdoc Hfind eq_refl eq_refl) as (E' & S' & Hrun & Hrow & _).
  exists E', S'. split; [exact Hrun | exact Hrow].
Defined.

(** The callback on a key other than Enter and Escape, with no
    highlight saved, when some row holds the query: it returns with the
    cursor on a row that holds the query, at the raw column of the first
    occurrence in that row's display text; the cells of the occurrence
    are HL_MATCH and nothing else of any row changes; the row offset is
    set to the row count; the row and its former highlight are
    remembered. *)
Theorem editorFindCallback_match (E : editorConfig) (S : findState)
  (query : list ascii) (key : Z) :
  doc_ok E -> find_ok E S -> saved_hl S = None -> is_find_exit key = false ->
  (exists r, In r (row E) /\ strstr (render r) query <> None) ->
  exists E' S' c off r,
    editorFindCallback E S query key = Ok (E', S') /\
    get_row (row E) c = Ok r /\ strstr (render r) query = Some off /\
    cy E' = c /\ cx E' = editorRowRxToCx r off /\ rowoff E' = numrows E /\
    row E' = replace_nth (Z.to_nat c) (row E) (marked r off query) /\
    (forall j, off <= j < off + strlen query -> hl_at (hl (marked r off query)) j = HL_MATCH) /\
    last_match S' = c /\ saved_hl S' = Some (hl r).
Proof.
  intros Hdoc Hfind Hsaved Hkey (r0 & Hin0 & Hs0).
  assert (Hres : find_restore E S = Ok E)
    by (unfold find_restore; now rewrite Hsaved).
  destruct (find_loop_total E S query key Hdoc) as (visited & hit & Hloop & Hhit).
  { destruct Hfind as [Hlm _]. exact Hlm. }
  destruct hit as [[c off]|]; [|exfalso; apply Hs0; now apply Hhit].
  destruct Hhit as (r & Hr & Hs & _).
  pose proof (editorFindCallback_found E E S query key visited c off r
                Hres Hdoc Hkey Hloop Hr Hs) as Heq.
  eexists. eexists. exists c, off, r. split; [exact Heq|].
  split; [exact Hr|]. split; [exact Hs|].
  repeat split.
  intros j Hj. unfold marked. cbn [hl set_hl].
  destruct (doc_ok_row E c r Hdoc Hr) as [[[_ Hrs] Hl] _].
  apply strstr_bound in Hs. destruct Hs as [Ho Hb].
  apply hl_at_splice_in; lia.
Qed.

Lemma editorFindCallback_match_witness :
  doc_ok three_rows_doc /\ find_ok three_rows_doc find_init /\
  exists E' S',
    editorFindCallback three_rows_doc find_init (cs "b") 98 = Ok (E', S') /\
    cy E' = 1 /\ map hl (row E') = [[HL_NORMAL]; [HL_MATCH]; [HL_NORMAL]].
Proof.
  assert (Hdoc : doc_ok three_rows_doc) by (apply doc_okb_sound; vm_compute; reflexivity).
  pose proof (find_init_ok three_rows_doc) as Hfind.
  split; [exact Hdoc|]. split; [exact Hfind|].
  assert (Hex : exists r, In r (row three_rows_doc) /\ strstr (render r) (cs "b") <> None).
  { exists (mkRow 1 1 1 (cs "b") (cs "b") [HL_NORMAL] false).
    split; [vm_compute; auto | vm_compute; discriminate]. }
  destruct (editorFindCallback_match three_rows_doc find_init (cs "b") 98
              Hdoc Hfind eq_refl eq_refl Hex)
    as (E' & S' & c & off & r & Heq & _).
  assert (Hc : exists E0 S0, editorFindCallback three_rows_doc find_init (cs "b") 98
                             = Ok (E0, S0) /\ cy E0 = 1 /\
                             map hl (row E0) = [[HL_NORMAL]; [HL_MATCH]; [HL_NORMAL]])
    by (eexists; eexists; split; [vm_compute; reflexivity | split; reflexivity]).
  destruct Hc as (E0 & S0 & Heq0 & Hy & Hh).
  rewrite Heq in Heq0. injection Heq0 as <- <-.
  exists E', S'. split; [exact Heq|]. split; assumption.
Defined.

(* ================================================================= *)
(** ** The search prompt and saving under a new name *)

Lemma cursor_len_strip (E E' : editorConfig) :
  map strip (row E') = map strip (row E) -> cy E' = cy E ->
  cursor_len E' = cursor_len E.
Proof.
  intros Hm Hy. unfold cursor_len. rewrite Hy.
  destruct (nth_error (row E') (Z.to_nat (cy E))) as [r'|] eqn:H'.
  - destruct (map_strip_nth _ _ _ _ Hm H') as (r & Hr & Hs).
    rewrite Hr. now apply size_strip in Hs.
  - destruct (nth_error (row E) (Z.to_nat (cy E))) as [r|] eqn:Hr; [|reflexivity].
    symmetry in Hm. destruct (map_strip_nth _ _ _ _ Hm Hr) as (r' & Hr' & _).
    congruence.
Qed.

Lemma settings_kept_refl (E : editorConfig) : settings_kept E E.
Proof. unfold settings_kept. tauto. Qed.

Lemma settings_kept_status (E : editorConfig) (text : string) :
  settings_kept E (editorSetStatusMessage E text).
Proof. unfold settings_kept. repeat split. Qed.

Lemma settings_kept_trans (E E1 E2 : editorConfig) :
  settings_kept E E1 -> settings_kept E1 E2 -> settings_kept E E2.
Proof. unfold settings_kept. intuition congruence. Qed.

(** What the callback does to the cursor and to the rest of the state. *)
Lemma editorFindCallback_view (E E' : editorConfig) (S S' : findState)
  (query : list ascii) (key : Z) :
  doc_ok E -> find_ok E S -> cursor_ok E -> 0 <= rowoff E ->
  editorFindCallback E S query key = Ok (E', S') ->
  cursor_ok E' /\ 0 <= rowoff E' /\ settings_kept E E' /\
  statusmsg E' = statusmsg E /\ map strip (row E') = map strip (row E).
Proof.
  intros Hdoc Hfind Hcur Hro H.
  destruct (find_restore_ok E S Hdoc Hfind) as (rows1 & Hres & Hstrip & _).
  pose proof (find_restore_doc _ _ _ Hdoc Hres) as Hdoc0.
  unfold editorFindCallback in H. rewrite Hres in H. cbn [bind] in H.
  assert (Hcur0 : cursor_ok (set_rows E rows1)).
  { unfold cursor_ok. rewrite (cursor_len_strip E (set_rows E rows1) Hstrip eq_refl).
    exact Hcur. }
  destruct (is_find_exit key).
  - injection H as <- _.
    split; [exact Hcur0|]. split; [exact Hro|].
    split; [unfold settings_kept; cbn; tauto|]. split; [reflexivity | exact Hstrip].
  - bind_inv H. destruct (snd x) as [[c off]|].
    + bind_inv H. injection H as <- _.
      apply put_row_Ok in Hx3. destruct Hx3 as [Hc ->].
      cbn [row set_rows set_cx set_cy set_rowoff numrows] in *.
      apply memset_inv in Hx2. destruct Hx2 as (H0 & H1 & H2 & ->).
      destruct (doc_ok_row _ c x0 Hdoc0 Hx0) as [[[Hs _] _] _].
      pose proof (zlen_nonneg (chars x0)) as Hnn.
      pose proof Hx0 as Hnth. apply get_row_Ok in Hnth. destruct Hnth as [_ Hnth].
      cbn [row set_rows] in Hnth.
      destruct (editorRowRxToCx_between x0 off H0 ltac:(lia)) as (Hcx & _).
      destruct Hdoc as (Hn & _).
      assert (Hn1 : zlen rows1 = zlen (row E)).
      { apply (f_equal (@length _)) in Hstrip. rewrite !length_map in Hstrip.
        unfold zlen. now rewrite Hstrip. }
      split.
      * unfold cursor_ok, cursor_len.
        cbn [cy cx row numrows set_rows set_cx set_cy set_rowoff].
        rewrite nth_error_replace_nth_eq
          by (apply nth_error_Some; congruence).
        cbn [size set_hl]. lia.
      * split; [cbn; pose proof (zlen_nonneg (row E)); lia|].
        split; [unfold settings_kept; cbn; tauto|].
        split; [reflexivity|].
        rewrite <- Hstrip. eapply map_replace_nth; [exact Hnth | reflexivity].
    + injection H as <- _.
      split; [exact Hcur0|]. split; [exact Hro|].
      split; [unfold settings_kept; cbn; tauto|]. split; [reflexivity | exact Hstrip].
Qed.

(** One call of the callback during a search. *)
Lemma editorFindCallback_inv (base : list erow) (E0 E : editorConfig) (S : findState)
  (query : list ascii) (key : Z) :
  find_inv base E0 E S ->
  exists E' S',
    editorFindCallback E S query key = Ok (E', S') /\
    find_inv base E0 E' S' /\
    statusmsg E' = statusmsg E /\
    (is_find_exit key = true ->
     row E' = base /\ find_idle S' /\
     cx E' = cx E /\ cy E' = cy E /\ rowoff E' = rowoff E /\ coloff E' = coloff E).
Proof.
  intros (Hdoc & Hfind & Hrest & Hcur & Hro & Hkept).
  destruct (editorFindCallback_step base E S query key Hdoc Hfind Hrest)
    as (E' & S' & Heq & Hd' & Hf' & Hr' & Hexit).
  destruct (editorFindCallback_view E E' S S' query key Hdoc Hfind Hcur Hro Heq)
    as (Hc' & Hro' & Hk' & Hmsg & _).
  exists E', S'. split; [exact Heq|].
  split; [|split; [exact Hmsg|]].
  - repeat split; try assumption; try apply Hd'; try apply Hf'.
    all: try (eapply settings_kept_trans; eassumption).
    all: try apply Hc'.
  - intros Hkey. destruct (Hexit Hkey) as (Hrow & Hs & Hl & Hdir & Hx & Hy & Hro2 & Hco).
    unfold find_idle. tauto.
Qed.

Lemma editorScroll_same (E : editorConfig) :
  row (editorScroll E) = row E /\ cx (editorScroll E) = cx E /\
  cy (editorScroll E) = cy E /\ statusmsg (editorScroll E) = statusmsg E /\
  settings_kept E (editorScroll E) /\
  (0 <= cy E -> 0 <= rowoff E -> 0 <= rowoff (editorScroll E)) /\
  (0 <= cx E -> 0 <= coloff E -> 0 <= coloff (editorScroll E)).
Proof.
  unfold settings_kept. scroll_cases.
  all: repeat split; intros; try lia; try reflexivity.
Qed.

Lemma find_inv_scroll (base : list erow) (E0 E : editorConfig) (S : findState)
  (text : string) :
  find_inv base E0 E S ->
  find_inv base E0 (editorScroll (editorSetStatusMessage E text)) S.
Proof.
  intros (Hdoc & Hfind & Hrest & Hcur & Hro & Hkept).
  set (E1 := editorSetStatusMessage E text).
  destruct (editorScroll_same E1) as (Hrow & Hx & Hy & _ & Hk & Hro1 & _).
  assert (HnE : numrows (editorScroll E1) = numrows E) by (destruct Hk as (-> & _); reflexivity).
  assert (HrE : row (editorScroll E1) = row E) by (rewrite Hrow; reflexivity).
  split; [eapply doc_ok_frame; [exact HrE | exact HnE | exact Hdoc]|].
  split.
  { destruct Hfind as [Hl Hs]. split; [rewrite HnE; exact Hl|].
    rewrite HrE. exact Hs. }
  split.
  { destruct Hrest as (Er & Hres & Hb). unfold restores, find_restore in *.
    rewrite HrE. destruct (saved_hl S) as [saved|].
    - bind_inv Hres. injection Hres as <-. cbn [bind].
      rewrite Hx1. cbn [bind]. rewrite Hx2. cbn [bind].
      eexists. split; [reflexivity|]. exact Hb.
    - injection Hres as <-. eexists. split; [reflexivity|]. rewrite HrE. exact Hb. }
  split.
  { unfold cursor_ok in *.
    rewrite (cursor_len_strip E (editorScroll E1)) by (rewrite ?HrE, ?Hy; reflexivity).
    rewrite Hx, Hy, HnE. exact Hcur. }
  split.
  { apply Hro1; [destruct Hcur as [[Hc _] _]; exact Hc | exact Hro]. }
  eapply settings_kept_trans; [exact Hkept|].
  eapply settings_kept_trans; [|exact Hk]. unfold settings_kept. cbn. tauto.
Qed.

Lemma find_inv_status (base : list erow) (E0 E : editorConfig) (S : findState)
  (text : string) :
  find_inv base E0 E S -> find_inv base E0 (editorSetStatusMessage E text) S.
Proof.
  intros (Hdoc & Hfind & Hrest & Hcur & Hro & Hkept).
  split; [eapply doc_ok_frame; [| |exact Hdoc]; reflexivity|].
  split; [exact Hfind|].
  split.
  { destruct Hrest as (Er & Hres & Hb). unfold restores, find_restore in *.
    cbn [row editorSetStatusMessage set_statusmsg].
    destruct (saved_hl S) as [saved|].
    - bind_inv Hres. injection Hres as <-. cbn [bind].
      rewrite Hx0. cbn [bind]. rewrite Hx1. cbn [bind].
      eexists. split; [reflexivity|]. exact Hb.
    - injection Hres as <-. eexists. split; [reflexivity|]. exact Hb. }
  split; [exact Hcur|]. split; [exact Hro|].
  eapply settings_kept_trans; [exact Hkept|]. unfold settings_kept. cbn. tauto.
Qed.

Lemma find_idle_ok (E : editorConfig) (S : findState) : find_idle S -> find_ok E S.
Proof.
  intros (Hl & _ & Hs). split; [rewrite Hl; lia|].
  intros b Hb. congruence.
Qed.

(** The prompt of a search: on any keys it gets to its end or to the
    end of the keys, and the state of the search holds throughout. *)
Lemma find_prompt_loop (base : list erow) (E0 : editorConfig)
  (prompt : list ascii -> string) (keys : list Z) :
  forall (E : editorConfig) (S : findState) (buf : list ascii) (bufsize : Z),
    find_inv base E0 E S -> 0 <= zlen buf < bufsize ->
    exists p,
      prompt_loop prompt (Some editorFindCallback) keys E S buf bufsize = Ok p /\
      match p with
      | Answered _ E' S' _ =>
          find_inv base E0 E' S' /\ row E' = base /\ find_idle S' /\
          statusmsg E' = EmptyString
      | Cancelled E' S' _ =>
          find_inv base E0 E' S' /\ row E' = base /\ find_idle S' /\
          statusmsg E' = EmptyString
      | Pending _ E' S' => find_inv base E0 E' S'
      end.
Proof.
  induction keys as [|c keys IH]; intros E S buf bufsize Hinv Hbuf;
    cbn [prompt_loop]; cbv zeta.
  - eexists. split; [reflexivity|]. now apply find_inv_scroll.
  - pose proof (find_inv_scroll base E0 E S (prompt buf) Hinv) as H1.
    set (E1 := editorScroll (editorSetStatusMessage E (prompt buf))) in *.
    assert (Hstep : forall b bs, 0 <= zlen b < bs ->
              exists p,
                (st <- call_back (Some editorFindCallback) E1 S b c ;;
                 prompt_loop prompt (Some editorFindCallback) keys (fst st) (snd st) b bs)
                = Ok p /\
                match p with
                | Answered _ E' S' _ =>
                    find_inv base E0 E' S' /\ row E' = base /\ find_idle S' /\
                    statusmsg E' = EmptyString
                | Cancelled E' S' _ =>
                    find_inv base E0 E' S' /\ row E' = base /\ find_idle S' /\
                    statusmsg E' = EmptyString
                | Pending _ E' S' => find_inv base E0 E' S'
                end).
    { intros b bs Hb. cbn [call_back].
      destruct (editorFindCallback_inv base E0 E1 S b c H1) as (E' & S' & Heq & Hinv' & _).
      rewrite Heq. cbn [bind fst snd]. now apply IH. }
    assert (Hend : exists E' S',
              call_back (Some editorFindCallback)
                (editorSetStatusMessage E1 EmptyString) S buf c = Ok (E', S') /\
              (is_find_exit c = true ->
               find_inv base E0 E' S' /\ row E' = base /\ find_idle S' /\
               statusmsg E' = EmptyString)).
    { cbn [call_back].
      pose proof (find_inv_status base E0 E1 S EmptyString H1) as H2.
      destruct (editorFindCallback_inv base E0 _ S buf c H2)
        as (E' & S' & Heq & Hinv' & Hmsg & Hexit).
      exists E', S'. split; [exact Heq|]. intros Hc.
      destruct (Hexit Hc) as (Hrow & Hidle & _).
      split; [exact Hinv'|]. split; [exact Hrow|]. split; [exact Hidle|].
      rewrite Hmsg. reflexivity. }
    pose proof (zlen_nonneg buf) as Hnn.
    destruct ((c =? DEL_KEY) || (c =? CTRL_KEY "h") || (c =? BACKSPACE)).
    { apply Hstep.
      destruct (zlen buf =? 0); cbn [negb]; [exact Hbuf|].
      pose proof (zlen_nonneg (removelast buf)).
      assert (zlen (removelast buf) <= zlen buf); [|lia].
      unfold zlen. clear. induction buf as [|a [|b l] IHl]; cbn in *; lia. }
    destruct (Z.eqb_spec c KEY_ESC) as [->|Hesc].
    { destruct Hend as (E' & S' & Heq & Hfin). rewrite Heq. cbn [bind fst snd].
      eexists. split; [reflexivity|]. now apply Hfin. }
    destruct (Z.eqb_spec c KEY_ENTER) as [->|Hent].
    { destruct (zlen buf =? 0); cbn [negb].
      - apply Hstep. exact Hbuf.
      - destruct Hend as (E' & S' & Heq & Hfin). rewrite Heq. cbn [bind fst snd].
        eexists. split; [reflexivity|]. now apply Hfin. }
    destruct (negb (iscntrl c) && (c <? 128)).
    { set (bs := if zlen buf =? bufsize - 1 then bufsize * 2 else bufsize).
      assert (Hbs : zlen buf + 1 < bs).
      { unfold bs. destruct (Z.eqb_spec (zlen buf) (bufsize - 1)); lia. }
      destruct (Z.ltb_spec (zlen buf + 1) bs); [|lia].
      apply Hstep. rewrite zlen_app. unfold zlen at 2. cbn. lia. }
    apply Hstep. exact Hbuf.
Qed.

(** [editorFind] on a consistent document, with the cursor on it, for
    any keys: the call never leaves the arrays.  When it has returned,
    every row is as it was before the call, text and highlighting, and
    the callback's [static]s are back in their initial state; when it
    was ended by Escape, the cursor and the two offsets are those of
    before the call as well, and when it was ended by Enter, the cursor
    is on the document.  While it is still reading keys, the text of
    the document is that of before the call.  Nothing else but the
    status message changes. *)
Theorem editorFind_leaves_document (E : editorConfig) (S : findState) (keys : list Z) :
  doc_ok E -> cursor_ok E -> 0 <= rowoff E -> find_idle S ->
  exists p,
    editorFind E S keys = Ok p /\
    match p with
    | Answered _ E' S' _ =>
        row E' = row E /\ doc_ok E' /\ cursor_ok E' /\ 0 <= rowoff E' /\
        find_idle S' /\ settings_kept E E' /\ statusmsg E' = EmptyString
    | Cancelled E' S' _ =>
        row E' = row E /\ cx E' = cx E /\ cy E' = cy E /\
        rowoff E' = rowoff E /\ coloff E' = coloff E /\
        find_idle S' /\ settings_kept E E' /\ statusmsg E' = EmptyString
    | Pending _ E' S' =>
        lines E' = lines E /\ doc_ok E' /\ cursor_ok E' /\ settings_kept E E'
    end.
Proof.
  intros Hdoc Hcur Hro Hidle.
  assert (Hinv : find_inv (row E) E E S).
  { split; [exact Hdoc|]. split; [now apply find_idle_ok|].
    split; [|split; [exact Hcur|split; [exact Hro|apply settings_kept_refl]]].
    exists E. split; [|reflexivity]. unfold find_restore.
    destruct Hidle as (_ & _ & ->). reflexivity. }
  destruct (find_prompt_loop (row E) E
              (prompt_text "Search: " " (Use ESC/Arrows/Enter)") keys E S [] 128 Hinv)
    as (p & Hrun & Hp); [cbn; lia|].
  unfold editorFind, editorPrompt. rewrite Hrun. cbn [bind].
  destruct p as [b E' S' rest|E' S' rest|b E' S'].
  - eexists. split; [reflexivity|].
    destruct Hp as ((Hd & _ & _ & Hc & Hr & Hk) & Hrow & Hi & Hm). tauto.
  - eexists. split; [reflexivity|].
    destruct Hp as ((Hd & _ & _ & Hc & Hr & Hk) & Hrow & Hi & Hm).
    cbn. unfold settings_kept in *. cbn. tauto.
  - eexists. split; [reflexivity|].
    destruct Hp as (Hd & Hf & (Er & Hres & Hbase) & Hc & Hr & Hk).
    split; [|tauto].
    destruct (find_restore_ok E' S' Hd Hf) as (rows1 & Hres' & Hstrip & _).
    rewrite Hres in Hres'. injection Hres' as ->. cbn [row set_rows] in Hbase.
    unfold lines. apply map_strip_chars. now rewrite <- Hbase.
Qed.

Lemma editorFind_leaves_document_witness :
  doc_ok three_rows_doc /\ cursor_ok three_rows_doc /\
  exists E' S',
    editorFind three_rows_doc find_init [98; ARROW_DOWN; KEY_ESC]
    = Ok (Cancelled E' S' []) /\
    row E' = row three_rows_doc /\ cy E' = cy three_rows_doc.
Proof.
  assert (Hdoc : doc_ok three_rows_doc) by (apply doc_okb_sound; vm_compute; reflexivity).
  assert (Hcur : cursor_ok three_rows_doc) by (vm_compute; intuition discriminate).
  assert (Hro : 0 <= rowoff three_rows_doc) by (vm_compute; discriminate).
  assert (Hidle : find_idle find_init) by (repeat split).
  split; [exact Hdoc|]. split; [exact Hcur|].
  destruct (editorFind_leaves_document three_rows_doc find_init
              [98; ARROW_DOWN; KEY_ESC] Hdoc Hcur Hro Hidle) as (p & Hrun & Hp).
  assert (Hc : exists E' S', editorFind three_rows_doc find_init [98; ARROW_DOWN; KEY_ESC]
                             = Ok (Cancelled E' S' []))
    by (eexists; eexists; vm_compute; reflexivity).
  destruct Hc as (E' & S' & Hc). rewrite Hc in Hrun. injection Hrun as <-.
  exists E', S'. split; [exact Hc|]. tauto.
Defined.

Lemma code_range (a : ascii) : 0 <= code a < 256.
Proof. unfold code. pose proof (nat_ascii_bounded a). lia. Qed.

Lemma char_of_int_code (a : ascii) : char_of_int (code a) = a.
Proof.
  pose proof (code_range a) as H. unfold char_of_int.
  rewrite Z.mod_small by exact H. unfold code. rewrite Nat2Z.id.
  apply ascii_nat_embedding.
Qed.

Lemma printableb_sound (a : ascii) : printableb a = true -> printable a.
Proof. unfold printableb, printable. lia. Qed.

Lemma printable_no_NUL (text : list ascii) : Forall printable text -> ~ In NUL text.
Proof.
  intros H Hin. rewrite Forall_forall in H. apply H in Hin.
  unfold printable in Hin. change (code NUL) with 0 in Hin. lia.
Qed.

(** A prompt without a callback on printable bytes and then Enter:
    the bytes are returned. *)
Lemma prompt_loop_types (prompt : list ascii -> string) (text : list ascii) :
  forall (E : editorConfig) (S : findState) (buf : list ascii) (bufsize : Z)
         (rest : list Z),
    Forall printable text -> 0 <= zlen buf < bufsize -> buf ++ text <> [] ->
    exists E',
      prompt_loop prompt None (map code text ++ KEY_ENTER :: rest) E S buf bufsize
      = Ok (Answered (buf ++ text) E' S rest) /\
      row E' = row E /\ cx E' = cx E /\ cy E' = cy E /\
      settings_kept E E' /\ statusmsg E' = EmptyString.
Proof.
  induction text as [|a text IH]; intros E S buf bufsize rest Hp Hbuf Hne;
    cbn [map app prompt_loop]; cbv zeta.
  - rewrite app_nil_r in *.
    change ((KEY_ENTER =? DEL_KEY) || (KEY_ENTER =? CTRL_KEY "h")
            || (KEY_ENTER =? BACKSPACE)) with false.
    change (KEY_ENTER =? KEY_ESC) with false.
    rewrite Z.eqb_refl.
    destruct (Z.eqb_spec (zlen buf) 0) as [H0|H0].
    { destruct buf; [congruence | unfold zlen in H0; cbn in H0; lia]. }
    cbn [negb call_back bind fst snd].
    eexists. split; [reflexivity|].
    destruct (editorScroll_same (editorSetStatusMessage E (prompt buf)))
      as (Hr & Hx & Hy & _ & Hk & _).
    split; [exact Hr|]. split; [exact Hx|]. split; [exact Hy|].
    split; [|reflexivity].
    eapply settings_kept_trans; [|apply settings_kept_status].
    eapply settings_kept_trans; [apply settings_kept_status | exact Hk].
  - inversion Hp as [|? ? Ha Hp']; subst.
    assert (Hc : 32 <= code a < 127) by exact Ha.
    change (CTRL_KEY "h") with 8.
    unfold DEL_KEY, BACKSPACE, KEY_ESC, KEY_ENTER, iscntrl.
    destruct (Z.eqb_spec (code a) 1004); [lia|].
    destruct (Z.eqb_spec (code a) 8); [lia|].
    destruct (Z.eqb_spec (code a) 127); [lia|].
    destruct (Z.eqb_spec (code a) 27); [lia|].
    destruct (Z.eqb_spec (code a) 13); [lia|].
    destruct (Z.leb_spec 0 (code a)); [|lia].
    destruct (Z.ltb_spec (code a) 32); [lia|].
    destruct (Z.ltb_spec (code a) 128); [|lia].
    cbn [orb andb negb].
    set (bs := if zlen buf =? bufsize - 1 then bufsize * 2 else bufsize).
    assert (Hbs : zlen buf + 1 < bs).
    { unfold bs. destruct (Z.eqb_spec (zlen buf) (bufsize - 1)); lia. }
    destruct (Z.ltb_spec (zlen buf + 1) bs); [|lia].
    cbn [call_back bind fst snd]. rewrite char_of_int_code.
    set (E1 := editorScroll (editorSetStatusMessage E (prompt buf))).
    destruct (IH E1 S (buf ++ [a]) bs rest Hp') as (E' & Hrun & Hr & Hx & Hy & Hk & Hm).
    { rewrite zlen_app. unfold zlen at 2. cbn. pose proof (zlen_nonneg buf). lia. }
    { destruct buf; discriminate. }
    fold KEY_ENTER in Hrun. rewrite <- app_assoc in Hrun. cbn [app] in Hrun.
    exists E'. split; [exact Hrun|].
    destruct (editorScroll_same (editorSetStatusMessage E (prompt buf)))
      as (Hr1 & Hx1 & Hy1 & _ & Hk1 & _).
    fold E1 in Hr1, Hx1, Hy1, Hk1.
    split; [rewrite Hr, Hr1; reflexivity|].
    split; [rewrite Hx, Hx1; reflexivity|].
    split; [rewrite Hy, Hy1; reflexivity|].
    split; [|exact Hm].
    eapply settings_kept_trans; [|exact Hk].
    eapply settings_kept_trans; [apply settings_kept_status | exact Hk1].
Qed.

Lemma update_all_loop_total (n : nat) :
  forall (filerow : Z) (E : editorConfig),
    doc_ok E -> 0 <= filerow -> filerow + Z.of_nat n <= numrows E ->
    exists rows',
      update_all_loop n filerow E = Ok (set_rows E rows') /\
      doc_ok (set_rows E rows') /\ map strip rows' = map strip (row E).
Proof.
  induction n as [|n IH]; intros filerow E Hdoc H0 Hn; cbn [update_all_loop].
  - exists (row E). split; [destruct E; reflexivity|].
    split; [|reflexivity]. eapply doc_ok_frame; [| |exact Hdoc]; reflexivity.
  - pose proof (doc_ok_text E Hdoc) as Htext.
    pose proof Hdoc as (Hrows & Hidx & _).
    destruct (editorUpdateSyntax_ok E filerow) as (rows1 & Hrun & Hup);
      auto; try lia.
    rewrite Hrun. cbn [bind].
    destruct (editorUpdateSyntax_partial E _ filerow Hdoc Hrun) as (Hd1 & _).
    destruct (IH (filerow + 1) (set_rows E rows1) Hd1) as (rows2 & Hrun2 & Hd2 & Hs2);
      [lia | cbn [numrows set_rows]; lia |].
    exists rows2. rewrite set_rows_twice in *. split; [exact Hrun2|].
    split; [exact Hd2|]. rewrite Hs2. cbn [row set_rows]. apply Hup.
Qed.

Lemma editorSelectSyntaxHighlight_total (E : editorConfig) :
  doc_ok E ->
  exists rows',
    editorSelectSyntaxHighlight E
    = Ok (set_rows
            (set_syntax E match filename E with
                          | Some fname => select_entry HLDB fname (strrchr fname DOT)
                          | None => None
                          end) rows') /\
    doc_ok (set_rows E rows') /\ map strip rows' = map strip (row E).
Proof.
  intros Hdoc. unfold editorSelectSyntaxHighlight. cbn [filename set_syntax].
  assert (Hsame : forall sy, exists rows',
            Ok (set_syntax E sy) = Ok (set_rows (set_syntax E sy) rows') /\
            doc_ok (set_rows E rows') /\ map strip rows' = map strip (row E)).
  { intros sy. exists (row E). split; [destruct E; reflexivity|].
    split; [|reflexivity]. eapply doc_ok_frame; [| |exact Hdoc]; reflexivity. }
  destruct (filename E) as [fname|]; [|apply Hsame].
  destruct (select_entry HLDB fname (strrchr fname DOT)) as [syn|]; [|apply Hsame].
  assert (Hd : doc_ok (set_syntax E (Some syn)))
    by (eapply doc_ok_frame; [| |exact Hdoc]; reflexivity).
  destruct (update_all_loop_total (Z.to_nat (numrows E)) 0 _ Hd) as (rows' & Hrun & Hd' & Hs);
    [lia | cbn [numrows set_syntax]; destruct Hdoc as (Hn & _);
           pose proof (zlen_nonneg (row E)); lia |].
  exists rows'. split; [exact Hrun|]. split; [|exact Hs].
  eapply doc_ok_frame; [| |exact Hd']; reflexivity.
Qed.

(** Saving a document that has no file name yet, when the user types a
    name of printable bytes and Enter: [editorSave] returns; the name
    becomes the file name and selects the filetype; the bytes handed to
    [write] for that name are the lines of the document, each followed
    by one newline, and the length is their number; the text and the
    cursor are unchanged.  If [open], [ftruncate] and [write] succeed
    the document is no longer dirty; if one fails nothing is handed to
    [write] as written and the dirty counter stays. *)
Theorem editorSave_as (io : bool) (strerror : string) (E : editorConfig)
  (S : findState) (name : list ascii) (rest : list Z) :
  doc_ok E -> filename E = None -> Forall printable name -> name <> [] ->
  exists E',
    editorSave io strerror E S (map code name ++ KEY_ENTER :: rest)
    = Ok (SaveReturned E' rest
            (if io then Some (name, flat (lines E), zlen (flat (lines E))) else None)) /\
    doc_ok E' /\ lines E' = lines E /\ numrows E' = numrows E /\
    cx E' = cx E /\ cy E' = cy E /\
    filename E' = Some name /\
    syntax E' = select_entry HLDB name (strrchr name DOT) /\
    dirty E' = (if io then 0 else dirty E).
Proof.
  intros Hdoc Hfn Hp Hne. unfold editorSave, editorPrompt. rewrite Hfn.
  destruct (prompt_loop_types (prompt_text "Save as: " " (ESC to cancel)") name
              E S [] 128 rest Hp) as (E1 & Hrun & Hr1 & Hx1 & Hy1 & Hk1 & _);
    [cbn; lia | exact Hne |].
  cbn [app] in Hrun. rewrite Hrun. cbn [bind].
  destruct Hk1 as (Hn1 & Hd1 & _ & _ & _).
  assert (Hdoc1 : doc_ok (set_filename E1 (Some name)))
    by (eapply doc_ok_frame; [| |exact Hdoc]; [exact Hr1 | exact Hn1]).
  destruct (editorSelectSyntaxHighlight_total _ Hdoc1) as (rows' & Hsel & Hdoc2 & Hs).
  rewrite Hsel. cbn [bind filename set_filename].
  set (E2 := set_rows (set_syntax (set_filename E1 (Some name))
                         (select_entry HLDB name (strrchr name DOT))) rows') in *.
  assert (HdocE2 : doc_ok E2) by (eapply doc_ok_frame; [| |exact Hdoc2]; reflexivity).
  assert (Hl2 : lines E2 = lines E).
  { unfold lines. change (row E2) with rows'. apply map_strip_chars.
    rewrite Hs. cbn [row set_filename]. now rewrite Hr1. }
  unfold save_file. rewrite (editorRowsToString_total E2 HdocE2). cbn [bind fst snd].
  rewrite Hl2, (cstr_id name) by (now apply printable_no_NUL).
  destruct io.
  - eexists. split; [reflexivity|].
    split; [eapply doc_ok_frame; [| |exact HdocE2]; reflexivity|].
    split; [exact Hl2|].
    cbn [numrows cx cy filename syntax dirty editorSetStatusMessage set_statusmsg
         set_dirty E2 set_rows set_syntax set_filename].
    repeat split; assumption.
  - eexists. split; [reflexivity|].
    split; [eapply doc_ok_frame; [| |exact HdocE2]; reflexivity|].
    split; [exact Hl2|].
    cbn [numrows cx cy filename syntax dirty editorSetStatusMessage set_statusmsg
         set_dirty E2 set_rows set_syntax set_filename].
    repeat split; assumption.
Qed.

Lemma editorSave_as_witness :
  doc_ok three_rows_doc /\ filename (set_filename three_rows_doc None) = None /\
  exists E',
    editorSave true EmptyString (set_filename three_rows_doc None) find_init
      (map code (cs "a.c") ++ [KEY_ENTER])
    = Ok (SaveReturned E' []
            (Some (cs "a.c", flat (lines three_rows_doc),
                   zlen (flat (lines three_rows_doc))))) /\
    dirty E' = 0.
Proof.
  assert (Hdoc : doc_ok three_rows_doc) by (apply doc_okb_sound; vm_compute; reflexivity).
  assert (Hdoc' : doc_ok (set_filename three_rows_doc None))
    by (eapply doc_ok_frame; [| |exact Hdoc]; reflexivity).
  assert (Hp : Forall printable (cs "a.c")).
  { apply Forall_forall. intros a Hin. apply printableb_sound.
    assert (H : forallb printableb (cs "a.c") = true) by (vm_compute; reflexivity).
    rewrite forallb_forall in H. now apply H. }
  assert (Hne : cs "a.c" <> []) by (vm_compute; discriminate).
  split; [exact Hdoc|]. split; [reflexivity|].
  destruct (editorSave_as true EmptyString (set_filename three_rows_doc None) find_init
              (cs "a.c") [] Hdoc' eq_refl Hp Hne) as (E' & Hrun & _ & _ & _ & _ & _ & _ & _ & Hd).
  exists E'. split; [exact Hrun | exact Hd].
Defined.

(* ================================================================= *)
(** ** The key handler keeps the cursor on the document *)

Lemma view_kept_refl (E : editorConfig) : view_kept E E.
Proof. unfold view_kept. tauto. Qed.

Lemma view_kept_trans (E E1 E2 : editorConfig) :
  view_kept E E1 -> view_kept E1 E2 -> view_kept E E2.
Proof. unfold view_kept. intuition congruence. Qed.

Ltac view_inv H :=
  repeat match type of H with
         | bind ?r _ = Ok _ =>
             let x := fresh "x" in
             let Hx := fresh "Hx" in
             destruct r as [x|] eqn:Hx; [cbn [bind] in H | discriminate H]
         | (if ?b then _ else _) = Ok _ => destruct b
         end.

Ltac view_done H :=
  injection H as <-; unfold view_kept; repeat split.

Lemma editorUpdateSyntax_rec_view (depth : nat) :
  forall (E E' : editorConfig) (slot : Z),
    editorUpdateSyntax_rec depth E slot = Ok E' -> view_kept E E'.
Proof.
  induction depth as [|depth IH]; intros E E' slot H;
    cbn [editorUpdateSyntax_rec] in H; bind_inv H.
  - destruct (syntax E); [|view_done H].
    bind_inv H. cbv zeta in H.
    destruct (_ && _); [discriminate | view_done H].
  - destruct (syntax E); [|view_done H].
    bind_inv H. cbv zeta in H.
    destruct (_ && _); [|view_done H].
    apply IH in H. eapply view_kept_trans; [|exact H].
    unfold view_kept. repeat split.
Qed.

Lemma editorUpdateRow_view (E E' : editorConfig) (slot : Z) :
  editorUpdateRow E slot = Ok E' -> view_kept E E'.
Proof.
  intros H. unfold editorUpdateRow in H. bind_inv H.
  apply editorUpdateSyntax_rec_view in H.
  eapply view_kept_trans; [|exact H]. unfold view_kept. repeat split.
Qed.

Lemma editorInsertRow_view (E E' : editorConfig) (at_ : Z) (s : list ascii) (len : Z) :
  editorInsertRow E at_ s len = Ok E' -> view_kept E E'.
Proof.
  intros H. unfold editorInsertRow in H.
  destruct (_ || _); [injection H as <-; apply view_kept_refl|].
  bind_inv H. apply editorUpdateRow_view in Hx3.
  injection H as <-.
  eapply view_kept_trans; [|eapply view_kept_trans; [exact Hx3|]];
    unfold view_kept; repeat split.
Qed.

Lemma editorRowInsertChar_view (E E' : editorConfig) (slot at_ c : Z) :
  editorRowInsertChar E slot at_ c = Ok E' -> view_kept E E'.
Proof.
  intros H. unfold editorRowInsertChar in H. bind_inv H.
  apply editorUpdateRow_view in Hx1. injection H as <-.
  eapply view_kept_trans; [|eapply view_kept_trans; [exact Hx1|]];
    unfold view_kept; repeat split.
Qed.

Lemma editorRowDelChar_view (E E' : editorConfig) (slot at_ : Z) :
  editorRowDelChar E slot at_ = Ok E' -> view_kept E E'.
Proof.
  intros H. unfold editorRowDelChar in H. bind_inv H.
  destruct (_ || _); [injection H as <-; apply view_kept_refl|].
  bind_inv H. apply editorUpdateRow_view in Hx1. injection H as <-.
  eapply view_kept_trans; [|eapply view_kept_trans; [exact Hx1|]];
    unfold view_kept; repeat split.
Qed.

Lemma editorInsertChar_view (E E' : editorConfig) (c : Z) :
  editorInsertChar E c = Ok E' -> view_kept E E'.
Proof.
  intros H. unfold editorInsertChar in H. bind_inv H. injection H as <-.
  apply editorRowInsertChar_view in Hx0.
  assert (H1 : view_kept E x).
  { destruct (cy E =? numrows E);
      [now apply editorInsertRow_view in Hx | injection Hx as <-; apply view_kept_refl]. }
  eapply view_kept_trans; [exact H1|].
  eapply view_kept_trans; [exact Hx0|]. unfold view_kept. repeat split.
Qed.

Lemma editorInsertNewline_view (E E' : editorConfig) :
  editorInsertNewline E = Ok E' -> view_kept E E'.
Proof.
  intros H. unfold editorInsertNewline in H. bind_inv H. cbv zeta in H.
  injection H as <-.
  assert (H1 : view_kept E x).
  { destruct (cx E =? 0); [now apply editorInsertRow_view in Hx|].
    bind_inv Hx. apply editorInsertRow_view in Hx2. apply editorUpdateRow_view in Hx.
    eapply view_kept_trans; [exact Hx2|].
    eapply view_kept_trans; [|exact Hx]. unfold view_kept. repeat split. }
  eapply view_kept_trans; [exact H1|]. unfold view_kept. repeat split.
Qed.

Lemma editorRowAppendString_view (E E' : editorConfig) (slot : Z) (s : list ascii)
  (len : Z) :
  editorRowAppendString E slot s len = Ok E' -> view_kept E E'.
Proof.
  intros H. unfold editorRowAppendString in H. bind_inv H.
  apply editorUpdateRow_view in Hx2. injection H as <-.
  eapply view_kept_trans; [|eapply view_kept_trans; [exact Hx2|]];
    unfold view_kept; repeat split.
Qed.

Lemma editorDelRow_view (E E' : editorConfig) (at_ : Z) :
  editorDelRow E at_ = Ok E' -> view_kept E E'.
Proof.
  intros H. unfold editorDelRow in H.
  destruct (_ || _); [injection H as <-; apply view_kept_refl|].
  bind_inv H. cbv zeta in H. view_done H.
Qed.

Lemma editorDelChar_view (E E' : editorConfig) :
  editorDelChar E = Ok E' -> view_kept E E'.
Proof.
  intros H. unfold editorDelChar in H.
  destruct (cy E =? numrows E); [injection H as <-; apply view_kept_refl|].
  destruct (_ && _); [injection H as <-; apply view_kept_refl|].
  bind_inv H. destruct (cx E >? 0).
  - bind_inv H. injection H as <-. apply editorRowDelChar_view in Hx0.
    eapply view_kept_trans; [exact Hx0|]. unfold view_kept. repeat split.
  - bind_inv H. cbv zeta in Hx1. injection H as <-.
    apply editorRowAppendString_view in Hx1. apply editorDelRow_view in Hx2.
    eapply view_kept_trans; [|eapply view_kept_trans; [exact Hx1|]];
      [unfold view_kept; repeat split|].
    eapply view_kept_trans; [exact Hx2|]. unfold view_kept. repeat split.
Qed.

Lemma cursor_inv_view (E E' : editorConfig) :
  cursor_inv E -> doc_ok E' -> cursor_ok E' -> view_kept E E' -> cursor_inv E'.
Proof.
  intros (_ & _ & Hro & Hsr) Hd Hc (Hro' & _ & Hsr' & _).
  split; [exact Hd|]. split; [exact Hc|]. rewrite Hro', Hsr'. auto.
Qed.

(** A cursor key from a state whose column may lie beyond the row. *)
Lemma editorMoveCursor_keeps (E : editorConfig) (key : Z) :
  doc_ok E -> 0 <= cy E <= numrows E -> 0 <= cx E ->
  0 <= rowoff E -> 0 < screenrows E ->
  exists E',
    editorMoveCursor E key = Ok E' /\ cursor_inv E' /\ view_kept E E' /\
    dirty E' = dirty E.
Proof.
  intros Hdoc Hcy Hcx Hro Hsr.
  destruct (editorMoveCursor_snap E key Hdoc Hcy Hcx) as (x & y & Hrun & Hd & Hc & _).
  eexists. split; [exact Hrun|].
  split; [|split; [unfold view_kept; repeat split | reflexivity]].
  split; [exact Hd|]. split; [exact Hc|]. auto.
Qed.

Lemma move_times_keeps (key : Z) (n : nat) :
  forall E, cursor_inv E ->
    exists E', move_times n E key = Ok E' /\ cursor_inv E' /\ view_kept E E' /\
               dirty E' = dirty E.
Proof.
  induction n as [|n IH]; intros E Hinv; cbn [move_times].
  - exists E. split; [reflexivity|]. split; [exact Hinv|].
    split; [apply view_kept_refl | reflexivity].
  - destruct Hinv as (Hdoc & [Hcy [Hcx _]] & Hro & Hsr).
    destruct (editorMoveCursor_keeps E key Hdoc Hcy Hcx Hro Hsr)
      as (E1 & Hrun & Hinv1 & Hv1 & Hd1).
    rewrite Hrun. cbn [bind].
    destruct (IH E1 Hinv1) as (E' & Hrun' & Hinv' & Hv' & Hd').
    exists E'. split; [exact Hrun'|]. split; [exact Hinv'|].
    split; [eapply view_kept_trans; eassumption | congruence].
Qed.

Lemma move_times_snaps (key : Z) (n : nat) (E : editorConfig) :
  doc_ok E -> 0 <= cy E <= numrows E -> 0 <= cx E ->
  0 <= rowoff E -> 0 < screenrows E ->
  exists E', move_times (S n) E key = Ok E' /\ cursor_inv E' /\ view_kept E E' /\
             dirty E' = dirty E.
Proof.
  intros Hdoc Hcy Hcx Hro Hsr. cbn [move_times].
  destruct (editorMoveCursor_keeps E key Hdoc Hcy Hcx Hro Hsr)
    as (E1 & Hrun & Hinv1 & Hv1 & Hd1).
  rewrite Hrun. cbn [bind].
  destruct (move_times_keeps key n E1 Hinv1) as (E' & Hrun' & Hinv' & Hv' & Hd').
  exists E'. split; [exact Hrun'|]. split; [exact Hinv'|].
  split; [eapply view_kept_trans; eassumption | congruence].
Qed.

(** [editorDelChar] away from the start of a row that has a row above. *)
Lemma editorDelChar_keeps (E : editorConfig) :
  cursor_inv E -> ~ (cx E = 0 /\ 0 < cy E < numrows E) ->
  exists E', editorDelChar E = Ok E' /\ cursor_inv E' /\ view_kept E E'.
Proof.
  intros Hinv Hnj. pose proof Hinv as (Hdoc & Hcur & Hro & Hsr).
  pose proof Hcur as [Hcy Hcx].
  assert (Hsame : (cy E = numrows E \/ (cx E = 0 /\ cy E = 0)) ->
                  editorDelChar E = Ok E).
  { intros H. unfold editorDelChar.
    destruct (Z.eqb_spec (cy E) (numrows E)); [reflexivity|].
    destruct (Z.eqb_spec (cx E) 0); destruct (Z.eqb_spec (cy E) 0);
      cbn [andb]; try reflexivity; lia. }
  destruct (Z.eq_dec (cy E) (numrows E)) as [He|He].
  { exists E. split; [apply Hsame; now left|]. split; [exact Hinv | apply view_kept_refl]. }
  destruct (Z_le_gt_dec (cx E) 0) as [Hx|Hx].
  { assert (cx E = 0 /\ cy E = 0) by lia.
    exists E. split; [apply Hsame; now right|]. split; [exact Hinv | apply view_kept_refl]. }
  destruct (editorDelChar_total E Hdoc Hcur ltac:(lia)) as (E' & Hrun & Hd' & Hc' & _).
  exists E'. split; [exact Hrun|].
  pose proof (editorDelChar_view _ _ Hrun) as Hv.
  split; [|exact Hv]. eapply cursor_inv_view; eassumption.
Qed.

Lemma editorDelChar_returns (E E' : editorConfig) :
  cursor_inv E -> editorDelChar E = Ok E' -> cursor_inv E' /\ view_kept E E'.
Proof.
  intros Hinv H. pose proof Hinv as (Hdoc & Hcur & _).
  destruct (Z.eq_dec (cx E) 0) as [Hx|Hx].
  - destruct (Z_lt_le_dec 0 (cy E)) as [Hy|Hy].
    + destruct (Z_lt_le_dec (cy E) (numrows E)) as [Hn|Hn].
      * rewrite (editorDelChar_join E Hdoc Hcur Hx ltac:(lia)) in H. discriminate.
      * destruct (editorDelChar_keeps E Hinv ltac:(lia)) as (E1 & Hrun & H1).
        rewrite H in Hrun. injection Hrun as <-. exact H1.
    + destruct (editorDelChar_keeps E Hinv ltac:(lia)) as (E1 & Hrun & H1).
      rewrite H in Hrun. injection Hrun as <-. exact H1.
  - destruct (editorDelChar_keeps E Hinv ltac:(lia)) as (E1 & Hrun & H1).
    rewrite H in Hrun. injection Hrun as <-. exact H1.
Qed.

(** The right arrow on a state with the cursor on the document. *)
Lemma editorMoveCursor_right (E : editorConfig) :
  cursor_inv E ->
  exists E',
    editorMoveCursor E ARROW_RIGHT = Ok E' /\ cursor_inv E' /\ view_kept E E' /\
    ((cx E' = 0 /\ 0 < cy E' < numrows E') <->
     (cx E = cursor_len E /\ cy E + 1 < numrows E)).
Proof.
  intros Hinv. pose proof Hinv as (Hdoc & [Hcy Hcx] & Hro & Hsr).
  destruct (editorMoveCursor_snap E ARROW_RIGHT Hdoc Hcy ltac:(lia))
    as (x & y & Hrun & Hd' & Hc' & _).
  exists (set_cx (set_cy E y) x). split; [exact Hrun|].
  split; [split; [exact Hd'|split; [exact Hc'|auto]]|].
  split; [unfold view_kept; repeat split|].
  cbn [cx cy numrows set_cx set_cy].
  (* the position reached *)
  destruct (cursor_row_spec E Hdoc Hcy) as (o & Ho & Hlen & Hrow).
  unfold editorMoveCursor in Hrun. rewrite Ho in Hrun. cbn [bind] in Hrun.
  change ((ARROW_RIGHT =? ARROW_LEFT) || (ARROW_RIGHT =? KEY_h)) with false in Hrun.
  change ((ARROW_RIGHT =? ARROW_RIGHT) || (ARROW_RIGHT =? KEY_l)) with true in Hrun.
  cbv iota in Hrun.
  assert (Hpos : forall F, doc_ok F -> 0 <= cy F <= numrows F -> 0 <= cx F <= cursor_len F ->
            (r <- cursor_row F ;;
             Ok (if cx F >? match r with Some r => size r | None => 0 end
                 then set_cx F match r with Some r => size r | None => 0 end
                 else F)) = Ok F).
  { intros F HdF HyF HxF.
    destruct (cursor_row_spec F HdF HyF) as (oF & HoF & HlF & _).
    rewrite HoF. cbn [bind]. rewrite <- HlF.
    destruct (Z.gtb_spec (cx F) (cursor_len F)); [lia | reflexivity]. }
  destruct o as [r|].
  - destruct Hrow as [Hr Hlt].
    destruct (Z.ltb_spec (cx E) (size r)) as [Hin|Hend].
    + cbn [bind] in Hrun.
      rewrite (Hpos (set_cx E (cx E + 1))) in Hrun.
      * injection Hrun as Hy Hx'. cbn in Hy, Hx'. lia.
      * eapply doc_ok_frame; [| |exact Hdoc]; reflexivity.
      * exact Hcy.
      * change (cursor_len (set_cx E (cx E + 1))) with (cursor_len E).
        cbn [cx set_cx]. lia.
    + destruct (Z.eqb_spec (cx E) (size r)) as [He|Hne]; [|lia].
      cbn [bind] in Hrun.
      assert (HdF : doc_ok (set_cx (set_cy E (cy E + 1)) 0))
        by (eapply doc_ok_frame; [| |exact Hdoc]; reflexivity).
      rewrite (Hpos (set_cx (set_cy E (cy E + 1)) 0)) in Hrun.
      * injection Hrun as Hy Hx'. cbn in Hy, Hx'. lia.
      * exact HdF.
      * cbn [cy numrows set_cx set_cy]. lia.
      * pose proof (cursor_len_nonneg _ HdF). cbn [cx set_cx]. lia.
  - cbn [bind] in Hrun. rewrite (Hpos E Hdoc Hcy Hcx) in Hrun.
    assert (HE : x = cx E /\ y = cy E).
    { injection Hrun as Hrun.
      apply (f_equal (fun F => (cx F, cy F))) in Hrun. cbn in Hrun.
      injection Hrun as Hx' Hy'. auto. }
    lia.
Qed.

Ltac no_join :=
  let H := fresh in
  intros (? & [[[H|H] _]|[H _]]); try lia; try congruence.

(** The [default:] case of the key handler. *)
Lemma dispatch_default_keeps (E : editorConfig) (c : Z) :
  cursor_inv E ->
  (~ joins_lines E c /\
   exists E', dispatch_default editorDelChar E c = Ok E' /\ cursor_inv E' /\
              screenrows E' = screenrows E) \/
  (joins_lines E c /\ exists f, dispatch_default editorDelChar E c = Fault f).
Proof.
  intros Hinv. pose proof Hinv as (Hdoc & Hcur & Hro & Hsr).
  unfold dispatch_default, joins_lines.
  change (CTRL_KEY "h") with 8. change (CTRL_KEY "j") with 10.
  unfold KEY_ENTER, BACKSPACE, DEL_KEY, KEY_h, KEY_i, KEY_j, KEY_k, KEY_l.
  destruct (Z.eqb_spec (editorMode E) 1) as [Hm|Hm].
  - destruct (Z.eqb_spec c 13) as [Hent|Hent].
    { left. split; [no_join|].
      destruct (editorInsertNewline_total E Hdoc Hcur) as (E' & Hrun & Hd' & Hc' & _).
      pose proof (editorInsertNewline_view _ _ Hrun) as Hv.
      exists E'. split; [exact Hrun|].
      split; [eapply cursor_inv_view; eassumption | apply Hv]. }
    destruct (Z.eqb_spec c 1004) as [Hdel|Hdel].
    { rewrite orb_true_r.
      destruct (editorMoveCursor_right E Hinv) as (E2 & Hrun2 & Hinv2 & Hv2 & Hiff).
      rewrite Hrun2. cbn [bind].
      destruct (Z.eq_dec (cx E) (cursor_len E)) as [Hx|Hx];
        [destruct (Z_lt_le_dec (cy E + 1) (numrows E)) as [Hy|Hy]|].
      - right. split; [split; [exact Hm|right; auto]|].
        destruct Hiff as [_ Hiff]. destruct (Hiff (conj Hx Hy)) as (Hx2 & Hy2).
        destruct Hinv2 as (Hd2 & Hc2 & _).
        rewrite (editorDelChar_join E2 Hd2 Hc2 Hx2 Hy2). eauto.
      - left. split; [intros (_ & [[[?|?] _]|[_ [_ ?]]]); lia|].
        destruct (editorDelChar_keeps E2 Hinv2) as (E' & Hrun & Hinv' & Hv').
        { intros Hj. apply Hiff in Hj. lia. }
        exists E'. split; [exact Hrun|]. split; [exact Hinv'|].
        destruct Hv' as (_ & _ & -> & _). apply Hv2.
      - left. split; [intros (_ & [[[?|?] _]|[_ [? _]]]); lia|].
        destruct (editorDelChar_keeps E2 Hinv2) as (E' & Hrun & Hinv' & Hv').
        { intros Hj. apply Hiff in Hj. lia. }
        exists E'. split; [exact Hrun|]. split; [exact Hinv'|].
        destruct Hv' as (_ & _ & -> & _). apply Hv2. }
    assert (Hback : (c = 127 \/ c = 8) ->
              (~ (editorMode E = 1 /\
                  (((c = 127 \/ c = 8) /\ cx E = 0 /\ 0 < cy E < numrows E) \/
                   (c = 1004 /\ cx E = cursor_len E /\ cy E + 1 < numrows E))) /\
               exists E', (E0 <- Ok E ;; editorDelChar E0) = Ok E' /\ cursor_inv E' /\
                          screenrows E' = screenrows E) \/
              ((editorMode E = 1 /\
                (((c = 127 \/ c = 8) /\ cx E = 0 /\ 0 < cy E < numrows E) \/
                 (c = 1004 /\ cx E = cursor_len E /\ cy E + 1 < numrows E))) /\
               exists f, (E0 <- Ok E ;; editorDelChar E0) = Fault f)).
    { intros Hc. cbn [bind].
      destruct (Z.eq_dec (cx E) 0) as [Hx|Hx];
        [destruct (Z_lt_le_dec 0 (cy E)) as [Hy|Hy];
         [destruct (Z_lt_le_dec (cy E) (numrows E)) as [Hn|Hn]|]|].
      - right. split; [split; [exact Hm|left; auto]|].
        rewrite (editorDelChar_join E Hdoc Hcur Hx ltac:(lia)). eauto.
      - left. split; [intros (_ & [[_ ?]|[? _]]); lia|].
        destruct (editorDelChar_keeps E Hinv ltac:(lia)) as (E' & Hrun & Hinv' & Hv').
        exists E'. split; [exact Hrun|]. split; [exact Hinv' | apply Hv'].
      - left. split; [intros (_ & [[_ ?]|[? _]]); lia|].
        destruct (editorDelChar_keeps E Hinv ltac:(lia)) as (E' & Hrun & Hinv' & Hv').
        exists E'. split; [exact Hrun|]. split; [exact Hinv' | apply Hv'].
      - left. split; [intros (_ & [[_ ?]|[? _]]); lia|].
        destruct (editorDelChar_keeps E Hinv ltac:(lia)) as (E' & Hrun & Hinv' & Hv').
        exists E'. split; [exact Hrun|]. split; [exact Hinv' | apply Hv']. }
    destruct (Z.eqb_spec c 127) as [H127|H127]; [apply Hback; now left|].
    destruct (Z.eqb_spec c 8) as [H8|H8]; [apply Hback; now right|].
    cbn [orb]. clear Hback.
    destruct (Z.eqb_spec c 10) as [Hj|Hj].
    { left. split; [no_join|].
      eexists. split; [reflexivity|].
      split; [|reflexivity].
      split; [eapply doc_ok_frame; [| |exact Hdoc]; reflexivity|].
      split; [exact Hcur|]. auto. }
    left. split; [no_join|].
    destruct (editorInsertChar_total E c Hdoc Hcur) as (E' & Hrun & Hd' & Hc' & _).
    pose proof (editorInsertChar_view _ _ _ Hrun) as Hv.
    exists E'. split; [exact Hrun|].
    split; [eapply cursor_inv_view; eassumption | apply Hv].
  - left. split; [intros (? & _); contradiction|].
    destruct ((c =? 104) || (c =? 106) || (c =? 107) || (c =? 108)).
    { destruct Hcur as [Hcy [Hcx _]].
      destruct (editorMoveCursor_keeps E c Hdoc Hcy Hcx Hro Hsr)
        as (E' & Hrun & Hinv' & Hv & _).
      exists E'. split; [exact Hrun|]. split; [exact Hinv' | apply Hv]. }
    destruct (c =? 105).
    { eexists. split; [reflexivity|]. split; [|reflexivity].
      split; [eapply doc_ok_frame; [| |exact Hdoc]; reflexivity|].
      split; [exact Hcur|]. auto. }
    exists E. split; [reflexivity|]. split; [exact Hinv | reflexivity].
Qed.

(** The cases of the key handler other than the quit key, saving and
    searching. *)
Lemma dispatch_keeps (save find : editorConfig -> result editorConfig)
  (E : editorConfig) (c : Z) :
  cursor_inv E -> rowoff E <= cy E ->
  c <> CTRL_KEY "s" -> c <> CTRL_KEY "f" ->
  (~ joins_lines E c /\
   exists E', dispatch editorDelChar save find E c = Ok E' /\ cursor_inv E') \/
  (joins_lines E c /\ exists f, dispatch editorDelChar save find E c = Fault f).
Proof.
  intros Hinv Hwin Hs Hf. pose proof Hinv as (Hdoc & Hcur & Hro & Hsr).
  pose proof Hcur as [Hcy [Hcx Hcx']]. pose proof Hdoc as (Hn & _).
  assert (Hdef : forall F, F = dispatch_default editorDelChar E c ->
            (~ joins_lines E c /\ exists E', F = Ok E' /\ cursor_inv E') \/
            (joins_lines E c /\ exists f, F = Fault f)).
  { intros F ->. destruct (dispatch_default_keeps E c Hinv) as [[Hnj H]|H];
      [left|right; exact H].
    split; [exact Hnj|]. destruct H as (E' & Hrun & Hinv' & _). eauto. }
  unfold dispatch.
  destruct (Z.eqb_spec c (CTRL_KEY "s")); [contradiction|].
  unfold joins_lines in *. revert Hdef.
  change (CTRL_KEY "h") with 8. change (CTRL_KEY "f") with 6 in *.
  change (CTRL_KEY "e") with 5. change (CTRL_KEY "y") with 25.
  change (CTRL_KEY "l") with 12.
  unfold HOME_KEY, END_KEY, PAGE_UP, PAGE_DOWN, ARROW_UP, ARROW_DOWN, ARROW_LEFT,
    ARROW_RIGHT, KEY_ESC, BACKSPACE, DEL_KEY.
  intros Hdef.
  destruct (Z.eqb_spec c 1005).
  { left. split; [no_join|]. eexists. split; [reflexivity|].
    split; [eapply doc_ok_frame; [| |exact Hdoc]; reflexivity|].
    split; [|auto]. split; [exact Hcy|].
    change (cursor_len (set_cx E 0)) with (cursor_len E). cbn [cx set_cx]. lia. }
  destruct (Z.eqb_spec c 1006).
  { left. split; [no_join|].
    destruct (Z.ltb_spec (cy E) (numrows E)) as [Hlt|Hge].
    - destruct (get_row_in_range (row E) (cy E) ltac:(lia)) as [r Hr].
      rewrite Hr. cbn [bind]. eexists. split; [reflexivity|].
      split; [eapply doc_ok_frame; [| |exact Hdoc]; reflexivity|].
      split; [|auto]. split; [exact Hcy|].
      change (cursor_len (set_cx E (size r))) with (cursor_len E).
      apply get_row_Ok in Hr. destruct Hr as [_ Hr].
      rewrite (cursor_len_at E r Hr) in *. cbn [cx set_cx]. lia.
    - exists E. split; [reflexivity | exact Hinv]. }
  destruct (Z.eqb_spec c 6); [contradiction|].
  destruct ((c =? 5) || (c =? 25) || (c =? 1007) || (c =? 1008)) eqn:Hpage.
  { left. split.
    { intros (_ & [[[?|?] _]|[? _]]); subst c; discriminate. }
    cbv zeta.
    set (up := (c =? 1007) || (c =? 25)).
    set (E1 := if up then set_cy E (rowoff E)
               else if cy (set_cy E (rowoff E + screenrows E - 1))
                       >? numrows (set_cy E (rowoff E + screenrows E - 1))
                    then set_cy (set_cy E (rowoff E + screenrows E - 1))
                           (numrows (set_cy E (rowoff E + screenrows E - 1)))
                    else set_cy E (rowoff E + screenrows E - 1)).
    assert (H1 : doc_ok E1 /\ 0 <= cy E1 <= numrows E1 /\ cx E1 = cx E /\
                 rowoff E1 = rowoff E /\ screenrows E1 = screenrows E).
    { unfold E1. destruct up.
      - split; [eapply doc_ok_frame; [| |exact Hdoc]; reflexivity|].
        cbn [cy cx numrows rowoff screenrows set_cy]. lia.
      - cbn [cy numrows set_cy].
        destruct (Z.gtb_spec (rowoff E + screenrows E - 1) (numrows E)).
        + split; [eapply doc_ok_frame; [| |exact Hdoc]; reflexivity|].
          cbn [cy cx numrows rowoff screenrows set_cy].
          pose proof (zlen_nonneg (row E)). lia.
        + split; [eapply doc_ok_frame; [| |exact Hdoc]; reflexivity|].
          cbn [cy cx numrows rowoff screenrows set_cy]. lia. }
    destruct H1 as (Hd1 & Hy1 & Hx1 & Hro1 & Hsr1).
    fold E1.
    assert (Hn1 : exists m, Z.to_nat (screenrows E1) = S m).
    { exists (Z.to_nat (screenrows E1) - 1)%nat. lia. }
    destruct Hn1 as [m ->].
    destruct (move_times_snaps (if up then 1002 else 1003) m E1 Hd1 Hy1)
      as (E' & Hrun & Hinv' & _); try lia.
    exists E'. split; [exact Hrun | exact Hinv']. }
  destruct ((c =? 1002) || (c =? 1003) || (c =? 1000) || (c =? 1001)) eqn:Harrow.
  { left. split.
    { intros (_ & [[[?|?] _]|[? _]]); subst c; discriminate. }
    destruct (editorMoveCursor_keeps E c Hdoc Hcy Hcx Hro Hsr)
      as (E' & Hrun & Hinv' & _).
    exists E'. split; [exact Hrun | exact Hinv']. }
  destruct ((c =? 12) || (c =? 27)) eqn:Hesc.
  { left. split.
    { intros (_ & [[[?|?] _]|[? _]]); subst c; discriminate. }
    exists E. split; [reflexivity | exact Hinv]. }
  apply Hdef. reflexivity.
Qed.

Lemma editorScroll_inv (E : editorConfig) :
  cursor_inv E ->
  cursor_inv (editorScroll E) /\ rowoff (editorScroll E) <= cy (editorScroll E).
Proof.
  intros (Hdoc & [Hcy Hcx] & Hro & Hsr).
  destruct (editorScroll_same E) as (Hr & Hx & Hy & _ & Hk & Hro' & _).
  destruct Hk as (Hn & _ & _ & _ & _ & Hs & _).
  split.
  - split; [eapply doc_ok_frame; [exact Hr | exact Hn | exact Hdoc]|].
    split.
    + unfold cursor_ok.
      rewrite (cursor_len_strip E (editorScroll E)) by (rewrite ?Hr, ?Hy; reflexivity).
      rewrite Hx, Hy, Hn. auto.
    + split; [apply Hro'; lia | rewrite Hs; exact Hsr].
  - revert Hsr. clear. scroll_cases; intros; lia.
Qed.


Lemma find_and_escape_keeps (F F' : editorConfig) :
  cursor_inv F -> find_and_escape F = Ok F' -> cursor_inv F'.
Proof.
  intros (Hdoc & Hcur & Hro & Hsr) H. unfold find_and_escape in H.
  assert (Hinv : find_inv (row F) F F find_init).
  { split; [exact Hdoc|]. split; [apply find_init_ok|].
    split; [|split; [exact Hcur|split; [exact Hro|apply settings_kept_refl]]].
    exists F. split; reflexivity. }
  destruct (find_prompt_loop (row F) F
              (prompt_text "Search: " " (Use ESC/Arrows/Enter)") [KEY_ESC]
              F find_init [] 128 Hinv) as (p & Hrun & Hp); [cbn; lia|].
  unfold editorFind, editorPrompt in H. rewrite Hrun in H. cbn [bind] in H.
  destruct p as [b E' S' rest|E' S' rest|b E' S']; cbn [bind] in H;
    try discriminate; injection H as <-.
  destruct Hp as ((Hd & _ & _ & Hc & Hr & Hk) & Hrow & _).
  destruct Hk as (Hn & _ & _ & _ & _ & Hs & _).
  split; [eapply doc_ok_frame; [| |exact Hdoc]; [exact Hrow | exact Hn]|].
  split.
  - unfold cursor_ok, cursor_len in *.
    cbn [cx cy numrows row set_rowoff set_coloff set_cy set_cx].
    rewrite Hrow, Hn. exact Hcur.
  - cbn [rowoff screenrows set_rowoff set_coloff set_cy set_cx].
    rewrite Hs. auto.
Qed.


(* ================================================================= *)
(** ** Escape sequences *)

Lemma idleb_sound (x : read_result) : idleb x = true -> idle x.
Proof. destruct x as [c| |[|]]; cbn; intros H; try discriminate; [left|right]; reflexivity. Qed.

Lemma first_byte_idle (pre : list read_result) (c : ascii) (rest : list read_result) :
  Forall idle pre -> first_byte (pre ++ Got c :: rest) = First c rest.
Proof.
  induction 1 as [|x pre [-> | ->] _ IH]; cbn [app first_byte]; auto.
Qed.

Ltac key_leaf :=
  eexists; eexists; split; [reflexivity|];
  unfold KEY_ESC, ARROW_LEFT, ARROW_RIGHT, ARROW_UP, ARROW_DOWN, DEL_KEY, HOME_KEY,
    END_KEY, PAGE_UP, PAGE_DOWN;
  cbn [hd_error tl];
  repeat split; intros;
  repeat match goal with
         | H : _ /\ _ |- _ => destruct H
         | H : _ \/ _ |- _ => destruct H
         end;
  subst; try lia; try congruence; try discriminate; auto 6.

(** An escape byte followed by two bytes, after any number of reads
    that timed out: [editorReadKey] returns, and what it returns is the
    escape key or one of the nine keys of [enum editorKey], never one
    of the two bytes.  Both bytes are used up, and a third answer of
    [read] as well when they are an opening bracket and a digit.  The
    Home key is returned for [ESC [ 1 ~], [ESC [ 7 ~] and [ESC O H]
    only, and the End key for [ESC [ 4 ~], [ESC [ 8 ~] and [ESC O F]
    only. *)
Theorem editorReadKey_escape (char_signed : bool) (pre rest : list read_result)
  (a b : ascii) :
  Forall idle pre ->
  exists k rest',
    editorReadKey char_signed (pre ++ Got ESC :: Got a :: Got b :: rest) = Key k rest' /\
    (k = KEY_ESC \/ ARROW_LEFT <= k <= PAGE_DOWN) /\
    (rest' = rest \/ (a = "["%char /\ 48 <= code b <= 57 /\ rest' = tl rest)) /\
    (k = HOME_KEY <->
     (a = "["%char /\ (b = "1"%char \/ b = "7"%char) /\
      hd_error rest = Some (Got "~"%char)) \/
     (a = "O"%char /\ b = "H"%char)) /\
    (k = END_KEY <->
     (a = "["%char /\ (b = "4"%char \/ b = "8"%char) /\
      hd_error rest = Some (Got "~"%char)) \/
     (a = "O"%char /\ b = "F"%char)).
Proof.
  intros Hpre. unfold editorReadKey. rewrite (first_byte_idle pre ESC _ Hpre).
  rewrite Ascii.eqb_refl. cbn [next_byte].
  change (code "0") with 48. change (code "9") with 57.
  destruct (Ascii.eqb_spec a "["%char) as [Ha|Ha].
  - destruct (Z.leb_spec 48 (code b)) as [H0|H0];
      [destruct (Z.leb_spec (code b) 57) as [H9|H9]|]; cbn [andb].
    + destruct rest as [|[c| |e] rest]; cbn [next_byte]; try key_leaf.
      destruct (Ascii.eqb_spec c "~"%char) as [Hc|Hc]; [|key_leaf].
      destruct (Ascii.eqb_spec b "1"%char); [key_leaf|].
      destruct (Ascii.eqb_spec b "3"%char); [key_leaf|].
      destruct (Ascii.eqb_spec b "4"%char); [key_leaf|].
      destruct (Ascii.eqb_spec b "5"%char); [key_leaf|].
      destruct (Ascii.eqb_spec b "6"%char); [key_leaf|].
      destruct (Ascii.eqb_spec b "7"%char); [key_leaf|].
      destruct (Ascii.eqb_spec b "8"%char); key_leaf.
    + destruct (Ascii.eqb_spec b "A"%char); [key_leaf|].
      destruct (Ascii.eqb_spec b "B"%char); [key_leaf|].
      destruct (Ascii.eqb_spec b "C"%char); [key_leaf|].
      destruct (Ascii.eqb_spec b "D"%char); [key_leaf|].
      destruct (Ascii.eqb_spec b "H"%char); [key_leaf|].
      destruct (Ascii.eqb_spec b "F"%char); key_leaf.
    + destruct (Ascii.eqb_spec b "A"%char); [key_leaf|].
      destruct (Ascii.eqb_spec b "B"%char); [key_leaf|].
      destruct (Ascii.eqb_spec b "C"%char); [key_leaf|].
      destruct (Ascii.eqb_spec b "D"%char); [key_leaf|].
      destruct (Ascii.eqb_spec b "H"%char); [key_leaf|].
      destruct (Ascii.eqb_spec b "F"%char); key_leaf.
  - destruct (Ascii.eqb_spec a "O"%char) as [HO|HO]; [|key_leaf].
    destruct (Ascii.eqb_spec b "H"%char); [key_leaf|].
    destruct (Ascii.eqb_spec b "F"%char); key_leaf.
Qed.

Lemma editorReadKey_escape_witness :
  Forall idle [Nothing; Failed true] /\
  exists k rest',
    editorReadKey true
      ([Nothing; Failed true] ++ [Got ESC; Got "["%char; Got "H"%char]) = Key k rest' /\
    k = ARROW_RIGHT /\ rest' = [].
Proof.
  assert (Hpre : Forall idle [Nothing; Failed true])
    by (repeat constructor; apply idleb_sound; reflexivity).
  split; [exact Hpre|].
  destruct (editorReadKey_escape true [Nothing; Failed true] [] "["%char "H"%char Hpre)
    as (k & rest' & Hrun & _).
  assert (Hc : editorReadKey true
                 ([Nothing; Failed true] ++ [Got ESC; Got "["%char; Got "H"%char])
               = Key ARROW_RIGHT []) by (vm_compute; reflexivity).
  pose proof Hrun as Hrun'. rewrite Hc in Hrun'. injection Hrun' as <- <-.
  exists ARROW_RIGHT, []. split; [exact Hrun|]. split; reflexivity.
Defined.

(* ================================================================= *)
(** ** What the screen shows *)

Lemma no_breakb_sound (l : list ascii) : no_breakb l = true -> no_break l.
Proof.
  unfold no_breakb, no_break. rewrite forallb_forall. intros H.
  split; intros Hin; apply H in Hin; vm_compute in Hin; discriminate.
Qed.

Lemma no_break_app (a b : list ascii) : no_break a -> no_break b -> no_break (a ++ b).
Proof.
  unfold no_break. intros [Ha1 Ha2] [Hb1 Hb2].
  split; intros Hin; apply in_app_or in Hin; tauto.
Qed.

Lemma no_break_nil : no_break [].
Proof. split; intros []. Qed.

Lemma no_break_byte (c : ascii) : code c <> 13 -> code c <> 10 -> no_break [c].
Proof.
  intros H13 H10. split; intros [Hc|[]]; subst c; [apply H13 | apply H10]; reflexivity.
Qed.

Lemma no_break_firstn (n : nat) (l : list ascii) : no_break l -> no_break (firstn n l).
Proof.
  unfold no_break. intros [H1 H2].
  split; intros Hin; apply In_firstn in Hin; tauto.
Qed.

Lemma no_break_repeat (c : ascii) (n : nat) : no_break [c] -> no_break (repeat c n).
Proof.
  unfold no_break. intros [H1 H2].
  split; intros Hin; apply repeat_spec in Hin; subst; [apply H1 | apply H2]; now left.
Qed.

Lemma code_char_of_int (n : Z) : 0 <= n < 256 -> code (char_of_int n) = n.
Proof.
  intros H. unfold code, char_of_int. rewrite Z.mod_small by exact H.
  rewrite nat_ascii_embedding by lia. lia.
Qed.

Lemma abAppend_all (ab s : list ascii) : abAppend ab s (zlen s) = Ok (ab ++ s).
Proof.
  unfold abAppend. pose proof (zlen_nonneg s).
  destruct (Z.ltb_spec (zlen s) 0); [lia|].
  destruct (Z.ltb_spec (zlen s) (zlen s)); [lia|]. cbn [orb].
  rewrite firstn_all2 by (unfold zlen; lia). reflexivity.
Qed.

Lemma abAppend_prefix (ab s : list ascii) (len : Z) :
  0 <= len <= zlen s -> abAppend ab s len = Ok (ab ++ firstn (Z.to_nat len) s).
Proof.
  intros H. unfold abAppend.
  destruct (Z.ltb_spec len 0); [lia|].
  destruct (Z.ltb_spec (zlen s) len); [lia|]. reflexivity.
Qed.

Lemma colour_seq_no_break (colour : Z) :
  colour_ok colour -> colour <> -1 -> no_break (colour_seq colour).
Proof.
  intros [H|[h ->]] Hne; [contradiction|].
  apply no_breakb_sound. destruct h; vm_compute; reflexivity.
Qed.

(** The cells of a row: every byte added is part of an escape sequence
    of the editor, a printable stand-in for a control character, or a
    byte of the row that is not a control character. *)
Lemma draw_cells_spec (E : editorConfig) (r : erow) (n : nat) :
  forall (j colour : Z) (ab : list ascii),
    zlen (render r) = rsize r -> zlen (hl r) = rsize r ->
    0 <= coloff E + j -> coloff E + j + Z.of_nat n <= rsize r ->
    colour_ok colour ->
    exists piece,
      draw_cells n j E r colour ab = Ok (ab ++ piece) /\ no_break piece.
Proof.
  induction n as [|n IH]; intros j colour ab Hr Hh Hlo Hhi Hcol; cbn [draw_cells].
  - exists []. rewrite app_nil_r. split; [reflexivity | apply no_break_nil].
  - assert (Hlt : (Z.to_nat (coloff E + j) < length (render r))%nat)
      by (unfold zlen in Hr; lia).
    destruct (nth_error (render r) (Z.to_nat (coloff E + j))) as [c|] eqn:Hc;
      [|apply nth_error_None in Hc; lia].
    unfold render_cell. destruct (Z.ltb_spec (coloff E + j) 0); [lia|].
    rewrite Hc. cbn [bind].
    assert (Hseq : forall col ab0, colour_ok col ->
              exists p, (if negb (col =? -1)
                         then abAppend ab0 (colour_seq col) (zlen (colour_seq col))
                         else Ok ab0) = Ok (ab0 ++ p) /\ no_break p).
    { intros col ab0 Hok. destruct (Z.eqb_spec col (-1)); cbn [negb].
      - exists []. rewrite app_nil_r. split; [reflexivity | apply no_break_nil].
      - rewrite abAppend_all. eexists. split; [reflexivity|].
        now apply colour_seq_no_break. }
    assert (Hnext : forall col ab0 p0, colour_ok col -> no_break p0 -> ab0 = ab ++ p0 ->
              exists piece, draw_cells n (j + 1) E r col ab0 = Ok (ab ++ piece) /\
                            no_break piece).
    { intros col ab0 p0 Hok Hp0 ->.
      destruct (IH (j + 1) col (ab ++ p0) Hr Hh ltac:(lia) ltac:(lia) Hok)
        as (p & Hrun & Hp).
      exists (p0 ++ p). rewrite Hrun, app_assoc. split; [reflexivity|].
      now apply no_break_app. }
    pose proof (code_range c) as Hcr.
    destruct (iscntrl (code c)) eqn:Hctl.
    + cbv zeta.
      change 4 with (zlen SEQ_INVERT). rewrite abAppend_all. cbn [bind].
      set (sym := if code c <=? 26 then char_of_int (code "@" + code c) else "?"%char).
      change 1 with (zlen [sym]). rewrite abAppend_all. cbn [bind].
      change 3 with (zlen SEQ_RESET). rewrite abAppend_all. cbn [bind].
      destruct (Hseq colour (((ab ++ SEQ_INVERT) ++ [sym]) ++ SEQ_RESET) Hcol)
        as (p & -> & Hp).
      cbn [bind].
      apply (Hnext colour _ (SEQ_INVERT ++ [sym] ++ SEQ_RESET ++ p) Hcol).
      * apply no_break_app; [apply no_breakb_sound; reflexivity|].
        apply no_break_app; [|apply no_break_app;
                               [apply no_breakb_sound; reflexivity | exact Hp]].
        unfold sym. destruct (Z.leb_spec (code c) 26).
        -- change (code "@") with 64.
           apply no_break_byte; rewrite code_char_of_int; lia.
        -- apply no_breakb_sound. reflexivity.
      * rewrite <- !app_assoc. reflexivity.
    + assert (Hnc : code c <> 13 /\ code c <> 10).
      { unfold iscntrl in Hctl. split; intros He; rewrite He in Hctl; discriminate. }
      assert (Hlh : (Z.to_nat (coloff E + j) < length (hl r))%nat)
        by (unfold zlen in Hh; lia).
      destruct (nth_error (hl r) (Z.to_nat (coloff E + j))) as [h|] eqn:Hhl;
        [|apply nth_error_None in Hhl; lia].
      unfold hl_cell. destruct (Z.ltb_spec (coloff E + j) 0); [lia|].
      rewrite Hhl. cbn [bind].
      assert (Hcolour : forall h0, h0 = h -> h <> HL_NORMAL ->
                exists piece,
                  (let colour0 := editorSyntaxToColour h0 in
                   ab0 <- (if negb (colour0 =? colour)
                           then abAppend ab (colour_seq colour0) (zlen (colour_seq colour0))
                           else Ok ab) ;;
                   ab1 <- abAppend ab0 [c] 1 ;;
                   draw_cells n (j + 1) E r colour0 ab1) = Ok (ab ++ piece) /\
                  no_break piece).
      { intros h0 -> Hne. cbv zeta.
        assert (Hok : colour_ok (editorSyntaxToColour h)) by (right; eauto).
        assert (Hp : exists p,
                  (if negb (editorSyntaxToColour h =? colour)
                   then abAppend ab (colour_seq (editorSyntaxToColour h))
                          (zlen (colour_seq (editorSyntaxToColour h)))
                   else Ok ab) = Ok (ab ++ p) /\ no_break p).
        { destruct (editorSyntaxToColour h =? colour); cbn [negb].
          - exists []. rewrite app_nil_r. split; [reflexivity | apply no_break_nil].
          - rewrite abAppend_all. eexists. split; [reflexivity|].
            apply colour_seq_no_break; [exact Hok|]. destruct h; discriminate. }
        destruct Hp as (p & -> & Hp). cbn [bind].
        change 1 with (zlen [c]). rewrite abAppend_all. cbn [bind].
        apply (Hnext _ _ (p ++ [c]) Hok).
        - apply no_break_app; [exact Hp | now apply no_break_byte].
        - rewrite <- app_assoc. reflexivity. }
      destruct h; try (apply Hcolour; [reflexivity | discriminate]).
      assert (Hp : exists p,
                (if negb (colour =? -1) then abAppend ab SEQ_DEFAULT 5 else Ok ab)
                = Ok (ab ++ p) /\ no_break p).
      { destruct (colour =? -1); cbn [negb].
        - exists []. rewrite app_nil_r. split; [reflexivity | apply no_break_nil].
        - change 5 with (zlen SEQ_DEFAULT). rewrite abAppend_all.
          eexists. split; [reflexivity|]. apply no_breakb_sound. reflexivity. }
      destruct Hp as (p & -> & Hp). cbn [bind].
      change 1 with (zlen [c]). rewrite abAppend_all. cbn [bind].
      apply (Hnext (-1) _ (p ++ [c])); [now left | |].
      * apply no_break_app; [exact Hp | now apply no_break_byte].
      * rewrite <- app_assoc. reflexivity.
Qed.

Lemma draw_cells_plain (E : editorConfig) (r : erow) (n : nat) :
  forall (j : Z) (ab : list ascii),
    plain_text r -> coloff E = 0 -> 0 <= j ->
    (Z.to_nat j + n <= length (render r))%nat ->
    length (hl r) = length (render r) ->
    draw_cells n j E r (-1) ab
    = Ok (ab ++ firstn n (skipn (Z.to_nat j) (render r))).
Proof.
  induction n as [|n IH]; intros j ab Hplain Hco Hj Hn Hh; cbn [draw_cells].
  - cbn [firstn]. now rewrite app_nil_r.
  - rewrite Hco, Z.add_0_l.
    destruct (nth_error (render r) (Z.to_nat j)) as [c|] eqn:Hc;
      [|apply nth_error_None in Hc; lia].
    destruct (nth_error (hl r) (Z.to_nat j)) as [h|] eqn:Hhl;
      [|apply nth_error_None in Hhl; lia].
    unfold render_cell, hl_cell. destruct (Z.ltb_spec j 0); [lia|].
    rewrite Hc, Hhl. cbn [bind].
    destruct Hplain as [Hhn Hnc]. rewrite Forall_forall in Hhn, Hnc.
    rewrite (Hnc c (nth_error_In _ _ Hc)), (Hhn h (nth_error_In _ _ Hhl)).
    change (negb (-1 =? -1)) with false. cbv iota. cbn [bind].
    change (abAppend ab [c] 1) with (abAppend ab [c] (zlen [c])).
    rewrite abAppend_all. cbn [bind].
    rewrite (IH (j + 1) (ab ++ [c])); [|split; rewrite Forall_forall; assumption | | | |];
      try assumption; try lia.
    rewrite <- app_assoc. cbn [app].
    replace (Z.to_nat (j + 1)) with (S (Z.to_nat j)) by lia.
    rewrite (skipn_nth (Z.to_nat j) (render r) c) by lia.
    rewrite (nth_error_nth _ _ c Hc). reflexivity.
Qed.

Lemma draw_welcome_spec (E : editorConfig) (ab : list ascii) :
  0 <= screencols E ->
  exists body, draw_welcome E ab = Ok (ab ++ body) /\ no_break body.
Proof.
  intros Hsc. unfold draw_welcome. cbv zeta.
  change (zlen welcome_text) with 23.
  set (wl := if 23 >? screencols E then screencols E else 23).
  assert (Hwl : 0 <= wl <= 23 /\ wl <= screencols E)
    by (unfold wl; destruct (Z.gtb_spec 23 (screencols E)); lia).
  set (padding := Z.quot (screencols E - wl) 2).
  assert (Hw : forall ab0 p0, no_break p0 -> ab0 = ab ++ p0 ->
            exists body, abAppend ab0 welcome_text wl = Ok (ab ++ body) /\ no_break body).
  { intros ab0 p0 Hp0 ->. rewrite abAppend_prefix by (change (zlen welcome_text) with 23; lia).
    eexists. rewrite <- app_assoc. split; [reflexivity|].
    apply no_break_app; [exact Hp0|]. apply no_break_firstn.
    apply no_breakb_sound. reflexivity. }
  destruct (Z.eqb_spec padding 0) as [Hp|Hp]; cbn [negb].
  - cbn [bind fst snd]. rewrite Hp. cbn [Z.to_nat repeat].
    apply (Hw _ []); [apply no_break_nil | reflexivity].
  - change 1 with (zlen (cs "~")). rewrite abAppend_all. cbn [bind fst snd].
    apply (Hw _ (cs "~" ++ repeat " "%char (Z.to_nat (padding - 1)))).
    + apply no_break_app; [apply no_breakb_sound; reflexivity|].
      apply no_break_repeat. apply no_breakb_sound. reflexivity.
    + now rewrite app_assoc.
Qed.

Lemma draw_line_spec (E : editorConfig) (y : Z) (ab : list ascii) :
  doc_ok E -> 0 <= rowoff E -> 0 <= coloff E -> 0 <= screencols E -> 0 <= y ->
  exists body,
    draw_line E y ab = Ok (ab ++ screen_line body) /\ line_shown E y body.
Proof.
  intros Hdoc Hro Hco Hsc Hy. pose proof Hdoc as (Hn & _).
  assert (Hend : forall body ab0, ab0 = ab ++ body ->
            (ab1 <- Ok ab0 ;; ab2 <- abAppend ab1 SEQ_ERASE 3 ;; abAppend ab2 CRLF 2)
            = Ok (ab ++ screen_line body)).
  { intros body ab0 ->. cbn [bind].
    change 3 with (zlen SEQ_ERASE). rewrite abAppend_all. cbn [bind].
    change 2 with (zlen CRLF). rewrite abAppend_all.
    unfold screen_line. now rewrite <- !app_assoc. }
  unfold draw_line. cbv zeta.
  destruct (Z.geb_spec (y + rowoff E) (numrows E)) as [Hpast|Hin].
  - destruct ((numrows E =? 0) && (y =? Z.quot (screenrows E) 3)) eqn:Hw.
    + destruct (draw_welcome_spec E ab Hsc) as (body & -> & Hb).
      exists body. split; [now apply Hend|].
      split; [exact Hb|]. split.
      * intros Hpos _. apply andb_prop in Hw. destruct Hw as [Hw _]. lia.
      * intros r _ Hlt. lia.
    + change 1 with (zlen (cs "~")). rewrite abAppend_all.
      exists (cs "~"). split; [now apply Hend|].
      split; [apply no_breakb_sound; reflexivity|].
      split; [reflexivity|]. intros r _ Hlt. lia.
  - destruct (get_row_in_range (row E) (y + rowoff E) ltac:(lia)) as [r Hr].
    rewrite Hr. cbn [bind].
    destruct (doc_ok_row E _ r Hdoc Hr) as [[[_ Hrs] Hl] _].
    set (len0 := if rsize r - coloff E <? 0 then 0 else rsize r - coloff E).
    set (len := if len0 >? screencols E then screencols E else len0).
    assert (Hlen : 0 <= len /\ len <= screencols E /\
                   (0 < len -> coloff E + len <= rsize r) /\
                   (coloff E = 0 -> rsize r <= screencols E -> len = rsize r)).
    { unfold len, len0. pose proof (zlen_nonneg (render r)).
      destruct (Z.ltb_spec (rsize r - coloff E) 0);
        match goal with
        | |- context [?a >? ?b] => destruct (Z.gtb_spec a b)
        end; lia. }
    destruct Hlen as (Hl0 & Hl1 & Hl2 & Hl3).
    assert (Hcells : exists piece,
              draw_cells (Z.to_nat len) 0 E r (-1) ab = Ok (ab ++ piece) /\
              no_break piece /\
              (coloff E = 0 -> rsize r <= screencols E -> plain_text r ->
               piece = render r)).
    { destruct (Z.eq_dec len 0) as [Hz|Hz].
      - rewrite Hz. cbn [Z.to_nat draw_cells]. exists [].
        rewrite app_nil_r. split; [reflexivity|]. split; [apply no_break_nil|].
        intros H0 Hfit _. rewrite Hl3 in Hz by assumption.
        rewrite Hz in Hrs. destruct (render r); [reflexivity|].
        unfold zlen in Hrs. cbn in Hrs. lia.
      - destruct (draw_cells_spec E r (Z.to_nat len) 0 (-1) ab)
          as (piece & Hrun & Hp); try lia; [now left|].
        exists piece. split; [exact Hrun|]. split; [exact Hp|].
        intros H0 Hfit Hplain.
        assert (Hfull : len = rsize r) by (apply Hl3; assumption).
        rewrite (draw_cells_plain E r (Z.to_nat len) 0 ab Hplain H0) in Hrun;
          try lia; try (unfold zlen in *; lia).
        injection Hrun as Hrun. apply app_inv_head in Hrun.
        rewrite <- Hrun. cbn [Z.to_nat skipn].
        apply firstn_all2. unfold zlen in *. lia. }
    destruct Hcells as (piece & -> & Hp & Hplain). cbn [bind].
    change 5 with (zlen SEQ_DEFAULT). rewrite abAppend_all.
    exists (piece ++ SEQ_DEFAULT).
    split; [apply Hend; now rewrite app_assoc|].
    split; [apply no_break_app; [exact Hp | apply no_breakb_sound; reflexivity]|].
    split; [intros _ Hge; lia|].
    intros r' Hr' _ H0 Hfit Hpl. rewrite Hr in Hr'. injection Hr' as <-.
    now rewrite Hplain.
Qed.

Lemma draw_lines_spec (E : editorConfig) (n : nat) :
  forall (y : Z) (ab : list ascii),
    doc_ok E -> 0 <= rowoff E -> 0 <= coloff E -> 0 <= screencols E -> 0 <= y ->
    exists bodies,
      draw_lines n y E ab = Ok (ab ++ concat (map screen_line bodies)) /\
      length bodies = n /\
      forall k body, nth_error bodies k = Some body ->
                     line_shown E (y + Z.of_nat k) body.
Proof.
  induction n as [|n IH]; intros y ab Hdoc Hro Hco Hsc Hy; cbn [draw_lines].
  - exists []. cbn [map concat]. rewrite app_nil_r. split; [reflexivity|].
    split; [reflexivity|]. intros [|k] body H; discriminate.
  - destruct (draw_line_spec E y ab Hdoc Hro Hco Hsc Hy) as (body & -> & Hb).
    cbn [bind].
    destruct (IH (y + 1) (ab ++ screen_line body) Hdoc Hro Hco Hsc ltac:(lia))
      as (bodies & -> & Hlen & Hall).
    exists (body :: bodies). cbn [map concat]. rewrite <- app_assoc.
    split; [reflexivity|]. split; [cbn; lia|].
    intros [|k] b Hk; cbn [nth_error] in Hk.
    + injection Hk as <-. now rewrite Z.add_0_r.
    + replace (y + Z.of_nat (S k)) with (y + 1 + Z.of_nat k) by lia. now apply Hall.
Qed.

(** [editorDrawRows] on a consistent document, with offsets and a
    window width that are not negative: it stays within the row array
    and the buffers, and what it adds to the output is one line for
    each row of the window, each ended by the sequence that erases to
    the end of the line, a carriage return and a line feed.  No byte of
    the file can end a line of the screen.  Past the end of a document
    that has rows a line shows a tilde, and a row of plain text that
    fits the window is shown as it is. *)
Theorem editorDrawRows_lines (E : editorConfig) (ab : list ascii) :
  doc_ok E -> 0 <= rowoff E -> 0 <= coloff E -> 0 <= screencols E ->
  exists bodies,
    editorDrawRows E ab = Ok (ab ++ concat (map screen_line bodies)) /\
    zlen bodies = Z.max 0 (screenrows E) /\
    forall y body, nth_error bodies y = Some body -> line_shown E (Z.of_nat y) body.
Proof.
  intros Hdoc Hro Hco Hsc. unfold editorDrawRows.
  destruct (draw_lines_spec E (Z.to_nat (screenrows E)) 0 ab Hdoc Hro Hco Hsc ltac:(lia))
    as (bodies & Hrun & Hlen & Hall).
  exists bodies. split; [exact Hrun|]. split; [unfold zlen; lia|].
  intros y body Hy. apply (Hall y body Hy).
Qed.

Lemma editorDrawRows_lines_witness :
  doc_ok control_doc /\
  exists bodies,
    editorDrawRows control_doc [] = Ok (concat (map screen_line bodies)) /\
    zlen bodies = 4 /\
    editorDrawRows control_doc []
    = Ok (concat (map screen_line
            [ cs "plain" ++ SEQ_DEFAULT;
              cs "a" ++ SEQ_INVERT ++ cs "M" ++ SEQ_RESET
              ++ cs "b" ++ SEQ_INVERT ++ cs "J" ++ SEQ_RESET
              ++ SEQ_INVERT ++ cs "?" ++ SEQ_RESET ++ cs "c" ++ SEQ_DEFAULT;
              cs "~"; cs "~" ])).
Proof.
  assert (Hdoc : doc_ok control_doc) by (apply doc_okb_sound; vm_compute; reflexivity).
  split; [exact Hdoc|].
  destruct (editorDrawRows_lines control_doc [] Hdoc) as (bodies & Hrun & Hlen & _);
    try (vm_compute; discriminate).
  exists bodies. split; [exact Hrun|]. split; [exact Hlen|].
  vm_compute. reflexivity.
Defined.

Lemma spaces_length (n : Z) : 0 <= n -> zlen (spaces n) = n.
Proof. intros H. unfold spaces, zlen. rewrite repeat_length. lia. Qed.

Lemma spaces_succ (n : Z) : 0 <= n -> spaces (n + 1) = " "%char :: spaces n.
Proof.
  intros H. unfold spaces. replace (Z.to_nat (n + 1)) with (S (Z.to_nat n)) by lia.
  reflexivity.
Qed.

Lemma snprintf_buf_fits (size : Z) (text : list ascii) :
  zlen text <= size - 1 ->
  forall n, (n <= length text)%nat -> firstn n (snprintf_buf size text) = firstn n text.
Proof.
  intros Hfit n Hn. unfold snprintf_buf.
  rewrite (@firstn_all2 _ (Z.to_nat (size - 1)) text) by (unfold zlen in Hfit; lia).
  rewrite firstn_app. replace (n - length text)%nat with O by lia.
  cbn [firstn]. now rewrite app_nil_r.
Qed.

Lemma status_pad_spec (E : editorConfig) (rstatus : list ascii) (rlen : Z) (n : nat) :
  forall (len : Z) (ab : list ascii),
    0 <= rlen <= zlen rstatus -> n = Z.to_nat (screencols E - len) ->
    len <= screencols E ->
    status_pad n len rlen rstatus E ab
    = Ok (ab ++ if rlen <=? screencols E - len
                then spaces (screencols E - len - rlen) ++ firstn (Z.to_nat rlen) rstatus
                else spaces (screencols E - len)).
Proof.
  induction n as [|n IH]; intros len ab Hr Hn Hlen; cbn [status_pad].
  - assert (Hz : screencols E - len = 0) by lia. rewrite Hz.
    destruct (Z.leb_spec rlen 0).
    + assert (rlen = 0) by lia. subst rlen. cbn. now rewrite app_nil_r.
    + cbn. now rewrite app_nil_r.
  - destruct (Z.eqb_spec (screencols E - len) rlen) as [He|He].
    + rewrite abAppend_prefix by exact Hr.
      destruct (Z.leb_spec rlen (screencols E - len)); [|lia].
      replace (screencols E - len - rlen) with 0 by lia. reflexivity.
    + change 1 with (zlen (cs " ")). rewrite abAppend_all. cbn [bind].
      rewrite (IH (len + 1)) by (try assumption; lia).
      rewrite <- app_assoc. f_equal.
      destruct (Z.leb_spec rlen (screencols E - len));
        destruct (Z.leb_spec rlen (screencols E - (len + 1))); try lia.
      * replace (screencols E - len - rlen)
          with (screencols E - (len + 1) - rlen + 1) by lia.
        rewrite spaces_succ by lia. reflexivity.
      * replace (screencols E - len) with (screencols E - (len + 1) + 1) by lia.
        rewrite spaces_succ by lia. reflexivity.
Qed.

(** [editorDrawStatusBar] on a window whose width is not negative,
    when the two formatted texts fit their buffers of 80 bytes: between
    the sequence that inverts the colours and the one that resets them
    it writes as many bytes as the window has columns, whatever the
    file name, the counts and the width are.  If both texts fit the
    width, the left text is written in full and the right text ends
    the bar, with spaces between them; otherwise the right text is left
    out, and the left text is cut at the width. *)
Theorem editorDrawStatusBar_width (E : editorConfig) (ab : list ascii) :
  0 <= screencols E ->
  zlen (status_text E) <= 79 -> zlen (rstatus_text E) <= 79 ->
  exists payload,
    editorDrawStatusBar E ab = Ok (ab ++ SEQ_INVERT ++ payload ++ SEQ_RESET ++ CRLF) /\
    zlen payload = screencols E /\
    payload =
      if zlen (status_text E) + zlen (rstatus_text E) <=? screencols E
      then status_text E
           ++ spaces (screencols E - zlen (status_text E) - zlen (rstatus_text E))
           ++ rstatus_text E
      else firstn (Z.to_nat (screencols E)) (status_text E)
           ++ spaces (screencols E - Z.min (zlen (status_text E)) (screencols E)).
Proof.
  intros Hsc Hs Hr. unfold editorDrawStatusBar.
  change 4 with (zlen SEQ_INVERT). rewrite abAppend_all. cbn [bind]. cbv zeta.
  set (st := status_text E) in *. set (rt := rstatus_text E) in *.
  pose proof (zlen_nonneg st) as Hs0. pose proof (zlen_nonneg rt) as Hr0.
  set (len := if zlen st >? screencols E then screencols E else zlen st).
  assert (Hlen : len = Z.min (zlen st) (screencols E))
    by (unfold len; destruct (Z.gtb_spec (zlen st) (screencols E)); lia).
  assert (Hbuf : zlen (snprintf_buf 80 st) = zlen st + 1 /\
                 zlen (snprintf_buf 80 rt) = zlen rt + 1).
  { unfold snprintf_buf. rewrite !zlen_app.
    rewrite (@firstn_all2 _ (Z.to_nat (80 - 1)) st) by (unfold zlen in *; lia).
    rewrite (@firstn_all2 _ (Z.to_nat (80 - 1)) rt) by (unfold zlen in *; lia).
    change (zlen [NUL]) with 1. lia. }
  rewrite abAppend_prefix by lia. cbn [bind].
  rewrite (snprintf_buf_fits 80 st) by (unfold zlen in *; lia).
  rewrite (status_pad_spec E (snprintf_buf 80 rt) (zlen rt)
             (Z.to_nat (screencols E - len)) len) by (try reflexivity; lia).
  cbn [bind].
  rewrite (snprintf_buf_fits 80 rt) by (unfold zlen in *; lia).
  rewrite (firstn_all2 rt) by (unfold zlen; lia).
  change 3 with (zlen SEQ_RESET). rewrite abAppend_all. cbn [bind].
  change 2 with (zlen CRLF). rewrite abAppend_all.
  destruct (Z.leb_spec (zlen st + zlen rt) (screencols E)) as [Hfit|Hnofit].
  - assert (Hl : len = zlen st) by lia.
    destruct (Z.leb_spec (zlen rt) (screencols E - len)); [|lia].
    rewrite Hl. rewrite (firstn_all2 st) by (unfold zlen; lia).
    exists (st ++ spaces (screencols E - zlen st - zlen rt) ++ rt).
    split; [rewrite <- !app_assoc; reflexivity|].
    split; [|reflexivity].
    rewrite !zlen_app, spaces_length by lia. lia.
  - assert (Hpad : (if zlen rt <=? screencols E - len
                    then spaces (screencols E - len - zlen rt) ++ rt
                    else spaces (screencols E - len))
                   = spaces (screencols E - len)).
    { destruct (Z.leb_spec (zlen rt) (screencols E - len)); [|reflexivity].
      assert (Hz : zlen rt = 0) by lia.
      destruct rt; [|unfold zlen in Hz; cbn in Hz; lia].
      rewrite app_nil_r. f_equal. unfold zlen. cbn. lia. }
    rewrite Hpad.
    assert (Hf : firstn (Z.to_nat len) st = firstn (Z.to_nat (screencols E)) st).
    { destruct (Z_le_gt_dec (zlen st) (screencols E)).
      - rewrite !firstn_all2 by (unfold zlen in *; lia). reflexivity.
      - replace len with (screencols E) by lia. reflexivity. }
    rewrite Hf, Hlen.
    exists (firstn (Z.to_nat (screencols E)) st
            ++ spaces (screencols E - Z.min (zlen st) (screencols E))).
    split; [rewrite <- !app_assoc; reflexivity|].
    split; [|reflexivity].
    rewrite zlen_app, spaces_length by lia.
    rewrite <- Hf, zlen_firstn by lia. lia.
Qed.

Lemma editorDrawStatusBar_width_witness :
  0 <= screencols two_lines /\
  exists payload,
    editorDrawStatusBar two_lines [] = Ok (SEQ_INVERT ++ payload ++ SEQ_RESET ++ CRLF) /\
    zlen payload = 80.
Proof.
  assert (Hsc : 0 <= screencols two_lines) by (vm_compute; discriminate).
  assert (Hs : zlen (status_text two_lines) <= 79) by (vm_compute; discriminate).
  assert (Hr : zlen (rstatus_text two_lines) <= 79) by (vm_compute; discriminate).
  split; [exact Hsc|].
  destruct (editorDrawStatusBar_width two_lines [] Hsc Hs Hr) as (payload & Hrun & Hlen & _).
  exists payload. split; [exact Hrun|]. rewrite Hlen. reflexivity.
Defined.

(* ================================================================= *)
(** ** The order of a search *)

Lemma find_prepared_start (S : findState) (key : Z) :
  last_match (find_prepared S key) = scan_start S key /\
  direction (find_prepared S key) = scan_dir S key.
Proof.
  unfold find_prepared, find_key, scan_start, scan_dir, forward_key, backward_key.
  cbv zeta.
  destruct (Z.eqb_spec key ARROW_RIGHT) as [->|_];
    [|destruct (Z.eqb_spec key ARROW_DOWN) as [->|_];
      [|destruct (Z.eqb_spec key ARROW_LEFT) as [->|_];
        [|destruct (Z.eqb_spec key ARROW_UP) as [->|_]]]];
    cbn [orb andb last_match direction Z.eqb ARROW_RIGHT ARROW_DOWN ARROW_LEFT ARROW_UP
         Pos.eqb negb];
    destruct (Z.eqb_spec (last_match S) (-1)) as [He|He];
    cbn [last_match direction negb]; auto.
Qed.

Lemma find_order_scan (E : editorConfig) (current dir : Z) :
  find_start_ok E current dir ->
  find_order (Z.to_nat (numrows E)) E current dir = scan_order (numrows E) current dir.
Proof.
  intros H. rewrite (find_order_closed _ E dir current H). unfold scan_order.
  rewrite <- seq_shift, map_map. apply map_ext. intros i. f_equal. lia.
Qed.

(** The loop stops at the first row of the order that holds the query. *)
Lemma find_loop_first (E : editorConfig) (query : list ascii) (dir : Z) (k off : Z)
  (r : erow) :
  numrows E = zlen (row E) ->
  get_row (row E) k = Ok r -> strstr (render r) query = Some off ->
  forall n current i,
    find_start_ok E current dir ->
    nth_error (find_order n E current dir) i = Some k ->
    (forall j k' r', (j < i)%nat ->
       nth_error (find_order n E current dir) j = Some k' ->
       get_row (row E) k' = Ok r' -> strstr (render r') query = None) ->
    find_loop n E query current dir
    = Ok (firstn (S i) (find_order n E current dir), Some (k, off)).
Proof.
  intros Hn Hr Hs. induction n as [|n IH]; intros current i Hstart Hi Hbefore.
  - destruct i; discriminate.
  - cbn [find_loop find_order] in *.
    destruct (find_next_mod E current dir Hstart) as [_ Hrange].
    set (c := find_next E current dir) in *.
    destruct i as [|i].
    + cbn [nth_error] in Hi. injection Hi as Hc. rewrite Hc, Hr. cbn [bind].
      rewrite Hs. reflexivity.
    + destruct (get_row_in_range (row E) c) as [rc Hrow]; [lia|].
      rewrite Hrow. cbn [bind].
      rewrite (Hbefore O c rc) by (try lia; auto).
      cbn [nth_error] in Hi.
      rewrite (IH c i (find_start_ok_next E current dir Hstart) Hi).
      * reflexivity.
      * intros j k' r' Hj Hk'. apply (Hbefore (S j) k' r'); [lia | exact Hk'].
Qed.

Lemma RxToCx_loop_chars (r r' : erow) (rx : Z) :
  chars r = chars r' ->
  forall n cx cur, RxToCx_loop r n cx cur rx = RxToCx_loop r' n cx cur rx.
Proof.
  intros Hc. induction n as [|n IH]; intros cx cur; [reflexivity|].
  cbn [RxToCx_loop]. rewrite Hc, IH. reflexivity.
Qed.

Lemma editorRowRxToCx_strip (r r' : erow) (rx : Z) :
  strip r = strip r' -> editorRowRxToCx r rx = editorRowRxToCx r' rx.
Proof.
  intros H. apply size_strip in H. destruct H as [Hs Hc].
  unfold editorRowRxToCx. rewrite Hs. now apply RxToCx_loop_chars.
Qed.

(** The scan of the callback: where it starts, the order it follows and
    the row it stops at. *)
Lemma editorFindCallback_scan (E : editorConfig) (S : findState)
  (query : list ascii) (key : Z) :
  doc_ok E -> find_ok E S -> is_find_exit key = false ->
  let N := numrows E in
  let start := scan_start S key in
  let dir := scan_dir S key in
  let order := scan_order N start dir in
  NoDup order /\ (forall k, In k order <-> 0 <= k < N) /\
  (exists E0 visited hit,
     find_restore E S = Ok E0 /\
     find_loop (Z.to_nat (numrows E0)) E0 query start dir = Ok (visited, hit) /\
     visited = firstn (length visited) order /\
     (hit = None -> visited = order)) /\
  (forall i k r off,
     nth_error order i = Some k ->
     get_row (row E) k = Ok r -> strstr (render r) query = Some off ->
     (forall j k' r', (j < i)%nat -> nth_error order j = Some k' ->
        get_row (row E) k' = Ok r' -> strstr (render r') query = None) ->
     exists E' S',
       editorFindCallback E S query key = Ok (E', S') /\
       cy E' = k /\ cx E' = editorRowRxToCx r off /\
       last_match S' = k /\ direction S' = dir).
Proof.
  intros Hdoc Hfind Hkey N start dir order.
  destruct (find_prepared_start S key) as [Hst Hdi].
  fold start in Hst. fold dir in Hdi.
  destruct (find_restore_ok E S Hdoc Hfind) as (rows1 & Hres & Hstrip & _).
  pose proof (find_restore_doc _ _ _ Hdoc Hres) as Hdoc0.
  pose proof Hdoc0 as (Hn0 & _).
  set (E0 := set_rows E rows1) in *.
  assert (HN0 : numrows E0 = N) by reflexivity.
  destruct (Z_le_gt_dec N 0) as [Hz|Hpos].
  - (* no rows *)
    assert (Ho : order = []).
    { unfold order, scan_order. replace (Z.to_nat N) with O by lia. reflexivity. }
    rewrite Ho. split; [constructor|]. split; [intros k; cbn [In]; lia|].
    split.
    + exists E0, [], None. split; [exact Hres|].
      rewrite HN0. replace (Z.to_nat N) with O by lia. repeat split.
    + intros i k r off Hi. destruct i; discriminate.
  - assert (Hstart : find_start_ok E0 start dir).
    { rewrite <- Hst, <- Hdi. unfold find_prepared.
      apply (find_key_start E0 S key); rewrite HN0; [lia|].
      destruct Hfind as [Hl _]. fold N in Hl. lia. }
    pose proof (find_order_scan E0 start dir Hstart) as Hord.
    rewrite HN0 in Hord. fold order in Hord.
    destruct (find_order_all E0 start dir Hstart) as [Hnd Hin].
    rewrite HN0, Hord in Hnd, Hin.
    split; [exact Hnd|]. split; [exact Hin|].
    split.
    + destruct (find_loop_trace E0 query dir (Z.to_nat N) Hn0 start Hstart)
        as (visited & hit & Hrun & Hpre & _ & Hhit).
      rewrite Hord in Hpre, Hhit.
      exists E0, visited, hit. split; [exact Hres|]. split; [exact Hrun|].
      split; [exact Hpre|]. intros ->. apply Hhit.
    + intros i k r off Hi Hr Hs Hbefore.
      assert (Hrows : forall k' r', get_row (row E) k' = Ok r' ->
                exists r0, get_row (row E0) k' = Ok r0 /\ strip r0 = strip r').
      { intros k' r' H'. pose proof (get_row_range _ _ _ H') as Hrg.
        apply get_row_Ok in H'. destruct H' as [H0 H'].
        destruct (strip_row_at _ _ _ _ Hstrip H') as (r0 & Hr0 & Hs0).
        exists r0. split; [|exact Hs0]. apply get_row_Ok. split; [lia | exact Hr0]. }
      assert (Hback : forall k' r0, get_row (row E0) k' = Ok r0 ->
                exists r', get_row (row E) k' = Ok r' /\ strip r0 = strip r').
      { intros k' r0 H0. apply get_row_Ok in H0. destruct H0 as [Hk0 H0].
        destruct (map_strip_nth _ _ _ _ Hstrip H0) as (r' & Hr' & Hs').
        exists r'. split; [|exact Hs']. apply get_row_Ok. split; [lia | exact Hr']. }
      destruct (Hrows k r Hr) as (r0 & Hr0 & Hs0).
      assert (Hs0' : strstr (render r0) query = Some off).
      { apply strip_text in Hs0. destruct Hs0 as [-> _]. exact Hs. }
      assert (Hloop : find_loop (Z.to_nat N) E0 query start dir
                      = Ok (firstn (Datatypes.S i) order, Some (k, off))).
      { rewrite <- Hord.
        apply (find_loop_first E0 query dir k off r0 Hn0 Hr0 Hs0'); [exact Hstart| |].
        - rewrite Hord. exact Hi.
        - intros j k' r' Hj Hk' Hr'. rewrite Hord in Hk'.
          destruct (Hback k' r' Hr') as (r'' & Hr'' & Hs'').
          apply strip_text in Hs''. destruct Hs'' as [-> _].
          exact (Hbefore j k' r'' Hj Hk' Hr''). }
      rewrite <- Hst, <- Hdi in Hloop.
      pose proof (editorFindCallback_found E E0 S query key _ k off r0
                    Hres Hdoc0 Hkey Hloop Hr0 Hs0') as Hcb.
      eexists. eexists. split; [exact Hcb|].
      cbn [cy cx set_rows set_rowoff set_cx set_cy last_match direction].
      split; [reflexivity|]. split; [now apply editorRowRxToCx_strip|].
      split; [reflexivity | exact Hdi].
Qed.

(** C7.  The scan of the search callback on a key other than Enter and
    Escape.  It starts from the row of the last match when the key is
    an arrow and from no row otherwise, and goes backward when the key
    is Arrow-Left or Arrow-Up and there is a last match, forward
    otherwise.  The rows are examined in circular order from the row
    after the start: past the last row comes row 0, and before row 0
    the last row; the order holds every row exactly once, the loop
    follows it and goes through all of it when it finds nothing.  The
    callback returns with the cursor on the first row of that order
    whose display text holds the query, at the raw column of the match.
    So when one row only holds the query the cursor moves to that row,
    whatever the start and the direction: in a fresh session with the
    cursor on the last row, and after a match on the last row followed
    by Arrow-Down, a query held by row 0 only moves the cursor to
    row 0. *)
Theorem C7_search_wraps (E : editorConfig) (S : findState)
  (query : list ascii) (key : Z) :
  doc_ok E -> find_ok E S -> is_find_exit key = false ->
  let N := numrows E in
  let start := scan_start S key in
  let dir := scan_dir S key in
  let order := scan_order N start dir in
  (last_match (find_prepared S key) = start /\
   direction (find_prepared S key) = dir) /\
  (0 < N -> hd_error order = Some ((start + dir) mod N)) /\
  NoDup order /\ (forall k, In k order <-> 0 <= k < N) /\
  (exists E0 visited hit,
     find_restore E S = Ok E0 /\
     find_loop (Z.to_nat (numrows E0)) E0 query start dir = Ok (visited, hit) /\
     visited = firstn (length visited) order /\
     (hit = None -> visited = order)) /\
  (forall i k r off,
     nth_error order i = Some k ->
     get_row (row E) k = Ok r -> strstr (render r) query = Some off ->
     (forall j k' r', (j < i)%nat -> nth_error order j = Some k' ->
        get_row (row E) k' = Ok r' -> strstr (render r') query = None) ->
     exists E' S',
       editorFindCallback E S query key = Ok (E', S') /\
       cy E' = k /\ cx E' = editorRowRxToCx r off /\
       last_match S' = k /\ direction S' = dir) /\
  (forall k r off,
     get_row (row E) k = Ok r -> strstr (render r) query = Some off ->
     (forall k' r', k' <> k -> get_row (row E) k' = Ok r' ->
        strstr (render r') query = None) ->
     exists E' S',
       editorFindCallback E S query key = Ok (E', S') /\
       cy E' = k /\ cx E' = editorRowRxToCx r off /\ last_match S' = k).
Proof.
  intros Hdoc Hfind Hkey N start dir order.
  destruct (editorFindCallback_scan E S query key Hdoc Hfind Hkey)
    as (Hnd & Hin & Hloop & Hfirst).
  fold N start dir order in Hnd, Hin, Hloop, Hfirst.
  split; [apply find_prepared_start|].
  split.
  { intros HN. unfold order, scan_order.
    destruct (Z.to_nat N) as [|n] eqn:Hnat; [lia|].
    cbn [seq map hd_error]. do 2 f_equal. lia. }
  split; [exact Hnd|]. split; [exact Hin|]. split; [exact Hloop|].
  split; [exact Hfirst|].
  intros k r off Hr Hs Honly.
  assert (Hk : In k order).
  { apply Hin. pose proof (get_row_range _ _ _ Hr) as Hrg.
    destruct Hdoc as (Hn & _). fold N in Hn. lia. }
  apply In_nth_error in Hk. destruct Hk as [i Hi].
  destruct (Hfirst i k r off Hi Hr Hs) as (E' & S' & Hrun & Hy & Hx & Hl & _).
  - intros j k' r' Hj Hk' Hr'. apply (Honly k' r'); [|exact Hr'].
    intros ->. rewrite NoDup_nth_error in Hnd.
    assert (j = i); [|lia].
    apply Hnd; [|congruence].
    apply nth_error_Some. congruence.
  - exists E', S'. auto.
Qed.
Lemma C7_search_wraps_witness :
  (doc_ok (fst after_a) /\ find_ok (fst after_a) (snd after_a) /\
   is_find_exit ARROW_DOWN = false /\
   numrows (fst after_a) = 3 /\ last_match (snd after_a) = 0 /\
   scan_order 3 (scan_start (snd after_a) ARROW_DOWN) (scan_dir (snd after_a) ARROW_DOWN)
   = [1; 2; 0] /\
   exists E' S',
     editorFindCallback (fst after_a) (snd after_a) (cs "a") ARROW_DOWN = Ok (E', S') /\
     cy E' = 0 /\ last_match S' = 0) /\
  (numrows (fst after_c) = 3 /\ last_match (snd after_c) = 2 /\
   scan_order 3 (scan_start (snd after_c) ARROW_DOWN) (scan_dir (snd after_c) ARROW_DOWN)
   = [0; 1; 2] /\
   exists E' S',
     editorFindCallback (fst after_c) (snd after_c) (cs "a") ARROW_DOWN = Ok (E', S') /\
     cy E' = 0) /\
  (cy last_row_doc = numrows last_row_doc - 1 /\
   exists E' S',
     editorFindCallback last_row_doc find_init (cs "a") 97 = Ok (E', S') /\
     cy E' = 0).
Proof.
  assert (Honly : forall E, map render (row E) = [cs "a"; cs "b"; cs "c"] ->
            forall k r, k <> 0 -> get_row (row E) k = Ok r ->
                        strstr (render r) (cs "a") = None).
  { intros E HE k r Hk Hr. apply get_row_Ok in Hr. destruct Hr as [Hk0 Hr].
    apply (map_nth_error render) in Hr. rewrite HE in Hr.
    destruct (Z.to_nat k) as [|[|[|n]]] eqn:Hn; [lia| | |];
      cbn [nth_error] in Hr;
      [injection Hr as <-; reflexivity | injection Hr as <-; reflexivity
      | destruct n; discriminate]. }
  assert (Hfirst : forall E, map render (row E) = [cs "a"; cs "b"; cs "c"] ->
            exists r, get_row (row E) 0 = Ok r /\ strstr (render r) (cs "a") = Some 0).
  { intros E HE. destruct (row E) as [|r rows] eqn:Hrow; [discriminate|].
    exists r. split; [reflexivity|]. cbn [map] in HE. injection HE as -> _.
    reflexivity. }
  split; [|split].
  - assert (Hdoc : doc_ok (fst after_a))
      by (apply doc_okb_sound; vm_compute; reflexivity).
    assert (Hfind : find_ok (fst after_a) (snd after_a)).
    { split; [vm_compute; split; congruence|].
      intros b Hb. vm_compute in Hb. injection Hb as <-.
      eexists. split; [vm_compute; reflexivity | vm_compute; congruence]. }
    assert (HE : map render (row (fst after_a)) = [cs "a"; cs "b"; cs "c"])
      by (vm_compute; reflexivity).
    destruct (Hfirst _ HE) as (r & Hr & Hs).
    split; [exact Hdoc|]. split; [exact Hfind|]. split; [reflexivity|].
    split; [vm_compute; reflexivity|]. split; [vm_compute; reflexivity|].
    split; [vm_compute; reflexivity|].
    destruct (C7_search_wraps (fst after_a) (snd after_a) (cs "a") ARROW_DOWN
                Hdoc Hfind eq_refl) as (_ & _ & _ & _ & _ & _ & Hone).
    destruct (Hone 0 r 0 Hr Hs (Honly _ HE)) as (E' & S' & Hrun & Hy & _ & Hl).
    exists E', S'. auto.
  - assert (Hdoc : doc_ok (fst after_c))
      by (apply doc_okb_sound; vm_compute; reflexivity).
    assert (Hfind : find_ok (fst after_c) (snd after_c)).
    { split; [vm_compute; split; congruence|].
      intros b Hb. vm_compute in Hb. injection Hb as <-.
      eexists. split; [vm_compute; reflexivity | vm_compute; congruence]. }
    assert (HE : map render (row (fst after_c)) = [cs "a"; cs "b"; cs "c"])
      by (vm_compute; reflexivity).
    destruct (Hfirst _ HE) as (r & Hr & Hs).
    split; [vm_compute; reflexivity|]. split; [vm_compute; reflexivity|].
    split; [vm_compute; reflexivity|].
    destruct (C7_search_wraps (fst after_c) (snd after_c) (cs "a") ARROW_DOWN
                Hdoc Hfind eq_refl) as (_ & _ & _ & _ & _ & _ & Hone).
    destruct (Hone 0 r 0 Hr Hs (Honly _ HE)) as (E' & S' & Hrun & Hy & _).
    exists E', S'. auto.
  - assert (Hdoc : doc_ok last_row_doc)
      by (apply doc_okb_sound; vm_compute; reflexivity).
    assert (HE : map render (row last_row_doc) = [cs "a"; cs "b"; cs "c"])
      by (vm_compute; reflexivity).
    destruct (Hfirst _ HE) as (r & Hr & Hs).
    split; [vm_compute; reflexivity|].
    destruct (C7_search_wraps last_row_doc find_init (cs "a") 97
                Hdoc (find_init_ok _) eq_refl) as (_ & _ & _ & _ & _ & _ & Hone).
    destruct (Hone 0 r 0 Hr Hs (Honly _ HE)) as (E' & S' & Hrun & Hy & _).
    exists E', S'. auto.
Defined.

(* ================================================================= *)
(** ** The row array with a slot past its end *)

(** *** Properties of single rows *)

Lemma row_inv_fresh : row_inv fresh_slot.
Proof. repeat split. Qed.

Lemma row_inv_bump (r : erow) : row_inv r -> row_inv (bump r).
Proof. intros [Hok Hsh]. split; [exact Hok | now apply shown_bump]. Qed.

Lemma row_inv_set_hl (r : erow) (h : list editorHighlight) :
  row_inv r -> zlen h = rsize r -> row_inv (set_hl r h).
Proof.
  intros [[Ht _] Hsh] Hh. split; [split; [exact Ht | exact Hh]|].
  now apply shown_set_hl.
Qed.

Lemma row_inv_rendered (r : erow) (h : list editorHighlight) (b : bool) :
  size r = zlen (chars r) -> zlen h = zlen (display_of r) ->
  row_inv (set_hl_open_comment (set_hl (rendered r) h) b).
Proof.
  intros Hs Hh. split; [split; [split|]|].
  - exact Hs.
  - reflexivity.
  - exact Hh.
  - apply (shown_strip (set_hl_open_comment (set_hl (rendered r) h) b) (rendered r) eq_refl).
    apply shown_rendered.
Qed.

(** *** The array under [memmove] and the index loop *)

Lemma Forall_memmove_rows (P : erow -> Prop) (rows rows' : list erow) (dst src n : Z) :
  Forall P rows -> memmove_rows rows dst src n = Ok rows' -> Forall P rows'.
Proof.
  intros HP. unfold memmove_rows.
  destruct (n <=? 0); [now intros [= <-]|].
  destruct ((src <? 0) || (zlen rows <? src + n)); [discriminate|].
  destruct ((dst <? 0) || (zlen rows <? dst + n)); [discriminate|].
  intros [= <-]. rewrite Forall_forall in HP. apply Forall_forall. intros r Hin.
  apply HP. apply in_app_or in Hin. destruct Hin as [Hin|Hin].
  - eapply In_firstn; eauto.
  - apply in_app_or in Hin. destruct Hin as [Hin|Hin].
    + eapply In_skipn. eapply In_firstn; eauto.
    + eapply In_skipn; eauto.
Qed.

Lemma Forall_idx_loop (P : erow -> Prop) :
  (forall r v, P r -> P (set_idx r v)) ->
  forall (n : nat) (j : Z) (rows rows' : list erow),
    Forall P rows -> idx_loop n j rows = Ok rows' -> Forall P rows'.
Proof.
  intros Hset. induction n as [|n IH]; intros j rows rows' HP H; cbn [idx_loop] in H.
  - now injection H as <-.
  - bind_inv H. apply put_row_Ok in Hx0. destruct Hx0 as [_ ->].
    apply (IH _ _ _ (Forall_replace_nth_all P _ _ _ HP
                       (Hset _ _ (proj1 (Forall_forall P rows) HP x
                                    (nth_error_In _ _ (proj2 (proj1 (get_row_Ok _ _ _) Hx))))))
             H).
Qed.

Lemma idx_loop_length (n : nat) :
  forall (j : Z) (rows rows' : list erow),
    idx_loop n j rows = Ok rows' -> zlen rows' = zlen rows.
Proof.
  induction n as [|n IH]; intros j rows rows' H; cbn [idx_loop] in H.
  - now injection H as <-.
  - bind_inv H. apply put_row_Ok in Hx0. destruct Hx0 as [_ ->].
    apply IH in H. now rewrite zlen_replace_nth in H.
Qed.

Lemma idx_loop_range (n : nat) :
  forall (j : Z) (rows rows' : list erow),
    idx_loop (S n) j rows = Ok rows' -> 0 <= j /\ j + Z.of_nat n < zlen rows.
Proof.
  induction n as [|n IH]; intros j rows rows' H.
  - cbn [idx_loop] in H. bind_inv H. apply get_row_range in Hx. lia.
  - change (idx_loop (S (S n)) j rows)
      with (r <- get_row rows j ;;
            rows1 <- put_row rows j (set_idx r (idx r + 1)) ;;
            idx_loop (S n) (j + 1) rows1) in H.
    bind_inv H. apply get_row_range in Hx.
    apply put_row_Ok in Hx0. destruct Hx0 as [_ ->].
    apply IH in H. rewrite zlen_replace_nth in H. lia.
Qed.

Lemma row_inv_set_idx (r : erow) (v : Z) : row_inv r -> row_inv (set_idx r v).
Proof.
  intros [Hok Hsh]. split; [exact Hok|].
  apply (shown_strip (set_idx r v) (set_idx r v) eq_refl).
  unfold shown in *. cbn [render set_idx]. rewrite Hsh.
  apply display_of_ext; reflexivity.
Qed.
(** *** Highlighting *)

Lemma row_inv_split (r : erow) : row_inv r <-> text_inv r /\ hl_fits r.
Proof. unfold row_inv, text_inv, hl_fits, row_ok. tauto. Qed.

Lemma text_inv_strip (r r' : erow) : strip r' = strip r -> text_inv r -> text_inv r'.
Proof.
  intros Hs [Ht Hsh]. split.
  - unfold text_ok in *. injection Hs as _ -> -> -> ->. exact Ht.
  - exact (shown_strip r' r Hs Hsh).
Qed.

Lemma Forall_row_inv_text (rows : list erow) :
  Forall row_inv rows -> Forall text_inv rows.
Proof. apply Forall_impl. intros r H. now apply row_inv_split in H. Qed.

Lemma Forall_row_inv_except (rows : list erow) (k : nat) :
  Forall row_inv rows -> ok_except k hl_fits rows.
Proof.
  intros H j r Hj _. rewrite Forall_forall in H.
  exact (proj2 (proj1 (row_inv_split r) (H r (nth_error_In _ _ Hj)))).
Qed.

Lemma rows_inv_replace (rows : list erow) (k : nat) (x r' : erow) :
  Forall text_inv rows -> ok_except k hl_fits rows ->
  nth_error rows k = Some x -> strip r' = strip x -> hl_fits r' ->
  Forall row_inv (replace_nth k rows r').
Proof.
  intros Hpre Hex Hk Hs Hh. rewrite Forall_forall in Hpre.
  apply Forall_replace_nth.
  - intros j a Hj Hne. apply row_inv_split. split.
    + apply Hpre. eapply nth_error_In; eauto.
    + exact (Hex j a Hj Hne).
  - apply row_inv_split. split; [|exact Hh].
    apply (text_inv_strip x r' Hs). apply Hpre. eapply nth_error_In; eauto.
Qed.

(** [editorUpdateSyntax] on an array whose rows fit, but for the
    highlight of the row it is called on. *)
Lemma editorUpdateSyntax_rec_inv (depth : nat) :
  forall (E E' : editorConfig) (slot : Z),
    Forall text_inv (row E) -> ok_except (Z.to_nat slot) hl_fits (row E) ->
    editorUpdateSyntax_rec depth E slot = Ok E' ->
    Forall row_inv (row E') /\ zlen (row E') = zlen (row E) /\
    numrows E' = numrows E /\ syntax E' = syntax E.
Proof.
  induction depth as [|d IH]; intros E E' slot Hpre Hex H;
    cbn [editorUpdateSyntax_rec] in H; bind_inv H;
    pose proof (get_row_range _ _ _ Hx) as Hslot;
    pose proof Hx as Hnth; apply get_row_Ok in Hnth; destruct Hnth as [_ Hnth];
    apply put_row_Ok in Hx0; destruct Hx0 as [_ ->];
    assert (Hr : text_inv x)
      by (rewrite Forall_forall in Hpre; apply Hpre; eapply nth_error_In; eauto);
    destruct Hr as [[Hsz Hrs] Hsh]; pose proof (zlen_nonneg (render x)) as Hnn;
    assert (Hplain : Forall row_inv
                       (replace_nth (Z.to_nat slot) (row E)
                          (set_hl x (repeat HL_NORMAL (Z.to_nat (rsize x))))))
      by (apply (rows_inv_replace _ _ x); auto;
          unfold hl_fits; cbn [hl rsize set_hl]; rewrite zlen_repeat; lia);
    (destruct (syntax E) as [syn|] eqn:Hsyn;
     [|injection H as <-; cbn [row numrows syntax set_rows];
       rewrite zlen_replace_nth; auto]);
    bind_inv H;
    destruct (row_scan_ok syn x x0 Hrs) as (s' & Hs' & Hl);
    rewrite Hx1 in Hs'; injection Hs' as <-;
    apply put_row_Ok in Hx2; destruct Hx2 as [_ ->];
    rewrite replace_nth_twice in H;
    assert (Hscan : Forall row_inv
                      (replace_nth (Z.to_nat slot) (row E)
                         (set_hl_open_comment (set_hl x (sc_hl x1)) (sc_in_comment x1))))
      by (apply (rows_inv_replace _ _ x); auto);
    destruct (negb (eqb (hl_open_comment x) (sc_in_comment x1))
              && (idx x + 1 <? numrows E));
    try discriminate H;
    try (injection H as <-; cbn [row numrows syntax set_rows];
         rewrite zlen_replace_nth; auto).
  apply IH in H.
  - cbn [row numrows syntax set_rows] in H. rewrite zlen_replace_nth in H.
    destruct H as (H1 & H2 & H3 & H4). rewrite H4. auto.
  - cbn [row set_rows]. now apply Forall_row_inv_text.
  - cbn [row set_rows]. now apply Forall_row_inv_except.
Qed.

Lemma editorUpdateSyntax_inv (E E' : editorConfig) (slot : Z) :
  Forall text_inv (row E) -> ok_except (Z.to_nat slot) hl_fits (row E) ->
  editorUpdateSyntax E slot = Ok E' ->
  Forall row_inv (row E') /\ zlen (row E') = zlen (row E) /\
  numrows E' = numrows E /\ syntax E' = syntax E.
Proof. unfold editorUpdateSyntax. apply editorUpdateSyntax_rec_inv. Qed.

(** [editorUpdateRow] on an array whose rows fit, but for the display
    text and the highlight of the row it is called on. *)
Lemma editorUpdateRow_inv (E E' : editorConfig) (slot : Z) :
  ok_except (Z.to_nat slot) row_inv (row E) ->
  (forall r, get_row (row E) slot = Ok r -> size r = zlen (chars r)) ->
  editorUpdateRow E slot = Ok E' ->
  Forall row_inv (row E') /\ zlen (row E') = zlen (row E) /\
  numrows E' = numrows E /\ syntax E' = syntax E.
Proof.
  intros Hex Hsz H. unfold editorUpdateRow in H. bind_inv H.
  specialize (Hsz x eq_refl).
  pose proof Hx as Hnth. apply get_row_Ok in Hnth. destruct Hnth as [Hk Hnth].
  apply put_row_Ok in Hx0. destruct Hx0 as [Hrange ->].
  fold (display_of x) in H. fold (rendered x) in H.
  apply editorUpdateSyntax_inv in H.
  - cbn [row numrows syntax set_rows] in H. rewrite zlen_replace_nth in H. exact H.
  - cbn [row set_rows]. apply Forall_replace_nth.
    + intros j a Hj Hne. exact (proj1 (proj1 (row_inv_split a) (Hex j a Hj Hne))).
    + split; [split; [exact Hsz | reflexivity] | apply shown_rendered].
  - cbn [row set_rows]. intros j a Hj Hne.
    rewrite nth_error_replace_nth_ne in Hj by auto.
    exact (proj2 (proj1 (row_inv_split a) (Hex j a Hj Hne))).
Qed.

Lemma Forall_except {A : Type} (P : A -> Prop) (k : nat) (rows : list A) (x : A) :
  Forall P rows -> forall j a, nth_error (replace_nth k rows x) j = Some a -> j <> k -> P a.
Proof.
  intros HP j a Hj Hne. rewrite nth_error_replace_nth_ne in Hj by auto.
  rewrite Forall_forall in HP. apply HP. eapply nth_error_In; eauto.
Qed.

(** The raw text of a row is replaced and the row updated. *)
Lemma edit_row_inv (E E' : editorConfig) (slot : Z) (r : erow) (sz : Z)
  (bytes : list ascii) :
  Forall row_inv (row E) -> get_row (row E) slot = Ok r -> sz = zlen bytes ->
  editorUpdateRow
    (set_rows E (replace_nth (Z.to_nat slot) (row E) (set_chars r sz bytes))) slot
  = Ok E' ->
  Forall row_inv (row E') /\ zlen (row E') = zlen (row E) /\
  numrows E' = numrows E /\ syntax E' = syntax E.
Proof.
  intros Hinv Hr Hsz H.
  pose proof (get_row_range _ _ _ Hr) as Hslot.
  apply editorUpdateRow_inv in H.
  - cbn [row numrows syntax set_rows] in H. rewrite zlen_replace_nth in H. exact H.
  - cbn [row set_rows]. intros j a Hj Hne. exact (Forall_except _ _ _ _ Hinv j a Hj Hne).
  - cbn [row set_rows]. intros r' Hr'. apply get_row_Ok in Hr'. destruct Hr' as [_ Hr'].
    rewrite nth_error_replace_nth_eq in Hr' by (unfold zlen in Hslot; lia).
    injection Hr' as <-. exact Hsz.
Qed.

Lemma editorRowInsertChar_inv (E E' : editorConfig) (slot at_ c : Z) :
  Forall row_inv (row E) -> editorRowInsertChar E slot at_ c = Ok E' ->
  Forall row_inv (row E') /\ zlen (row E') = zlen (row E) /\
  numrows E' = numrows E /\ syntax E' = syntax E.
Proof.
  intros Hinv H. unfold editorRowInsertChar in H. bind_inv H. injection H as <-.
  assert (Hsz : size x = zlen (chars x)).
  { apply get_row_Ok in Hx. destruct Hx as [_ Hx]. rewrite Forall_forall in Hinv.
    apply (Hinv x (nth_error_In _ _ Hx)). }
  apply put_row_Ok in Hx0. destruct Hx0 as [_ ->].
  pose proof (zlen_nonneg (chars x)).
  set (a := if (at_ <? 0) || (at_ >? size x) then size x else at_) in *.
  assert (Ha : 0 <= a <= size x).
  { unfold a. destruct (Z.ltb_spec at_ 0); cbn [orb]; [lia|].
    destruct (Z.gtb_spec at_ (size x)); lia. }
  match type of Hx1 with
  | editorUpdateRow (set_rows _ (replace_nth _ _ (set_chars _ ?sz ?bytes))) _ = _ =>
      assert (Hz : sz = zlen bytes)
  end.
  { rewrite !zlen_app, zlen_firstn, zlen_firstn by (rewrite ?zlen_skipn; lia).
    unfold zlen at 1. cbn [length]. lia. }
  exact (edit_row_inv _ _ _ _ _ _ Hinv Hx Hz Hx1).
Qed.

Lemma editorRowAppendString_inv (E E' : editorConfig) (slot : Z) (s : list ascii)
  (len : Z) :
  Forall row_inv (row E) -> editorRowAppendString E slot s len = Ok E' ->
  Forall row_inv (row E') /\ zlen (row E') = zlen (row E) /\
  numrows E' = numrows E /\ syntax E' = syntax E.
Proof.
  intros Hinv H. unfold editorRowAppendString in H. bind_inv H. injection H as <-.
  assert (Hsz : size x = zlen (chars x)).
  { apply get_row_Ok in Hx. destruct Hx as [_ Hx]. rewrite Forall_forall in Hinv.
    apply (Hinv x (nth_error_In _ _ Hx)). }
  apply put_row_Ok in Hx1. destruct Hx1 as [_ ->].
  apply memcpy_bytes_Ok in Hx0. destruct Hx0 as [Hb Hl].
  pose proof (zlen_nonneg (chars x)).
  match type of Hx2 with
  | editorUpdateRow (set_rows _ (replace_nth _ _ (set_chars _ ?sz ?bytes))) _ = _ =>
      assert (Hz : sz = zlen bytes)
  end.
  { rewrite zlen_app, zlen_firstn by lia. lia. }
  exact (edit_row_inv _ _ _ _ _ _ Hinv Hx Hz Hx2).
Qed.

Lemma editorRowDelChar_inv (E E' : editorConfig) (slot at_ : Z) :
  Forall row_inv (row E) -> editorRowDelChar E slot at_ = Ok E' ->
  Forall row_inv (row E') /\ zlen (row E') = zlen (row E) /\
  numrows E' = numrows E /\ syntax E' = syntax E.
Proof.
  intros Hinv H. unfold editorRowDelChar in H. bind_inv H.
  destruct (Z.ltb_spec at_ 0); cbn [orb] in H; [injection H as <-; auto|].
  destruct (Z.geb_spec at_ (size x)); [injection H as <-; auto|].
  bind_inv H. injection H as <-.
  assert (Hsz : size x = zlen (chars x)).
  { apply get_row_Ok in Hx. destruct Hx as [_ Hx]. rewrite Forall_forall in Hinv.
    apply (Hinv x (nth_error_In _ _ Hx)). }
  apply put_row_Ok in Hx0. destruct Hx0 as [_ ->].
  pose proof (zlen_nonneg (chars x)).
  match type of Hx1 with
  | editorUpdateRow (set_rows _ (replace_nth _ _ (set_chars _ ?sz ?bytes))) _ = _ =>
      assert (Hz : sz = zlen bytes)
  end.
  { rewrite zlen_app, zlen_firstn, zlen_firstn by (rewrite ?zlen_skipn; lia). lia. }
  exact (edit_row_inv _ _ _ _ _ _ Hinv Hx Hz Hx1).
Qed.
(** *** Inserting and deleting rows *)

Lemma array_inv_frame (E E' : editorConfig) :
  row E' = row E -> numrows E' = numrows E -> array_inv E -> array_inv E'.
Proof. unfold array_inv. intros -> ->. auto. Qed.

Lemma zlen_realloc_rows (rows : list erow) (n : Z) :
  0 <= n -> zlen (realloc_rows rows n) = n.
Proof.
  intros Hn. unfold realloc_rows, zlen.
  rewrite length_app, length_firstn, repeat_length. lia.
Qed.

Lemma Forall_realloc_rows (rows : list erow) (n : Z) :
  Forall row_inv rows -> Forall row_inv (realloc_rows rows n).
Proof.
  intros H. unfold realloc_rows. apply Forall_app. split.
  - rewrite Forall_forall in *. intros r Hin. apply H. eapply In_firstn; eauto.
  - apply Forall_forall. intros r Hin. apply repeat_spec in Hin. subst r.
    apply row_inv_fresh.
Qed.

Lemma editorInsertRow_inv (E E' : editorConfig) (at_ : Z) (s : list ascii) (len : Z) :
  array_inv E -> editorInsertRow E at_ s len = Ok E' -> array_inv E'.
Proof.
  intros [Hn Hinv] H. unfold editorInsertRow in H.
  destruct (Z.ltb_spec at_ 0); cbn [orb] in H; [injection H as <-; split; auto|].
  destruct (Z.gtb_spec at_ (numrows E)); [injection H as <-; split; auto|].
  bind_inv H. injection H as <-.
  pose proof (Forall_realloc_rows (row E) (numrows E + 1) Hinv) as Hre.
  pose proof (zlen_realloc_rows (row E) (numrows E + 1) ltac:(lia)) as L0.
  pose proof (Forall_memmove_rows _ _ _ _ _ _ Hre Hx) as Hmv.
  pose proof (memmove_rows_length _ _ _ _ _ Hx) as L1.
  pose proof (Forall_idx_loop row_inv row_inv_set_idx _ _ _ _ Hmv Hx0) as Hix.
  pose proof (idx_loop_length _ _ _ _ Hx0) as L2.
  apply memcpy_bytes_Ok in Hx1. destruct Hx1 as [Hb Hl].
  apply put_row_Ok in Hx2. destruct Hx2 as [Hrange ->].
  apply editorUpdateRow_inv in Hx3.
  - cbn [row numrows set_rows] in Hx3. rewrite zlen_replace_nth in Hx3.
    destruct Hx3 as (Hup & L3 & N3 & _).
    split; cbn [row numrows set_numrows set_dirty]; [lia | exact Hup].
  - cbn [row set_rows]. intros j a Hj Hne. exact (Forall_except _ _ _ _ Hix j a Hj Hne).
  - cbn [row set_rows]. intros r' Hr'. apply get_row_Ok in Hr'. destruct Hr' as [_ Hr'].
    rewrite nth_error_replace_nth_eq in Hr' by (unfold zlen in Hrange; lia).
    injection Hr' as <-. cbn [size chars]. lia.
Qed.

Lemma memmove_rows_snoc (rows m1 : list erow) (x : erow) (dst src n : Z) :
  0 <= dst -> 0 <= src -> src + n <= zlen rows -> dst + n <= zlen rows ->
  memmove_rows (rows ++ [x]) dst src n = Ok m1 ->
  exists m, m1 = m ++ [x] /\ memmove_rows rows dst src n = Ok m.
Proof.
  intros Hd Hs Hsn Hdn. unfold memmove_rows.
  destruct (Z.leb_spec n 0); [intros [= <-]; eauto|].
  destruct (Z.ltb_spec src 0); [lia|].
  destruct (Z.ltb_spec (zlen (rows ++ [x])) (src + n)); [discriminate|].
  destruct (Z.ltb_spec dst 0); [lia|].
  destruct (Z.ltb_spec (zlen (rows ++ [x])) (dst + n)); [discriminate|].
  destruct (Z.ltb_spec (zlen rows) (src + n)); [lia|].
  destruct (Z.ltb_spec (zlen rows) (dst + n)); [lia|].
  cbn [orb]. intros [= <-]. eexists. split; [|reflexivity].
  unfold zlen in *.
  rewrite firstn_app, skipn_app, firstn_app, skipn_app, length_skipn.
  replace (Z.to_nat dst - length rows)%nat with O by lia.
  replace (Z.to_nat n - (length rows - Z.to_nat src))%nat with O by lia.
  replace (Z.to_nat src - length rows)%nat with O by lia.
  replace (Z.to_nat (dst + n) - length rows)%nat with O by lia.
  cbn [firstn skipn]. rewrite !app_nil_r, <- !app_assoc. reflexivity.
Qed.

Lemma replace_nth_app1 {A : Type} (l l' : list A) (x : A) :
  forall k, (k < length l)%nat -> replace_nth k (l ++ l') x = replace_nth k l x ++ l'.
Proof.
  induction l as [|a l IH]; intros k Hk; cbn [length] in Hk; [lia|].
  destruct k as [|k]; [reflexivity|]. cbn [replace_nth app]. f_equal. apply IH. lia.
Qed.

(** The index loop on an array followed by one more slot. *)
Lemma idx_loop_snoc (P : erow -> Prop) :
  (forall r v, P r -> P (set_idx r v)) ->
  forall (n : nat) (j : Z) (m m2 : list erow) (x : erow),
    Forall P m -> idx_loop n j (m ++ [x]) = Ok m2 ->
    exists m' x', m2 = m' ++ [x'] /\ Forall P m' /\ zlen m' = zlen m.
Proof.
  intros Hset. induction n as [|n IH]; intros j m m2 x HP H; cbn [idx_loop] in H.
  - injection H as <-. eauto.
  - bind_inv H. pose proof (get_row_range _ _ _ Hx) as Hj.
    apply get_row_Ok in Hx. destruct Hx as [_ Hx].
    apply put_row_Ok in Hx0. destruct Hx0 as [_ ->].
    rewrite zlen_app in Hj. unfold zlen in Hj. cbn [length] in Hj.
    destruct (Nat.lt_ge_cases (Z.to_nat j) (length m)) as [Hlt|Hge].
    + rewrite nth_error_app1 in Hx by exact Hlt.
      rewrite replace_nth_app1 in H by exact Hlt.
      apply IH in H.
      * destruct H as (m' & x' & -> & HP' & Hl). exists m', x'.
        rewrite zlen_replace_nth in Hl. auto.
      * apply Forall_replace_nth_all; [exact HP|]. apply Hset.
        rewrite Forall_forall in HP. apply HP. eapply nth_error_In; eauto.
    + assert (Hjm : Z.to_nat j = length m) by lia.
      rewrite Hjm, nth_error_app2, Nat.sub_diag in Hx by lia.
      cbn [nth_error] in Hx. injection Hx as <-.
      rewrite Hjm in H. rewrite (replace_nth_app m x) in H.
      apply IH in H; [|exact HP]. exact H.
Qed.

Section SpareLemmas.

Variable spare : erow.

Lemma editorDelRow_spare_Forall (P : erow -> Prop) (E E' : editorConfig) (at_ : Z) :
  (forall r v, P r -> P (set_idx r v)) ->
  0 <= numrows E <= zlen (row E) -> Forall P (row E) ->
  editorDelRow_spare spare E at_ = Ok E' ->
  0 <= numrows E' <= zlen (row E') /\ Forall P (row E').
Proof.
  intros Hset Hn Hinv H. unfold editorDelRow_spare in H. bind_inv H. injection H as <-.
  unfold editorDelRow in Hx. cbn [numrows row set_rows dirty] in Hx.
  destruct (Z.ltb_spec at_ 0); cbn [orb] in Hx;
    [injection Hx as <-; cbn [row set_rows]; rewrite removelast_last; split; auto|].
  destruct (Z.geb_spec at_ (numrows E));
    [injection Hx as <-; cbn [row set_rows]; rewrite removelast_last; split; auto|].
  bind_inv Hx. injection Hx as <-.
  cbn [row numrows set_rows set_numrows set_dirty].
  apply memmove_rows_snoc in Hx0; try lia.
  destruct Hx0 as (m & -> & Hm).
  pose proof (Forall_memmove_rows _ _ _ _ _ _ Hinv Hm) as H1.
  pose proof (memmove_rows_length _ _ _ _ _ Hm) as L1.
  apply (idx_loop_snoc P Hset) in Hx1; [|exact H1].
  destruct Hx1 as (m' & x' & -> & H2 & L2).
  rewrite removelast_last.
  split; cbn [row numrows set_rows set_numrows set_dirty]; [lia | exact H2].
Qed.

Lemma editorDelRow_spare_inv (E E' : editorConfig) (at_ : Z) :
  array_inv E -> editorDelRow_spare spare E at_ = Ok E' -> array_inv E'.
Proof.
  intros [Hn Hinv] H.
  exact (editorDelRow_spare_Forall row_inv E E' at_ row_inv_set_idx Hn Hinv H).
Qed.

Lemma editorDelChar_spare_inv (E E' : editorConfig) :
  array_inv E -> editorDelChar_spare spare E = Ok E' -> array_inv E'.
Proof.
  intros Hinv H. unfold editorDelChar_spare in H.
  destruct (cy E =? numrows E); [now injection H as <-|].
  destruct ((cx E =? 0) && (cy E =? 0)); [now injection H as <-|].
  bind_inv H. destruct (cx E >? 0).
  - bind_inv H. injection H as <-.
    destruct Hinv as [Hn Hinv].
    apply editorRowDelChar_inv in Hx0; [|exact Hinv].
    destruct Hx0 as (H1 & L1 & N1 & _).
    split; cbn [row numrows set_cx]; [lia | exact H1].
  - bind_inv H. injection H as <-.
    destruct Hinv as [Hn Hinv].
    apply editorRowAppendString_inv in Hx1; [|exact Hinv].
    cbn [row numrows set_cx] in Hx1. destruct Hx1 as (H1 & L1 & N1 & _).
    apply editorDelRow_spare_inv in Hx2; [|split; [lia | exact H1]].
    eapply array_inv_frame; [| |exact Hx2]; reflexivity.
Qed.

End SpareLemmas.

(** *** The other operations *)

Lemma editorInsertChar_inv (E E' : editorConfig) (c : Z) :
  array_inv E -> editorInsertChar E c = Ok E' -> array_inv E'.
Proof.
  intros Hinv H. unfold editorInsertChar in H. bind_inv H. injection H as <-.
  assert (H1 : array_inv x).
  { destruct (cy E =? numrows E); [|now injection Hx as <-].
    eapply editorInsertRow_inv; eauto. }
  destruct H1 as [Hn H1].
  apply editorRowInsertChar_inv in Hx0; [|exact H1].
  destruct Hx0 as (H2 & L2 & N2 & _).
  split; cbn [row numrows set_cx]; [lia | exact H2].
Qed.

Lemma editorInsertNewline_inv (E E' : editorConfig) :
  array_inv E -> editorInsertNewline E = Ok E' -> array_inv E'.
Proof.
  intros Hinv H. unfold editorInsertNewline in H. bind_inv H. injection H as <-.
  assert (H1 : array_inv x).
  { destruct (cx E =? 0).
    - eapply editorInsertRow_inv; eauto.
    - bind_inv Hx.
      apply editorInsertRow_inv in Hx2; [|exact Hinv].
      destruct Hx2 as [Hn2 H2].
      apply put_row_Ok in Hx5. destruct Hx5 as [_ ->].
      apply truncate_bytes_Ok in Hx4.
      destruct (edit_row_inv _ _ _ _ _ _ H2 Hx3 Hx4 Hx) as (H3 & L3 & N3 & _).
      split; [lia | exact H3]. }
  eapply array_inv_frame; [| |exact H1]; reflexivity.
Qed.

Lemma editorUpdateRow_array (E E' : editorConfig) (slot : Z) :
  array_inv E -> editorUpdateRow E slot = Ok E' -> array_inv E'.
Proof.
  intros [Hn Hinv] H. apply editorUpdateRow_inv in H.
  - destruct H as (H1 & L1 & N1 & _). split; [lia | exact H1].
  - intros j a Hj _. rewrite Forall_forall in Hinv. apply Hinv.
    eapply nth_error_In; eauto.
  - intros r Hr. apply get_row_Ok in Hr. destruct Hr as [_ Hr].
    rewrite Forall_forall in Hinv. apply (Hinv r (nth_error_In _ _ Hr)).
Qed.

Lemma editorUpdateSyntax_array (E E' : editorConfig) (slot : Z) :
  array_inv E -> editorUpdateSyntax E slot = Ok E' ->
  array_inv E' /\ syntax E' = syntax E.
Proof.
  intros [Hn Hinv] H. apply editorUpdateSyntax_inv in H.
  - destruct H as (H1 & L1 & N1 & S1). split; [split; [lia | exact H1] | exact S1].
  - now apply Forall_row_inv_text.
  - now apply Forall_row_inv_except.
Qed.

Lemma update_all_loop_inv (n : nat) :
  forall (filerow : Z) (E E' : editorConfig),
    array_inv E -> update_all_loop n filerow E = Ok E' -> array_inv E'.
Proof.
  induction n as [|n IH]; intros filerow E E' Hinv H; cbn [update_all_loop] in H.
  - now injection H as <-.
  - bind_inv H. apply editorUpdateSyntax_array in Hx; [|exact Hinv].
    apply (IH _ _ _ (proj1 Hx) H).
Qed.

Lemma editorSelectSyntaxHighlight_inv (E E' : editorConfig) :
  array_inv E -> editorSelectSyntaxHighlight E = Ok E' -> array_inv E'.
Proof.
  intros Hinv H. unfold editorSelectSyntaxHighlight in H.
  cbn [filename set_syntax] in H.
  destruct (filename E) as [fname|];
    [|injection H as <-; eapply array_inv_frame; [| |exact Hinv]; reflexivity].
  destruct (select_entry HLDB fname (strrchr fname DOT)) as [syn|];
    [|injection H as <-; eapply array_inv_frame; [| |exact Hinv]; reflexivity].
  apply update_all_loop_inv in H; [exact H|].
  eapply array_inv_frame; [| |exact Hinv]; reflexivity.
Qed.

Lemma open_loop_inv (ls : list (list ascii)) :
  forall (E E' : editorConfig),
    array_inv E -> open_loop ls E = Ok E' -> array_inv E'.
Proof.
  induction ls as [|l ls IH]; intros E E' Hinv H; cbn [open_loop] in H.
  - now injection H as <-.
  - bind_inv H. apply editorInsertRow_inv in Hx; [|exact Hinv].
    exact (IH _ _ Hx H).
Qed.

Lemma editorOpen_inv (E E' : editorConfig) (fname : list ascii)
  (ls : list (list ascii)) :
  array_inv E -> editorOpen E fname ls = Ok E' -> array_inv E'.
Proof.
  intros Hinv H. unfold editorOpen in H. bind_inv H. injection H as <-.
  apply editorSelectSyntaxHighlight_inv in Hx;
    [|eapply array_inv_frame; [| |exact Hinv]; reflexivity].
  apply open_loop_inv in Hx0; [|exact Hx].
  eapply array_inv_frame; [| |exact Hx0]; reflexivity.
Qed.

Lemma array_inv_set_hl (E : editorConfig) (k : Z) (r : erow) (h : list editorHighlight) :
  array_inv E -> get_row (row E) k = Ok r -> zlen h = zlen (hl r) ->
  array_inv (set_rows E (replace_nth (Z.to_nat k) (row E) (set_hl r h))).
Proof.
  intros [Hn Hinv] Hr Hh. apply get_row_Ok in Hr. destruct Hr as [_ Hr].
  split; cbn [row numrows set_rows]; [now rewrite zlen_replace_nth|].
  apply Forall_replace_nth_all; [exact Hinv|].
  rewrite Forall_forall in Hinv. pose proof (Hinv r (nth_error_In _ _ Hr)) as Hri.
  apply row_inv_set_hl; [exact Hri|]. destruct Hri as [[_ Hl] _]. congruence.
Qed.

Lemma find_restore_inv (E E' : editorConfig) (S : findState) :
  array_inv E -> find_restore E S = Ok E' -> array_inv E'.
Proof.
  intros Hinv H. unfold find_restore in H.
  destruct (saved_hl S) as [saved|]; [|now injection H as <-].
  bind_inv H. injection H as <-.
  apply put_row_Ok in Hx1. destruct Hx1 as [_ ->].
  apply memcpy_hl_Ok in Hx0. apply array_inv_set_hl; tauto.
Qed.

Lemma editorFindCallback_array (E E' : editorConfig) (S S' : findState)
  (query : list ascii) (key : Z) :
  array_inv E -> editorFindCallback E S query key = Ok (E', S') -> array_inv E'.
Proof.
  intros Hinv H. unfold editorFindCallback in H. bind_inv H.
  apply find_restore_inv in Hx; [|exact Hinv].
  destruct (is_find_exit key); [now injection H as <- _|].
  bind_inv H. destruct (snd x0) as [[current off]|]; [|now injection H as <- _].
  bind_inv H. injection H as <- _.
  apply put_row_Ok in Hx4. destruct Hx4 as [_ Hx4].
  cbn [row set_rows set_cx set_cy set_rowoff] in Hx4. subst x4.
  apply memset_inv in Hx3. destruct Hx3 as (H0 & H1 & H2 & ->).
  pose proof (array_inv_set_hl x current x1 (splice (hl x1) off HL_MATCH (strlen query))
                Hx Hx1 (zlen_splice _ _ _ _ H0 H1 H2)) as Hd.
  eapply array_inv_frame; [| |exact Hd]; reflexivity.
Qed.

Lemma initEditor_inv (rows cols : Z) : array_inv (initEditor rows cols).
Proof. split; [cbn; lia | constructor]. Qed.

Lemma apply_op_spare_inv (spare : erow) (o : op) (E E' : editorConfig)
  (S S' : findState) :
  array_inv E -> apply_op_spare spare o (E, S) = Ok (E', S') -> array_inv E'.
Proof.
  intros Hinv H. destruct o; cbn [apply_op_spare apply_op fst snd] in H;
    try (bind_inv H; injection H as <- _).
  - eapply editorOpen_inv; eauto.
  - eapply editorSelectSyntaxHighlight_inv; [|eauto].
    eapply array_inv_frame; [| |exact Hinv]; reflexivity.
  - eapply editorInsertRow_inv; eauto.
  - eapply editorDelRow_spare_inv; eauto.
  - destruct Hinv as [Hn Hinv]. apply editorRowInsertChar_inv in Hx; [|exact Hinv].
    destruct Hx as (H1 & L1 & N1 & _). split; [lia | exact H1].
  - destruct Hinv as [Hn Hinv]. apply editorRowAppendString_inv in Hx; [|exact Hinv].
    destruct Hx as (H1 & L1 & N1 & _). split; [lia | exact H1].
  - destruct Hinv as [Hn Hinv]. apply editorRowDelChar_inv in Hx; [|exact Hinv].
    destruct Hx as (H1 & L1 & N1 & _). split; [lia | exact H1].
  - eapply editorUpdateRow_array; eauto.
  - eapply editorUpdateSyntax_array; eauto.
  - eapply editorInsertChar_inv; eauto.
  - eapply editorInsertNewline_inv; eauto.
  - eapply editorDelChar_spare_inv; eauto.
  - apply editorMoveCursor_frame in Hx. destruct Hx as (Hr & Hn & _).
    eapply array_inv_frame; eauto.
  - destruct (editorScroll_frame E) as [Hr Hn].
    eapply array_inv_frame; eauto.
  - eapply editorFindCallback_array; eauto.
  - eapply array_inv_frame; [| |exact Hinv]; reflexivity.
Qed.

Lemma run_spare_inv (spare : erow) (ops : list op) :
  forall (E E' : editorConfig) (S S' : findState),
    array_inv E -> run_spare spare ops (E, S) = Ok (E', S') -> array_inv E'.
Proof.
  induction ops as [|o ops IH]; intros E E' S S' Hinv H; cbn [run_spare] in H.
  - now injection H as <- _.
  - bind_inv H. destruct x as [E1 S1].
    apply apply_op_spare_inv in Hx; [|exact Hinv]. exact (IH _ _ _ _ Hx H).
Qed.
(** *** A row deletion returns *)

Lemma idx_loop_total (n : nat) :
  forall (j : Z) (rows : list erow),
    0 <= j -> j + Z.of_nat n <= zlen rows ->
    exists rows', idx_loop n j rows = Ok rows'.
Proof.
  induction n as [|n IH]; intros j rows Hj Hn; cbn [idx_loop]; [eauto|].
  destruct (get_row_in_range rows j) as [r Hr]; [lia|].
  rewrite Hr. cbn [bind]. rewrite put_row_in_range by lia. cbn [bind].
  apply IH; [lia|]. rewrite zlen_replace_nth. lia.
Qed.

(** The index loop changes nothing but [idx] fields. *)
Lemma idx_loop_map {B : Type} (f : erow -> B) :
  (forall r v, f (set_idx r v) = f r) ->
  forall (n : nat) (j : Z) (rows rows' : list erow),
    idx_loop n j rows = Ok rows' -> map f rows' = map f rows.
Proof.
  intros Hf. induction n as [|n IH]; intros j rows rows' H; cbn [idx_loop] in H.
  - now injection H as <-.
  - bind_inv H. apply get_row_Ok in Hx. destruct Hx as [_ Hx].
    apply put_row_Ok in Hx0. destruct Hx0 as [_ ->].
    apply IH in H. rewrite H. apply (map_replace_nth f _ _ _ x Hx). apply Hf.
Qed.

Lemma firstn_skipn_swap {A : Type} (l : list A) :
  forall n m, firstn m (skipn n l) = skipn n (firstn (n + m) l).
Proof.
  induction l as [|a l IH]; intros n m.
  - destruct n, m; reflexivity.
  - destruct n as [|n]; [reflexivity|].
    cbn [skipn firstn Nat.add]. apply IH.
Qed.

Section SpareReturns.

Variable spare : erow.

(** [editorDelRow] with a row to delete, in an array that holds the
    document: the call returns, the array is as long as before, and
    but for the [idx] fields the document is the old one without the
    row. *)
Lemma editorDelRow_spare_total (E : editorConfig) (at_ : Z) :
  numrows E <= zlen (row E) -> 0 <= at_ < numrows E ->
  exists rows',
    editorDelRow_spare spare E at_
    = Ok (set_dirty (set_numrows (set_rows E rows') (numrows E - 1)) (dirty E + 1)) /\
    zlen rows' = zlen (row E) /\
    forall (B : Type) (f : erow -> B),
      (forall r v, f (set_idx r v) = f r) ->
      map f (firstn (Z.to_nat (numrows E - 1)) rows')
      = delete_at (Z.to_nat at_) (map f (doc_rows E)).
Proof.
  intros Hn Hat. unfold editorDelRow_spare, editorDelRow.
  cbn [numrows row set_rows dirty].
  destruct (Z.ltb_spec at_ 0); [lia|].
  destruct (Z.geb_spec at_ (numrows E)); [lia|]. cbn [orb].
  set (n := numrows E - at_ - 1).
  assert (Hm : exists m, memmove_rows (row E) at_ (at_ + 1) n = Ok m /\
                         zlen m = zlen (row E) /\
                         firstn (Z.to_nat (numrows E - 1)) m
                         = delete_at (Z.to_nat at_) (doc_rows E)).
  { unfold memmove_rows, delete_at, doc_rows.
    destruct (Z.leb_spec n 0) as [Hz|Hz].
    - exists (row E). split; [reflexivity|]. split; [reflexivity|].
      assert (Hlast : at_ = numrows E - 1) by (unfold n in Hz; lia).
      rewrite Hlast.
      replace (S (Z.to_nat (numrows E - 1))) with (Z.to_nat (numrows E)) by lia.
      rewrite skipn_all2 by (rewrite length_firstn; unfold zlen in Hn; lia).
      rewrite app_nil_r, firstn_firstn. f_equal. lia.
    - destruct (Z.ltb_spec (at_ + 1) 0); [lia|].
      destruct (Z.ltb_spec (zlen (row E)) (at_ + 1 + n)); [unfold n in *; lia|].
      destruct (Z.ltb_spec at_ 0); [lia|].
      destruct (Z.ltb_spec (zlen (row E)) (at_ + n)); [unfold n in *; lia|].
      cbn [orb]. eexists. split; [reflexivity|]. split.
      + unfold zlen in *. rewrite !length_app, !length_firstn, !length_skipn.
        unfold n in *. lia.
      + rewrite firstn_app, firstn_firstn, length_firstn.
        replace (Init.Nat.min (Z.to_nat (numrows E - 1)) (Z.to_nat at_))
          with (Z.to_nat at_) by lia.
        rewrite firstn_app, firstn_firstn, length_firstn, length_skipn.
        unfold zlen in *.
        replace (Z.to_nat (numrows E - 1)
                 - Init.Nat.min (Z.to_nat at_) (length (row E)))%nat
          with (Z.to_nat n) by (unfold n; lia).
        rewrite Nat.min_id.
        replace (Z.to_nat n
                 - Init.Nat.min (Z.to_nat n) (length (row E) - Z.to_nat (at_ + 1)))%nat
          with O by (unfold n in *; lia).
        cbn [firstn]. rewrite app_nil_r.
        rewrite firstn_firstn.
        replace (Init.Nat.min (Z.to_nat at_) (Z.to_nat (numrows E))) with (Z.to_nat at_)
          by lia.
        f_equal. rewrite firstn_skipn_swap.
        replace (Z.to_nat (at_ + 1)) with (S (Z.to_nat at_)) by lia.
        f_equal. f_equal. unfold n. lia. }
  destruct Hm as (m & Hm & Lm & Hdoc).
  assert (HmL : memmove_rows (row E ++ [spare]) at_ (at_ + 1) n = Ok (m ++ [spare])).
  { revert Hm. unfold memmove_rows.
    destruct (Z.leb_spec n 0); [now intros [= <-]|].
    destruct (Z.ltb_spec (at_ + 1) 0); [lia|].
    destruct (Z.ltb_spec (zlen (row E)) (at_ + 1 + n)); [discriminate|].
    destruct (Z.ltb_spec at_ 0); [lia|].
    destruct (Z.ltb_spec (zlen (row E)) (at_ + n)); [discriminate|].
    rewrite zlen_app.
    destruct (Z.ltb_spec (zlen (row E) + zlen [spare]) (at_ + 1 + n));
      [pose proof (zlen_nonneg [spare]); lia|].
    destruct (Z.ltb_spec (zlen (row E) + zlen [spare]) (at_ + n));
      [pose proof (zlen_nonneg [spare]); lia|].
    cbn [orb]. intros [= <-]. f_equal. unfold zlen in *.
    rewrite firstn_app, skipn_app, firstn_app, skipn_app, length_skipn.
    replace (Z.to_nat at_ - length (row E))%nat with O by lia.
    replace (Z.to_nat n - (length (row E) - Z.to_nat (at_ + 1)))%nat with O by lia.
    replace (Z.to_nat (at_ + 1) - length (row E))%nat with O by lia.
    replace (Z.to_nat (at_ + n) - length (row E))%nat with O by lia.
    cbn [firstn skipn]. rewrite !app_nil_r, <- !app_assoc. reflexivity. }
  rewrite HmL. cbn [bind].
  destruct (idx_loop_total (Z.to_nat (numrows E + 1 - (at_ + 1))) (at_ + 1) (m ++ [spare]))
    as [m2 Hloop]; [lia | rewrite zlen_app; unfold zlen at 2; cbn [length]; lia|].
  rewrite Hloop. cbn [bind row set_rows set_numrows set_dirty].
  pose proof (idx_loop_length _ _ _ _ Hloop) as L2.
  destruct (idx_loop_snoc (fun _ => True) (fun _ _ _ => I) _ _ m _ spare
              ltac:(apply Forall_forall; auto) Hloop) as (m' & x' & Hm2 & _ & Lm').
  subst m2. rewrite removelast_last.
  exists m'. split; [reflexivity|]. split; [lia|].
  intros B f Hf.
  pose proof (idx_loop_map f Hf _ _ _ _ Hloop) as Hmap.
  rewrite !map_app in Hmap. apply app_inj_tail_iff in Hmap.
  rewrite <- firstn_map, (proj1 Hmap), firstn_map, Hdoc.
  unfold delete_at. rewrite map_app, firstn_map, skipn_map. reflexivity.
Qed.

End SpareReturns.
(** *** The two readings of the row deletion *)

Lemma memmove_rows_app (rows m t : list erow) (dst src n : Z) :
  memmove_rows rows dst src n = Ok m ->
  memmove_rows (rows ++ t) dst src n = Ok (m ++ t).
Proof.
  unfold memmove_rows.
  destruct (Z.leb_spec n 0); [now intros [= <-]|].
  destruct (Z.ltb_spec src 0); [discriminate|].
  destruct (Z.ltb_spec (zlen rows) (src + n)); [discriminate|].
  destruct (Z.ltb_spec dst 0); [discriminate|].
  destruct (Z.ltb_spec (zlen rows) (dst + n)); [discriminate|].
  rewrite zlen_app. pose proof (zlen_nonneg t).
  destruct (Z.ltb_spec (zlen rows + zlen t) (src + n)); [lia|].
  destruct (Z.ltb_spec (zlen rows + zlen t) (dst + n)); [lia|].
  cbn [orb]. intros [= <-]. f_equal. unfold zlen in *.
  rewrite firstn_app, skipn_app, firstn_app, skipn_app, length_skipn.
  replace (Z.to_nat dst - length rows)%nat with O by lia.
  replace (Z.to_nat n - (length rows - Z.to_nat src))%nat with O by lia.
  replace (Z.to_nat src - length rows)%nat with O by lia.
  replace (Z.to_nat (dst + n) - length rows)%nat with O by lia.
  cbn [firstn skipn]. rewrite !app_nil_r, <- !app_assoc. reflexivity.
Qed.

Lemma idx_loop_app_tail (t : list erow) (n : nat) :
  forall (j : Z) (m m2 : list erow),
    idx_loop n j m = Ok m2 -> idx_loop n j (m ++ t) = Ok (m2 ++ t).
Proof.
  induction n as [|n IH]; intros j m m2 H; cbn [idx_loop] in *.
  - now injection H as <-.
  - bind_inv H. pose proof (get_row_range _ _ _ Hx) as Hj.
    apply get_row_Ok in Hx. destruct Hx as [Hj0 Hx].
    apply put_row_Ok in Hx0. destruct Hx0 as [_ ->].
    assert (Hg : get_row (m ++ t) j = Ok x).
    { apply get_row_Ok. split; [exact Hj0|].
      rewrite nth_error_app1 by (unfold zlen in Hj; lia). exact Hx. }
    rewrite Hg. cbn [bind].
    rewrite put_row_in_range by (rewrite zlen_app; pose proof (zlen_nonneg t); lia).
    cbn [bind]. rewrite replace_nth_app1 by (unfold zlen in Hj; lia).
    now apply IH.
Qed.

Lemma map_replace_nth_out {A B : Type} (f : A -> B) (n : nat) (l : list A) (x : A) :
  map f (replace_nth n l x) = replace_nth n (map f l) (f x).
Proof.
  revert n. induction l as [|a l IH]; intros [|n]; cbn [replace_nth map]; auto.
  now rewrite IH.
Qed.

(** A line is replaced and the next one removed. *)
Lemma delete_after_replace {A : Type} (l : list A) (x : A) (y : Z) :
  0 < y -> (Z.to_nat y < length l)%nat ->
  delete_at (Z.to_nat y) (replace_nth (Z.to_nat (y - 1)) l x)
  = firstn (Z.to_nat (y - 1)) l ++ x :: skipn (Z.to_nat (y + 1)) l.
Proof.
  intros Hy Hlen. unfold delete_at.
  replace (Z.to_nat y) with (S (Z.to_nat (y - 1))) in * by lia.
  replace (Z.to_nat (y + 1)) with (S (S (Z.to_nat (y - 1)))) by lia.
  generalize dependent (Z.to_nat (y - 1)). clear. intros k.
  revert l. induction k as [|k IH]; intros l Hlen.
  - destruct l as [|a [|b l]]; cbn [length] in Hlen; try lia. reflexivity.
  - destruct l as [|a l]; cbn [length] in Hlen; [lia|].
    cbn [replace_nth firstn skipn app]. f_equal. apply IH. lia.
Qed.

Section SpareSame.

Variable spare : erow.

(** Whenever the row deletion returns without the slot past the array,
    it returns the same with it. *)
Lemma editorDelRow_spare_mono (E E' : editorConfig) (at_ : Z) :
  editorDelRow E at_ = Ok E' -> editorDelRow_spare spare E at_ = Ok E'.
Proof.
  intros H. unfold editorDelRow_spare, editorDelRow in *.
  cbn [numrows row set_rows dirty].
  destruct ((at_ <? 0) || (at_ >=? numrows E)).
  - injection H as <-. cbn [bind row set_rows]. rewrite removelast_last.
    destruct E; reflexivity.
  - destruct (memmove_rows (row E) at_ (at_ + 1) (numrows E - at_ - 1)) as [m|] eqn:Hm;
      cbn [bind] in H; [|discriminate].
    destruct (idx_loop _ _ m) as [m2|] eqn:Hloop; cbn [bind] in H; [|discriminate].
    injection H as <-.
    rewrite (memmove_rows_app _ _ [spare] _ _ _ Hm). cbn [bind].
    rewrite (idx_loop_app_tail [spare] _ _ _ _ Hloop).
    cbn [bind row set_rows set_numrows set_dirty].
    rewrite removelast_last. reflexivity.
Qed.

Lemma editorDelChar_spare_mono (E E' : editorConfig) :
  editorDelChar E = Ok E' -> editorDelChar_spare spare E = Ok E'.
Proof.
  intros H. unfold editorDelChar_spare, editorDelChar in *.
  destruct (cy E =? numrows E); [exact H|].
  destruct ((cx E =? 0) && (cy E =? 0)); [exact H|].
  destruct (get_row (row E) (cy E)) as [r|]; cbn [bind] in *; [|discriminate].
  destruct (cx E >? 0); [exact H|].
  destruct (get_row (row E) (cy E - 1)) as [p|]; cbn [bind] in *; [|discriminate].
  destruct (editorRowAppendString _ _ _ _) as [E1|]; cbn [bind] in *; [|discriminate].
  destruct (editorDelRow E1 (cy E1)) as [E2|] eqn:Hdel; cbn [bind] in *; [|discriminate].
  rewrite (editorDelRow_spare_mono _ _ _ Hdel). exact H.
Qed.

Lemma apply_op_spare_mono (o : op) (st st' : editorConfig * findState) :
  apply_op o st = Ok st' -> apply_op_spare spare o st = Ok st'.
Proof.
  destruct o; cbn [apply_op apply_op_spare]; auto; intros H.
  - destruct (editorDelRow (fst st) at_) as [E1|] eqn:Hdel; cbn [bind] in *;
      [|discriminate].
    now rewrite (editorDelRow_spare_mono _ _ _ Hdel).
  - destruct (editorDelChar (fst st)) as [E1|] eqn:Hdel; cbn [bind] in *;
      [|discriminate].
    now rewrite (editorDelChar_spare_mono _ _ Hdel).
Qed.

Lemma run_spare_mono (ops : list op) :
  forall st st', run ops st = Ok st' -> run_spare spare ops st = Ok st'.
Proof.
  induction ops as [|o ops IH]; intros st st' H; cbn [run run_spare] in *; [exact H|].
  destruct (apply_op o st) as [st1|] eqn:Hop; cbn [bind] in *; [|discriminate].
  rewrite (apply_op_spare_mono _ _ _ Hop). cbn [bind]. now apply IH.
Qed.

(** Away from the start of a row that has a row above it,
    [editorDelChar] deletes no row. *)
Lemma editorDelChar_spare_same (E : editorConfig) :
  0 < cx E \/ cy E = numrows E \/ (cx E = 0 /\ cy E = 0) ->
  editorDelChar_spare spare E = editorDelChar E.
Proof.
  intros Hnj. unfold editorDelChar_spare, editorDelChar.
  destruct (Z.eqb_spec (cy E) (numrows E)); [reflexivity|].
  destruct (Z.eqb_spec (cx E) 0); destruct (Z.eqb_spec (cy E) 0); cbn [andb];
    try reflexivity;
    destruct (get_row (row E) (cy E)); cbn [bind]; try reflexivity;
    destruct (Z.gtb_spec (cx E) 0); try reflexivity; lia.
Qed.

(** [editorDelChar] at the start of a row that has a row above it: the
    call returns, the row is appended to the one above and removed,
    and the cursor is at the seam. *)
Lemma editorDelChar_spare_join (E : editorConfig) (a b : list ascii) :
  doc_ok E -> cx E = 0 -> 0 < cy E < numrows E ->
  nth_error (lines E) (Z.to_nat (cy E - 1)) = Some a ->
  nth_error (lines E) (Z.to_nat (cy E)) = Some b ->
  exists E',
    editorDelChar_spare spare E = Ok E' /\
    numrows E' = numrows E - 1 /\ cy E' = cy E - 1 /\ cx E' = zlen a /\
    map chars (doc_rows E')
    = firstn (Z.to_nat (cy E - 1)) (lines E) ++ (a ++ b)
        :: skipn (Z.to_nat (cy E + 1)) (lines E) /\
    zlen (row E') = zlen (row E) /\ Forall row_ok (row E') /\
    rowoff E' = rowoff E /\ screenrows E' = screenrows E /\
    dirty E' = dirty E + 2.
Proof.
  intros Hdoc Hx0 Hrange Ha Hb. pose proof Hdoc as (Hn & _ & _).
  destruct (get_row_in_range (row E) (cy E) ltac:(lia)) as [r Hr].
  destruct (get_row_in_range (row E) (cy E - 1) ltac:(lia)) as [p Hp].
  destruct (doc_ok_row E _ r Hdoc Hr) as [[[Hsz _] _] _].
  destruct (doc_ok_row E _ p Hdoc Hp) as [[[Hszp _] _] _].
  assert (Hpa : chars p = a).
  { rewrite nth_error_lines in Ha. pose proof Hp as Hp'. apply get_row_Ok in Hp'.
    destruct Hp' as [_ Hp']. rewrite Hp' in Ha. now injection Ha. }
  assert (Hrb : chars r = b).
  { rewrite nth_error_lines in Hb. pose proof Hr as Hr'. apply get_row_Ok in Hr'.
    destruct Hr' as [_ Hr']. rewrite Hr' in Hb. now injection Hb. }
  unfold editorDelChar_spare.
  destruct (Z.eqb_spec (cy E) (numrows E)); [lia|].
  destruct (Z.eqb_spec (cy E) 0); [lia|]. rewrite andb_false_r.
  rewrite Hr. cbn [bind].
  destruct (Z.gtb_spec (cx E) 0); [lia|].
  rewrite Hp. cbn [bind]. cbv zeta.
  set (E1 := set_cx E (size p)).
  assert (Hd1 : doc_ok E1) by (eapply doc_ok_frame; [| |exact Hdoc]; reflexivity).
  pose proof (zlen_nonneg (chars r)).
  destruct (editorRowAppendString_spec E1 (cy E1 - 1) (chars r) (size r) p Hd1 Hp
              ltac:(lia)) as (rows2 & Hrun2 & Hdoc2 & Hs2).
  rewrite Hrun2. cbn [bind].
  set (E2 := set_dirty (set_rows E1 rows2) (dirty E1 + 1)).
  assert (Hd2 : doc_ok E2) by (eapply doc_ok_frame; [| |exact Hdoc2]; reflexivity).
  pose proof Hd2 as (Hn2 & _ & Hrows2).
  assert (HN2 : numrows E2 = numrows E) by reflexivity.
  assert (HL2 : zlen rows2 = zlen (row E)).
  { change (zlen (row E2) = zlen (row E)). lia. }
  destruct (editorDelRow_spare_total spare E2 (cy E2) ltac:(lia))
    as (rows3 & Hrun3 & L3 & Htext);
    [change (cy E2) with (cy E); lia|].
  rewrite Hrun3. cbn [bind].
  eexists. split; [reflexivity|].
  cbn [numrows cx cy row rowoff screenrows dirty set_cy set_dirty set_numrows set_rows
       set_cx E1 E2 doc_rows].
  split; [reflexivity|]. split; [reflexivity|].
  split; [rewrite <- Hpa; exact Hszp|].
  split.
  - change (map chars (firstn (Z.to_nat (numrows E2 - 1)) rows3)
            = firstn (Z.to_nat (cy E - 1)) (lines E) ++ (a ++ b)
                :: skipn (Z.to_nat (cy E + 1)) (lines E)).
    rewrite (Htext _ chars (fun _ _ => eq_refl)).
    unfold doc_rows. rewrite Hn2.
    change (row E2) with rows2.
    rewrite firstn_all2 by (unfold zlen; lia).
    assert (Hc2 : map chars rows2
                  = replace_nth (Z.to_nat (cy E - 1)) (lines E) (a ++ b)).
    { apply (f_equal (map chars)) in Hs2. rewrite !map_map in Hs2.
      cbn [chars strip] in Hs2. fold (map chars rows2) in Hs2.
      etransitivity; [exact Hs2|].
      change (cy E1 - 1) with (cy E - 1). change (row E1) with (row E).
      unfold lines. clear - Hpa Hrb Hsz.
      rewrite map_replace_nth_out. f_equal.
      cbn [chars with_text rendered set_render set_chars].
      rewrite firstn_all2 by (unfold zlen in Hsz; lia). now rewrite Hpa, Hrb. }
    rewrite Hc2. change (cy E2) with (cy E).
    apply delete_after_replace; [lia|].
    unfold lines. rewrite length_map. unfold zlen in Hn. lia.
  - split; [lia|]. split.
    + destruct (editorDelRow_spare_Forall spare row_ok E2 _ (cy E2)
                  (fun r v H => H) ltac:(pose proof (zlen_nonneg (row E2)); lia)
                  Hrows2 Hrun3) as [_ Hok].
      exact Hok.
    + repeat split. lia.
Qed.

End SpareSame.

(* ================================================================= *)
(** ** Calls end with a result or at an access outside a buffer *)

(** *** A call ends with a result or at an access outside a buffer *)

Lemma ends_bind {A B : Type} (Q : A -> Prop) (P : B -> Prop)
  (m : result A) (k : A -> result B) :
  ends_with Q m -> (forall a, m = Ok a -> Q a -> ends_with P (k a)) ->
  ends_with P (bind m k).
Proof. destruct m as [a|f]; cbn [ends_with bind]; auto. Qed.

Lemma ends_impl {A : Type} (P Q : A -> Prop) (m : result A) :
  ends_with P m -> (forall a, m = Ok a -> P a -> Q a) -> ends_with Q m.
Proof. destruct m as [a|f]; cbn [ends_with]; auto. Qed.

Lemma ends_Ok {A : Type} (P : A -> Prop) (m : result A) (a : A) :
  ends_with P m -> m = Ok a -> P a.
Proof. intros H ->. exact H. Qed.

Lemma nf_get_row (rows : list erow) (k : Z) (f : fault) :
  get_row rows k = Fault f -> f <> OutOfFuel.
Proof.
  unfold get_row. destruct (k <? 0); [intros [= <-]; discriminate|].
  destruct (nth_error rows (Z.to_nat k)); [discriminate | intros [= <-]; discriminate].
Qed.

Lemma nf_put_row (rows : list erow) (k : Z) (r : erow) (f : fault) :
  put_row rows k r = Fault f -> f <> OutOfFuel.
Proof.
  unfold put_row. destruct ((k <? 0) || (zlen rows <=? k));
    [intros [= <-]; discriminate | discriminate].
Qed.

Lemma nf_memmove_rows (rows : list erow) (dst src n : Z) (f : fault) :
  memmove_rows rows dst src n = Fault f -> f <> OutOfFuel.
Proof.
  unfold memmove_rows. destruct (n <=? 0); [discriminate|].
  destruct ((src <? 0) || (zlen rows <? src + n)); [intros [= <-]; discriminate|].
  destruct ((dst <? 0) || (zlen rows <? dst + n));
    [intros [= <-]; discriminate | discriminate].
Qed.

Lemma nf_idx_loop (n : nat) :
  forall (j : Z) (rows : list erow) (f : fault),
    idx_loop n j rows = Fault f -> f <> OutOfFuel.
Proof.
  induction n as [|n IH]; intros j rows f H; cbn [idx_loop] in H; [discriminate|].
  destruct (get_row rows j) as [r|g] eqn:Hr; cbn [bind] in H;
    [|injection H as <-; exact (nf_get_row _ _ _ Hr)].
  destruct (put_row rows j (set_idx r (idx r + 1))) as [rows'|g] eqn:Hp; cbn [bind] in H;
    [|injection H as <-; exact (nf_put_row _ _ _ _ Hp)].
  exact (IH _ _ _ H).
Qed.

Lemma nf_memcpy_bytes (s : list ascii) (n : Z) (f : fault) :
  memcpy_bytes s n = Fault f -> f <> OutOfFuel.
Proof.
  unfold memcpy_bytes. destruct ((n <? 0) || (zlen s + 1 <? n));
    [intros [= <-]; discriminate | discriminate].
Qed.

Lemma nf_offset_checked (buf : list ascii) (i : Z) (f : fault) :
  offset_checked buf i = Fault f -> f <> OutOfFuel.
Proof.
  unfold offset_checked. destruct ((i <? 0) || (zlen buf <? i));
    [intros [= <-]; discriminate | discriminate].
Qed.

Lemma nf_truncate_bytes (buf : list ascii) (n : Z) (f : fault) :
  truncate_bytes buf n = Fault f -> f <> OutOfFuel.
Proof.
  unfold truncate_bytes. destruct ((n <? 0) || (zlen buf <? n));
    [intros [= <-]; discriminate | discriminate].
Qed.

Lemma nf_memset {A : Type} (buf : list A) (i : Z) (v : A) (n : Z) (f : fault) :
  memset buf i v n = Fault f -> f <> OutOfFuel.
Proof.
  unfold memset. destruct ((i <? 0) || (n <? 0) || (zlen buf <? i + n));
    [intros [= <-]; discriminate | discriminate].
Qed.

Lemma nf_memcpy_hl (dst src : list editorHighlight) (n : Z) (f : fault) :
  memcpy_hl dst src n = Fault f -> f <> OutOfFuel.
Proof.
  unfold memcpy_hl. destruct ((n <? 0) || (zlen dst <? n) || (zlen src <? n));
    [intros [= <-]; discriminate | discriminate].
Qed.

(** One step of a call: a primitive that answers or ends at an access
    outside a buffer. *)
Ltac prim x H :=
  match goal with
  | |- ends_with _ (bind ?m _) =>
      destruct m as [x|] eqn:H;
      [cbn [bind]
      |cbn [bind ends_with];
       first [exact (nf_get_row _ _ _ H) | exact (nf_put_row _ _ _ _ H)
             | exact (nf_memmove_rows _ _ _ _ _ H) | exact (nf_idx_loop _ _ _ _ H)
             | exact (nf_memcpy_bytes _ _ _ H) | exact (nf_offset_checked _ _ _ H)
             | exact (nf_truncate_bytes _ _ _ H) | exact (nf_memset _ _ _ _ _ H)
             | exact (nf_memcpy_hl _ _ _ _ H)]]
  end.

Lemma idx_ge_map (a b : list erow) : map idx a = map idx b -> idx_ge b -> idx_ge a.
Proof.
  intros Hm Hb k r Hk.
  assert (H : nth_error (map idx a) k = Some (idx r))
    by (rewrite nth_error_map, Hk; reflexivity).
  rewrite Hm, nth_error_map in H.
  destruct (nth_error b k) as [r0|] eqn:H0; [|discriminate].
  cbn [option_map] in H. injection H as <-. exact (Hb k r0 H0).
Qed.

Lemma map_idx_replace (rows : list erow) (k : nat) (r r' : erow) :
  nth_error rows k = Some r -> idx r' = idx r ->
  map idx (replace_nth k rows r') = map idx rows.
Proof. intros Hk Hi. exact (map_replace_nth idx k rows r' r Hk Hi). Qed.

Lemma Forall_text_replace (rows : list erow) (k : nat) (r r' : erow) :
  Forall text_ok rows -> nth_error rows k = Some r -> strip r' = strip r ->
  Forall text_ok (replace_nth k rows r').
Proof.
  intros HF Hk Hs. apply Forall_replace_nth_all; [exact HF|].
  rewrite Forall_forall in HF. pose proof (HF r (nth_error_In _ _ Hk)) as Ht.
  unfold text_ok in *. injection Hs as _ -> -> -> ->. exact Ht.
Qed.

Lemma editorUpdateSyntax_rec_eq (depth : nat) (E : editorConfig) (slot : Z) :
  editorUpdateSyntax_rec depth E slot =
  (r <- get_row (row E) slot ;;
   let hl0 := repeat HL_NORMAL (Z.to_nat (rsize r)) in
   rows0 <- put_row (row E) slot (set_hl r hl0) ;;
   match syntax E with
   | None => Ok (set_rows E rows0)
   | Some syn =>
       in_comment <- (if idx r >? 0
                      then p <- get_row rows0 (idx r - 1) ;; Ok (hl_open_comment p)
                      else Ok false) ;;
       s <- row_scan syn r in_comment ;;
       let changed := negb (Bool.eqb (hl_open_comment r) (sc_in_comment s)) in
       rows1 <- put_row rows0 slot
                  (set_hl_open_comment (set_hl r (sc_hl s)) (sc_in_comment s)) ;;
       let E1 := set_rows E rows1 in
       if changed && (idx r + 1 <? numrows E)
       then match depth with
            | O => Fault OutOfFuel
            | S depth' => editorUpdateSyntax_rec depth' E1 (idx r + 1)
            end
       else Ok E1
   end).
Proof. destruct depth; reflexivity. Qed.

Lemma editorUpdateSyntax_rec_step (depth : nat) (E : editorConfig) (slot : Z) :
  (forall d E1 slot1, depth = S d ->
     Forall text_ok (row E1) -> idx_ge (row E1) ->
     numrows E1 - slot1 - 1 <= Z.of_nat d ->
     ends_with (fun E' => map idx (row E') = map idx (row E1))
       (editorUpdateSyntax_rec d E1 slot1)) ->
  Forall text_ok (row E) -> idx_ge (row E) ->
  numrows E - slot - 1 <= Z.of_nat depth ->
  ends_with (fun E' => map idx (row E') = map idx (row E))
    (editorUpdateSyntax_rec depth E slot).
Proof.
  intros IH Htext Hge Hd. rewrite editorUpdateSyntax_rec_eq.
  prim r Hr. cbv zeta.
  pose proof (get_row_range _ _ _ Hr) as Hslot.
  pose proof Hr as Hnth. apply get_row_Ok in Hnth. destruct Hnth as [_ Hnth].
  rewrite put_row_in_range by exact Hslot. cbn [bind].
  destruct (syntax E) as [syn|];
    [|cbn [ends_with row set_rows]; apply (map_idx_replace _ _ r); auto].
  assert (Hrs : rsize r = zlen (render r))
    by (rewrite Forall_forall in Htext; apply (Htext r (nth_error_In _ _ Hnth))).
  assert (Hscan : forall seed,
            ends_with (fun E' => map idx (row E') = map idx (row E))
              (s <- row_scan syn r seed ;;
               rows1 <- put_row
                          (replace_nth (Z.to_nat slot) (row E)
                             (set_hl r (repeat HL_NORMAL (Z.to_nat (rsize r)))))
                          slot
                          (set_hl_open_comment (set_hl r (sc_hl s)) (sc_in_comment s)) ;;
               (if negb (eqb (hl_open_comment r) (sc_in_comment s))
                   && (idx r + 1 <? numrows E)
                then match depth with
                     | O => Fault OutOfFuel
                     | S depth' =>
                         editorUpdateSyntax_rec depth' (set_rows E rows1) (idx r + 1)
                     end
                else Ok (set_rows E rows1)))).
  { intros seed.
    destruct (row_scan_ok syn r seed Hrs) as (s & Hs & Hl). rewrite Hs. cbn [bind].
    rewrite put_row_in_range by (rewrite zlen_replace_nth; exact Hslot).
    cbn [bind]. rewrite replace_nth_twice.
    pose proof (Hge _ _ Hnth) as Hi.
    destruct (negb (eqb (hl_open_comment r) (sc_in_comment s))
              && (idx r + 1 <? numrows E)) eqn:Hc;
      [|cbn [ends_with row set_rows]; apply (map_idx_replace _ _ r); auto].
    apply andb_prop in Hc. destruct Hc as [_ Hc]. apply Z.ltb_lt in Hc.
    destruct depth as [|d]; [lia|].
    eapply ends_impl.
    - apply (IH d _ _ eq_refl); cbn [row numrows set_rows].
      + apply (Forall_text_replace _ _ r); auto.
      + apply (idx_ge_map _ (row E)); [apply (map_idx_replace _ _ r); auto | exact Hge].
      + lia.
    - cbn [row set_rows]. intros a _ ->. apply (map_idx_replace _ _ r); auto. }
  destruct (idx r >? 0); [|cbn [bind]; apply Hscan].
  destruct (get_row _ (idx r - 1)) as [p|] eqn:Hp; cbn [bind];
    [apply Hscan | cbn [ends_with]; exact (nf_get_row _ _ _ Hp)].
Qed.

(** [editorUpdateSyntax] never runs out of nested calls: each call is
    on a row further down, since no row has an index below its slot. *)
Lemma editorUpdateSyntax_rec_ends (depth : nat) :
  forall (E : editorConfig) (slot : Z),
    Forall text_ok (row E) -> idx_ge (row E) ->
    numrows E - slot - 1 <= Z.of_nat depth ->
    ends_with (fun E' => map idx (row E') = map idx (row E))
      (editorUpdateSyntax_rec depth E slot).
Proof.
  induction depth as [|d IH]; intros E slot Htext Hge Hd;
    apply editorUpdateSyntax_rec_step; auto.
  - intros d' E1 slot1 H. discriminate.
  - intros d' E1 slot1 [= <-]. apply IH.
Qed.

Lemma editorUpdateSyntax_ends (E : editorConfig) (slot : Z) :
  Forall text_ok (row E) -> idx_ge (row E) -> 0 <= numrows E ->
  ends_with (fun E' => map idx (row E') = map idx (row E)) (editorUpdateSyntax E slot).
Proof.
  intros Htext Hge Hn. unfold editorUpdateSyntax.
  destruct (Z_lt_le_dec slot 0) as [Hneg|Hpos].
  - rewrite editorUpdateSyntax_rec_eq. rewrite get_row_outside by lia.
    cbn [bind ends_with]. discriminate.
  - apply editorUpdateSyntax_rec_ends; auto. lia.
Qed.

(** *** Where the rows are after [memmove] and the index loop *)

Lemma memmove_rows_nth (rows m : list erow) (dst src n : Z) :
  memmove_rows rows dst src n = Ok m ->
  forall k,
    nth_error m k
    = nth_error rows
        (if (Z.to_nat dst <=? k)%nat && (k <? Z.to_nat (dst + n))%nat
         then (Z.to_nat src + (k - Z.to_nat dst))%nat else k).
Proof.
  unfold memmove_rows.
  destruct (Z.leb_spec n 0).
  { intros [= <-] k.
    destruct (Nat.leb_spec (Z.to_nat dst) k); destruct (Nat.ltb_spec k (Z.to_nat (dst + n)));
      cbn [andb]; try reflexivity; lia. }
  destruct (Z.ltb_spec src 0); [discriminate|].
  destruct (Z.ltb_spec (zlen rows) (src + n)); [discriminate|].
  destruct (Z.ltb_spec dst 0); [discriminate|].
  destruct (Z.ltb_spec (zlen rows) (dst + n)); [discriminate|].
  cbn [orb]. intros [= <-] k. unfold zlen in *.
  assert (L1 : length (firstn (Z.to_nat dst) rows) = Z.to_nat dst)
    by (rewrite length_firstn; lia).
  assert (L2 : length (firstn (Z.to_nat n) (skipn (Z.to_nat src) rows)) = Z.to_nat n)
    by (rewrite length_firstn, length_skipn; lia).
  destruct (Nat.leb_spec (Z.to_nat dst) k) as [Hge|Hlt]; cbn [andb].
  - rewrite nth_error_app2 by lia. rewrite L1.
    destruct (Nat.ltb_spec k (Z.to_nat (dst + n))) as [Hin|Hout].
    + rewrite nth_error_app1 by lia.
      rewrite nth_error_firstn.
      destruct (Nat.ltb_spec (k - Z.to_nat dst) (Z.to_nat n)); [|lia].
      now rewrite nth_error_skipn.
    + rewrite nth_error_app2 by lia. rewrite L2, nth_error_skipn. f_equal. lia.
  - rewrite nth_error_app1 by lia. rewrite nth_error_firstn.
    destruct (Nat.ltb_spec k (Z.to_nat dst)); [reflexivity | lia].
Qed.

Lemma idx_loop_nth (n : nat) :
  forall (j : Z) (rows rows' : list erow),
    0 <= j -> idx_loop n j rows = Ok rows' ->
    forall k,
      nth_error rows' k
      = if (Z.to_nat j <=? k)%nat && (k <? Z.to_nat j + n)%nat
        then option_map bump (nth_error rows k) else nth_error rows k.
Proof.
  induction n as [|n IH]; intros j rows rows' Hj H k; cbn [idx_loop] in H.
  - injection H as <-.
    destruct (Nat.leb_spec (Z.to_nat j) k); destruct (Nat.ltb_spec k (Z.to_nat j + 0));
      cbn [andb]; try reflexivity; lia.
  - bind_inv H. pose proof (get_row_range _ _ _ Hx) as Hr.
    apply get_row_Ok in Hx. destruct Hx as [_ Hx].
    apply put_row_Ok in Hx0. destruct Hx0 as [_ ->].
    rewrite (IH (j + 1) _ _ ltac:(lia) H k).
    replace (Z.to_nat (j + 1)) with (S (Z.to_nat j)) by lia.
    destruct (Nat.eq_dec k (Z.to_nat j)) as [->|Hne].
    + rewrite nth_error_replace_nth_eq by (unfold zlen in Hr; lia).
      rewrite Hx.
      destruct (Nat.leb_spec (S (Z.to_nat j)) (Z.to_nat j)); [lia|].
      destruct (Nat.leb_spec (Z.to_nat j) (Z.to_nat j)); [|lia].
      destruct (Nat.ltb_spec (Z.to_nat j) (Z.to_nat j + S n)); [|lia].
      reflexivity.
    + rewrite nth_error_replace_nth_ne by auto.
      destruct (Nat.leb_spec (S (Z.to_nat j)) k); destruct (Nat.leb_spec (Z.to_nat j) k);
        destruct (Nat.ltb_spec k (S (Z.to_nat j) + n));
        destruct (Nat.ltb_spec k (Z.to_nat j + S n)); cbn [andb];
        try reflexivity; lia.
Qed.

Lemma nth_error_realloc_rows (rows : list erow) (n : Z) (k : nat) :
  (k < Z.to_nat n)%nat -> (k < length rows)%nat ->
  nth_error (realloc_rows rows n) k = nth_error rows k.
Proof.
  intros Hk Hl. unfold realloc_rows.
  rewrite nth_error_app1 by (rewrite length_firstn; lia).
  rewrite nth_error_firstn. destruct (Nat.ltb_spec k (Z.to_nat n)); [reflexivity | lia].
Qed.

(** The rows of [editorInsertRow] before the new row is updated. *)
Lemma insert_idx_ge (rows m1 m2 : list erow) (N at_ : Z) (new : erow) :
  0 <= at_ <= N -> N <= zlen rows -> idx_ge rows -> idx new = at_ ->
  memmove_rows (realloc_rows rows (N + 1)) (at_ + 1) at_ (N - at_) = Ok m1 ->
  idx_loop (Z.to_nat (N + 1 - (at_ + 1))) (at_ + 1) m1 = Ok m2 ->
  idx_ge (replace_nth (Z.to_nat at_) m2 new).
Proof.
  intros Hat HN Hge Hnew Hm Hl k r Hk.
  pose proof (memmove_rows_length _ _ _ _ _ Hm) as L1.
  pose proof (idx_loop_length _ _ _ _ Hl) as L2.
  rewrite (zlen_realloc_rows rows (N + 1) ltac:(lia)) in L1.
  assert (Hklt : (k < Z.to_nat (N + 1))%nat).
  { assert (k < length (replace_nth (Z.to_nat at_) m2 new))%nat
      by (apply nth_error_Some; congruence).
    rewrite replace_nth_length in H. unfold zlen in *. lia. }
  destruct (Nat.eq_dec k (Z.to_nat at_)) as [->|Hne].
  - rewrite nth_error_replace_nth_eq in Hk by (unfold zlen in *; lia).
    injection Hk as <-. lia.
  - rewrite nth_error_replace_nth_ne in Hk by auto.
    rewrite (idx_loop_nth _ (at_ + 1) _ _ ltac:(lia) Hl k) in Hk.
    rewrite (memmove_rows_nth _ _ _ _ _ Hm k) in Hk.
    replace (Z.to_nat (at_ + 1 + (N - at_))) with (Z.to_nat (N + 1)) in Hk by lia.
    destruct (Nat.leb_spec (Z.to_nat (at_ + 1)) k) as [Hmoved|Hkept].
    + destruct (Nat.ltb_spec k (Z.to_nat (N + 1))); [|lia].
      destruct (Nat.ltb_spec k (Z.to_nat (at_ + 1) + Z.to_nat (N + 1 - (at_ + 1))));
        [|lia].
      cbn [andb] in Hk.
      rewrite nth_error_realloc_rows in Hk by (unfold zlen in *; lia).
      destruct (nth_error rows (Z.to_nat at_ + (k - Z.to_nat (at_ + 1)))) as [r0|] eqn:Hr0;
        [|discriminate].
      cbn [option_map] in Hk. injection Hk as <-.
      apply Hge in Hr0. cbn [bump idx set_idx]. lia.
    + cbn [andb] in Hk.
      rewrite nth_error_realloc_rows in Hk by (unfold zlen in *; lia).
      exact (Hge _ _ Hk).
Qed.

Lemma nth_error_removelast {A : Type} (l : list A) (k : nat) :
  (S k < length l)%nat -> nth_error (removelast l) k = nth_error l k.
Proof.
  revert k. induction l as [|a l IH]; intros k Hk; cbn [length] in Hk; [lia|].
  destruct l as [|b l]; [cbn [length] in Hk; lia|].
  change (removelast (a :: b :: l)) with (a :: removelast (b :: l)).
  destruct k as [|k]; [reflexivity|]. cbn [nth_error]. apply IH. cbn [length] in *. lia.
Qed.

Lemma removelast_length {A : Type} (l : list A) :
  length (removelast l) = (length l - 1)%nat.
Proof.
  induction l as [|a l IH]; [reflexivity|].
  destruct l as [|b l]; [reflexivity|].
  change (removelast (a :: b :: l)) with (a :: removelast (b :: l)).
  cbn [length] in *. lia.
Qed.

(** The rows of [editorDelRow] with the slot past the array. *)
Lemma delete_idx_ge (rows m1 m2 : list erow) (spare : erow) (N at_ : Z) :
  0 <= at_ < N -> N <= zlen rows -> idx_ge rows ->
  memmove_rows (rows ++ [spare]) at_ (at_ + 1) (N - at_ - 1) = Ok m1 ->
  idx_loop (Z.to_nat (N + 1 - (at_ + 1))) (at_ + 1) m1 = Ok m2 ->
  idx_ge (removelast m2).
Proof.
  intros Hat HN Hge Hm Hl k r Hk.
  pose proof (memmove_rows_length _ _ _ _ _ Hm) as L1.
  pose proof (idx_loop_length _ _ _ _ Hl) as L2.
  rewrite zlen_app in L1. unfold zlen in L1, L2, HN. cbn [length] in L1.
  assert (Hklt : (k < length rows)%nat).
  { assert (k < length (removelast m2))%nat by (apply nth_error_Some; congruence).
    rewrite removelast_length in H. lia. }
  rewrite nth_error_removelast in Hk by lia.
  rewrite (idx_loop_nth _ (at_ + 1) _ _ ltac:(lia) Hl k) in Hk.
  rewrite (memmove_rows_nth _ _ _ _ _ Hm k) in Hk.
  assert (Hrow : forall i r0, (i < length rows)%nat ->
            nth_error (rows ++ [spare]) i = Some r0 -> Z.of_nat i <= idx r0).
  { intros i r0 Hi Hi0. rewrite nth_error_app1 in Hi0 by exact Hi. exact (Hge _ _ Hi0). }
  destruct ((Z.to_nat at_ <=? k)%nat && (k <? Z.to_nat (at_ + (N - at_ - 1)))%nat) eqn:Hmv.
  - apply andb_prop in Hmv. destruct Hmv as [H1 H2].
    apply Nat.leb_le in H1. apply Nat.ltb_lt in H2.
    destruct ((Z.to_nat (at_ + 1) <=? k)%nat
              && (k <? Z.to_nat (at_ + 1) + Z.to_nat (N + 1 - (at_ + 1)))%nat).
    + destruct (nth_error (rows ++ [spare]) _) as [r0|] eqn:Hr0; [|discriminate].
      cbn [option_map] in Hk. injection Hk as <-.
      apply Hrow in Hr0; [|lia]. cbn [bump idx set_idx]. lia.
    + apply Hrow in Hk; lia.
  - destruct ((Z.to_nat (at_ + 1) <=? k)%nat
              && (k <? Z.to_nat (at_ + 1) + Z.to_nat (N + 1 - (at_ + 1)))%nat).
    + destruct (nth_error (rows ++ [spare]) k) as [r0|] eqn:Hr0; [|discriminate].
      cbn [option_map] in Hk. injection Hk as <-.
      apply Hrow in Hr0; [|lia]. cbn [bump idx set_idx]. lia.
    + apply Hrow in Hk; lia.
Qed.

(** *** Every operation ends with a result or at an access outside a buffer *)

Lemma spare_inv_frame (E E' : editorConfig) :
  row E' = row E -> numrows E' = numrows E -> spare_inv E -> spare_inv E'.
Proof.
  intros Hr Hn [Ha Hg]. split; [exact (array_inv_frame E E' Hr Hn Ha)|].
  now rewrite Hr.
Qed.

Lemma ends_spare (m : result editorConfig) :
  (forall E', m = Ok E' -> array_inv E') ->
  ends_with (fun E' => idx_ge (row E')) m -> ends_with spare_inv m.
Proof. destruct m as [E'|f]; cbn [ends_with]; [split; auto | auto]. Qed.

Lemma row_inv_text_ok (rows : list erow) : Forall row_inv rows -> Forall text_ok rows.
Proof. apply Forall_impl. now intros r [[Ht _] _]. Qed.

Lemma editorUpdateRow_ends (E : editorConfig) (slot : Z) :
  ok_except (Z.to_nat slot) row_inv (row E) ->
  (forall r, get_row (row E) slot = Ok r -> size r = zlen (chars r)) ->
  idx_ge (row E) -> 0 <= numrows E ->
  ends_with (fun E' => map idx (row E') = map idx (row E)) (editorUpdateRow E slot).
Proof.
  intros Hex Hsz Hge Hn. unfold editorUpdateRow. prim r Hr.
  pose proof (get_row_range _ _ _ Hr) as Hslot.
  pose proof Hr as Hnth. apply get_row_Ok in Hnth. destruct Hnth as [_ Hnth].
  rewrite put_row_in_range by exact Hslot. cbn [bind].
  assert (Hmap : map idx (replace_nth (Z.to_nat slot) (row E)
                            (set_render r (zlen (render_loop r (Z.to_nat (size r)) 0 []))
                               (render_loop r (Z.to_nat (size r)) 0 [])))
                 = map idx (row E))
    by (apply (map_idx_replace _ _ r); auto).
  eapply ends_impl.
  - apply editorUpdateSyntax_ends; cbn [row numrows set_rows]; [| |exact Hn].
    + apply Forall_replace_nth.
      * intros j a Hj Hne. now destruct (Hex j a Hj Hne) as [[Ht _] _].
      * split; [exact (Hsz r eq_refl) | reflexivity].
    + exact (idx_ge_map _ _ Hmap Hge).
  - cbn [row set_rows]. intros a _ ->. exact Hmap.
Qed.

Lemma edit_row_ends (E : editorConfig) (slot : Z) (r : erow) (sz : Z)
  (bytes : list ascii) :
  Forall row_inv (row E) -> get_row (row E) slot = Ok r -> sz = zlen bytes ->
  idx_ge (row E) -> 0 <= numrows E ->
  ends_with (fun E' => map idx (row E') = map idx (row E))
    (editorUpdateRow
       (set_rows E (replace_nth (Z.to_nat slot) (row E) (set_chars r sz bytes))) slot).
Proof.
  intros Hinv Hr Hsz Hge Hn.
  pose proof (get_row_range _ _ _ Hr) as Hslot.
  pose proof Hr as Hnth. apply get_row_Ok in Hnth. destruct Hnth as [_ Hnth].
  assert (Hmap : map idx (replace_nth (Z.to_nat slot) (row E) (set_chars r sz bytes))
                 = map idx (row E))
    by (apply (map_idx_replace _ _ r); auto).
  eapply ends_impl.
  - apply editorUpdateRow_ends; cbn [row numrows set_rows]; [| | |exact Hn].
    + intros j a Hj Hne. exact (Forall_except _ _ _ _ Hinv j a Hj Hne).
    + intros r' Hr'. apply get_row_Ok in Hr'. destruct Hr' as [_ Hr'].
      rewrite nth_error_replace_nth_eq in Hr' by (unfold zlen in Hslot; lia).
      injection Hr' as <-. exact Hsz.
    + exact (idx_ge_map _ _ Hmap Hge).
  - cbn [row set_rows]. intros a _ ->. exact Hmap.
Qed.

Lemma row_inv_size (rows : list erow) (k : Z) (r : erow) :
  Forall row_inv rows -> get_row rows k = Ok r -> size r = zlen (chars r).
Proof.
  intros Hinv Hr. apply get_row_Ok in Hr. destruct Hr as [_ Hr].
  rewrite Forall_forall in Hinv. apply (Hinv r (nth_error_In _ _ Hr)).
Qed.

Lemma editorRowInsertChar_ends (E : editorConfig) (slot at_ c : Z) :
  spare_inv E -> ends_with spare_inv (editorRowInsertChar E slot at_ c).
Proof.
  intros [[Hn Hinv] Hge]. apply ends_spare.
  { intros E' H. apply editorRowInsertChar_inv in H; [|exact Hinv].
    destruct H as (H1 & L1 & N1 & _). split; [lia | exact H1]. }
  unfold editorRowInsertChar. prim r Hr.
  pose proof (row_inv_size _ _ _ Hinv Hr) as Hsz.
  rewrite put_row_in_range by (eapply get_row_range; eauto). cbn [bind].
  pose proof (zlen_nonneg (chars r)).
  set (a := if (at_ <? 0) || (at_ >? size r) then size r else at_) in *.
  assert (Ha : 0 <= a <= size r).
  { unfold a. destruct (Z.ltb_spec at_ 0); cbn [orb]; [lia|].
    destruct (Z.gtb_spec at_ (size r)); lia. }
  eapply ends_bind.
  - apply (edit_row_ends E slot r); auto; [|lia].
    rewrite !zlen_app, zlen_firstn, zlen_firstn by (rewrite ?zlen_skipn; lia).
    unfold zlen at 1. cbn [length]. lia.
  - intros E1 _ Hm. cbn [ends_with row set_dirty]. exact (idx_ge_map _ _ Hm Hge).
Qed.

Lemma editorRowAppendString_ends (E : editorConfig) (slot : Z) (s : list ascii)
  (len : Z) :
  spare_inv E -> ends_with spare_inv (editorRowAppendString E slot s len).
Proof.
  intros [[Hn Hinv] Hge]. apply ends_spare.
  { intros E' H. apply editorRowAppendString_inv in H; [|exact Hinv].
    destruct H as (H1 & L1 & N1 & _). split; [lia | exact H1]. }
  unfold editorRowAppendString. prim r Hr. prim bytes Hb.
  pose proof (row_inv_size _ _ _ Hinv Hr) as Hsz.
  rewrite put_row_in_range by (eapply get_row_range; eauto). cbn [bind].
  apply memcpy_bytes_Ok in Hb. destruct Hb as [Hb Hl].
  pose proof (zlen_nonneg (chars r)).
  eapply ends_bind.
  - apply (edit_row_ends E slot r); auto; [|lia].
    rewrite zlen_app, zlen_firstn by lia. lia.
  - intros E1 _ Hm. cbn [ends_with row set_dirty]. exact (idx_ge_map _ _ Hm Hge).
Qed.

Lemma editorRowDelChar_ends (E : editorConfig) (slot at_ : Z) :
  spare_inv E -> ends_with spare_inv (editorRowDelChar E slot at_).
Proof.
  intros [[Hn Hinv] Hge]. apply ends_spare.
  { intros E' H. apply editorRowDelChar_inv in H; [|exact Hinv].
    destruct H as (H1 & L1 & N1 & _). split; [lia | exact H1]. }
  unfold editorRowDelChar. prim r Hr.
  destruct (Z.ltb_spec at_ 0); cbn [orb]; [exact Hge|].
  destruct (Z.geb_spec at_ (size r)); [exact Hge|].
  pose proof (row_inv_size _ _ _ Hinv Hr) as Hsz.
  rewrite put_row_in_range by (eapply get_row_range; eauto). cbn [bind].
  pose proof (zlen_nonneg (chars r)).
  eapply ends_bind.
  - apply (edit_row_ends E slot r); auto; [|lia].
    rewrite zlen_app, zlen_firstn, zlen_firstn by (rewrite ?zlen_skipn; lia). lia.
  - intros E1 _ Hm. cbn [ends_with row set_dirty]. exact (idx_ge_map _ _ Hm Hge).
Qed.

Lemma editorUpdateRow_spare_ends (E : editorConfig) (slot : Z) :
  spare_inv E -> ends_with spare_inv (editorUpdateRow E slot).
Proof.
  intros [[Hn Hinv] Hge]. apply ends_spare.
  { intros E' H. exact (editorUpdateRow_array E E' slot (conj Hn Hinv) H). }
  eapply ends_impl.
  - apply editorUpdateRow_ends; [| |exact Hge|lia].
    + intros j a Hj _. rewrite Forall_forall in Hinv. apply Hinv.
      eapply nth_error_In; eauto.
    + intros r Hr. exact (row_inv_size _ _ _ Hinv Hr).
  - intros a _ Hm. exact (idx_ge_map _ _ Hm Hge).
Qed.

Lemma editorUpdateSyntax_spare_ends (E : editorConfig) (slot : Z) :
  spare_inv E ->
  ends_with (fun E' => spare_inv E' /\ syntax E' = syntax E) (editorUpdateSyntax E slot).
Proof.
  intros [[Hn Hinv] Hge].
  pose proof (editorUpdateSyntax_ends E slot (row_inv_text_ok _ Hinv) Hge ltac:(lia))
    as H.
  destruct (editorUpdateSyntax E slot) as [E'|f] eqn:Hrun; cbn [ends_with] in *; [|exact H].
  destruct (editorUpdateSyntax_array E E' slot (conj Hn Hinv) Hrun) as [Ha Hs].
  split; [split; [exact Ha | exact (idx_ge_map _ _ H Hge)] | exact Hs].
Qed.

Lemma editorInsertRow_ends (E : editorConfig) (at_ : Z) (s : list ascii) (len : Z) :
  spare_inv E -> ends_with spare_inv (editorInsertRow E at_ s len).
Proof.
  intros [[Hn Hinv] Hge]. apply ends_spare.
  { intros E' H. exact (editorInsertRow_inv E E' at_ s len (conj Hn Hinv) H). }
  unfold editorInsertRow.
  destruct (Z.ltb_spec at_ 0); cbn [orb]; [exact Hge|].
  destruct (Z.gtb_spec at_ (numrows E)); [exact Hge|].
  prim m1 Hm. prim m2 Hl. prim bytes Hb. prim m3 Hp.
  pose proof (Forall_realloc_rows (row E) (numrows E + 1) Hinv) as Hre.
  pose proof (Forall_memmove_rows _ _ _ _ _ _ Hre Hm) as Hmv.
  pose proof (Forall_idx_loop row_inv row_inv_set_idx _ _ _ _ Hmv Hl) as Hix.
  apply memcpy_bytes_Ok in Hb. destruct Hb as [Hb Hlen].
  apply put_row_Ok in Hp. destruct Hp as [Hrange ->].
  eapply ends_bind.
  - apply editorUpdateRow_ends; cbn [row numrows set_rows]; [| | |lia].
    + intros j a Hj Hne. exact (Forall_except _ _ _ _ Hix j a Hj Hne).
    + intros r' Hr'. apply get_row_Ok in Hr'. destruct Hr' as [_ Hr'].
      rewrite nth_error_replace_nth_eq in Hr' by (unfold zlen in Hrange; lia).
      injection Hr' as <-. cbn [size chars]. lia.
    + apply (insert_idx_ge (row E) m1 m2 (numrows E) at_); auto; lia.
  - cbn [row set_rows]. intros E1 _ Hmap. cbn [ends_with row set_dirty set_numrows].
    apply (idx_ge_map _ _ Hmap).
    apply (insert_idx_ge (row E) m1 m2 (numrows E) at_); auto; lia.
Qed.

Section SpareOutcome.

Variable spare : erow.

Lemma editorDelRow_spare_ends (E : editorConfig) (at_ : Z) :
  spare_inv E -> ends_with spare_inv (editorDelRow_spare spare E at_).
Proof.
  intros [[Hn Hinv] Hge]. apply ends_spare.
  { intros E' H. exact (editorDelRow_spare_inv spare E E' at_ (conj Hn Hinv) H). }
  unfold editorDelRow_spare, editorDelRow. cbn [numrows row set_rows dirty].
  destruct (Z.ltb_spec at_ 0); cbn [orb bind ends_with row set_rows];
    [rewrite removelast_last; exact Hge|].
  destruct (Z.geb_spec at_ (numrows E)); cbn [bind ends_with row set_rows];
    [rewrite removelast_last; exact Hge|].
  destruct (memmove_rows (row E ++ [spare]) at_ (at_ + 1) (numrows E - at_ - 1))
    as [m1|f] eqn:Hm; cbn [bind]; [|cbn [ends_with]; exact (nf_memmove_rows _ _ _ _ _ Hm)].
  destruct (idx_loop (Z.to_nat (numrows E + 1 - (at_ + 1))) (at_ + 1) m1)
    as [m2|f] eqn:Hl; cbn [bind]; [|cbn [ends_with]; exact (nf_idx_loop _ _ _ _ Hl)].
  cbn [ends_with row set_rows set_numrows set_dirty].
  apply (delete_idx_ge (row E) m1 m2 spare (numrows E) at_); auto; lia.
Qed.

Lemma editorDelChar_spare_ends (E : editorConfig) :
  spare_inv E -> ends_with spare_inv (editorDelChar_spare spare E).
Proof.
  intros Hinv. unfold editorDelChar_spare.
  destruct (cy E =? numrows E); [exact Hinv|].
  destruct ((cx E =? 0) && (cy E =? 0)); [exact Hinv|].
  prim r Hr. destruct (cx E >? 0).
  - eapply ends_bind; [apply editorRowDelChar_ends; exact Hinv|].
    intros E1 _ H1. cbn [ends_with]. eapply spare_inv_frame; [| |exact H1]; reflexivity.
  - prim p Hp. cbv zeta.
    eapply ends_bind.
    { apply editorRowAppendString_ends.
      eapply spare_inv_frame; [| |exact Hinv]; reflexivity. }
    intros E1 _ H1.
    eapply ends_bind; [apply editorDelRow_spare_ends; exact H1|].
    intros E2 _ H2. cbn [ends_with]. eapply spare_inv_frame; [| |exact H2]; reflexivity.
Qed.

End SpareOutcome.

Lemma editorInsertChar_ends (E : editorConfig) (c : Z) :
  spare_inv E -> ends_with spare_inv (editorInsertChar E c).
Proof.
  intros Hinv. unfold editorInsertChar.
  eapply ends_bind.
  { instantiate (1 := spare_inv).
    destruct (cy E =? numrows E); [apply editorInsertRow_ends; exact Hinv | exact Hinv]. }
  intros E1 _ H1.
  eapply ends_bind; [apply editorRowInsertChar_ends; exact H1|].
  intros E2 _ H2. cbn [ends_with]. eapply spare_inv_frame; [| |exact H2]; reflexivity.
Qed.

Lemma editorInsertNewline_ends (E : editorConfig) :
  spare_inv E -> ends_with spare_inv (editorInsertNewline E).
Proof.
  intros Hinv. unfold editorInsertNewline.
  eapply ends_bind.
  { instantiate (1 := spare_inv).
    destruct (cx E =? 0); [apply editorInsertRow_ends; exact Hinv|].
    prim r Hr. prim tl0 Ht.
    eapply ends_bind; [apply editorInsertRow_ends; exact Hinv|].
    intros E1 _ [[Hn1 H1] Hg1].
    prim r1 Hr1. prim hd0 Hh. prim rows' Hp.
    apply put_row_Ok in Hp. destruct Hp as [_ ->].
    apply truncate_bytes_Ok in Hh.
    apply ends_spare.
    { intros E' H.
      destruct (edit_row_inv _ _ _ _ _ _ H1 Hr1 Hh H) as (H3 & L3 & N3 & _).
      split; [lia | exact H3]. }
    eapply ends_impl; [apply (edit_row_ends E1 _ r1); auto; lia|].
    intros a _ Hm. exact (idx_ge_map _ _ Hm Hg1). }
  intros E1 _ H1. cbn [ends_with]. eapply spare_inv_frame; [| |exact H1]; reflexivity.
Qed.

Lemma update_all_loop_ends (n : nat) :
  forall (filerow : Z) (E : editorConfig),
    spare_inv E -> ends_with spare_inv (update_all_loop n filerow E).
Proof.
  induction n as [|n IH]; intros filerow E Hinv; cbn [update_all_loop]; [exact Hinv|].
  eapply ends_bind; [apply editorUpdateSyntax_spare_ends; exact Hinv|].
  intros E1 _ [H1 _]. now apply IH.
Qed.

Lemma editorSelectSyntaxHighlight_ends (E : editorConfig) :
  spare_inv E -> ends_with spare_inv (editorSelectSyntaxHighlight E).
Proof.
  intros Hinv. unfold editorSelectSyntaxHighlight. cbn [filename set_syntax].
  destruct (filename E) as [fname|];
    [|cbn [ends_with]; eapply spare_inv_frame; [| |exact Hinv]; reflexivity].
  destruct (select_entry HLDB fname (strrchr fname DOT)) as [syn|];
    [|cbn [ends_with]; eapply spare_inv_frame; [| |exact Hinv]; reflexivity].
  apply update_all_loop_ends.
  eapply spare_inv_frame; [| |exact Hinv]; reflexivity.
Qed.

Lemma open_loop_ends (ls : list (list ascii)) :
  forall E, spare_inv E -> ends_with spare_inv (open_loop ls E).
Proof.
  induction ls as [|l ls IH]; intros E Hinv; cbn [open_loop]; [exact Hinv|].
  eapply ends_bind; [apply editorInsertRow_ends; exact Hinv|].
  intros E1 _ H1. now apply IH.
Qed.

Lemma editorOpen_ends (E : editorConfig) (fname : list ascii)
  (ls : list (list ascii)) :
  spare_inv E -> ends_with spare_inv (editorOpen E fname ls).
Proof.
  intros Hinv. unfold editorOpen.
  eapply ends_bind.
  { apply editorSelectSyntaxHighlight_ends.
    eapply spare_inv_frame; [| |exact Hinv]; reflexivity. }
  intros E1 _ H1.
  eapply ends_bind; [apply open_loop_ends; exact H1|].
  intros E2 _ H2. cbn [ends_with]. eapply spare_inv_frame; [| |exact H2]; reflexivity.
Qed.

Lemma find_restore_ends (E : editorConfig) (S : findState) :
  spare_inv E -> ends_with spare_inv (find_restore E S).
Proof.
  intros [Ha Hge]. apply ends_spare.
  { intros E' H. exact (find_restore_inv E E' S Ha H). }
  unfold find_restore. destruct (saved_hl S) as [sv0|]; [|exact Hge].
  prim r Hr. prim h Hh. prim rows' Hp.
  apply put_row_Ok in Hp. destruct Hp as [_ ->].
  apply get_row_Ok in Hr. destruct Hr as [_ Hr].
  cbn [ends_with row set_rows].
  apply (idx_ge_map _ (row E)); [|exact Hge].
  apply (map_idx_replace _ _ r); auto.
Qed.

Lemma nf_find_loop (n : nat) (E : editorConfig) (query : list ascii) (dir : Z) :
  forall (current : Z) (f : fault),
    find_loop n E query current dir = Fault f -> f <> OutOfFuel.
Proof.
  induction n as [|n IH]; intros current f H; cbn [find_loop] in H; [discriminate|].
  destruct (get_row (row E) (find_next E current dir)) as [r|g] eqn:Hr;
    cbn [bind] in H; [|injection H as <-; exact (nf_get_row _ _ _ Hr)].
  destruct (strstr (render r) query); [discriminate|].
  destruct (find_loop n E query (find_next E current dir) dir) as [res|g] eqn:Hl;
    cbn [bind] in H; [discriminate|].
  injection H as <-. exact (IH _ _ Hl).
Qed.

Lemma editorFindCallback_ends (E : editorConfig) (S : findState)
  (query : list ascii) (key : Z) :
  spare_inv E ->
  ends_with (fun st => spare_inv (fst st)) (editorFindCallback E S query key).
Proof.
  intros Hinv.
  assert (Hidx : ends_with (fun st => idx_ge (row (fst st)))
                   (editorFindCallback E S query key)).
  { unfold editorFindCallback.
    eapply ends_bind; [apply find_restore_ends; exact Hinv|].
    intros E1 _ [_ Hg1].
    destruct (is_find_exit key); [exact Hg1|].
    match goal with
    | |- ends_with _ (bind ?m _) =>
        destruct m as [res|f] eqn:Hl; cbn [bind];
        [|cbn [ends_with]; exact (nf_find_loop _ _ _ _ _ _ Hl)]
    end.
    destruct (snd res) as [[current off]|]; [|exact Hg1].
    prim r Hr. cbv zeta. prim sv0 Hs. prim h Hh. prim rows' Hp.
    apply put_row_Ok in Hp. destruct Hp as [_ ->].
    apply get_row_Ok in Hr. destruct Hr as [_ Hr].
    cbn [ends_with fst row set_rows set_cx set_cy set_rowoff].
    apply (idx_ge_map _ (row E1)); [|exact Hg1].
    apply (map_idx_replace _ _ r); auto. }
  destruct (editorFindCallback E S query key) as [[E' S']|f] eqn:Hrun;
    cbn [ends_with fst] in *; [|exact Hidx].
  split; [|exact Hidx].
  exact (editorFindCallback_array E E' S S' query key (proj1 Hinv) Hrun).
Qed.

Lemma nf_editorMoveCursor (E : editorConfig) (key : Z) (f : fault) :
  editorMoveCursor E key = Fault f -> f <> OutOfFuel.
Proof.
  assert (Hc : forall F g, cursor_row F = Fault g -> g <> OutOfFuel).
  { intros F g. unfold cursor_row. destruct (cy F >=? numrows F); [discriminate|].
    destruct (get_row (row F) (cy F)) as [r|h] eqn:Hr; cbn [bind];
      [discriminate | intros [= <-]; exact (nf_get_row _ _ _ Hr)]. }
  unfold editorMoveCursor. intros H.
  destruct (cursor_row E) as [o|g] eqn:H1; cbn [bind] in H;
    [|injection H as <-; exact (Hc _ _ H1)].
  match type of H with
  | bind ?m _ = _ => destruct m as [E1|g] eqn:H2; cbn [bind] in H
  end.
  - destruct (cursor_row E1) as [o1|g] eqn:H3; cbn [bind] in H;
      [discriminate | injection H as <-; exact (Hc _ _ H3)].
  - injection H as <-. clear H1 Hc.
    repeat match type of H2 with
           | (if ?b then _ else _) = Fault _ => destruct b
           | match ?o with Some _ => _ | None => _ end = Fault _ => destruct o
           | Ok _ = Fault _ => discriminate H2
           end.
    + destruct (get_row _ _) as [p|h] eqn:Hp in H2; cbn [bind] in H2;
        [discriminate | injection H2 as <-; exact (nf_get_row _ _ _ Hp)].
Qed.

Lemma apply_op_spare_ends (spare : erow) (o : op) (E : editorConfig)
  (S : findState) :
  spare_inv E ->
  ends_with (fun st => spare_inv (fst st)) (apply_op_spare spare o (E, S)).
Proof.
  intros Hinv.
  assert (Hwrap : forall m : result editorConfig,
            ends_with spare_inv m ->
            ends_with (fun st : editorConfig * findState => spare_inv (fst st))
              (E' <- m ;; Ok (E', S))).
  { intros m Hm. eapply ends_bind; [exact Hm|]. intros a _ Ha. exact Ha. }
  destruct o; cbn [apply_op_spare apply_op fst snd].
  - apply Hwrap. now apply editorOpen_ends.
  - apply Hwrap. apply editorSelectSyntaxHighlight_ends.
    eapply spare_inv_frame; [| |exact Hinv]; reflexivity.
  - apply Hwrap. now apply editorInsertRow_ends.
  - apply Hwrap. now apply editorDelRow_spare_ends.
  - apply Hwrap. now apply editorRowInsertChar_ends.
  - apply Hwrap. now apply editorRowAppendString_ends.
  - apply Hwrap. now apply editorRowDelChar_ends.
  - apply Hwrap. now apply editorUpdateRow_spare_ends.
  - apply Hwrap. eapply ends_impl; [apply editorUpdateSyntax_spare_ends; exact Hinv|].
    intros a _ [Ha _]. exact Ha.
  - apply Hwrap. now apply editorInsertChar_ends.
  - apply Hwrap. now apply editorInsertNewline_ends.
  - apply Hwrap. now apply editorDelChar_spare_ends.
  - apply Hwrap.
    destruct (editorMoveCursor E key) as [E'|f] eqn:Hm; cbn [ends_with];
      [|exact (nf_editorMoveCursor _ _ _ Hm)].
    apply editorMoveCursor_frame in Hm. destruct Hm as (Hr & Hn & _).
    exact (spare_inv_frame E E' Hr Hn Hinv).
  - cbn [ends_with fst]. destruct (editorScroll_frame E) as [Hr Hn].
    exact (spare_inv_frame E _ Hr Hn Hinv).
  - now apply editorFindCallback_ends.
  - cbn [ends_with fst]. eapply spare_inv_frame; [| |exact Hinv]; reflexivity.
Qed.

Lemma run_spare_ends (spare : erow) (ops : list op) :
  forall (E : editorConfig) (S : findState),
    spare_inv E ->
    ends_with (fun st => spare_inv (fst st)) (run_spare spare ops (E, S)).
Proof.
  induction ops as [|o ops IH]; intros E S Hinv; cbn [run_spare]; [exact Hinv|].
  eapply ends_bind; [apply apply_op_spare_ends; exact Hinv|].
  intros [E1 S1] _ H1. now apply IH.
Qed.

Lemma initEditor_spare (rows cols : Z) : spare_inv (initEditor rows cols).
Proof. split; [apply initEditor_inv|]. intros [|k] r Hk; discriminate. Qed.

(* ================================================================= *)
(** ** Every reachable state *)



(** A run of the editor from its initial state, by loading a file, by
    any sequence of row and editing operations, row deletions and line
    joins included (on a build that does not check array bounds, where
    the access of [editorDelRow] to the slot past the row array goes
    through), and by the callbacks of a search session, ends at an
    access outside a buffer or with a state, never for lack of budget
    in the model; in every such state the display text of every row
    is the tab expansion of its raw text: it holds no tab, and its
    length [rsize] is the display column of the end of the row. *)
Theorem reachable_rows_shown (spare : erow) (rows cols : Z) (ops : list op) :
  (forall f, run_spare spare ops (initEditor rows cols, find_init) = Fault f ->
             f <> OutOfFuel) /\
  (forall E S,
     run_spare spare ops (initEditor rows cols, find_init) = Ok (E, S) ->
     Forall (fun r => render r = display_of r /\ ~ In TAB (render r) /\
                      rsize r = editorRowCxToRx r (size r)) (row E)).
Proof.
  split.
  { intros f H.
    pose proof (run_spare_ends spare ops _ find_init (initEditor_spare rows cols))
      as Hout.
    rewrite H in Hout. exact Hout. }
  intros E S H. apply run_spare_inv in H; [|apply initEditor_inv].
  destruct H as [_ H]. eapply Forall_impl; [|exact H].
  intros r [[[_ Hrs] _] Hs]. unfold shown in Hs.
  split; [exact Hs|]. split.
  - rewrite Hs. exact (proj1 (display_no_tab r)).
  - rewrite Hrs, Hs. apply display_width_eq.
Qed.

Lemma reachable_rows_shown_witness :
  run_spare fresh_slot delete_ops (initEditor 24 80, find_init)
  = Ok (fst delete_end, snd delete_end) /\
  numrows (fst delete_end) = 1 /\
  Forall (fun r => render r = display_of r /\ ~ In TAB (render r) /\
                   rsize r = editorRowCxToRx r (size r)) (row (fst delete_end)).
Proof.
  assert (H : run_spare fresh_slot delete_ops (initEditor 24 80, find_init)
              = Ok (fst delete_end, snd delete_end)) by (vm_compute; reflexivity).
  split; [exact H|]. split; [vm_compute; reflexivity|].
  exact (proj2 (reachable_rows_shown fresh_slot 24 80 delete_ops) _ _ H).
Defined.

(** C9.  On a well-formed document [editorUpdateSyntax] returns: the
    scanning loops end, and a nesting budget of [numrows - slot - 1]
    calls is enough, so the depth of the recursion is bounded by the
    number of rows.  A nested call is made only on the next row, so the
    rows before [slot] are not touched, and only when the row's
    open-comment state changed and a next row exists: otherwise the run
    needs no nested call at all.  After a row deletion the index of a
    row can be larger than its slot, never smaller, so a nested call
    still goes to a later row: on every document the editor reaches,
    row deletions and line joins included, the run of
    [editorUpdateSyntax] does not use up its budget of [numrows] nested
    calls; it returns, or it ends at an access outside a buffer. *)
Theorem C9_editorUpdateSyntax_terminates :
  (forall (E : editorConfig) (slot : Z),
     doc_ok E -> 0 <= slot < numrows E ->
     exists E',
       editorUpdateSyntax E slot = Ok E' /\
       (forall depth, numrows E - slot - 1 <= Z.of_nat depth ->
          editorUpdateSyntax_rec depth E slot = Ok E') /\
       firstn (Z.to_nat slot) (row E') = firstn (Z.to_nat slot) (row E) /\
       (forall r r', get_row (row E) slot = Ok r -> get_row (row E') slot = Ok r' ->
          hl_open_comment r' = hl_open_comment r \/ numrows E <= slot + 1 ->
          editorUpdateSyntax_rec O E slot = Ok E')) /\
  (forall (spare : erow) (rows cols : Z) (ops : list op) (E : editorConfig)
          (S : findState) (slot : Z) (f : fault),
     run_spare spare ops (initEditor rows cols, find_init) = Ok (E, S) ->
     editorUpdateSyntax E slot = Fault f -> f <> OutOfFuel).
Proof.
  split.
  - intros E slot Hdoc Hslot. pose proof (doc_ok_text E Hdoc) as Htext.
    destruct Hdoc as (Hn & Hidx & _).
    destruct (editorUpdateSyntax_rec_ok (Z.to_nat (numrows E - slot - 1)) E slot)
      as (rows' & Hrun & Hup); auto; try lia.
    exists (set_rows E rows').
    split; [apply Hrun; lia|].
    split; [intros depth Hd; apply Hrun; lia|].
    split; [apply Hup|].
    intros r r' Hr Hr' Hsame.
    destruct (editorUpdateSyntax_rec_level E slot Hidx Htext)
      as (rows1 & Hup1 & [Hdone | (Hlt & Hne & _ & Hnext)]); [lia| |].
    + rewrite <- (Hrun (Z.to_nat (numrows E - slot - 1))) by lia. now rewrite !Hdone.
    + exfalso. destruct Hsame as [Hsame|]; [|lia].
      apply get_row_Ok in Hr, Hr'. destruct Hr as [_ Hr], Hr' as [_ Hr'].
      cbn [row set_rows] in Hr'.
      destruct (updated_from_pre slot E rows1) as (Hn1 & Hidx1 & Htext1 & Hlen1);
        auto; try lia.
      destruct (editorUpdateSyntax_rec_ok (Z.to_nat (numrows E - slot - 1))
                  (set_rows E rows1) (slot + 1))
        as (rows2 & Hrun2 & Hup2); cbn [row numrows set_rows]; auto; try lia.
      assert (Heq : rows2 = rows').
      { specialize (Hrun (S (Z.to_nat (numrows E - slot - 1)))).
        rewrite Hnext, Hrun2 in Hrun by lia.
        specialize (Hrun ltac:(lia)). now injection Hrun. }
      subst rows2. destruct Hup2 as (_ & Hf2 & _).
      cbn [row set_rows] in Hf2.
      assert (Hr1 : nth_error rows1 (Z.to_nat slot) = Some r').
      { rewrite <- Hr'. symmetry. eapply nth_error_firstn_eq; [exact Hf2|]. lia. }
      exact (Hne r r' Hr Hr1 Hsame).
  - intros spare rows cols ops E S slot f Hrun Hf.
    pose proof (run_spare_ends spare ops _ find_init (initEditor_spare rows cols))
      as Hout.
    rewrite Hrun in Hout. cbn [ends_with fst] in Hout.
    pose proof (editorUpdateSyntax_spare_ends E slot Hout) as Hup.
    rewrite Hf in Hup. exact Hup.
Qed.

Lemma C9_editorUpdateSyntax_terminates_witness :
  doc_ok opened_doc /\ 0 <= 0 < numrows opened_doc /\
  syntax opened_doc = Some c_entry /\ numrows opened_doc = 4 /\
  (exists E',
     editorUpdateSyntax opened_doc 0 = Ok E' /\
     editorUpdateSyntax_rec 3 opened_doc 0 = Ok E' /\
     editorUpdateSyntax_rec 2 opened_doc 0 = Ok E' /\
     editorUpdateSyntax_rec 1 opened_doc 0 = Fault OutOfFuel /\
     editorUpdateSyntax_rec 0 opened_doc 0 = Fault OutOfFuel /\
     map hl_open_comment (row E') = [true; true; false; false] /\
     map hl (row E') =
       [ [HL_MLCOMMENT; HL_MLCOMMENT]; [HL_MLCOMMENT];
         [HL_MLCOMMENT; HL_MLCOMMENT; HL_MLCOMMENT; HL_MLCOMMENT; HL_NORMAL; HL_NORMAL];
         [HL_NORMAL] ]) /\
  (exists F S F',
     run_spare fresh_slot (firstn 6 delete_ops) (initEditor 24 80, find_init)
     = Ok (F, S) /\
     numrows F = 2 /\ map idx (doc_rows F) = [0; 4] /\
     editorUpdateSyntax F 1 = Ok F').
Proof.
  assert (Hdoc : doc_ok opened_doc)
    by (apply doc_okb_sound; vm_compute; reflexivity).
  assert (Hslot : 0 <= 0 < numrows opened_doc) by (vm_compute; split; congruence).
  split; [exact Hdoc|]. split; [exact Hslot|].
  split; [vm_compute; reflexivity|]. split; [vm_compute; reflexivity|].
  split.
  - destruct (proj1 C9_editorUpdateSyntax_terminates opened_doc 0 Hdoc Hslot)
      as (E' & Hrun & Hdepth & _).
    exists E'.
    assert (H2 : editorUpdateSyntax_rec 2 opened_doc 0 = editorUpdateSyntax opened_doc 0)
      by (vm_compute; reflexivity).
    assert (Hrows : exists E0, editorUpdateSyntax opened_doc 0 = Ok E0 /\
              map hl_open_comment (row E0) = [true; true; false; false] /\
              map hl (row E0) =
                [ [HL_MLCOMMENT; HL_MLCOMMENT]; [HL_MLCOMMENT];
                  [HL_MLCOMMENT; HL_MLCOMMENT; HL_MLCOMMENT; HL_MLCOMMENT;
                   HL_NORMAL; HL_NORMAL];
                  [HL_NORMAL] ]).
    { eexists. split; [vm_compute; reflexivity|]. split; vm_compute; reflexivity. }
    destruct Hrows as (E0 & Hrun0 & Hopen & Hhl).
    rewrite Hrun in Hrun0. injection Hrun0 as <-.
    split; [exact Hrun|].
    split; [apply Hdepth; vm_compute; discriminate|].
    split; [now rewrite H2|].
    split; [vm_compute; reflexivity|].
    split; [vm_compute; reflexivity|].
    split; [exact Hopen | exact Hhl].
  - eexists. eexists. eexists.
    split; [vm_compute; reflexivity|]. split; [vm_compute; reflexivity|].
    split; vm_compute; reflexivity.
Defined.

(* ================================================================= *)
(** ** The key handler with the slot past the array *)

Section SpareKeys.

Variable spare : erow.
Variables save find : editorConfig -> result editorConfig.

(** Whenever the dispatcher returns with [editorDelChar], it returns
    the same with [editorDelChar_spare]. *)
Lemma dispatch_spare_mono (E E' : editorConfig) (c : Z) :
  dispatch editorDelChar save find E c = Ok E' ->
  dispatch (editorDelChar_spare spare) save find E c = Ok E'.
Proof.
  unfold dispatch, dispatch_default. intros H.
  repeat match type of H with
         | (if ?b then _ else _) = _ => destruct b
         end; try exact H.
  destruct (if c =? DEL_KEY then editorMoveCursor E ARROW_RIGHT else Ok E) as [E1|];
    cbn [bind] in *; [|discriminate].
  now apply editorDelChar_spare_mono.
Qed.

(** The right arrow at the end of a row that has a row below it. *)
Lemma editorMoveCursor_right_end (E : editorConfig) :
  doc_ok E -> 0 <= cy E -> cx E = cursor_len E -> cy E + 1 < numrows E ->
  editorMoveCursor E ARROW_RIGHT = Ok (set_cx (set_cy E (cy E + 1)) 0).
Proof.
  intros Hdoc Hcy Hx Hy.
  destruct (cursor_row_spec E Hdoc ltac:(lia)) as (o & Ho & Hlen & Hrow).
  destruct o as [r|]; [|lia]. destruct Hrow as [Hr _].
  unfold editorMoveCursor. rewrite Ho. cbn [bind].
  change ((ARROW_RIGHT =? ARROW_LEFT) || (ARROW_RIGHT =? KEY_h)) with false.
  change ((ARROW_RIGHT =? ARROW_RIGHT) || (ARROW_RIGHT =? KEY_l)) with true.
  cbv iota.
  destruct (Z.ltb_spec (cx E) (size r)); [lia|].
  destruct (Z.eqb_spec (cx E) (size r)); [|lia]. cbn [bind].
  set (F := set_cx (set_cy E (cy E + 1)) 0).
  assert (HdF : doc_ok F) by (eapply doc_ok_frame; [| |exact Hdoc]; reflexivity).
  destruct (cursor_row_spec F HdF) as (oF & HoF & HlF & _);
    [cbn [cy numrows F set_cx set_cy]; lia|].
  rewrite HoF. cbn [bind]. rewrite <- HlF.
  pose proof (cursor_len_nonneg F HdF).
  destruct (Z.gtb_spec (cx F) (cursor_len F)); [cbn [cx F set_cx] in *; lia|].
  reflexivity.
Qed.

(** A key that joins two lines: the handler returns, the line [y] is
    appended to the line above it and removed, and the cursor is at
    the seam. *)
Lemma dispatch_spare_join (E : editorConfig) (c : Z) :
  doc_ok E -> 0 <= cy E -> joins_lines E c ->
  exists E' y a b,
    dispatch (editorDelChar_spare spare) save find E c = Ok E' /\
    (c = DEL_KEY -> y = cy E + 1) /\ (c <> DEL_KEY -> y = cy E) /\
    0 < y < numrows E /\
    nth_error (lines E) (Z.to_nat (y - 1)) = Some a /\
    nth_error (lines E) (Z.to_nat y) = Some b /\
    numrows E' = numrows E - 1 /\ cy E' = y - 1 /\ cx E' = zlen a /\
    map chars (doc_rows E')
    = firstn (Z.to_nat (y - 1)) (lines E) ++ (a ++ b)
        :: skipn (Z.to_nat (y + 1)) (lines E) /\
    zlen (row E') = zlen (row E) /\ Forall row_ok (row E') /\
    rowoff E' = rowoff E /\ screenrows E' = screenrows E.
Proof.
  intros Hdoc Hcy (Hm & Hj). pose proof Hdoc as (Hn & _ & _).
  assert (Hline : forall y, 0 <= y < numrows E ->
            exists l, nth_error (lines E) (Z.to_nat y) = Some l).
  { intros y Hy. destruct (nth_error (lines E) (Z.to_nat y)) as [l|] eqn:Hl; [eauto|].
    apply nth_error_None in Hl. unfold lines in Hl. rewrite length_map in Hl.
    unfold zlen in Hn. lia. }
  assert (Hdef : dispatch (editorDelChar_spare spare) save find E c
                 = (E1 <- (if c =? DEL_KEY then editorMoveCursor E ARROW_RIGHT else Ok E) ;;
                    editorDelChar_spare spare E1)).
  { unfold dispatch, dispatch_default. rewrite Hm. change (1 =? 1) with true. cbv iota.
    destruct Hj as [[[-> | ->] _] | [-> _]]; reflexivity. }
  rewrite Hdef.
  destruct Hj as [[Hc [Hx Hy]] | [Hc [Hx Hy]]].
  - assert (Hnd : c <> DEL_KEY) by (destruct Hc; subst c; discriminate).
    destruct (Z.eqb_spec c DEL_KEY); [contradiction|]. cbn [bind].
    destruct (Hline (cy E - 1) ltac:(lia)) as [a Ha].
    destruct (Hline (cy E) ltac:(lia)) as [b Hb].
    destruct (editorDelChar_spare_join spare E a b Hdoc Hx Hy Ha Hb)
      as (E' & Hrun & HN & Hcy' & Hcx' & Htext & HL & Hok & Hro & Hsr & _).
    exists E', (cy E), a, b. rewrite Hrun.
    repeat (split; [first [reflexivity | assumption | tauto | lia]|]). assumption.
  - subst c. change (DEL_KEY =? DEL_KEY) with true. cbv iota.
    rewrite (editorMoveCursor_right_end E Hdoc Hcy Hx Hy). cbn [bind].
    set (F := set_cx (set_cy E (cy E + 1)) 0).
    assert (HdF : doc_ok F) by (eapply doc_ok_frame; [| |exact Hdoc]; reflexivity).
    destruct (Hline (cy E) ltac:(lia)) as [a Ha].
    destruct (Hline (cy E + 1) ltac:(lia)) as [b Hb].
    destruct (editorDelChar_spare_join spare F a b HdF eq_refl)
      as (E' & Hrun & HN & Hcy' & Hcx' & Htext & HL & Hok & Hro & Hsr & _).
    + cbn [cy numrows F set_cx set_cy]. lia.
    + cbn [cy F set_cx set_cy]. replace (cy E + 1 - 1) with (cy E) by lia. exact Ha.
    + exact Hb.
    + exists E', (cy E + 1), a, b. rewrite Hrun.
      cbn [cy numrows F set_cx set_cy] in *.
      change (lines F) with (lines E) in Htext.
      replace (cy E + 1 - 1) with (cy E) in * by lia.
      repeat (split; [first [reflexivity | assumption | tauto | lia
                            | intros; congruence]|]).
      assumption.
Qed.

(** Every key other than those of quitting, saving and searching: the
    dispatcher returns. *)
Lemma dispatch_spare_total (E : editorConfig) (c : Z) :
  cursor_inv E -> rowoff E <= cy E ->
  c <> CTRL_KEY "s" -> c <> CTRL_KEY "f" ->
  exists E', dispatch (editorDelChar_spare spare) save find E c = Ok E' /\
             (~ joins_lines E c -> cursor_inv E').
Proof.
  intros Hinv Hwin Hs Hf.
  destruct (dispatch_keeps save find E c Hinv Hwin Hs Hf)
    as [(Hnj & E' & Hrun & Hinv')|(Hj & _)].
  - exists E'. split; [now apply dispatch_spare_mono | auto].
  - destruct Hinv as (Hdoc & [Hcy _] & _).
    destruct (dispatch_spare_join E c Hdoc ltac:(lia) Hj) as (E' & y & a & b & Hrun & _).
    exists E'. split; [exact Hrun | contradiction].
Qed.

End SpareKeys.
(** C8.  With unsaved changes, a press of the quit key while the
    counter is positive returns with the warning in the status message
    and the counter one lower; the warning is the text of the source
    with the counter in it.  With the counter at zero or below, or with
    no unsaved changes, the quit key exits.  Any other key that returns
    leaves the counter at 3, whatever the deletion, saving and
    searching code does; and on a build that does not check array
    bounds every other key does return, the keys that join two lines
    included, when the handler is called as the main loop calls it, on
    a consistent document with the cursor on it and a window of at
    least one row (saving and searching being assumed to return).
    Hence, from the initial counter 3, three presses in a row are
    absorbed and the fourth exits. *)
Theorem C8_quit_confirmation
  (delChar editorSave editorFind : editorConfig -> result editorConfig)
  (spare : erow) (E : editorConfig) :
  dirty E <> 0 ->
  let press := editorProcessKeypress delChar editorSave editorFind in
  let quit := CTRL_KEY "q" in
  (forall q, q > 0 ->
     press E q quit = Ok (Returned (set_statusmsg E (quit_warning q)) (q - 1)))
  /\ (quit_warning 3
      = "WARNING!!! File has unsaved changes. Press ctrl-q 3 more times to quit."%string
      /\ quit_warning 2
      = "WARNING!!! File has unsaved changes. Press ctrl-q 2 more times to quit."%string
      /\ quit_warning 1
      = "WARNING!!! File has unsaved changes. Press ctrl-q 1 more times to quit."%string)
  /\ (forall q, q <= 0 -> press E q quit = Ok (Exited E))
  /\ (forall E0 q, dirty E0 = 0 -> press E0 q quit = Ok (Exited E0))
  /\ (forall E0 q c out, c <> quit -> press E0 q c = Ok out ->
        exists E', out = Returned E' EDITOR_QUIT_TIMES)
  /\ (forall E0 q c, c <> quit ->
        doc_ok E0 -> cursor_ok E0 -> 0 <= rowoff E0 -> 0 < screenrows E0 ->
        (c = CTRL_KEY "s" -> exists F, editorSave (editorScroll E0) = Ok F) ->
        (c = CTRL_KEY "f" -> exists F, editorFind (editorScroll E0) = Ok F) ->
        exists E',
          editorProcessKeypress (editorDelChar_spare spare) editorSave editorFind
            (editorScroll E0) q c
          = Ok (Returned E' EDITOR_QUIT_TIMES))
  /\ (exists E1 E2 E3,
        press E EDITOR_QUIT_TIMES quit = Ok (Returned E1 2) /\
        press E1 2 quit = Ok (Returned E2 1) /\
        press E2 1 quit = Ok (Returned E3 0) /\
        press E3 0 quit = Ok (Exited E3) /\
        row E3 = row E /\ dirty E3 = dirty E).
Proof.
  intros Hd press quit.
  assert (Hpos : forall E0 q, dirty E0 <> 0 -> q > 0 ->
            press E0 q quit
            = Ok (Returned (set_statusmsg E0 (quit_warning q)) (q - 1))).
  { intros E0 q H0 Hq. unfold press, editorProcessKeypress.
    change (quit =? CTRL_KEY "q") with true. cbv iota.
    destruct (Z.eqb_spec (dirty E0) 0); [contradiction|].
    destruct (Z.gtb_spec q 0); [reflexivity | lia]. }
  assert (Hzero : forall E0 q, q <= 0 -> press E0 q quit = Ok (Exited E0)).
  { intros E0 q Hq. unfold press, editorProcessKeypress.
    change (quit =? CTRL_KEY "q") with true. cbv iota.
    destruct (Z.gtb_spec q 0); [lia|]. now rewrite andb_false_r. }
  split; [intros; now apply Hpos|].
  split; [repeat split; vm_compute; reflexivity|].
  split; [intros; now apply Hzero|].
  split.
  { intros E0 q H0. unfold press, editorProcessKeypress.
    change (quit =? CTRL_KEY "q") with true. cbv iota.
    rewrite H0. reflexivity. }
  split.
  { intros E0 q c out Hc. unfold press, editorProcessKeypress.
    destruct (Z.eqb_spec c (CTRL_KEY "q")); [contradiction|].
    destruct (dispatch delChar editorSave editorFind E0 c) as [E'|f]; simpl;
      [intros [= <-]; eauto | discriminate]. }
  split.
  { intros E0 q c Hc Hdoc Hcur Hro Hsr Hsave Hfind.
    destruct (editorScroll_inv E0 (conj Hdoc (conj Hcur (conj Hro Hsr))))
      as [Hinv1 Hwin].
    unfold editorProcessKeypress.
    destruct (Z.eqb_spec c (CTRL_KEY "q")); [contradiction|].
    assert (Hrun : exists E',
              dispatch (editorDelChar_spare spare) editorSave editorFind
                (editorScroll E0) c = Ok E').
    { destruct (Z.eq_dec c (CTRL_KEY "s")) as [Hs|Hs].
      { destruct (Hsave Hs) as [F HF]. exists F. subst c. exact HF. }
      destruct (Z.eq_dec c (CTRL_KEY "f")) as [Hf|Hf].
      { destruct (Hfind Hf) as [F HF]. exists F. subst c. exact HF. }
      destruct (dispatch_spare_total spare editorSave editorFind _ c Hinv1 Hwin Hs Hf)
        as (E' & Hrun & _).
      eauto. }
    destruct Hrun as [E' Hrun]. rewrite Hrun. cbn [bind]. eauto. }
  exists (set_statusmsg E (quit_warning 3)).
  exists (set_statusmsg (set_statusmsg E (quit_warning 3)) (quit_warning 2)).
  exists (set_statusmsg
            (set_statusmsg (set_statusmsg E (quit_warning 3)) (quit_warning 2))
            (quit_warning 1)).
  repeat split.
  - now apply Hpos.
  - apply (Hpos _ 2); [exact Hd | lia].
  - apply (Hpos _ 1); [exact Hd | lia].
  - apply Hzero. lia.
Qed.

Lemma C8_quit_confirmation_witness :
  dirty edit_doc <> 0 /\
  joins_lines (editorScroll edit_doc) BACKSPACE /\
  (exists E1 E2 E2' E3 E4 E5,
     let press := editorProcessKeypress (editorDelChar_spare fresh_slot) no_save no_find in
     press edit_doc 3 (CTRL_KEY "q") = Ok (Returned E1 2) /\
     statusmsg E1
     = "WARNING!!! File has unsaved changes. Press ctrl-q 3 more times to quit."%string /\
     press E1 2 (CTRL_KEY "q") = Ok (Returned E2 1) /\
     press (editorScroll edit_doc) 1 BACKSPACE = Ok (Returned E2' 3) /\
     numrows E2' = 1 /\
     press E2 1 (CTRL_KEY "q") = Ok (Returned E3 0) /\
     press E3 0 (CTRL_KEY "q") = Ok (Exited E3) /\
     press E3 0 KEY_ENTER = Ok (Returned E4 3) /\
     press E4 3 (CTRL_KEY "q") = Ok (Returned E5 2)).
Proof.
  assert (Hd : dirty edit_doc <> 0) by (vm_compute; discriminate).
  split; [exact Hd|].
  split.
  { split; [reflexivity|]. left. split; [now left|].
    split; [reflexivity | vm_compute; split; reflexivity]. }
  destruct (C8_quit_confirmation (editorDelChar_spare fresh_slot) no_save no_find
              fresh_slot edit_doc Hd)
    as (H1 & (Hw3 & _) & _ & _ & _ & Hreset & E1 & E2 & E3 & Hp1 & Hp2 & Hp3 & Hp4 & _).
  change EDITOR_QUIT_TIMES with 3 in Hp1.
  assert (Hdoc : doc_ok edit_doc) by (apply doc_okb_sound; vm_compute; reflexivity).
  assert (Hcur : cursor_ok edit_doc) by (vm_compute; intuition discriminate).
  destruct (Hreset edit_doc 1 BACKSPACE ltac:(discriminate) Hdoc Hcur
              ltac:(vm_compute; discriminate) ltac:(reflexivity)
              ltac:(discriminate) ltac:(discriminate)) as (E2' & Hjoin).
  assert (Hn : exists F, editorProcessKeypress (editorDelChar_spare fresh_slot)
                           no_save no_find (editorScroll edit_doc) 1 BACKSPACE
                         = Ok (Returned F 3) /\ numrows F = 1)
    by (eexists; split; vm_compute; reflexivity).
  destruct Hn as (F & HF & HnF). rewrite Hjoin in HF. injection HF as <-.
  assert (H4 : exists E4 E5,
             editorProcessKeypress (editorDelChar_spare fresh_slot) no_save no_find
               E3 0 KEY_ENTER = Ok (Returned E4 3) /\
             editorProcessKeypress (editorDelChar_spare fresh_slot) no_save no_find
               E4 3 (CTRL_KEY "q") = Ok (Returned E5 2)).
  { assert (HE3 : E3 = set_statusmsg
                         (set_statusmsg (set_statusmsg edit_doc (quit_warning 3))
                            (quit_warning 2)) (quit_warning 1)).
    { rewrite (H1 3 ltac:(lia)) in Hp1. injection Hp1 as <-.
      assert (Hq2 : editorProcessKeypress (editorDelChar_spare fresh_slot) no_save no_find
                      (set_statusmsg edit_doc (quit_warning 3)) 2 (CTRL_KEY "q")
                    = Ok (Returned (set_statusmsg
                                      (set_statusmsg edit_doc (quit_warning 3))
                                      (quit_warning 2)) 1)) by reflexivity.
      rewrite Hq2 in Hp2. injection Hp2 as <-.
      assert (Hq3 : editorProcessKeypress (editorDelChar_spare fresh_slot) no_save no_find
                      (set_statusmsg (set_statusmsg edit_doc (quit_warning 3))
                         (quit_warning 2)) 1 (CTRL_KEY "q")
                    = Ok (Returned (set_statusmsg
                                      (set_statusmsg
                                         (set_statusmsg edit_doc (quit_warning 3))
                                         (quit_warning 2))
                                      (quit_warning 1)) 0)) by reflexivity.
      rewrite Hq3 in Hp3. now injection Hp3 as <-. }
    subst E3. eexists. eexists. split; vm_compute; reflexivity. }
  destruct H4 as (E4 & E5 & Hp5 & Hp6).
  exists E1, E2, E2', E3, E4, E5. cbv zeta.
  split; [exact Hp1|]. split.
  { rewrite (H1 3 ltac:(lia)) in Hp1. injection Hp1 as <-.
    cbn [statusmsg set_statusmsg]. exact Hw3. }
  split; [exact Hp2|]. split; [exact Hjoin|]. split; [exact HnF|].
  split; [exact Hp3|]. split; [exact Hp4|]. split; [exact Hp5 | exact Hp6].
Defined.
(** The key handler of the main loop, called as the loop calls it,
    after [editorRefreshScreen] has scrolled, on a build that does not
    check array bounds, where the access of [editorDelRow] to the slot
    past the row array goes through.  The document is consistent, the
    cursor is on it, the row offset is not negative and the window has
    at least one row; the key and the counter are arbitrary.  Saving
    and searching are assumed to keep all this when they return.  For
    the keys other than those of saving and searching the handler
    returns or exits.  Unless the key joins two lines, whenever the
    handler returns the document is consistent again, the cursor is on
    a row or on the line past the last row and within the row, the row
    offset is not negative and the window is as before.  When the key
    joins two lines, in edit mode, the handler returns with the counter
    reset: line [y] is appended to the line above it and removed, the
    cursor is at the seam, the array is as long as before, and the
    sizes and the highlight of every row still fit its buffers. *)
Theorem editorProcessKeypress_cursor (spare : erow)
  (save find : editorConfig -> result editorConfig)
  (E : editorConfig) (quit_times c : Z) :
  (forall F F', cursor_inv F -> save F = Ok F' -> cursor_inv F') ->
  (forall F F', cursor_inv F -> find F = Ok F' -> cursor_inv F') ->
  doc_ok E -> cursor_ok E -> 0 <= rowoff E -> 0 < screenrows E ->
  let E1 := editorScroll E in
  let press :=
    editorProcessKeypress (editorDelChar_spare spare) save find E1 quit_times c in
  (c <> CTRL_KEY "s" -> c <> CTRL_KEY "f" -> exists out, press = Ok out) /\
  (forall E' q', press = Ok (Returned E' q') -> ~ joins_lines E1 c ->
     doc_ok E' /\ cursor_ok E' /\ 0 <= rowoff E' /\ 0 < screenrows E') /\
  (joins_lines E1 c ->
   exists E' y a b,
     press = Ok (Returned E' EDITOR_QUIT_TIMES) /\
     (c = DEL_KEY -> y = cy E + 1) /\ (c <> DEL_KEY -> y = cy E) /\
     0 < y < numrows E /\
     nth_error (lines E) (Z.to_nat (y - 1)) = Some a /\
     nth_error (lines E) (Z.to_nat y) = Some b /\
     numrows E' = numrows E - 1 /\ cy E' = y - 1 /\ cx E' = zlen a /\
     map chars (doc_rows E')
     = firstn (Z.to_nat (y - 1)) (lines E) ++ (a ++ b)
         :: skipn (Z.to_nat (y + 1)) (lines E) /\
     zlen (row E') = zlen (row E) /\ Forall row_ok (row E')).
Proof.
  intros Hsave Hfind Hdoc Hcur Hro Hsr E1 press.
  destruct (editorScroll_inv E (conj Hdoc (conj Hcur (conj Hro Hsr)))) as [Hinv1 Hwin].
  destruct (editorScroll_same E) as (Hrow & Hx & Hy & _ & Hk & _).
  destruct Hk as (Hnum & _).
  fold E1 in Hinv1, Hwin, Hrow, Hx, Hy, Hnum.
  unfold press, editorProcessKeypress.
  destruct (Z.eqb_spec c (CTRL_KEY "q")) as [Hq|Hq].
  - split; [|split].
    + intros _ _. destruct (negb (dirty E1 =? 0) && (quit_times >? 0)); eauto.
    + intros E' q' H _.
      destruct (negb (dirty E1 =? 0) && (quit_times >? 0)); [|discriminate].
      injection H as <- _.
      destruct Hinv1 as (Hd & Hc & Hr & Hs).
      split; [eapply doc_ok_frame; [| |exact Hd]; reflexivity|].
      split; [exact Hc|]. auto.
    + intros (_ & [[[H|H] _]|[H _]]); rewrite Hq in H; discriminate.
  - split; [|split].
    + intros Hs Hf.
      destruct (dispatch_spare_total spare save find E1 c Hinv1 Hwin Hs Hf)
        as (E' & Hrun & _).
      rewrite Hrun. cbn [bind]. eauto.
    + intros E' q' H Hnj. bind_inv H. injection H as <- _.
      destruct (Z.eq_dec c (CTRL_KEY "s")) as [Hs|Hs].
      { subst c.
        change (dispatch (editorDelChar_spare spare) save find E1 (CTRL_KEY "s"))
          with (save E1) in Hx0.
        eapply Hsave; eassumption. }
      destruct (Z.eq_dec c (CTRL_KEY "f")) as [Hf|Hf].
      { subst c.
        change (dispatch (editorDelChar_spare spare) save find E1 (CTRL_KEY "f"))
          with (find E1) in Hx0.
        eapply Hfind; eassumption. }
      destruct (dispatch_spare_total spare save find E1 c Hinv1 Hwin Hs Hf)
        as (E' & Hrun & Hinv').
      rewrite Hrun in Hx0. injection Hx0 as <-. exact (Hinv' Hnj).
    + intros Hj.
      destruct Hinv1 as (Hd1 & [Hcy1 _] & _).
      destruct (dispatch_spare_join spare save find E1 c Hd1 ltac:(lia) Hj)
        as (E' & y & a & b & Hrun & Hy1 & Hy2 & Hyr & Ha & Hb & HN & Hcy' & Hcx'
            & Htext & HL & Hok & _).
      exists E', y, a, b. rewrite Hrun. cbn [bind].
      unfold lines in *. rewrite Hrow, Hy, Hnum in *.
      repeat (split; [first [reflexivity | assumption]|]). assumption.
Qed.

Lemma editorProcessKeypress_cursor_witness :
  doc_ok edit_doc /\ cursor_ok edit_doc /\ 0 <= rowoff edit_doc /\
  0 < screenrows edit_doc /\
  joins_lines (editorScroll edit_doc) BACKSPACE /\
  lines edit_doc = [cs "abc"; cs "de"] /\
  (exists E',
     editorProcessKeypress (editorDelChar_spare fresh_slot) no_save find_and_escape
       (editorScroll edit_doc) 2 BACKSPACE = Ok (Returned E' 3) /\
     numrows E' = 1 /\ cy E' = 0 /\ cx E' = 3 /\
     map chars (doc_rows E') = [cs "abcde"]) /\
  (exists E',
     editorProcessKeypress (editorDelChar_spare fresh_slot) no_save find_and_escape
       (editorScroll edit_doc) 2 (CTRL_KEY "f") = Ok (Returned E' 3) /\
     doc_ok E' /\ cursor_ok E').
Proof.
  assert (Hdoc : doc_ok edit_doc) by (apply doc_okb_sound; vm_compute; reflexivity).
  assert (Hcur : cursor_ok edit_doc) by (vm_compute; intuition discriminate).
  assert (Hro : 0 <= rowoff edit_doc) by (vm_compute; discriminate).
  assert (Hsr : 0 < screenrows edit_doc) by reflexivity.
  assert (Hj : joins_lines (editorScroll edit_doc) BACKSPACE).
  { split; [reflexivity|]. left. split; [now left|].
    split; [reflexivity | vm_compute; split; reflexivity]. }
  assert (Hsave : forall F F', cursor_inv F -> no_save F = Ok F' -> cursor_inv F')
    by (intros F F' HF [= <-]; exact HF).
  split; [exact Hdoc|]. split; [exact Hcur|]. split; [exact Hro|]. split; [exact Hsr|].
  split; [exact Hj|]. split; [vm_compute; reflexivity|].
  split.
  - destruct (editorProcessKeypress_cursor fresh_slot no_save find_and_escape edit_doc 2
                BACKSPACE Hsave find_and_escape_keeps Hdoc Hcur Hro Hsr)
      as (_ & _ & Hjoin).
    destruct (Hjoin Hj) as (E' & y & a & b & Hrun & _ & Hy & _ & Ha & Hb & HN & Hcy
                            & Hcx & Htext & _).
    specialize (Hy ltac:(discriminate)).
    assert (Hy1 : y = 1) by (rewrite Hy; reflexivity). subst y.
    vm_compute in Ha. injection Ha as <-. vm_compute in Hb. injection Hb as <-.
    exists E'. split; [exact Hrun|]. split; [rewrite HN; reflexivity|].
    split; [exact Hcy|]. split; [exact Hcx|]. rewrite Htext. reflexivity.
  - destruct (editorProcessKeypress_cursor fresh_slot no_save find_and_escape edit_doc 2
                (CTRL_KEY "f") Hsave find_and_escape_keeps Hdoc Hcur Hro Hsr)
      as (_ & Hret & _).
    assert (Hrun : exists E', editorProcessKeypress (editorDelChar_spare fresh_slot)
                                no_save find_and_escape
                                (editorScroll edit_doc) 2 (CTRL_KEY "f")
                              = Ok (Returned E' 3))
      by (eexists; vm_compute; reflexivity).
    destruct Hrun as (E' & Hrun).
    exists E'. split; [exact Hrun|].
    destruct (Hret E' 3 Hrun) as (Hd' & Hc' & _); [|auto].
    intros (_ & [[[H|H] _]|[H _]]); discriminate.
Defined.
